(* ===== verification/_CoqProject ===== *)
-Q . S2P
Prelude.v
GoLib.v
Files.v
Proto.v
Fsm.v
Heap.v
Keys.v
StoreTypes.v
Redis.v
RedisStore.v
StoreSpec.v
RedisRefinement.v
Effort.v
Process.v
Unreliable.v
GrpcServer.v
Tls.v
Listener.v
Server.v
Typing.v
Service.v
Base64.v
SqsPub.v
SqsSub.v
Cli.v
Commands.v
Concurrency.v
Main.v
Startup.v
EndToEnd.v
SqsExample.v
