(* ===== verification/Prelude.v ===== *)
(** * go-statemachine: a verification library

    The program under src/ is a server for finite state machines.  Clients
    define configurations (states, transitions, a starting state), create
    machines from them and send events; the server applies the events to the
    stored machines and files an outcome for each.

    ** The parts and how they interact

    - [pkg/api/fsm.go]: the state machine itself: construction, event delivery,
      reset, validation, completion of events.
    - [pkg/storage]: the interface of a store ([types.go]), the keys of its
      collections ([keys.go]), and the store on Redis ([redis_store.go]) with
      retry loops, back-off and an optimistic transaction that applies an event
      to a stored machine.
    - [pkg/grpc/grpc_server.go]: the RPC handlers; they read and write the
      store and post event requests on a channel.
    - [pkg/pubsub]: the listener takes the requests from the channel, files the
      event, runs the transaction and reports the outcome ([listener.go]); the
      SQS subscriber feeds the channel from a queue ([sqs_sub.go]) and the SQS
      publisher sends the listener's notifications to one ([sqs_pub.go]).
    - [cmd/main.go]: from the flags to the goroutines of the server, and its
      shutdown; [pkg/internal/config] names the certificate files.
    - [fsm-cli]: a command-line client of the RPC service, and its command.
    - [docker/grpc_health.go]: the health probe of the container;
      [docs/examples/sqs_client.go]: a client that sends an event by SQS.

    ** The files of the library

    - [Prelude.v] (this file): outcomes of Go computations ([result]), the
      state-passing monad [Go W], pairs of value and error ([GoRes]), tactics
      and hint databases.
    - [GoLib.v]: what the program uses of Go: [int] of 64 bits, [strings],
      [fmt.Sprintf], UTF-8 validity.  [Base64.v]: [base64.StdEncoding].
      [Files.v]: [path.Join] and [filepath.Join] on slashes.
    - [Proto.v]: the messages of the protocol as records, errors and gRPC
      statuses, serialization, random numbers, clock and identifiers as
      interfaces ([ProtoMessage], [GoEnv]) with the laws the code relies on
      ([ProtoLaws], [ProtoTotal], [GoEnvLaws]).
    - [Fsm.v]: [pkg/api/fsm.go], function by function, and the automaton of a
      configuration ([enabled], [automaton_run]).
    - [Heap.v]: [SendEvent] again, on objects behind pointers, for what the value
      model leaves out: the clone of the caller's event.
    - [Keys.v]: [pkg/storage/keys.go].
    - [StoreTypes.v]: [pkg/storage/types.go]: errors, the regular expression of
      [IsNotFoundErr] with a matcher, and the class [StoreManager].
    - [Redis.v]: the Redis commands the store sends, what a server that answers
      does ([redis_ok]) and what may happen when it does not ([redis_fault]), as
      the laws of a client; and a client in memory for the examples.
    - [RedisStore.v]: [pkg/storage/redis_store.go], method by method: [get] and
      [put] are the loops of the code; [rs_TxProcessEvent], [Watch], [txf] and
      [tx_pipeline] are the transaction.
    - [StoreSpec.v]: the contract of [StoreManager] as an executable
      specification over finite maps, the class [StoreRefines] that states what
      an implementation promises to its clients, and simulation lemmas.
    - [RedisRefinement.v]: the store on Redis keeps the contract.
    - [Effort.v]: the store on Redis with a meter on its commands and waits.
    - [Process.v]: the world of the server process: a store, an environment
      and the traces of the channels.
    - [Unreliable.v]: a store that keeps the contract but for a script of faults,
      each with its error and whatever it did: for what the handlers do when the
      store fails.
    - [GrpcServer.v]: the handlers of [pkg/grpc/grpc_server.go] over any store.
    - [Listener.v]: [pkg/pubsub/listener.go] over any store.
    - [Tls.v]: [NewGrpcServer], [SetupTLSConfig] and [ParseCAFile] of
      [grpc_server.go], [NewClient] of [fsm-cli/client], the handshake between them.
    - [Server.v]: handlers and listener as one process; invariants of the store.
    - [Service.v]: what that process promises to its callers, as a relation with a
      rule for each outcome of each call, and that it keeps the promise.
    - [Typing.v]: the types of the stored machines.
    - [SqsPub.v], [SqsSub.v]: [pkg/pubsub/sqs_pub.go] and [sqs_sub.go].
    - [Cli.v]: [fsm-cli/client].  [Commands.v]: [fsm-cli/cmd/main.go] and
      [docker/grpc_health.go], down to the exit status.
    - [Concurrency.v]: transactions of several servers, interleaved command by
      command.
    - [Main.v]: the shutdown of [cmd/main.go] as a step relation in which the RPC
      handlers, the subscriber's goroutines and the listener run, each step of
      theirs by the code of the other files.  [Startup.v]: what comes before,
      with the constructors of the services: [main] up to [RunUntilStopped].
    - [EndToEnd.v]: the client and the probe against the server.
    - [SqsExample.v]: [docs/examples/sqs_client.go] against the subscriber.

    Method names that several Go types share carry a prefix here: [rs_] for the
    store on Redis, [spec_] for the specification, [grpc_] for handlers, [CSM_]
    for methods of [ConfiguredStateMachine], [sqs_] and [rpc_] for client
    libraries.  A pointer that may be nil is an [option], and using it is
    [deref], which panics on nil.  Logging has no effect and is left out, except
    where the arguments of a logging call dereference a pointer.

    ** What the theorems show

    - Machines: delivery of events is a run of the automaton, the history of a
      machine replays to the machine, validation means what it says and where
      it stops ([Fsm.v]); on the heap too, and no event of anybody else is
      written to ([Heap.v]).
    - Store: keys do not collide for plain names (without ':' and '#'); over a
      server that answers, and for plain names, any sequence of operations on
      Redis gives the answers of the contract, and stored configurations never
      change; what is written is what is read, or the error of the reply; loops
      end, within a number of commands and a time that are linear in the retries
      ([Keys.v], [RedisStore.v], [RedisRefinement.v], [Effort.v]).
    - Server: which replies, stored values and posted requests each handler
      produces, when the store works and when it fails ([GrpcServer.v]); each
      request gets one outcome, over a store that works or fails, and the
      listener drives every machine along its automaton, over any store that keeps
      the contract ([Listener.v]); for calls that do not overlap the state sets
      agree with the machines ([Server.v]); over any store that keeps the contract
      every call, the streaming ones included, does what the service promises
      ([Service.v]); stored machines stay valid for their configuration, with a
      history that replays ([Typing.v]).
    - Start and connection: when the server starts, how its goroutines are wired
      ([Startup.v]), what TLS settings it has and which clients reach it
      ([Tls.v]), the exit status of the commands ([Commands.v]).
    - The whole way: an event sent with the client is delivered to its machine
      and its outcome reported ([EndToEnd.v]).
    - Queues and client: texts decode to the messages, messages become requests,
      notifications are sent ([SqsPub.v], [SqsSub.v]); the client's polling and
      arguments ([Cli.v]).
    - Concurrency: no committed update of a machine is lost, a lone transaction
      is atomic, and every one ends ([Concurrency.v]); the process is ended by a
      panic exactly in five situations, and otherwise loses no request and shuts
      down in at most six steps once its channel is closed ([Main.v]).
    - Limits of the program, each with a proof: a retry count of zero, an
      existence test that fails, separators in names, undeclared states, white
      space in keys, requests without a machine, an event or a transition, a
      machine put twice, the state sets under concurrent transactions and under
      a put that overlaps with the listener, an acknowledgement that does not come
      although the value is stored, a client
      without an outcome, a probe that does not look at the state, an example
      that sends text, the host of an IPv6 address, a start without a region.

    ** Bounds and fuel

    The loops [for { .. }] of [get] and [put] take fuel: one unit per attempt.
    [RedisStore.store_loops_terminate] shows that fuel equal to the retry count
    (positive, below 2^63) is enough, for every answer of the server; with a
    server that answers, one unit is enough ([RedisRefinement.v]).  The
    transaction's loop counts its three rounds, the removal of a message its
    retries, the client its five questions: no fuel.  A transaction that is
    interleaved with others is over after eighteen steps of its own.  [Subscribe] runs until its
    [done] channel speaks; its fuel bounds the rounds.  The retry counter is an
    [int] and wraps around at 64 bits.

    ** What is not modelled

    The contents of packages outside the repository (protobuf, go-redis, the
    AWS client, YAML, JSON, X.509 parsing and the TLS protocol) are interfaces
    with the laws the code relies on.  The parsing of command-line flags and
    logging, its set-up included, are left out: the commands start from the
    values of their flags.  The containers of the tests are not modelled: they
    are calls to a library.  [RunUntilStopped] starts from the signal.
    Channels are unbuffered: a send is part of the step in which the receiver
    takes the value, and a closed channel ends the list of what was received.
    Goroutines of an SQS batch run one after the other, in any order, and the
    identifier of a message is taken to be there.  RPC calls and event requests
    are served one at a time in [Server.v], [Service.v], [Typing.v] and [Main.v],
    where only the sends on the events channel overlap with other calls; that
    this matters is shown at the end of [Server.v].  Transactions interleave in
    [Concurrency.v], on a server that answers every command: there the deadline of
    200 ms that the rounds of a transaction share never passes ([RedisStore.v] has
    it, with every error path).  A watch that fails, or whose body panics, is not
    followed by an [UNWATCH].

    ** Plan

    Next: transactions that interleave with faults of the server, handlers that
    interleave operation by operation, the publisher at shutdown (it is not
    waited for), several listeners on one channel, and the heap for the copies
    of messages that the channels make. *)

From Stdlib Require Import ZArith Lia.
From stdpp Require Import base tactics strings list gmap sets.

#[global] Open Scope Z_scope.

(** ** Outcomes of a Go computation

    [Done a]: the code returned [a].  [Panicked]: it hit a nil dereference or
    another run-time panic.  [Spin]: a loop was still running when the fuel of
    the model was used up; every loop of the library has a theorem that says
    how much fuel is enough. *)

Inductive result (A : Type) : Type :=
| Done (a : A)
| Panicked
| Spin.
Arguments Done {A} a.
Arguments Panicked {A}.
Arguments Spin {A}.

#[export] Instance result_ret : MRet result := fun A a => Done a.
#[export] Instance result_bind : MBind result := fun A B k m =>
  match m with
  | Done a => k a
  | Panicked => Panicked
  | Spin => Spin
  end.

(** A stateful Go computation over the world [W]: what was written before a
    panic stays written, so the final world comes with every outcome. *)
Definition Go (W A : Type) : Type := W -> result A * W.

#[export] Instance go_ret W : MRet (Go W) := fun A a w => (Done a, w).
#[export] Instance go_bind W : MBind (Go W) := fun A B k m w =>
  match m w with
  | (Done a, w') => k a w'
  | (Panicked, w') => (Panicked, w')
  | (Spin, w') => (Spin, w')
  end.

Definition go_lift {W A} (r : result A) : Go W A := fun w => (r, w).
Definition go_panic {W A} : Go W A := fun w => (Panicked, w).
Definition go_spin {W A} : Go W A := fun w => (Spin, w).
Definition go_get {W} : Go W W := fun w => (Done w, w).
Definition go_put {W} (w' : W) : Go W () := fun _ => (Done tt, w').
Definition go_gets {W A} (f : W -> A) : Go W A := fun w => (Done (f w), w).
Definition go_modify {W} (f : W -> W) : Go W () := fun w => (Done tt, f w).

(** Dereference of a pointer: nil panics. *)
Definition nonnil {A} (p : option A) : result A :=
  match p with
  | Some a => Done a
  | None => Panicked
  end.
Definition deref {W A} (p : option A) : Go W A := go_lift (nonnil p).

(** Go's [(value, error)] results, where exactly one of the two is non-nil. *)
Inductive GoRes (E A : Type) : Type :=
| Ok (a : A)
| Fail (e : E).
Arguments Ok {E A} a.
Arguments Fail {E A} e.

Definition is_ok {E A} (r : GoRes E A) : bool :=
  match r with Ok _ => true | Fail _ => false end.

(** ** Equations of the monad *)

Create HintDb go.
Create HintDb returns.
Create HintDb sim.

Section go_equations.
Context {W : Type}.

Lemma go_bind_done {A B} (m : Go W A) (k : A -> Go W B) w a w' :
  m w = (Done a, w') -> (m ≫= k) w = k a w'.
Proof. intros E. unfold mbind, go_bind. by rewrite E. Qed.

Lemma go_bind_panic {A B} (m : Go W A) (k : A -> Go W B) w w' :
  m w = (Panicked, w') -> (m ≫= k) w = (Panicked, w').
Proof. intros E. unfold mbind, go_bind. by rewrite E. Qed.

Lemma go_bind_spin {A B} (m : Go W A) (k : A -> Go W B) w w' :
  m w = (Spin, w') -> (m ≫= k) w = (Spin, w').
Proof. intros E. unfold mbind, go_bind. by rewrite E. Qed.

Lemma go_bind_inv {A B} (m : Go W A) (k : A -> Go W B) w b w' :
  (m ≫= k) w = (Done b, w') -> exists a w1, m w = (Done a, w1) /\ k a w1 = (Done b, w').
Proof. unfold mbind, go_bind. destruct (m w) as [[a| |] w1]; [eauto|done|done]. Qed.

Lemma go_bind_ret {A B} (a : A) (k : A -> Go W B) w :
  (mret a ≫= k) w = k a w.
Proof. done. Qed.

Lemma go_bind_deref {A B} (a : A) (k : A -> Go W B) w :
  (deref (Some a) ≫= k) w = k a w.
Proof. done. Qed.

Lemma go_bind_gets {A B} (f : W -> A) (k : A -> Go W B) w :
  (go_gets f ≫= k) w = k (f w) w.
Proof. done. Qed.

End go_equations.

(** ** Computations that preserve a relation between the world before and after

    The relation is a preorder; [preserves_bind] composes, and the [go] hint
    database runs the composition. *)

Section preserves.
Context {W : Type} (R : W -> W -> Prop).

Definition preserves {A} (m : Go W A) : Prop := forall w, R w (snd (m w)).

Context `{!PreOrder R}.

Lemma preserves_ret {A} (a : A) : preserves (mret a).
Proof. intros w. reflexivity. Qed.

Lemma preserves_lift {A} (r : result A) : preserves (go_lift r).
Proof. intros w. reflexivity. Qed.

Lemma preserves_gets {A} (f : W -> A) : preserves (go_gets f).
Proof. intros w. reflexivity. Qed.

Lemma preserves_deref {A} (p : option A) : preserves (deref p).
Proof. intros w. destruct p; reflexivity. Qed.

Lemma preserves_spin {A} : preserves (@go_spin W A).
Proof. intros w. reflexivity. Qed.

Lemma preserves_bind {A B} (m : Go W A) (k : A -> Go W B) :
  preserves m -> (forall a, preserves (k a)) -> preserves (m ≫= k).
Proof.
  intros Hm Hk w. specialize (Hm w). unfold mbind, go_bind.
  destruct (m w) as [[a| |] w']; simpl in *; [|done|done].
  etransitivity; [exact Hm | apply Hk].
Qed.

End preserves.

#[export] Hint Resolve preserves_ret preserves_lift preserves_gets
  preserves_deref preserves_spin : go.

(** ** Tactics *)

(** One step of a computation whose head command has a known result. *)
Ltac go_step H :=
  first [ rewrite (go_bind_done _ _ _ _ _ H)
        | rewrite (go_bind_panic _ _ _ _ H)
        | rewrite (go_bind_spin _ _ _ _ H) ].

(** Split a goal [preserves R (x ← m; k x)] along the program. *)
Ltac go_preserves :=
  repeat match goal with
  | |- preserves _ (_ ≫= _) => apply preserves_bind; [apply _ | | intros ?]
  | |- preserves _ (if ?b then _ else _) => destruct b eqn:?
  | |- preserves _ (match ?x with _ => _ end) => destruct x eqn:?
  | |- preserves _ (let _ := _ in _) => cbv zeta
  | |- _ => solve [eauto with go typeclass_instances]
  end.

(** ** Decisions used by the code as booleans *)

Notation "a =s b" := (bool_decide (a = b)) (at level 70, no associativity).

Lemma bool_decide_refl {A} `{EqDecision A} (a : A) : (a =s a) = true.
Proof. by apply bool_decide_eq_true. Qed.

Lemma bool_decide_ne {A} `{EqDecision A} (a b : A) : a ≠ b -> (a =s b) = false.
Proof. intros. by apply bool_decide_eq_false. Qed.

Create Rewrite HintDb go_rw.
#[export] Hint Rewrite @bool_decide_refl : go_rw.

(** ** Lists *)

Lemma find_app_first {A} (f : A -> bool) (l1 l2 : list A) :
  List.find f (l1 ++ l2) =
  match List.find f l1 with Some a => Some a | None => List.find f l2 end.
Proof. induction l1 as [|a l1 IH]; simpl; [done|]. by destruct (f a). Qed.

Lemma existsb_elem {A} (f : A -> bool) (l : list A) :
  existsb f l = true <-> exists a, a ∈ l /\ f a = true.
Proof.
  rewrite existsb_exists. by setoid_rewrite <- list_elem_of_In.
Qed.
