(* ===== verification/GoLib.v ===== *)
(** * The parts of Go's language and standard library the program uses

    [strings.Join], [strings.Split], [strings.Contains], [fmt.Sprintf] with
    string arguments and the wrap-around of [int]. *)

From Stdlib Require Import ZArith Lia Ascii.
From stdpp Require Import base tactics strings list gmap.
From S2P Require Import Prelude.

(** ** Machine integers *)

(** [int] is 64 bits wide on every platform the program is released for. *)
Definition int_wrap (z : Z) : Z := (z + 2 ^ 63) mod 2 ^ 64 - 2 ^ 63.

Lemma int_wrap_small z : - 2 ^ 63 <= z < 2 ^ 63 -> int_wrap z = z.
Proof. intros H. unfold int_wrap. rewrite Z.mod_small; lia. Qed.

Lemma int_wrap_bounds z : - 2 ^ 63 <= int_wrap z < 2 ^ 63.
Proof.
  unfold int_wrap. pose proof (Z.mod_pos_bound (z + 2 ^ 63) (2 ^ 64) eq_refl). lia.
Qed.

Lemma int_wrap_add z d : int_wrap (int_wrap z + d) = int_wrap (z + d).
Proof.
  unfold int_wrap. f_equal.
  replace ((z + 2 ^ 63) mod 2 ^ 64 - 2 ^ 63 + d + 2 ^ 63)
    with ((z + 2 ^ 63) mod 2 ^ 64 + d) by lia.
  rewrite Z.add_mod_idemp_l by lia. f_equal. lia.
Qed.

(** ** Durations, in nanoseconds *)

Definition Millisecond : Z := 1000000.
Definition Second : Z := 1000 * Millisecond.

(** ** Strings *)

#[global] Open Scope string_scope.

Lemma string_app_nil (b : string) : "" ++ b = b.
Proof. done. Qed.

Lemma string_app_cons c (a b : string) : String c a ++ b = String c (a ++ b).
Proof. done. Qed.

Create Rewrite HintDb str.
#[export] Hint Rewrite string_app_nil string_app_cons : str.

(** One simplification step on strings ([String.append] does not reduce by
    [simpl] under stdpp). *)
Ltac str_simpl := repeat progress (simpl; autorewrite with str in *).

Lemma string_app_assoc (a b c : string) : (a ++ b) ++ c = a ++ (b ++ c).
Proof. induction a as [|x a IH]; str_simpl; [done|]. by rewrite IH. Qed.

Lemma string_app_nil_r (a : string) : a ++ "" = a.
Proof. induction a as [|x a IH]; str_simpl; [done|]. by rewrite IH. Qed.

Lemma string_app_inj_l (a b c : string) : a ++ b = a ++ c -> b = c.
Proof. induction a as [|x a IH]; str_simpl; [done|]. intros [=]. auto. Qed.

Lemma string_length_app (a b : string) :
  String.length (a ++ b) = (String.length a + String.length b)%nat.
Proof. induction a as [|x a IH]; str_simpl; [done|]. by rewrite IH. Qed.

Lemma string_app_inj_r (a b c : string) : a ++ c = b ++ c -> a = b.
Proof.
  revert b. induction a as [|x a IH]; intros [|y b]; str_simpl; intros E; [done| | |].
  - apply (f_equal String.length) in E. simpl in E. rewrite string_length_app in E. lia.
  - apply (f_equal String.length) in E. simpl in E. rewrite string_length_app in E. lia.
  - injection E as -> E. by rewrite (IH b E).
Qed.

Lemma last_byte_app (a b : string) c d : a ++ String c "" = b ++ String d "" -> a = b /\ c = d.
Proof.
  revert b. induction a as [|x a IH]; intros [|y b]; str_simpl; intros E.
  - by injection E as ->.
  - injection E as _ E. by destruct b.
  - injection E as _ E. by destruct a.
  - injection E as -> E. by apply IH in E as [-> ->].
Qed.

Lemma string_snoc (s : string) : s <> "" -> exists a c, s = a ++ String c "".
Proof.
  induction s as [|c s IH]; [done|]. intros _. destruct s as [|d s].
  - by exists "", c.
  - destruct IH as (a & e & ->); [done|]. by exists (String c a), e.
Qed.

(** [has_byte c s]: the byte [c] occurs in [s]. *)
Fixpoint has_byte (c : ascii) (s : string) : bool :=
  match s with
  | EmptyString => false
  | String x s' => (x =s c) || has_byte c s'
  end.

Lemma has_byte_app c a b : has_byte c (a ++ b) = has_byte c a || has_byte c b.
Proof.
  induction a as [|x a IH]; str_simpl; [done|]. by rewrite IH, orb_assoc.
Qed.

(** A separator that occurs in neither prefix splits a string in one way. *)
Lemma sep_inj c (a a' b b' : string) :
  has_byte c a = false -> has_byte c a' = false ->
  a ++ String c b = a' ++ String c b' -> a = a' /\ b = b'.
Proof.
  revert a'. induction a as [|x a IH]; intros [|x' a']; str_simpl; intros Ha Ha' E.
  - by injection E.
  - injection E as -> E. rewrite bool_decide_refl in Ha'. done.
  - injection E as -> E. rewrite bool_decide_refl in Ha. done.
  - apply orb_false_iff in Ha as [_ Ha], Ha' as [_ Ha'].
    injection E as -> E. destruct (IH a' Ha Ha' E) as [-> ->]. done.
Qed.

(** [strings.Join]. *)
Fixpoint Join (elems : list string) (sep : string) : string :=
  match elems with
  | [] => ""
  | [e] => e
  | e :: es => e ++ sep ++ Join es sep
  end.

(** [strings.Split(s, sep)] for a separator of one byte, the only kind the
    program uses. *)
Fixpoint Split (s : string) (sep : ascii) : list string :=
  match s with
  | EmptyString => [""]
  | String c s' =>
      if c =s sep then "" :: Split s' sep
      else match Split s' sep with
           | p :: ps => String c p :: ps
           | [] => [String c ""]
           end
  end.

Lemma Split_no_sep s sep : has_byte sep s = false -> Split s sep = [s].
Proof.
  induction s as [|c s IH]; simpl; [done|].
  intros [Hc Hs]%orb_false_iff. rewrite Hc, IH by done. done.
Qed.

Lemma Split_app a b sep :
  has_byte sep a = false -> Split (a ++ String sep b) sep = a :: Split b sep.
Proof.
  induction a as [|c a IH]; str_simpl.
  - by rewrite bool_decide_refl.
  - intros [Hc Hs]%orb_false_iff. rewrite Hc, IH by done. done.
Qed.

(** What comes before the first separator holds none. *)
Lemma Split_head_no_sep s sep : has_byte sep (hd "" (Split s sep)) = false.
Proof.
  induction s as [|c s IH]; simpl; [done|]. destruct (c =s sep) eqn:Hc; [done|].
  destruct (Split s sep) as [|p ps]; simpl in *; by rewrite Hc.
Qed.

(** Splitting and joining again gives the string back. *)
Lemma Join_Split s sep : Join (Split s sep) (String sep "") = s.
Proof.
  induction s as [|c s IH]; simpl; [done|].
  assert (Split s sep <> []) as Hne.
  { destruct s; simpl; [done|]. case_bool_decide; [done|]. by destruct (Split s sep). }
  case_bool_decide as Hc.
  - subst. destruct (Split s sep) as [|p ps]; [done|]. rewrite <- IH. done.
  - destruct (Split s sep) as [|p [|q ps]]; [done| |]; rewrite <- IH; done.
Qed.

(** [strings.Contains]. *)
Fixpoint has_prefix (pre s : string) : bool :=
  match pre, s with
  | EmptyString, _ => true
  | String c pre', String x s' => (c =s x) && has_prefix pre' s'
  | _, _ => false
  end.

Fixpoint Contains (s sub : string) : bool :=
  has_prefix sub s ||
  match s with
  | EmptyString => false
  | String _ s' => Contains s' sub
  end.

Lemma has_prefix_app pre s : has_prefix pre (pre ++ s) = true.
Proof. induction pre as [|c p IH]; str_simpl; [done|]. by rewrite bool_decide_refl. Qed.

Lemma Contains_app a sub b : Contains (a ++ sub ++ b) sub = true.
Proof.
  induction a as [|c a IH]; str_simpl.
  - destruct (sub ++ b) eqn:E; simpl; rewrite <- E, has_prefix_app; done.
  - rewrite IH. apply orb_true_r.
Qed.

(** [strings.ToLower]: letters of ASCII when the string is ASCII, and the case
    mapping of Unicode otherwise, whose tables are an argument. *)
Definition is_ascii (s : string) : bool :=
  forallb (fun c => (nat_of_ascii c <? 128)%nat) (String.list_ascii_of_string s).

Definition lower_byte (c : ascii) : ascii :=
  let n := nat_of_ascii c in
  if (65 <=? n)%nat && (n <=? 90)%nat then ascii_of_nat (n + 32) else c.

Fixpoint lower_bytes (s : string) : string :=
  match s with EmptyString => "" | String c s' => String (lower_byte c) (lower_bytes s') end.

Definition ToLower (unicode_lower : string -> string) (s : string) : string :=
  if is_ascii s then lower_bytes s else unicode_lower s.

(** ** UTF-8

    [utf8.ValidString], with the ranges of the table of well-formed sequences:
    a string field of a message must be valid, or the message is not
    serialized. *)
Definition in_range (lo hi : nat) (c : ascii) : bool :=
  (lo <=? nat_of_ascii c)%nat && (nat_of_ascii c <=? hi)%nat.

Definition continuation (c : ascii) : bool := in_range 128 191 c.

(** The second byte after the lead [a] of a sequence of three, and of four. *)
Definition second3 (a b : ascii) : bool :=
  if in_range 224 224 a then in_range 160 191 b
  else if in_range 237 237 a then in_range 128 159 b
  else in_range 225 239 a && continuation b.
Definition second4 (a b : ascii) : bool :=
  if in_range 240 240 a then in_range 144 191 b
  else if in_range 244 244 a then in_range 128 143 b
  else in_range 241 243 a && continuation b.

Fixpoint valid_utf8 (s : string) : bool :=
  match s with
  | EmptyString => true
  | String a s1 =>
      if in_range 0 127 a then valid_utf8 s1
      else
        match s1 with
        | String b s2 =>
            if in_range 194 223 a then continuation b && valid_utf8 s2
            else
              match s2 with
              | String c s3 =>
                  if in_range 224 239 a
                  then second3 a b && continuation c && valid_utf8 s3
                  else
                    match s3 with
                    | String d s4 =>
                        in_range 240 244 a && second4 a b && continuation c &&
                        continuation d && valid_utf8 s4
                    | EmptyString => false
                    end
              | EmptyString => false
              end
        | EmptyString => false
        end
  end.

Lemma valid_utf8_app a b : valid_utf8 a = true -> valid_utf8 b = true -> valid_utf8 (a ++ b) = true.
Proof.
  intros Ha Hb. remember (String.length a) as n eqn:Hn.
  assert (Hle : (String.length a <= n)%nat) by lia. clear Hn. revert a Ha Hle.
  induction n as [|n IH]; intros [|w a] Ha Hle; str_simpl; try done; simpl in *; try lia.
  destruct (in_range 0 127 w); [apply IH; [done|lia]|].
  destruct a as [|x a]; str_simpl; [done|]. simpl in *.
  destruct (in_range 194 223 w).
  { apply andb_true_iff in Ha as [-> Ha]. simpl. apply IH; [done|lia]. }
  destruct a as [|y a]; str_simpl; [done|]. simpl in *.
  destruct (in_range 224 239 w).
  { apply andb_true_iff in Ha as [-> Ha]. simpl. apply IH; [done|lia]. }
  destruct a as [|z a]; str_simpl; [done|]. simpl in *.
  apply andb_true_iff in Ha as [-> Ha]. simpl. apply IH; [done|lia].
Qed.

(** ** [fmt.Sprintf] with string arguments

    The verbs of the program's error formats are [%s] and [%v], which print a
    string (or the text of an error) as it is.  An argument without a verb is
    reported at the end, a verb without an argument in its place, as the
    documentation of [fmt] says. *)

Fixpoint Sprintf_extra (args : list string) : string :=
  match args with
  | [] => ""
  | [a] => "string=" ++ a
  | a :: args' => "string=" ++ a ++ ", " ++ Sprintf_extra args'
  end.

Fixpoint Sprintf (format : string) (args : list string) : string :=
  match format with
  | EmptyString =>
      match args with [] => "" | _ => "%!(EXTRA " ++ Sprintf_extra args ++ ")" end
  | String "%" (String v rest) =>
      if (v =s "%"%char) then String "%" (Sprintf rest args)
      else match args with
           | a :: args' =>
               if (v =s "s"%char) || (v =s "v"%char)
               then a ++ Sprintf rest args'
               else "%!" ++ String v "(string=" ++ a ++ ")" ++ Sprintf rest args'
           | [] => "%!" ++ String v "(MISSING)" ++ Sprintf rest []
           end
  | String c rest => String c (Sprintf rest args)
  end.

Example Sprintf_key : Sprintf "key %s not found" ["a#b"] = "key a#b not found".
Proof. reflexivity. Qed.
