(* ===== verification/Files.v ===== *)
(** * File names: [path] and [path/filepath]

    [path.Clean] and [path.Join]; on the systems the program is released for
    [filepath.Join] gives the same names.  A name is cleaned element by
    element: empty elements and [.] are dropped, [..] removes the element
    before it. *)

From Stdlib Require Import ZArith Lia Ascii.
From stdpp Require Import base tactics strings list.
From S2P Require Import Prelude GoLib.

(** ** Definitions *)

Definition slash : ascii := "/"%char.

Definition rooted (p : string) : bool := has_prefix "/" p.

(** One element, on the elements kept so far (the last one first). *)
Definition clean_step (root : bool) (kept : list string) (e : string) : list string :=
  if (e =s "") || (e =s ".") then kept
  else if e =s ".." then
    match kept with
    | [] => if root then [] else [".."]
    | top :: rest => if top =s ".." then ".." :: kept else rest
    end
  else e :: kept.

Definition clean_elems (root : bool) (es : list string) : list string :=
  rev (fold_left (clean_step root) es []).

Definition Clean (p : string) : string :=
  let body := Join (clean_elems (rooted p) (Split p slash)) "/" in
  if rooted p then "/" ++ body
  else if body =s "" then "." else body.

(** The empty elements at the front are left out; those that follow vanish in
    [Clean]. *)
Fixpoint skip_empty (elems : list string) : list string :=
  match elems with
  | "" :: rest => skip_empty rest
  | _ => elems
  end.

Definition path_Join (elems : list string) : string :=
  match skip_empty elems with
  | [] => ""
  | named => Clean (Join named "/")
  end.

Example Clean_examples :
  map Clean ["/home/./user//.fsm/"; "a/b/../../../c"; "/../x"; ""; "a/.."]
  = ["/home/user/.fsm"; "../c"; "/x"; "."; "."].
Proof. reflexivity. Qed.

(** An element that [Clean] keeps as it is. *)
Definition proper (e : string) : bool :=
  negb (e =s "") && negb (e =s ".") && negb (e =s "..") && negb (has_byte slash e).

(** A directory that is absolute and clean: the root, or elements each after a slash. *)
Definition abs_dir (es : list string) : string := "/" ++ Join es "/".

(** ** Lemmas *)

Lemma proper_spec e : proper e = true ->
  e <> "" /\ e <> "." /\ e <> ".." /\ has_byte slash e = false.
Proof.
  unfold proper. rewrite !andb_true_iff, !negb_true_iff. intros (((H1 & H2) & H3) & H4).
  by apply bool_decide_eq_false in H1, H2, H3.
Qed.

Lemma clean_step_proper root kept e : proper e = true -> clean_step root kept e = e :: kept.
Proof.
  intros (H1 & H2 & H3 & _)%proper_spec. unfold clean_step. by rewrite !bool_decide_ne.
Qed.

Lemma fold_clean_proper root es kept : forallb proper es = true ->
  fold_left (clean_step root) es kept = (rev es ++ kept)%list.
Proof.
  revert kept. induction es as [|e es IH]; intros kept; simpl; [done|].
  intros [He Hes]%andb_true_iff. rewrite clean_step_proper, IH by done.
  by rewrite <- app_assoc.
Qed.

Lemma Split_Join es e : forallb proper (e :: es) = true -> Split (Join (e :: es) "/") slash = e :: es.
Proof.
  revert e. induction es as [|e' es IH]; intros e; cbn [forallb]; rewrite !andb_true_iff.
  - intros [(_ & _ & _ & H)%proper_spec _]. by apply Split_no_sep.
  - intros [(_ & _ & _ & H)%proper_spec Hes].
    change (Join (e :: e' :: es) "/") with (e ++ String slash (Join (e' :: es) "/")).
    rewrite Split_app by done. f_equal. apply IH. by apply andb_true_iff.
Qed.

Lemma Split_slash s : Split ("/" ++ s) slash = "" :: Split s slash.
Proof. apply (Split_app "" s slash). done. Qed.

(** Cleaning a name that is absolute and clean changes nothing. *)
Lemma Clean_abs e es : forallb proper (e :: es) = true -> Clean (abs_dir (e :: es)) = abs_dir (e :: es).
Proof.
  intros H. unfold Clean, abs_dir.
  assert (Hr : rooted ("/" ++ Join (e :: es) "/") = true) by apply has_prefix_app.
  rewrite Hr. f_equal. rewrite Split_slash, Split_Join by done.
  unfold clean_elems.
  change (fold_left (clean_step true) ("" :: e :: es) []) with (fold_left (clean_step true) (e :: es) []).
  rewrite fold_clean_proper by done. by rewrite app_nil_r, rev_involutive.
Qed.

Lemma Join_snoc es e f : Join (e :: es) "/" ++ "/" ++ f = Join ((e :: es) ++ [f]) "/".
Proof.
  revert e. induction es as [|e' es IH]; intros e; [done|].
  change (Join (e :: e' :: es) "/") with (e ++ "/" ++ Join (e' :: es) "/").
  change (Join ((e :: e' :: es) ++ [f]) "/") with (e ++ "/" ++ Join ((e' :: es) ++ [f]) "/").
  by rewrite <- IH, !string_app_assoc.
Qed.

(** A file in an absolute directory. *)
Lemma path_Join_abs e es f : forallb proper (e :: es) = true -> proper f = true ->
  path_Join [abs_dir (e :: es); f] = abs_dir (e :: es) ++ "/" ++ f.
Proof.
  intros Hd Hf. unfold path_Join.
  change (skip_empty [abs_dir (e :: es); f]) with [abs_dir (e :: es); f].
  cbv beta iota. change (Join [abs_dir (e :: es); f] "/") with (abs_dir (e :: es) ++ "/" ++ f).
  assert (H : abs_dir (e :: es) ++ "/" ++ f = abs_dir ((e :: es) ++ [f])).
  { unfold abs_dir. by rewrite string_app_assoc, Join_snoc. }
  rewrite H. apply (Clean_abs e (es ++ [f])).
  change (e :: es ++ [f])%list with ((e :: es) ++ [f])%list.
  rewrite forallb_app, Hd. simpl. by rewrite Hf.
Qed.
