(* ===== verification/Proto.v ===== *)
(** * Messages, errors and contexts

    The messages are those of [statemachine-proto], which the program imports
    and whose sources are not part of the repository: each record has exactly
    the fields the code reads or writes.  A sub-message is a pointer in Go, so
    it is an [option] here; the elements of a repeated field are never nil once
    a message was decoded, so they are plain values.  The getters of the
    generated code return the zero value for what is absent. *)

From Stdlib Require Import ZArith Lia Ascii.
From stdpp Require Import base tactics strings list.
From S2P Require Import Prelude GoLib.

(** ** Messages *)

Record Transition := mkTransition {
  tr_From : string;
  tr_To : string;
  tr_Event : string }.

Record Configuration := mkConfiguration {
  cfg_Name : string;
  cfg_Version : string;
  cfg_States : list string;
  cfg_Transitions : list Transition;
  cfg_StartingState : string }.

(** A [timestamppb.Timestamp], in nanoseconds. *)
Record Event := mkEvent {
  evt_EventId : string;
  evt_Timestamp : option Z;
  evt_Transition : option Transition;
  evt_Originator : string;
  evt_Details : string }.

Record FiniteStateMachine := mkFsm {
  fsm_ConfigId : string;
  fsm_State : string;
  fsm_History : list Event }.

Record EventRequest := mkEventRequest {
  req_Event : option Event;
  req_Config : string;
  req_Id : string }.

Inductive StatusCode :=
| EventOutcome_Ok
| EventOutcome_GenericError
| EventOutcome_EventNotAllowed
| EventOutcome_FsmNotFound
| EventOutcome_TransitionNotAllowed
| EventOutcome_InternalError
| EventOutcome_MissingDestination
| EventOutcome_ConfigurationNotFound.

Record EventOutcome := mkEventOutcome {
  out_Code : StatusCode;
  out_Details : string;
  out_Config : string;
  out_Id : string }.

Record EventResponse := mkEventResponse {
  rsp_EventId : string;
  rsp_Outcome : option EventOutcome }.

#[export] Instance Transition_eq_dec : EqDecision Transition.
Proof. solve_decision. Defined.
#[export] Instance Configuration_eq_dec : EqDecision Configuration.
Proof. solve_decision. Defined.
#[export] Instance Event_eq_dec : EqDecision Event.
Proof. solve_decision. Defined.
#[export] Instance FiniteStateMachine_eq_dec : EqDecision FiniteStateMachine.
Proof. solve_decision. Defined.
#[export] Instance StatusCode_eq_dec : EqDecision StatusCode.
Proof. solve_decision. Defined.
#[export] Instance EventOutcome_eq_dec : EqDecision EventOutcome.
Proof. solve_decision. Defined.
#[export] Instance EventResponse_eq_dec : EqDecision EventResponse.
Proof. solve_decision. Defined.

(** Field assignments. *)
Definition set_evt_Transition (t : option Transition) (e : Event) : Event :=
  mkEvent (evt_EventId e) (evt_Timestamp e) t (evt_Originator e) (evt_Details e).
Definition set_evt_EventId (i : string) (e : Event) : Event :=
  mkEvent i (evt_Timestamp e) (evt_Transition e) (evt_Originator e) (evt_Details e).
Definition set_evt_Timestamp (t : option Z) (e : Event) : Event :=
  mkEvent (evt_EventId e) t (evt_Transition e) (evt_Originator e) (evt_Details e).
Definition set_fsm_State (s : string) (f : FiniteStateMachine) : FiniteStateMachine :=
  mkFsm (fsm_ConfigId f) s (fsm_History f).
Definition set_fsm_History (h : list Event) (f : FiniteStateMachine) : FiniteStateMachine :=
  mkFsm (fsm_ConfigId f) (fsm_State f) h.

(** ** Errors *)

Inductive Code :=
| codes_Unknown
| codes_InvalidArgument
| codes_DeadlineExceeded
| codes_NotFound
| codes_AlreadyExists
| codes_FailedPrecondition
| codes_Unimplemented
| codes_Internal
| codes_Unavailable.

(** Values of Go's [error]: those built from a text ([fmt.Errorf] and the
    errors of other packages), the two sentinels of the Redis client (no such
    key, and a transaction that was not committed), gRPC statuses, and the error of a context
    whose deadline has passed. *)
Inductive error :=
| Errorf (msg : string)
| RedisNil
| RedisTxFailedErr
| StatusError (code : Code) (msg : string)
| ContextDeadlineExceeded.

#[export] Instance Code_eq_dec : EqDecision Code.
Proof. solve_decision. Defined.
#[export] Instance error_eq_dec : EqDecision error.
Proof. solve_decision. Defined.

Definition code_string (c : Code) : string :=
  match c with
  | codes_Unknown => "Unknown"
  | codes_InvalidArgument => "InvalidArgument"
  | codes_DeadlineExceeded => "DeadlineExceeded"
  | codes_NotFound => "NotFound"
  | codes_AlreadyExists => "AlreadyExists"
  | codes_FailedPrecondition => "FailedPrecondition"
  | codes_Unimplemented => "Unimplemented"
  | codes_Internal => "Internal"
  | codes_Unavailable => "Unavailable"
  end.

(** [err.Error()]. *)
Definition error_text (e : error) : string :=
  match e with
  | Errorf msg => msg
  | RedisNil => "redis: nil"
  | RedisTxFailedErr => "redis: transaction failed"
  | StatusError c msg => Sprintf "rpc error: code = %s desc = %s" [code_string c; msg]
  | ContextDeadlineExceeded => "context deadline exceeded"
  end.

Abbreviation Res := (GoRes error).

(** ** Serialization

    [proto.Marshal] and [proto.Unmarshal] at a message type, over an opaque
    type [B] of byte strings.  What the code relies on: decoding an encoding
    gives an equal message. *)
Class ProtoMessage (B T : Type) := {
  Marshal : T -> Res B;
  Unmarshal : B -> Res T }.

Class ProtoLaws (B T : Type) `{!ProtoMessage B T} : Prop := {
  Unmarshal_Marshal : forall v b, Marshal v = Ok b -> Unmarshal b = Ok v }.

(** The string fields of a message, in all its parts. *)
Class MessageStrings (T : Type) := message_strings : T -> list string.

#[export] Instance transition_strings : MessageStrings Transition := fun t =>
  [tr_From t; tr_To t; tr_Event t].
#[export] Instance configuration_strings : MessageStrings Configuration := fun c =>
  ([cfg_Name c; cfg_Version c; cfg_StartingState c] ++ cfg_States c
   ++ (cfg_Transitions c ≫= message_strings))%list.
#[export] Instance event_strings : MessageStrings Event := fun e =>
  ([evt_EventId e; evt_Originator e; evt_Details e]
   ++ match evt_Transition e with Some t => message_strings t | None => [] end)%list.
#[export] Instance fsm_strings : MessageStrings FiniteStateMachine := fun f =>
  ([fsm_ConfigId f; fsm_State f] ++ (fsm_History f ≫= message_strings))%list.
#[export] Instance outcome_strings : MessageStrings EventOutcome := fun o =>
  [out_Details o; out_Config o; out_Id o].

Definition valid_message {T} `{!MessageStrings T} (v : T) : bool :=
  forallb valid_utf8 (message_strings v).

(** A message whose strings are valid UTF-8 can be serialized. *)
Class ProtoTotal (B T : Type) `{!ProtoMessage B T, !MessageStrings T} : Prop := {
  Marshal_valid : forall v, valid_message v = true -> is_ok (Marshal (B:=B) v) = true }.

(** ** Contexts: a deadline relative to the moment the context is made *)
Inductive context :=
| Background
| WithTimeout (d : Z).

(** ** The environment

    Random numbers, sleeping, the clock and [uuid.NewString], as operations on
    the world. *)
Class GoEnv (W : Type) := {
  rand_Intn : Z -> W -> Z * W;
  time_Sleep : Z -> W -> W;
  uuid_NewString : W -> string * W;
  timestamppb_Now : W -> Z * W }.

Class GoEnvLaws (W : Type) `{!GoEnv W} : Prop := {
  rand_Intn_range : forall n w, 0 < n -> 0 <= fst (rand_Intn n w) < n;
  uuid_NewString_nonempty : forall w, fst (uuid_NewString w) <> "";
  uuid_NewString_utf8 : forall w, valid_utf8 (fst (uuid_NewString w)) = true }.

(** The identifiers of the environments in the examples. *)
Definition test_uuid (n : nat) : string := "uuid-" ++ String (Ascii.ascii_of_nat (48 + n mod 10)%nat) "".

Lemma test_uuid_utf8 n : valid_utf8 (test_uuid n) = true.
Proof.
  unfold test_uuid. generalize (Nat.mod_upper_bound n 10 ltac:(lia)). generalize (n mod 10)%nat.
  intros m H. do 10 (destruct m as [|m]; [reflexivity|]). lia.
Qed.

(** An environment for the examples: a clock, numbered identifiers, and a
    script for the selects of the server. *)
Record TestEnv := mkTestEnv { te_clock : Z; te_ids : nat; te_selects : list bool }.

#[export] Instance test_env : GoEnv TestEnv := {
  rand_Intn n e := (0, e);
  time_Sleep d e := mkTestEnv (te_clock e + d) (te_ids e) (te_selects e);
  uuid_NewString e :=
    (test_uuid (te_ids e),
     mkTestEnv (te_clock e) (S (te_ids e)) (te_selects e));
  timestamppb_Now e := (te_clock e, e) }.

#[export] Instance test_env_laws : GoEnvLaws TestEnv.
Proof. split; [simpl; intros; lia|done|intros w; apply test_uuid_utf8]. Qed.
