(* ===== verification/Fsm.v ===== *)
(** * The state machine: [pkg/api/fsm.go]

    Construction, event delivery, reset and validation of a finite state
    machine, with the automaton it implements. *)

From Stdlib Require Import ZArith Ascii.
From stdpp Require Import base tactics strings list.
From S2P Require Import Prelude GoLib Proto.

(** ** Definitions *)

Definition ConfigurationVersionSeparator : string := ":".

Definition MalformedConfigurationError : error :=
  Errorf "this configuration cannot be parsed".
Definition MissingNameConfigurationError : error :=
  Errorf "configuration must always specify a name (and optionally a version)".
Definition MissingStatesConfigurationError : error :=
  Errorf "configuration must always specify at least one state".
Definition MissingDestinationError : error :=
  Errorf "event must always have a `Destination` statemachine".
Definition MissingEventNameError : error :=
  Errorf "events must always specify the event type".
Definition MismatchStartingStateConfigurationError : error :=
  Errorf "the StartingState must be one of the possible FSM states".
Definition EmptyStartingStateConfigurationError : error :=
  Errorf "the StartingState must be non-empty".
Definition UnexpectedTransitionError : error :=
  Errorf "unexpected event transition".
Definition UnreachableStateConfigurationError : string :=
  "state %s is not used in any of the transitions".

Record ConfiguredStateMachine := mkCSM {
  csm_Config : Configuration;
  csm_FSM : FiniteStateMachine }.

Definition NewStateMachine (configuration : Configuration) : Res ConfiguredStateMachine :=
  if (cfg_Name configuration =s "") || (cfg_Version configuration =s "")
  then Fail MalformedConfigurationError
  else Ok {|
    csm_FSM := {|
      fsm_ConfigId :=
        Join [cfg_Name configuration; cfg_Version configuration] ConfigurationVersionSeparator;
      fsm_State := cfg_StartingState configuration;
      fsm_History := [] |};
    csm_Config := configuration |}.

(** The [for ... range x.Config.Transitions] loop of [SendEvent], over the
    machine and the clone of the event; the conjunction evaluates its second
    operand, which dereferences the event's transition, only when the first
    holds. *)
Fixpoint SendEvent_loop (ts : list Transition) (fsm : FiniteStateMachine)
    (newEvent : option Event) : result (option error * FiniteStateMachine) :=
  match ts with
  | [] => mret (Some UnexpectedTransitionError, fsm)
  | t :: ts' =>
      if tr_From t =s fsm_State fsm then
        ev ← nonnil newEvent;
        tr ← nonnil (evt_Transition ev);
        if tr_Event t =s tr_Event tr then
          let newEvent' :=
            set_evt_Transition
              (Some (mkTransition (fsm_State fsm) (tr_To t) (tr_Event tr))) ev in
          let fsm1 := set_fsm_State (tr_To t) fsm in
          let fsm2 := set_fsm_History (fsm_History fsm1 ++ [newEvent']) fsm1 in
          mret (None, fsm2)
        else SendEvent_loop ts' fsm newEvent
      else SendEvent_loop ts' fsm newEvent
  end.

(** [SendEvent] works on a clone, so the caller's event is not part of the
    result; the machine is updated in place. *)
Definition SendEvent (x : ConfiguredStateMachine) (evt : option Event)
    : result (option error * ConfiguredStateMachine) :=
  let newEvent := evt in
  r ← SendEvent_loop (cfg_Transitions (csm_Config x)) (csm_FSM x) newEvent;
  mret (fst r, mkCSM (csm_Config x) (snd r)).

Definition Reset (x : ConfiguredStateMachine) : ConfiguredStateMachine :=
  mkCSM (csm_Config x)
    (set_fsm_History [] (set_fsm_State (cfg_StartingState (csm_Config x)) (csm_FSM x))).

Definition GetVersionId (c : Configuration) : string :=
  cfg_Name c ++ ConfigurationVersionSeparator ++ cfg_Version c.

Definition HasState (transition : Transition) (state : string) : bool :=
  (state =s tr_From transition) || (state =s tr_To transition).

Definition CfgHasState (configuration : Configuration) (state : string) : bool :=
  existsb (fun s => s =s state) (cfg_States configuration).

(** The two nested loops at the end of [CheckValid]. *)
Fixpoint CheckValid_loop (states : list string) (ts : list Transition) : option error :=
  match states with
  | [] => None
  | s :: states' =>
      if existsb (fun t => HasState t s) ts then CheckValid_loop states' ts
      else Some (Errorf (Sprintf UnreachableStateConfigurationError [s]))
  end.

Definition CheckValid (c : Configuration) : option error :=
  if cfg_Name c =s "" then Some MissingNameConfigurationError
  else if (length (cfg_States c) =s 0%nat) then Some MissingStatesConfigurationError
  else if cfg_StartingState c =s "" then Some EmptyStartingStateConfigurationError
  else if negb (CfgHasState c (cfg_StartingState c))
  then Some MismatchStartingStateConfigurationError
  else CheckValid_loop (cfg_States c) (cfg_Transitions c).

(** The method of the same name. *)
Definition CSM_CheckValid (x : ConfiguredStateMachine) : bool :=
  (CheckValid (csm_Config x) =s None)
  && CfgHasState (csm_Config x) (fsm_State (csm_FSM x))
  && (fsm_ConfigId (csm_FSM x) =s GetVersionId (csm_Config x)).

Section events.
Context {W : Type} `{!GoEnv W}.

Definition NewString : Go W string := fun w => let (s, w') := uuid_NewString w in (Done s, w').
Definition Now : Go W Z := fun w => let (t, w') := timestamppb_Now w in (Done t, w').

(** The event behind the pointer after the call; a nil pointer panics. *)
Definition UpdateEvent (event : option Event) : Go W Event :=
  ev ← deref event;
  ev ← (if evt_EventId ev =s "" then id ← NewString; mret (set_evt_EventId id ev)
        else mret ev);
  match evt_Timestamp ev with
  | None => t ← Now; mret (set_evt_Timestamp (Some t) ev)
  | Some _ => mret ev
  end.

Definition NewEvent (eventName : string) : Go W Event :=
  let event := mkEvent "" None (Some (mkTransition "" "" eventName)) "" "" in
  UpdateEvent (Some event).
End events.

(** ** The automaton of a configuration *)

(** The first transition that leaves [s] on event [e]. *)
Definition enabled (c : Configuration) (s e : string) : option Transition :=
  List.find (fun t => (tr_From t =s s) && (tr_Event t =s e)) (cfg_Transitions c).

Definition delta (c : Configuration) (s e : string) : option string :=
  tr_To <$> enabled c s e.

(** What a successful [SendEvent] leaves behind. *)
Definition fire (x : ConfiguredStateMachine) (t : Transition) (ev : Event)
    : ConfiguredStateMachine :=
  let f := csm_FSM x in
  mkCSM (csm_Config x)
    (mkFsm (fsm_ConfigId f) (tr_To t) (fsm_History f ++ [set_evt_Transition (Some t) ev])).

(** Machines obtained from a configuration through the exported operations. *)
Inductive reachable (c : Configuration) : ConfiguredStateMachine -> Prop :=
| reachable_new x : NewStateMachine c = Ok x -> reachable c x
| reachable_send x evt err x' :
    reachable c x -> SendEvent x evt = Done (err, x') -> reachable c x'
| reachable_reset x : reachable c x -> reachable c (Reset x).

(** [path c s h s']: the events of [h] carry, one after the other, the
    transitions that the automaton takes from [s] to [s']. *)
Fixpoint path (c : Configuration) (s : string) (h : list Event) (s' : string) : Prop :=
  match h with
  | [] => s = s'
  | e :: h' =>
      exists t, evt_Transition e = Some t /\ enabled c s (tr_Event t) = Some t
                /\ path c (tr_To t) h' s'
  end.

(** Delivery of a list of events that must all be accepted. *)
Fixpoint replay (x : ConfiguredStateMachine) (es : list Event) : option ConfiguredStateMachine :=
  match es with
  | [] => Some x
  | e :: es' =>
      match SendEvent x (Some e) with
      | Done (None, x') => replay x' es'
      | _ => None
      end
  end.

(** Delivery of events one by one, whatever their outcome. *)
Fixpoint deliver (x : ConfiguredStateMachine) (es : list Event) : result ConfiguredStateMachine :=
  match es with
  | [] => mret x
  | e :: es' => r ← SendEvent x (Some e); deliver (snd r) es'
  end.

(** The run of the automaton over the events: the final state, and the events
    it accepted with the transitions they caused. *)
Fixpoint automaton_run (c : Configuration) (s : string) (es : list Event)
    : string * list Event :=
  match es with
  | [] => (s, [])
  | e :: es' =>
      match evt_Transition e with
      | None => (s, [])
      | Some tr =>
          match enabled c s (tr_Event tr) with
          | None => automaton_run c s es'
          | Some t =>
              let r := automaton_run c (tr_To t) es' in
              (fst r, set_evt_Transition (Some t) e :: snd r)
          end
      end
  end.

(** The transition an event pointer carries, if any. *)
Definition carried (evt : option Event) : option Transition :=
  match evt with Some ev => evt_Transition ev | None => None end.

(** [ev'] is [ev] with its identifier and timestamp filled in where missing. *)
Definition completes (ev ev' : Event) : Prop :=
  evt_EventId ev' <> "" /\ is_Some (evt_Timestamp ev') /\
  (evt_EventId ev <> "" -> evt_EventId ev' = evt_EventId ev) /\
  (evt_EventId ev = "" -> valid_utf8 (evt_EventId ev') = true) /\
  (is_Some (evt_Timestamp ev) -> evt_Timestamp ev' = evt_Timestamp ev) /\
  evt_Transition ev' = evt_Transition ev /\ evt_Originator ev' = evt_Originator ev /\
  evt_Details ev' = evt_Details ev.

(** Every transition leads to a declared state. *)
Definition closed (c : Configuration) : bool :=
  forallb (fun t => CfgHasState c (tr_To t)) (cfg_Transitions c).

(** ** Lemmas *)

Lemma HasState_true t s : HasState t s = true <-> s = tr_From t \/ s = tr_To t.
Proof. unfold HasState. by rewrite orb_true_iff, !bool_decide_eq_true. Qed.

Lemma CfgHasState_true c s : CfgHasState c s = true <-> s ∈ cfg_States c.
Proof.
  unfold CfgHasState. rewrite existsb_elem. split.
  - intros (a & Ha & Heq). by apply bool_decide_eq_true in Heq as <-.
  - intros H. exists s. by rewrite bool_decide_refl.
Qed.

#[export] Hint Rewrite HasState_true CfgHasState_true : go_rw.

Lemma enabled_spec c s e t :
  enabled c s e = Some t -> t ∈ cfg_Transitions c /\ tr_From t = s /\ tr_Event t = e.
Proof.
  unfold enabled. intros [Hin H]%find_some.
  apply andb_true_iff in H as [H1%bool_decide_eq_true H2%bool_decide_eq_true].
  by rewrite list_elem_of_In.
Qed.

(** The loop is the search for the first enabled transition. *)
Lemma SendEvent_loop_spec ts f ev tr :
  evt_Transition ev = Some tr ->
  SendEvent_loop ts f (Some ev) = Done
    match List.find (fun t => (tr_From t =s fsm_State f) && (tr_Event t =s tr_Event tr)) ts with
    | Some t => (None, mkFsm (fsm_ConfigId f) (tr_To t)
                         (fsm_History f ++ [set_evt_Transition (Some t) ev]))
    | None => (Some UnexpectedTransitionError, f)
    end.
Proof.
  intros Htr. induction ts as [|[from to e] ts IH]; [done|]. cbn -[mbind].
  destruct (bool_decide_reflect (from = fsm_State f)) as [->|]; [|done]. cbn. rewrite Htr. cbn.
  destruct (bool_decide_reflect (e = tr_Event tr)) as [->|]; done.
Qed.

Lemma SendEvent_enabled x ev tr :
  evt_Transition ev = Some tr ->
  SendEvent x (Some ev) = Done
    match enabled (csm_Config x) (fsm_State (csm_FSM x)) (tr_Event tr) with
    | Some t => (None, fire x t ev)
    | None => (Some UnexpectedTransitionError, x)
    end.
Proof.
  intros Htr. unfold SendEvent. rewrite (SendEvent_loop_spec _ _ _ tr Htr). simpl.
  unfold enabled, fire. destruct x as [c f]; simpl. by destruct (List.find _ _).
Qed.

(** Without a transition in the event the loop looks only at the origins. *)
Lemma SendEvent_loop_nil ts f evt :
  (evt = None \/ exists ev, evt = Some ev /\ evt_Transition ev = None) ->
  SendEvent_loop ts f evt =
  if existsb (fun t => tr_From t =s fsm_State f) ts then Panicked
  else Done (Some UnexpectedTransitionError, f).
Proof.
  intros H. induction ts as [|[from to e] ts IH]; [done|]. cbn -[mbind].
  destruct (bool_decide_reflect (from = fsm_State f)) as [->|]; [|done].
  destruct H as [->|(ev & -> & H)]; cbn; [done|]. by rewrite H.
Qed.

(** Every call that returns either fires an enabled transition or changes
    nothing. *)
Lemma SendEvent_inv x evt err x' :
  SendEvent x evt = Done (err, x') ->
  (err = Some UnexpectedTransitionError /\ x' = x) \/
  (err = None /\ exists ev tr t, evt = Some ev /\ evt_Transition ev = Some tr /\
     enabled (csm_Config x) (fsm_State (csm_FSM x)) (tr_Event tr) = Some t /\ x' = fire x t ev).
Proof.
  intros H.
  assert (Hnil : (evt = None \/ exists ev, evt = Some ev /\ evt_Transition ev = None) ->
    err = Some UnexpectedTransitionError /\ x' = x).
  { intros E. unfold SendEvent in H. rewrite (SendEvent_loop_nil _ _ _ E) in H.
    destruct (existsb _ _); [done|]. simpl in H. destruct x; simpl in H; by injection H as <- <-. }
  destruct evt as [ev|]; [|left; eauto].
  destruct (evt_Transition ev) as [tr|] eqn:Htr; [|left; eauto].
  rewrite (SendEvent_enabled _ _ _ Htr) in H.
  destruct (enabled _ _ _) as [t|] eqn:E; simplify_eq; [right|left]; eauto 10.
Qed.

Lemma SendEvent_Config x evt err x' :
  SendEvent x evt = Done (err, x') ->
  csm_Config x' = csm_Config x /\ fsm_ConfigId (csm_FSM x') = fsm_ConfigId (csm_FSM x).
Proof. intros [[_ ->]|(_ & ev & tr & t & _ & _ & _ & ->)]%SendEvent_inv; done. Qed.

Lemma NewStateMachine_inv c x :
  NewStateMachine c = Ok x ->
  x = mkCSM c (mkFsm (GetVersionId c) (cfg_StartingState c) []).
Proof. unfold NewStateMachine. destruct (_ || _); [done|]. by intros [= <-]. Qed.

Lemma Reset_eq x :
  Reset x = mkCSM (csm_Config x)
              (mkFsm (fsm_ConfigId (csm_FSM x)) (cfg_StartingState (csm_Config x)) []).
Proof. done. Qed.

Lemma path_app c s h1 h2 s' :
  path c s (h1 ++ h2) s' <-> exists m, path c s h1 m /\ path c m h2 s'.
Proof.
  revert s. induction h1 as [|e h1 IH]; intros s; simpl.
  - split; [by exists s|]. by intros (m & -> & ?).
  - setoid_rewrite IH. split.
    + intros (t & Ht & He & m & Hp & Hq). eauto 10.
    + intros (m & (t & Ht & He & Hp) & Hq). eauto 10.
Qed.

Lemma path_fire c s x t ev tr :
  csm_Config x = c -> path c s (fsm_History (csm_FSM x)) (fsm_State (csm_FSM x)) ->
  enabled c (fsm_State (csm_FSM x)) (tr_Event tr) = Some t ->
  path c s (fsm_History (csm_FSM (fire x t ev))) (fsm_State (csm_FSM (fire x t ev))).
Proof.
  intros <- Hp He. apply path_app. eexists; split; [exact Hp|].
  exists t. destruct (enabled_spec _ _ _ _ He) as (_ & _ & ->). done.
Qed.

Lemma reachable_inv c x :
  reachable c x ->
  csm_Config x = c /\ fsm_ConfigId (csm_FSM x) = GetVersionId c /\
  path c (cfg_StartingState c) (fsm_History (csm_FSM x)) (fsm_State (csm_FSM x)).
Proof.
  induction 1 as [x H|x evt err x' _ (Hc & Hid & Hp) H|x _ (Hc & Hid & Hp)].
  - by rewrite (NewStateMachine_inv _ _ H).
  - destruct (SendEvent_Config _ _ _ _ H) as [-> ->]. split_and!; [done..|].
    destruct (SendEvent_inv _ _ _ _ H) as [[_ ->]|(_ & ev & tr & t & _ & _ & He & ->)]; [done|].
    rewrite Hc in He. by eapply path_fire.
  - by rewrite Reset_eq, Hc, Hid.
Qed.

Lemma replay_path c f h s' :
  path c (fsm_State f) h s' ->
  replay (mkCSM c f) h = Some (mkCSM c (mkFsm (fsm_ConfigId f) s' (fsm_History f ++ h))).
Proof.
  revert f. induction h as [|e h IH]; intros f; simpl.
  - intros <-. rewrite app_nil_r. by destruct f.
  - intros (t & Ht & He & Hp). rewrite (SendEvent_enabled _ _ _ Ht). simpl. rewrite He.
    unfold fire; simpl. rewrite IH; simpl; [|done]. rewrite <- app_assoc. simpl.
    destruct e; simpl in *; by subst.
Qed.

Lemma CheckValid_loop_spec states ts :
  CheckValid_loop states ts =
  match List.find (fun s => negb (existsb (fun t => HasState t s) ts)) states with
  | Some s => Some (Errorf (Sprintf UnreachableStateConfigurationError [s]))
  | None => None
  end.
Proof.
  induction states as [|s states IH]; simpl; [done|].
  by destruct (existsb _ ts).
Qed.

Lemma CheckValid_named c : CheckValid c = None -> cfg_Name c <> "".
Proof. intros H E. unfold CheckValid in H. by rewrite E, bool_decide_refl in H. Qed.

Lemma CheckValid_start c : CheckValid c = None -> cfg_StartingState c <> "".
Proof.
  intros H E. unfold CheckValid in H. rewrite E, bool_decide_refl in H.
  by destruct (cfg_Name c =s ""), (length (cfg_States c) =s 0%nat).
Qed.

Lemma GetVersionId_inj c1 c2 :
  has_byte ":"%char (cfg_Name c1) = false -> has_byte ":"%char (cfg_Name c2) = false ->
  GetVersionId c1 = GetVersionId c2 ->
  cfg_Name c1 = cfg_Name c2 /\ cfg_Version c1 = cfg_Version c2.
Proof. intros H1 H2 E. by apply (sep_inj ":"%char). Qed.

Lemma GetVersionId_Split c :
  has_byte ":"%char (cfg_Name c) = false ->
  Split (GetVersionId c) ":"%char = cfg_Name c :: Split (cfg_Version c) ":"%char.
Proof. apply Split_app. Qed.

Lemma SendEvent_total x ev :
  is_Some (evt_Transition ev) -> exists r, SendEvent x (Some ev) = Done r.
Proof. intros [tr Htr]. rewrite (SendEvent_enabled _ _ _ Htr). eauto. Qed.

Lemma existsb_false {A} (f : A -> bool) l : existsb f l = false <-> forall a, a ∈ l -> f a = false.
Proof.
  rewrite <- not_true_iff_false, existsb_elem. split.
  - intros H a Ha. apply not_true_iff_false. eauto.
  - intros H (a & Ha & Hf). by rewrite (H a Ha) in Hf.
Qed.

Lemma UpdateEvent_spec {W} `{!GoEnv W, !GoEnvLaws W} ev (w : W) :
  exists ev' w', UpdateEvent (Some ev) w = (Done ev', w') /\ completes ev ev'.
Proof.
  pose proof (uuid_NewString_nonempty w) as Hid. pose proof (uuid_NewString_utf8 w) as Hutf.
  unfold UpdateEvent, deref, NewString, Now, mbind, go_bind. simpl.
  destruct (bool_decide_reflect (evt_EventId ev = "")) as [E|E];
    destruct (uuid_NewString w) as [i w1]; simpl;
    (destruct (evt_Timestamp ev) as [t|] eqn:Et; simpl; [|destruct (timestamppb_Now _) as [t' w2]]);
    eexists _, _; (split; [done|]);
    unfold completes; simpl; rewrite ?Et; split_and!; try done; by intros [].
Qed.

Lemma UpdateEvent_complete {W} `{!GoEnv W} ev (w : W) :
  evt_EventId ev <> "" -> is_Some (evt_Timestamp ev) -> UpdateEvent (Some ev) w = (Done ev, w).
Proof.
  intros Hi [t Ht]. unfold UpdateEvent, deref, mbind, go_bind. simpl.
  rewrite bool_decide_ne by done. simpl. by rewrite Ht.
Qed.

(** ** Examples: the configuration of the package's tests *)

Definition mars_rover : Configuration := {|
  cfg_Name := "mars_rover"; cfg_Version := "v2.0";
  cfg_StartingState := "earth"; cfg_States := ["earth"; "orbit"; "mars"];
  cfg_Transitions := [mkTransition "earth" "orbit" "launch"; mkTransition "orbit" "mars" "land"] |}.

Definition event (id name : string) : Event :=
  mkEvent id (Some 0%Z) (Some (mkTransition "" "" name)) "" "".

Definition rover_on (state : string) : ConfiguredStateMachine :=
  mkCSM mars_rover (mkFsm "mars_rover:v2.0" state []).

Definition rover_in_orbit : ConfiguredStateMachine :=
  fire (rover_on "earth") (mkTransition "earth" "orbit" "launch") (event "1" "launch").

(** ** Properties *)

(** C8. [SendEvent] on an event with a transition takes the first transition
    of the configuration that leaves the current state on that event: the
    state becomes its destination, the history grows by a copy of the event
    that records it, and nothing else changes; without one it returns
    [UnexpectedTransitionError] and leaves the machine as it was. *)
Theorem SendEvent_functional x ev tr :
  evt_Transition ev = Some tr ->
  let c := csm_Config x in
  let f := csm_FSM x in
  SendEvent x (Some ev) = Done
    match List.find (fun t => (tr_From t =s fsm_State f) && (tr_Event t =s tr_Event tr))
            (cfg_Transitions c) with
    | Some t =>
        (None, mkCSM c (mkFsm (fsm_ConfigId f) (tr_To t)
           (fsm_History f ++ [mkEvent (evt_EventId ev) (evt_Timestamp ev)
              (Some (mkTransition (fsm_State f) (tr_To t) (tr_Event tr)))
              (evt_Originator ev) (evt_Details ev)])))
    | None => (Some UnexpectedTransitionError, x)
    end.
Proof.
  intros Htr. cbv zeta. rewrite (SendEvent_enabled _ _ _ Htr).
  change (List.find _ _) with (enabled (csm_Config x) (fsm_State (csm_FSM x)) (tr_Event tr)).
  destruct (enabled _ _ _) as [[from to e]|] eqn:E; [|done].
  destruct (enabled_spec _ _ _ _ E) as (_ & <- & <-). done.
Qed.

Lemma SendEvent_functional_witness :
  SendEvent (rover_on "earth") (Some (event "1" "launch")) = Done (None, rover_in_orbit).
Proof. exact (SendEvent_functional (rover_on "earth") (event "1" "launch") _ eq_refl). Defined.

(** C20. The history of a machine is its whole story: for every machine reached
    from a configuration by any sequence of events, accepted or not, and of
    resets, delivering the events of its history to a fresh machine of the
    configuration succeeds on each and gives back the very same machine. *)
Theorem history_replays c x0 x :
  NewStateMachine c = Ok x0 -> reachable c x ->
  replay x0 (fsm_History (csm_FSM x)) = Some x.
Proof.
  intros ->%NewStateMachine_inv (Hc & Hid & Hp)%reachable_inv.
  rewrite (replay_path _ (mkFsm _ _ []) _ _ Hp). simpl. rewrite <- Hid, <- Hc. by destruct x as [? []].
Qed.

Lemma history_replays_witness :
  replay (rover_on "earth") (fsm_History (csm_FSM rover_in_orbit)) = Some rover_in_orbit.
Proof.
  apply (history_replays mars_rover).
  - reflexivity.
  - apply (reachable_send mars_rover (rover_on "earth") (Some (event "1" "launch")) None).
    + by apply reachable_new.
    + reflexivity.
Defined.

(** Delivering any events, accepted or not, is a run of the automaton of
    the configuration: the state is the automaton's, the history grows by
    exactly the accepted events, in order, each with the transition it
    caused; the configuration and its id stay. *)
Theorem deliver_automaton x es :
  Forall (fun e => is_Some (evt_Transition e)) es ->
  let r := automaton_run (csm_Config x) (fsm_State (csm_FSM x)) es in
  deliver x es = Done (mkCSM (csm_Config x)
    (mkFsm (fsm_ConfigId (csm_FSM x)) (fst r) (fsm_History (csm_FSM x) ++ snd r))).
Proof.
  intros H. cbv zeta. revert x. induction H as [|e es [tr Htr] _ IH]; intros x; simpl.
  - rewrite app_nil_r. by destruct x as [? []].
  - rewrite (SendEvent_enabled _ _ _ Htr), Htr. simpl.
    destruct (enabled _ _ _) as [t|]; simpl; rewrite IH; [|done].
    unfold fire; simpl. by rewrite <- app_assoc.
Qed.

Lemma deliver_automaton_witness :
  deliver (rover_on "earth") [event "1" "land"; event "2" "launch"] =
  Done (mkCSM mars_rover (mkFsm "mars_rover:v2.0" "orbit"
    [set_evt_Transition (Some (mkTransition "earth" "orbit" "launch")) (event "2" "launch")])).
Proof.
  apply (deliver_automaton (rover_on "earth") [event "1" "land"; event "2" "launch"]).
  repeat constructor; eexists; reflexivity.
Defined.

(** C35. [SendEvent] panics exactly when the event carries no transition while
    some transition of the configuration leaves the current state. *)
Theorem SendEvent_panics_iff x evt :
  SendEvent x evt = Panicked <->
  carried evt = None /\
  exists t, t ∈ cfg_Transitions (csm_Config x) /\ tr_From t = fsm_State (csm_FSM x).
Proof.
  destruct (carried evt) as [tr|] eqn:E.
  - destruct evt as [ev|]; [|done]. simpl in E. rewrite (SendEvent_enabled _ _ _ E).
    split; [done|by intros []].
  - unfold SendEvent. rewrite SendEvent_loop_nil; [|destruct evt; eauto].
    destruct (existsb _ _) eqn:H; simpl; (split; [intros Hp|intros [_ (t & Hin & Hf)]]); try done.
    + split; [done|]. apply existsb_elem in H as (t & Hin & Hf).
      exists t. by apply bool_decide_eq_true in Hf.
    + rewrite existsb_false in H. specialize (H t Hin). by apply bool_decide_eq_false in H.
Qed.

(** C34. [CheckValid] accepts a configuration exactly when it has a name, at
    least one state, a starting state that is one of the states, and every
    state is an end of some transition. *)
Theorem CheckValid_correct c :
  CheckValid c = None <->
  cfg_Name c <> "" /\ cfg_States c <> [] /\ cfg_StartingState c <> "" /\
  cfg_StartingState c ∈ cfg_States c /\
  forall s, s ∈ cfg_States c ->
    exists t, t ∈ cfg_Transitions c /\ (s = tr_From t \/ s = tr_To t).
Proof.
  unfold CheckValid. rewrite CheckValid_loop_spec, <- CfgHasState_true.
  repeat case_bool_decide; try (split; [done|by intros (?&?&?&?&?)]).
  - split; [done|]. intros (_ & Hs & _). by destruct (cfg_States c).
  - assert (cfg_States c <> []) by by destruct (cfg_States c).
    destruct (CfgHasState c (cfg_StartingState c)); simpl; [|by split; [|intros (?&?&?&?&?)]].
    destruct (List.find _ _) as [s|] eqn:E.
    + apply find_some in E as [Hin%list_elem_of_In Hs%negb_true_iff].
      split; [done|]. intros (_ & _ & _ & _ & H3). destruct (H3 s Hin) as (t & Ht & Hts).
      rewrite existsb_false in Hs. specialize (Hs t Ht). apply HasState_true in Hts. congruence.
    + split; [intros _; split_and!; try done|done]. intros s Hs%list_elem_of_In.
      pose proof (find_none _ _ E s Hs) as Hn. apply negb_false_iff, existsb_elem in Hn as (t & Ht & Hb).
      apply HasState_true in Hb. eauto.
Qed.

(** When every transition of the configuration leads to a declared state,
    validity of a machine (valid configuration, declared current state,
    matching configuration id) is preserved by every event, accepted or not. *)
Theorem CSM_CheckValid_preserved x evt err x' :
  closed (csm_Config x) = true -> CSM_CheckValid x = true ->
  SendEvent x evt = Done (err, x') -> CSM_CheckValid x' = true.
Proof.
  intros Hcl Hv H. destruct (SendEvent_inv _ _ _ _ H) as [[_ ->]|(_&ev&tr&t&_&_&He&->)]; [done|].
  unfold CSM_CheckValid in *. simpl.
  apply andb_true_iff in Hv as [[Hc Hs]%andb_true_iff Hid]. rewrite Hc, Hid, andb_true_r. simpl.
  apply enabled_spec in He as (Hin & _ & _).
  unfold closed in Hcl. rewrite forallb_forall in Hcl. by apply Hcl, list_elem_of_In.
Qed.

Lemma CSM_CheckValid_preserved_witness : CSM_CheckValid rover_in_orbit = true.
Proof.
  apply (CSM_CheckValid_preserved (rover_on "earth") (Some (event "1" "launch")) None);
    reflexivity.
Defined.

(** A configuration that [CheckValid] accepts although a transition leads to a
    state it does not declare. *)
Definition open_config : Configuration := {|
  cfg_Name := "orders"; cfg_Version := "v1"; cfg_StartingState := "start";
  cfg_States := ["start"]; cfg_Transitions := [mkTransition "start" "limbo" "go"] |}.

(** Validation of the configuration alone does not give that: there is a
    configuration that [CheckValid] accepts and a fresh, valid machine of it
    that a single accepted event takes out of the declared states, after
    which the machine is no longer valid and accepts no event at all. *)
Theorem CheckValid_admits_undeclared_states :
  CheckValid open_config = None /\
  exists x x', NewStateMachine open_config = Ok x /\ CSM_CheckValid x = true /\
    SendEvent x (Some (event "1" "go")) = Done (None, x') /\ CSM_CheckValid x' = false /\
    forall ev, is_Some (evt_Transition ev) ->
      SendEvent x' (Some ev) = Done (Some UnexpectedTransitionError, x').
Proof.
  split; [reflexivity|]. eexists _, _. split_and!; [reflexivity..|].
  intros ev [tr Htr]. rewrite (SendEvent_enabled _ _ _ Htr). reflexivity.
Qed.

(** Names without the separator make the configuration id a key: it
    determines name and version, its first component is the name (which is
    how the store finds the name again), and it is the [ConfigId] of every
    machine made from the configuration. *)
Theorem GetVersionId_identifies c1 c2 :
  has_byte ":"%char (cfg_Name c1) = false -> has_byte ":"%char (cfg_Name c2) = false ->
  (GetVersionId c1 = GetVersionId c2 <->
     cfg_Name c1 = cfg_Name c2 /\ cfg_Version c1 = cfg_Version c2) /\
  hd "" (Split (GetVersionId c1) ":"%char) = cfg_Name c1 /\
  forall x, NewStateMachine c1 = Ok x -> fsm_ConfigId (csm_FSM x) = GetVersionId c1.
Proof.
  intros H1 H2. split_and!.
  - split; [by apply GetVersionId_inj|]. unfold GetVersionId. by intros [-> ->].
  - by rewrite GetVersionId_Split.
  - by intros x ->%NewStateMachine_inv.
Qed.

Lemma GetVersionId_identifies_witness : hd "" (Split "mars_rover:v2.0" ":"%char) = "mars_rover".
Proof.
  exact (proj1 (proj2 (GetVersionId_identifies mars_rover mars_rover eq_refl eq_refl))).
Defined.

(** [UpdateEvent] completes an event: whatever was missing of identifier
    and timestamp is filled in, what was given is kept, and a second call
    changes neither the event nor the environment; only a nil event panics. *)
Theorem UpdateEvent_completes {W} `{!GoEnv W, !GoEnvLaws W} evt (w : W) :
  match evt with
  | None => fst (UpdateEvent evt w) = Panicked
  | Some ev => exists ev' w', UpdateEvent evt w = (Done ev', w') /\ completes ev ev' /\
                 forall w2, UpdateEvent (Some ev') w2 = (Done ev', w2)
  end.
Proof.
  destruct evt as [ev|]; [|done]. destruct (UpdateEvent_spec ev w) as (ev' & w' & E & Hc).
  exists ev', w'. split_and!; [done..|]. intros w2.
  by apply UpdateEvent_complete; apply Hc.
Qed.

Lemma UpdateEvent_completes_witness :
  exists ev' w', UpdateEvent (Some (mkEvent "" None None "me" "")) (mkTestEnv 5 0 []) = (Done ev', w')
    /\ completes (mkEvent "" None None "me" "") ev' /\
    forall w2 : TestEnv, UpdateEvent (Some ev') w2 = (Done ev', w2).
Proof. exact (UpdateEvent_completes (Some (mkEvent "" None None "me" "")) (mkTestEnv 5 0 [])). Defined.
