(* ===== verification/Heap.v ===== *)
(** * Pointers: [SendEvent] on a heap

    [Fsm.v] treats messages as values.  In the program they are objects behind
    pointers: a machine's history holds pointers to events, an event has a
    pointer to its transition, and [SendEvent] of [pkg/api/fsm.go] clones the
    event it is given because the caller keeps its own pointer.  Here is
    [SendEvent] on a heap, with the proof that the value model is right and that
    the clone does what its comment says. *)

From Stdlib Require Import ZArith Lia.
From stdpp Require Import base tactics strings list gmap fin_maps.
From S2P Require Import Prelude GoLib Proto Fsm.

(** ** Definitions *)

Definition loc : Type := positive.

(** The objects; a slice of pointers is a list, and [append] makes a new one. *)
Record EventObject := mkEventObject {
  eo_EventId : string;
  eo_Timestamp : option Z;
  eo_Transition : option loc;
  eo_Originator : string;
  eo_Details : string }.

Record FsmObject := mkFsmObject {
  fo_ConfigId : string;
  fo_State : string;
  fo_History : list loc }.

Record heap := mkHeap {
  h_transitions : gmap loc Transition;
  h_events : gmap loc EventObject;
  h_fsms : gmap loc FsmObject }.

(** Reading through a pointer; a dangling one, which Go does not have, panics. *)
Definition load {A} (f : heap -> gmap loc A) (l : loc) : Go heap A := fun h =>
  match f h !! l with Some a => (Done a, h) | None => (Panicked, h) end.

Definition store_transition (l : loc) (t : Transition) : Go heap () :=
  go_modify (fun h => mkHeap (<[l := t]> (h_transitions h)) (h_events h) (h_fsms h)).
Definition store_event (l : loc) (e : EventObject) : Go heap () :=
  go_modify (fun h => mkHeap (h_transitions h) (<[l := e]> (h_events h)) (h_fsms h)).
Definition store_fsm (l : loc) (f : FsmObject) : Go heap () :=
  go_modify (fun h => mkHeap (h_transitions h) (h_events h) (<[l := f]> (h_fsms h))).

(** The messages behind pointers. *)
Definition event_at (h : heap) (l : loc) : option Event :=
  e ← h_events h !! l;
  match eo_Transition e with
  | None => Some (mkEvent (eo_EventId e) (eo_Timestamp e) None (eo_Originator e) (eo_Details e))
  | Some lt => t ← h_transitions h !! lt;
      Some (mkEvent (eo_EventId e) (eo_Timestamp e) (Some t) (eo_Originator e) (eo_Details e))
  end.

Definition fsm_at (h : heap) (l : loc) : option FiniteStateMachine :=
  f ← h_fsms h !! l;
  hist ← mapM (event_at h) (fo_History f);
  Some (mkFsm (fo_ConfigId f) (fo_State f) hist).

(** The event a pointer that may be nil stands for. *)
Definition points_to (h : heap) (evt : option loc) (ev : option Event) : Prop :=
  match evt, ev with
  | None, None => True
  | Some l, Some e => event_at h l = Some e
  | _, _ => False
  end.

(** [keeps_but h h' fsm]: what was in [h] is in [h'], except at the machine. *)
Definition keeps_but (fsm : loc) (h h' : heap) : Prop :=
  h_transitions h ⊆ h_transitions h' /\ h_events h ⊆ h_events h' /\
  forall l, l <> fsm -> h_fsms h' !! l = h_fsms h !! l.

(** [proto.Clone] of the protobuf library: the copy of nil is nil, the copy of a
    message is a new message with the same contents, its own transition
    included, and the copying changes nothing that was there. *)
Class MessageClone := { proto_Clone : option loc -> Go heap (option loc) }.

Class CloneLaws `{!MessageClone} : Prop := {
  Clone_nil h : proto_Clone None h = (Done None, h);
  Clone_message h l ev : event_at h l = Some ev -> exists l' o h1,
    proto_Clone (Some l) h = (Done (Some l'), h1) /\ event_at h1 l' = Some ev /\
    h_transitions h ⊆ h_transitions h1 /\ h_events h ⊆ h_events h1 /\ h_fsms h1 = h_fsms h /\
    h_events h !! l' = None /\ h_events h1 !! l' = Some o /\
    (forall lt, eo_Transition o = Some lt -> h_transitions h !! lt = None) }.

(** The loop of [SendEvent] over the transitions of the configuration, which it
    only reads. *)
Fixpoint heap_SendEvent_loop (ts : list Transition) (fsm : loc) (newEvent : option loc) : Go heap (option error) :=
  match ts with
  | [] => mret (Some UnexpectedTransitionError)
  | t :: ts' =>
      f ← load h_fsms fsm;
      if tr_From t =s fo_State f then
        l ← deref newEvent;
        e ← load h_events l;
        lt ← deref (eo_Transition e);
        tr ← load h_transitions lt;
        if tr_Event t =s tr_Event tr then
          store_transition lt (mkTransition (fo_State f) (tr_To tr) (tr_Event tr));;
          store_transition lt (mkTransition (fo_State f) (tr_To t) (tr_Event tr));;
          store_fsm fsm (mkFsmObject (fo_ConfigId f) (tr_To t) (fo_History f));;
          store_fsm fsm (mkFsmObject (fo_ConfigId f) (tr_To t) (fo_History f ++ [l]));;
          mret None
        else heap_SendEvent_loop ts' fsm newEvent
      else heap_SendEvent_loop ts' fsm newEvent
  end.

Definition heap_SendEvent `{!MessageClone} (config : Configuration) (fsm : loc) (evt : option loc) : Go heap (option error) :=
  newEvent ← proto_Clone evt;
  heap_SendEvent_loop (cfg_Transitions config) fsm newEvent.

(** ** Lemmas *)

Lemma event_at_mono h h' l e : h_transitions h ⊆ h_transitions h' -> h_events h ⊆ h_events h' ->
  event_at h l = Some e -> event_at h' l = Some e.
Proof.
  intros Ht He. unfold event_at. destruct (h_events h !! l) as [o|] eqn:Eo; [|done].
  rewrite (lookup_weaken _ _ _ _ Eo He). simpl. destruct (eo_Transition o) as [lt|]; [|done].
  destruct (h_transitions h !! lt) as [t|] eqn:Et; [|done]. by rewrite (lookup_weaken _ _ _ _ Et Ht).
Qed.

Lemma mapM_event_at_mono h h' ls es : h_transitions h ⊆ h_transitions h' -> h_events h ⊆ h_events h' ->
  mapM (event_at h) ls = Some es -> mapM (event_at h') ls = Some es.
Proof.
  intros Ht He. revert es. induction ls as [|l ls IH]; intros es; simpl; [done|].
  destruct (event_at h l) as [e|] eqn:El; simpl; [|done].
  destruct (mapM (event_at h) ls) as [es'|]; simpl; [|done]. intros [= <-].
  rewrite (event_at_mono _ _ _ _ Ht He El). simpl. by rewrite (IH es' eq_refl).
Qed.

Lemma fsm_at_weaken h h' l m : h_transitions h ⊆ h_transitions h' -> h_events h ⊆ h_events h' ->
  h_fsms h' !! l = h_fsms h !! l -> fsm_at h l = Some m -> fsm_at h' l = Some m.
Proof.
  intros Ht He Hl. unfold fsm_at. rewrite Hl. destruct (h_fsms h !! l) as [f|]; [|done]. simpl.
  destruct (mapM (event_at h) (fo_History f)) as [hist|] eqn:Eh; [|done].
  by rewrite (mapM_event_at_mono _ _ _ _ Ht He Eh).
Qed.

Lemma fsm_at_mono h h' fsm l m : keeps_but fsm h h' -> l <> fsm -> fsm_at h l = Some m -> fsm_at h' l = Some m.
Proof. intros (Ht & He & Hf) Hl. apply fsm_at_weaken; auto. Qed.

(** The heap after an event fired. *)
Definition fired (h : heap) (fsm l lt : loc) (f : FsmObject) (tr t : Transition) : heap :=
  mkHeap (<[lt := mkTransition (fo_State f) (tr_To t) (tr_Event tr)]> (h_transitions h)) (h_events h)
    (<[fsm := mkFsmObject (fo_ConfigId f) (tr_To t) (fo_History f ++ [l])]> (h_fsms h)).

Lemma load_run {A C} (f : heap -> gmap loc A) l a (k : A -> Go heap C) h :
  f h !! l = Some a -> (load f l ≫= k) h = k a h.
Proof. intros E. apply go_bind_done. unfold load. by rewrite E. Qed.

(** The loop on the heap is the loop on values. *)
Lemma heap_loop_run ts h fsm f m evt ev :
  h_fsms h !! fsm = Some f -> fo_State f = fsm_State m -> fo_ConfigId f = fsm_ConfigId m ->
  points_to h evt ev ->
  match SendEvent_loop ts m ev with
  | Done (None, m') => exists l o lt tr t e, evt = Some l /\ ev = Some e /\ h_events h !! l = Some o /\
      eo_Transition o = Some lt /\ h_transitions h !! lt = Some tr /\
      m' = mkFsm (fsm_ConfigId m) (tr_To t)
             (fsm_History m ++ [set_evt_Transition (Some (mkTransition (fsm_State m) (tr_To t) (tr_Event tr))) e]) /\
      heap_SendEvent_loop ts fsm evt h = (Done None, fired h fsm l lt f tr t)
  | Done (Some err, m') => heap_SendEvent_loop ts fsm evt h = (Done (Some err), h) /\ m' = m
  | Panicked => heap_SendEvent_loop ts fsm evt h = (Panicked, h)
  | Spin => False
  end.
Proof.
  intros Hf Hs Hc Hp. induction ts as [|t ts IH]; cbn [SendEvent_loop heap_SendEvent_loop]; [done|].
  rewrite (load_run _ _ _ _ _ Hf). rewrite Hs. destruct (tr_From t =s fsm_State m); [|done].
  destruct evt as [l|], ev as [e|]; try done. simpl. rewrite go_bind_deref. simpl in Hp.
  unfold event_at in Hp. destruct (h_events h !! l) as [o|] eqn:Eo; [|done]. simpl in Hp.
  rewrite (load_run _ _ _ _ _ Eo).
  destruct (eo_Transition o) as [lt|] eqn:Elt; [|by injection Hp as <-]. rewrite go_bind_deref.
  destruct (h_transitions h !! lt) as [tr|] eqn:Et; [|done]. simpl in Hp. rewrite (load_run _ _ _ _ _ Et).
  injection Hp as <-. simpl. destruct (tr_Event t =s tr_Event tr); [|done].
  exists l, o, lt, tr, t. eexists. split_and!; try done.
  unfold mbind, go_bind, store_transition, store_fsm, go_modify. simpl. unfold fired.
  by rewrite !insert_insert_eq, Hs.
Qed.

(** A machine of whose history no event was touched. *)
Lemma fsm_at_fired h fsm l lt f tr t m o :
  h_fsms h !! fsm = Some f -> h_events h !! l = Some o -> eo_Transition o = Some lt ->
  mapM (event_at (fired h fsm l lt f tr t)) (fo_History f) = Some (fsm_History m) ->
  fsm_ConfigId m = fo_ConfigId f ->
  fsm_at (fired h fsm l lt f tr t) fsm = Some (mkFsm (fsm_ConfigId m) (tr_To t)
    (fsm_History m ++ [mkEvent (eo_EventId o) (eo_Timestamp o)
       (Some (mkTransition (fo_State f) (tr_To t) (tr_Event tr))) (eo_Originator o) (eo_Details o)])).
Proof.
  intros Hf Ho Hlt Hh Hc. unfold fsm_at.
  assert (Hfired : h_fsms (fired h fsm l lt f tr t) !! fsm =
    Some (mkFsmObject (fo_ConfigId f) (tr_To t) (fo_History f ++ [l]))) by apply lookup_insert_eq.
  rewrite Hfired. cbn [mbind option_bind fo_History].
  assert (Hl : event_at (fired h fsm l lt f tr t) l = Some (mkEvent (eo_EventId o) (eo_Timestamp o)
    (Some (mkTransition (fo_State f) (tr_To t) (tr_Event tr))) (eo_Originator o) (eo_Details o))).
  { unfold event_at, fired. simpl. rewrite Ho. simpl. rewrite Hlt. by rewrite lookup_insert_eq. }
  assert (Happ : forall ls es, mapM (event_at (fired h fsm l lt f tr t)) ls = Some es ->
    mapM (event_at (fired h fsm l lt f tr t)) (ls ++ [l]) = Some (es ++ [mkEvent (eo_EventId o) (eo_Timestamp o)
      (Some (mkTransition (fo_State f) (tr_To t) (tr_Event tr))) (eo_Originator o) (eo_Details o)])%list).
  { induction ls as [|l0 ls IH]; intros es; simpl; [intros [= <-]; by rewrite Hl|].
    destruct (event_at _ l0) as [e0|]; simpl; [|done]. destruct (mapM _ ls) as [es'|]; simpl; [|done].
    intros [= <-]. by rewrite (IH es' eq_refl). }
  rewrite (Happ _ _ Hh). simpl. by rewrite Hc.
Qed.

(** ** Properties *)

(** C9. [SendEvent] on the heap is [SendEvent] on values, and the clone protects
    the caller: reading the messages behind the pointers before and after, the
    machine and the answer are those of the value model, in every case, panics
    included; no event that existed is changed, the caller's not either, nor
    any other machine; and the event that joins the history, with its
    transition, is an object that did not exist before. *)
Theorem heap_SendEvent_refines `{!MessageClone, !CloneLaws} c (h : heap) fsm f m evt ev :
  h_fsms h !! fsm = Some f -> fsm_at h fsm = Some m -> points_to h evt ev ->
  match SendEvent (mkCSM c m) ev with
  | Done (err, x) => exists h', heap_SendEvent c fsm evt h = (Done err, h') /\
      fsm_at h' fsm = Some (csm_FSM x) /\
      (forall l e, event_at h l = Some e -> event_at h' l = Some e) /\
      (forall l m', l <> fsm -> fsm_at h l = Some m' -> fsm_at h' l = Some m') /\
      (err = None -> exists f' l o lt, h_fsms h' !! fsm = Some f' /\ fo_History f' = (fo_History f ++ [l])%list /\
         h_events h !! l = None /\ h_events h' !! l = Some o /\ eo_Transition o = Some lt /\
         h_transitions h !! lt = None)
  | Panicked => fst (heap_SendEvent c fsm evt h) = Panicked
  | Spin => False
  end.
Proof.
  intros Hf Hm Hp. unfold SendEvent, heap_SendEvent. cbn [csm_Config csm_FSM].
  assert (Hmf : fo_State f = fsm_State m /\ fo_ConfigId f = fsm_ConfigId m /\
    mapM (event_at h) (fo_History f) = Some (fsm_History m)).
  { unfold fsm_at in Hm. rewrite Hf in Hm. simpl in Hm. destruct (mapM _ _); [|done]. by injection Hm as <-. }
  destruct Hmf as (Hs & Hc & Hh).
  destruct evt as [l0|], ev as [e|]; try done.
  - destruct (Clone_message h l0 e Hp) as (l & o & h1 & E1 & He & Ht1 & He1 & Hf1 & Hnew & Ho & Hlt).
    rewrite (go_bind_done _ _ _ _ _ E1).
    assert (Hf' : h_fsms h1 !! fsm = Some f) by by rewrite Hf1.
    pose proof (heap_loop_run (cfg_Transitions c) h1 fsm f m (Some l) (Some e) Hf' Hs Hc He) as Hl.
    assert (Hk1 : keeps_but fsm h h1) by (split_and!; [done..|]; intros l1 _; by rewrite Hf1).
    destruct (SendEvent_loop _ m _) as [[[err|] m']| |]; cbn [fst snd mbind result_bind]; [|..|by rewrite Hl|done].
    + destruct Hl as [-> ->]. exists h1. split_and!; try done.
      * apply (fsm_at_weaken h); try done. by rewrite Hf1.
      * intros l1 e1. by apply event_at_mono.
      * intros l1 m1. by apply fsm_at_mono.
    + destruct Hl as (l' & o' & lt & tr & t & e' & [= <-] & [= <-] & Ho' & Eo & Et & -> & ->).
      rewrite Ho in Ho'. injection Ho' as <-. exists (fired h1 fsm l lt f tr t).
      assert (Ht2 : h_transitions h ⊆ h_transitions (fired h1 fsm l lt f tr t))
        by (apply insert_subseteq_r; [by apply Hlt|done]).
      assert (Hk : keeps_but fsm h (fired h1 fsm l lt f tr t)).
      { split_and!; [done..|]. intros l1 Hl1. simpl. by rewrite lookup_insert_ne, Hf1. }
      split_and!; [done| | | |].
      * rewrite (fsm_at_fired h1 fsm l lt f tr t m o Hf' Ho Eo); [|by apply (mapM_event_at_mono h)|by rewrite Hc].
        unfold event_at in He. rewrite Ho in He. simpl in He. rewrite Eo, Et in He. simpl in He.
        injection He as <-. simpl. by rewrite Hs.
      * intros l1 e1. by apply event_at_mono.
      * intros l1 m1. by apply fsm_at_mono.
      * intros _. exists (mkFsmObject (fo_ConfigId f) (tr_To t) (fo_History f ++ [l])), l, o, lt.
        split_and!; [apply lookup_insert_eq|done..|by apply Hlt].
  - pose proof (heap_loop_run (cfg_Transitions c) h fsm f m None None Hf Hs Hc I) as Hl.
    rewrite (go_bind_done _ _ _ _ _ (Clone_nil h)).
    destruct (SendEvent_loop _ m _) as [[[err|] m']| |]; cbn [fst snd mbind result_bind]; [|..|by rewrite Hl|done].
    + destruct Hl as [-> ->]. exists h. split_and!; try done; by destruct m.
    + by destruct Hl as (l' & o' & lt & tr & t & e' & [=] & _).
Qed.

(** *** Example: a caller that keeps its event *)

(** A new object. *)
Definition new_transition (t : Transition) : Go heap loc := fun h =>
  let l := fresh (dom (h_transitions h)) in
  (Done l, mkHeap (<[l := t]> (h_transitions h)) (h_events h) (h_fsms h)).
Definition new_event (e : EventObject) : Go heap loc := fun h =>
  let l := fresh (dom (h_events h)) in
  (Done l, mkHeap (h_transitions h) (<[l := e]> (h_events h)) (h_fsms h)).

(** A copy of the event and of its transition. *)
Definition deep_copy (evt : option loc) : Go heap (option loc) :=
  match evt with
  | None => mret None
  | Some l =>
      e ← load h_events l;
      tr ← (match eo_Transition e with
            | None => mret None
            | Some lt => t ← load h_transitions lt; lt' ← new_transition t; mret (Some lt')
            end);
      l' ← new_event (mkEventObject (eo_EventId e) (eo_Timestamp e) tr (eo_Originator e) (eo_Details e));
      mret (Some l')
  end.

#[export] Instance deep_copy_clone : MessageClone := {| proto_Clone := deep_copy |}.

#[export] Instance deep_copy_laws : CloneLaws.
Proof.
  split; [done|]. intros h l ev.
  change (proto_Clone (Some l)) with (deep_copy (Some l)). unfold event_at at 1, deep_copy.
  destruct (h_events h !! l) as [e|] eqn:Ee; [|done]. simpl. intros H.
  assert (Hfe : h_events h !! fresh (dom (h_events h)) = None) by apply not_elem_of_dom, is_fresh.
  assert (Hft : h_transitions h !! fresh (dom (h_transitions h)) = None) by apply not_elem_of_dom, is_fresh.
  rewrite (load_run _ _ _ _ _ Ee). destruct (eo_Transition e) as [lt|].
  - destruct (h_transitions h !! lt) as [t|] eqn:Et; [|done]. simpl in H.
    eexists (fresh (dom (h_events h))), (mkEventObject (eo_EventId e) (eo_Timestamp e)
      (Some (fresh (dom (h_transitions h)))) (eo_Originator e) (eo_Details e)), _. split.
    { unfold mbind at 1, go_bind at 1. rewrite (load_run _ _ _ _ _ Et). reflexivity. }
    injection H as <-. simpl. split_and!.
    + unfold event_at. simpl. rewrite lookup_insert_eq. simpl. by rewrite lookup_insert_eq.
    + by apply insert_subseteq.
    + by apply insert_subseteq.
    + done.
    + done.
    + apply lookup_insert_eq.
    + by intros lt' [= <-].
  - eexists (fresh (dom (h_events h))), (mkEventObject (eo_EventId e) (eo_Timestamp e) None
      (eo_Originator e) (eo_Details e)), _. split; [reflexivity|].
    injection H as <-. simpl. split_and!; try done.
    + unfold event_at. simpl. by rewrite lookup_insert_eq.
    + by apply insert_subseteq.
    + apply lookup_insert_eq.
Qed.

Definition example_heap : heap := mkHeap
  {[ 1%positive := mkTransition "" "" "launch" ]}
  {[ 1%positive := mkEventObject "1" (Some 0) (Some 1%positive) "me" "" ]}
  {[ 1%positive := mkFsmObject "mars_rover:v2.0" "earth" [] ]}.

Lemma heap_SendEvent_refines_witness : exists h',
  heap_SendEvent mars_rover 1%positive (Some 1%positive) example_heap = (Done None, h') /\
  fsm_State <$> fsm_at h' 1%positive = Some "orbit" /\
  event_at h' 1%positive = Some (mkEvent "1" (Some 0) (Some (mkTransition "" "" "launch")) "me" "").
Proof.
  pose proof (heap_SendEvent_refines mars_rover example_heap 1%positive
    (mkFsmObject "mars_rover:v2.0" "earth" []) (mkFsm "mars_rover:v2.0" "earth" []) (Some 1%positive)
    (Some (mkEvent "1" (Some 0) (Some (mkTransition "" "" "launch")) "me" "")) eq_refl eq_refl eq_refl) as H.
  destruct H as (h' & H1 & H2 & H3 & _). exists h'. split; [exact H1|]. split.
  - rewrite H2. reflexivity.
  - apply H3. reflexivity.
Defined.
