(* ===== verification/Keys.v ===== *)
(** * The keys of the Redis collections: [pkg/storage/keys.go] *)

From Stdlib Require Import ZArith Ascii.
From stdpp Require Import base tactics strings list.
From S2P Require Import Prelude GoLib.

(** ** Definitions *)

Definition ConfigsPrefix : string := "configs".
Definition EventsPrefix : string := "events".
Definition FsmPrefix : string := "fsm".

Definition KeyPrefixComponentsSeparator : string := ":".
Definition KeyPrefixIDSeparator : string := "#".

Definition NewKeyForConfig (id : string) : string :=
  Join [ConfigsPrefix; id] KeyPrefixIDSeparator.

Definition NewKeyForMachine (id cfgName : string) : string :=
  let prefix := Join [FsmPrefix; cfgName] KeyPrefixComponentsSeparator in
  Join [prefix; id] KeyPrefixIDSeparator.

Definition NewKeyForMachinesByState (cfgName state : string) : string :=
  let prefix := Join [FsmPrefix; cfgName; "state"] KeyPrefixComponentsSeparator in
  Join [prefix; state] KeyPrefixIDSeparator.

Definition NewKeyForEvent (id cfgName : string) : string :=
  let prefix := Join [EventsPrefix; cfgName] KeyPrefixComponentsSeparator in
  Join [prefix; id] KeyPrefixIDSeparator.

Definition NewKeyForOutcome (id cfgName : string) : string :=
  let prefix := Join [EventsPrefix; cfgName; "outcome"] KeyPrefixComponentsSeparator in
  Join [prefix; id] KeyPrefixIDSeparator.

(** What a key is for. *)
Inductive collection :=
| KConfigNames
| KConfig (id : string)          (** a configuration, or the versions of a name *)
| KMachine (cfgName id : string)
| KByState (cfgName state : string)
| KEvent (cfgName id : string)
| KOutcome (cfgName id : string).

#[export] Instance collection_eq_dec : EqDecision collection.
Proof. solve_decision. Defined.

Definition key_of (k : collection) : string :=
  match k with
  | KConfigNames => ConfigsPrefix
  | KConfig id => NewKeyForConfig id
  | KMachine cfgName id => NewKeyForMachine id cfgName
  | KByState cfgName state => NewKeyForMachinesByState cfgName state
  | KEvent cfgName id => NewKeyForEvent id cfgName
  | KOutcome cfgName id => NewKeyForOutcome id cfgName
  end.

(** A configuration name that holds neither separator. *)
Definition plain (s : string) : bool :=
  negb (has_byte ":"%char s) && negb (has_byte "#"%char s).

Definition plain_key (k : collection) : bool :=
  match k with
  | KConfigNames | KConfig _ => true
  | KMachine c _ | KByState c _ | KEvent c _ | KOutcome c _ => plain c
  end.

(** ** Lemmas *)

Lemma plain_spec s :
  plain s = true <-> has_byte ":"%char s = false /\ has_byte "#"%char s = false.
Proof. unfold plain. by rewrite andb_true_iff, !negb_true_iff. Qed.

(** The shape of the keys: a first component up to [:] and one up to [#]. *)
Lemma key_machine_shape c id : NewKeyForMachine id c = "fsm:" ++ c ++ String "#" id.
Proof. unfold NewKeyForMachine; simpl Join. by rewrite !string_app_assoc. Qed.
Lemma key_bystate_shape c st :
  NewKeyForMachinesByState c st = "fsm:" ++ c ++ String ":" ("state#" ++ st).
Proof. unfold NewKeyForMachinesByState; simpl Join. by rewrite !string_app_assoc. Qed.
Lemma key_event_shape c id : NewKeyForEvent id c = "events:" ++ c ++ String "#" id.
Proof. unfold NewKeyForEvent; simpl Join. by rewrite !string_app_assoc. Qed.
Lemma key_outcome_shape c id :
  NewKeyForOutcome id c = "events:" ++ c ++ String ":" ("outcome#" ++ id).
Proof. unfold NewKeyForOutcome; simpl Join. by rewrite !string_app_assoc. Qed.

Lemma sep_clash (a a' b b' : string) :
  has_byte ":"%char a = false -> has_byte "#"%char a' = false ->
  has_byte "#"%char a = false -> has_byte ":"%char a' = false ->
  a ++ String "#" b <> a' ++ String ":" b'.
Proof.
  revert a'. induction a as [|x a IH]; intros [|x' a']; str_simpl; intros Ha Ha' Hb Hb' E.
  - done.
  - injection E as <- E. by rewrite bool_decide_refl in Ha'.
  - injection E as -> E. by rewrite bool_decide_refl in Ha.
  - apply orb_false_iff in Ha as [_ Ha], Ha' as [_ Ha'], Hb as [_ Hb], Hb' as [_ Hb'].
    injection E as _ E. by apply (IH a').
Qed.

Lemma key_of_inj k1 k2 :
  plain_key k1 = true -> plain_key k2 = true -> key_of k1 = key_of k2 -> k1 = k2.
Proof.
  intros P1 P2.
  destruct k1, k2; cbn [key_of plain_key] in *;
    rewrite ?key_machine_shape, ?key_bystate_shape, ?key_event_shape, ?key_outcome_shape;
    try done; intros E;
    try apply plain_spec in P1 as [? ?]; try apply plain_spec in P2 as [? ?];
    try (apply string_app_inj_l in E;
         first [ by (apply sep_inj in E as [-> E]; [|done..];
                     try apply string_app_inj_l in E; subst)
               | by apply sep_clash in E
               | by (symmetry in E; apply sep_clash in E) ]);
    try by apply (string_app_inj_l "configs#") in E as ->.
Qed.

(** ** Properties *)

(** C37. Configuration names without the separators keep the collections apart:
    two keys built from such names are equal only when they are keys of the
    same collection with the same arguments, whatever the ids and states. *)
Theorem keys_injective k1 k2 :
  plain_key k1 = true -> plain_key k2 = true ->
  (key_of k1 = key_of k2 <-> k1 = k2).
Proof. intros P1 P2. split; [by apply key_of_inj | by intros ->]. Qed.

Lemma keys_injective_witness :
  key_of (KMachine "orders" "state#new") = key_of (KByState "orders" "new") <->
  KMachine "orders" "state#new" = KByState "orders" "new".
Proof. exact (keys_injective (KMachine "orders" "state#new") (KByState "orders" "new") eq_refl eq_refl). Defined.

(** With the separators allowed the collections overlap: a machine of the
    configuration [c:state] is stored under the key of the set of the machines
    of [c] in a state, an event of [c:outcome] under the key of an outcome of
    [c]. *)
Theorem keys_collide c x :
  NewKeyForMachine x (c ++ ":state") = NewKeyForMachinesByState c x /\
  NewKeyForEvent x (c ++ ":outcome") = NewKeyForOutcome x c.
Proof.
  by rewrite key_machine_shape, key_bystate_shape, key_event_shape, key_outcome_shape,
    !string_app_assoc.
Qed.
