(* ===== verification/StoreTypes.v ===== *)
(** * Errors and interface of the stores: [pkg/storage/types.go] *)

From Stdlib Require Import ZArith Ascii.
From stdpp Require Import base tactics strings list.
From S2P Require Import Prelude GoLib Proto.

(** ** Regular expressions

    The part of [regexp] that [IsNotFoundErr] uses: byte classes, sequence and
    repetition, for a pattern anchored at both ends.  The matcher takes
    derivatives. *)

Inductive re :=
| RVoid
| REmpty
| RClass (f : ascii -> bool)
| RSeq (r1 r2 : re)
| RAlt (r1 r2 : re)
| RStar (r : re).

Definition RChar (c : ascii) : re := RClass (fun x => x =s c).
Definition RPlus (r : re) : re := RSeq r (RStar r).

Fixpoint RString (s : string) : re :=
  match s with
  | EmptyString => REmpty
  | String c s' => RSeq (RChar c) (RString s')
  end.

Fixpoint nullable (r : re) : bool :=
  match r with
  | RVoid => false
  | REmpty => true
  | RClass _ => false
  | RSeq r1 r2 => nullable r1 && nullable r2
  | RAlt r1 r2 => nullable r1 || nullable r2
  | RStar _ => true
  end.

Fixpoint deriv (c : ascii) (r : re) : re :=
  match r with
  | RVoid | REmpty => RVoid
  | RClass f => if f c then REmpty else RVoid
  | RSeq r1 r2 =>
      if nullable r1 then RAlt (RSeq (deriv c r1) r2) (deriv c r2)
      else RSeq (deriv c r1) r2
  | RAlt r1 r2 => RAlt (deriv c r1) (deriv c r2)
  | RStar r1 => RSeq (deriv c r1) (RStar r1)
  end.

Fixpoint re_match (r : re) (s : string) : bool :=
  match s with
  | EmptyString => nullable r
  | String c s' => re_match (deriv c r) s'
  end.

(** The language of an expression. *)
Inductive lang : re -> string -> Prop :=
| lang_empty : lang REmpty ""
| lang_class f c : f c = true -> lang (RClass f) (String c "")
| lang_seq r1 r2 s1 s2 : lang r1 s1 -> lang r2 s2 -> lang (RSeq r1 r2) (s1 ++ s2)
| lang_alt_l r1 r2 s : lang r1 s -> lang (RAlt r1 r2) s
| lang_alt_r r1 r2 s : lang r2 s -> lang (RAlt r1 r2) s
| lang_star_nil r : lang (RStar r) ""
| lang_star_cons r s1 s2 : lang r s1 -> lang (RStar r) s2 -> lang (RStar r) (s1 ++ s2).

(** ** Definitions *)

Definition StoreErr : Type := error.

Definition Error (msg : string) (key : string) : StoreErr := Errorf (Sprintf msg [key]).

Definition AlreadyExistsError := Error "key %s already exists".
Definition GenericStoreError := Error "store error: %v".
Definition InvalidDataError := Error "error storing invalid data: %v".
Definition NotFoundError := Error "key %s not found".
Definition NotImplementedError := Error "functionality %s has not been implemented yet".
Definition TooManyAttempts := Error "retries exceeded".

(** The class [\s]: tab, line feed, form feed, carriage return, space. *)
Definition is_space (c : ascii) : bool :=
  (c =s "009"%char) || (c =s "010"%char) || (c =s "012"%char) || (c =s "013"%char)
  || (c =s " "%char).

(** The pattern [^key\s+(\S+)\s+not\sfound$]. *)
Definition not_found_pattern : re :=
  RSeq (RString "key")
   (RSeq (RPlus (RClass is_space))
    (RSeq (RPlus (RClass (fun c => negb (is_space c))))
     (RSeq (RPlus (RClass is_space))
      (RSeq (RString "not") (RSeq (RClass is_space) (RString "found")))))).

Definition IsNotFoundErr (err : StoreErr) : bool :=
  re_match not_found_pattern (error_text err).

(** The interface [StoreManager], with the three it embeds.  A nil slice is
    the empty list; durations are nanoseconds. *)
Class StoreManager (W : Type) := {
  (* ConfigStore *)
  GetConfig : string -> Go W (Res Configuration);
  PutConfig : option Configuration -> Go W (option StoreErr);
  GetAllConfigs : Go W (list string);
  GetAllVersions : string -> Go W (list string);
  (* FSMStore *)
  GetStateMachine : string -> string -> Go W (Res FiniteStateMachine);
  PutStateMachine : string -> option FiniteStateMachine -> Go W (option StoreErr);
  GetAllInState : string -> string -> Go W (list string);
  UpdateState : string -> string -> string -> string -> Go W (option StoreErr);
  TxProcessEvent : string -> string -> option Event -> Go W (option StoreErr);
  (* EventStore *)
  GetEvent : string -> string -> Go W (Res Event);
  PutEvent : option Event -> string -> Z -> Go W (option StoreErr);
  AddEventOutcome : string -> string -> option EventOutcome -> Z -> Go W (option StoreErr);
  GetOutcomeForEvent : string -> string -> Go W (Res EventOutcome);
  (* StoreManager *)
  SetTimeout : Z -> Go W ();
  GetTimeout : Go W Z;
  Health : Go W (option StoreErr) }.

(** ** Lemmas *)

Lemma nullable_lang r : nullable r = true <-> lang r "".
Proof.
  split.
  - induction r; simpl; intros H; try done; [constructor| | |constructor].
    + apply andb_true_iff in H as [? ?]. change "" with ("" ++ ""). constructor; auto.
    + apply orb_true_iff in H as [?|?]; [apply lang_alt_l|apply lang_alt_r]; auto.
  - remember "" as s eqn:E. induction 1; simpl; try done.
    + destruct s1; [|done]. destruct s2; [|done]. by rewrite IHlang1, IHlang2.
    + by rewrite IHlang.
    + rewrite IHlang by done. apply orb_true_r.
Qed.

Lemma deriv_lang c r s : lang (deriv c r) s <-> lang r (String c s).
Proof.
  split.
  - revert s. induction r; intros s; simpl; intros H; try by inversion H.
    + destruct (f c) eqn:Hf; inversion H. by constructor.
    + destruct (nullable r1) eqn:Hn; inversion H; subst.
      * match goal with H : lang (RSeq _ _) _ |- _ => inversion H; subst end.
        rewrite <- string_app_cons. constructor; auto.
      * apply nullable_lang in Hn. change (String c s) with ("" ++ String c s).
        constructor; auto.
      * rewrite <- string_app_cons. constructor; auto.
    + inversion H; subst; [apply lang_alt_l|apply lang_alt_r]; auto.
    + inversion H; subst. rewrite <- string_app_cons. constructor; auto.
  - remember (String c s) as s0 eqn:E. intros H. revert s E.
    induction H; intros s0 E; try done; simpl.
    + injection E as -> <-. rewrite H. constructor.
    + destruct s1 as [|x s1].
      * rewrite string_app_nil in E. apply nullable_lang in H. rewrite H.
        apply lang_alt_r. auto.
      * injection E as -> <-. destruct (nullable r1); [apply lang_alt_l|]; constructor; auto.
    + apply lang_alt_l; auto.
    + apply lang_alt_r; auto.
    + destruct s1 as [|x s1]; [by apply IHlang2|]. injection E as -> <-. constructor; auto.
Qed.

(** The matcher decides the language. *)
Lemma re_match_lang r s : re_match r s = true <-> lang r s.
Proof.
  revert r. induction s as [|c s IH]; intros r; simpl; [apply nullable_lang|].
  by rewrite IH, deriv_lang.
Qed.

Fixpoint all_bytes (f : ascii -> bool) (s : string) : bool :=
  match s with EmptyString => true | String c s' => f c && all_bytes f s' end.

Lemma all_bytes_app f a b : all_bytes f (a ++ b) = all_bytes f a && all_bytes f b.
Proof. induction a as [|x a IH]; str_simpl; [done|]. by rewrite IH, andb_assoc. Qed.

Lemma lang_seq_iff r1 r2 s :
  lang (RSeq r1 r2) s <-> exists s1 s2, s = s1 ++ s2 /\ lang r1 s1 /\ lang r2 s2.
Proof.
  split; [inversion 1; eauto|]. intros (s1 & s2 & -> & ? & ?). by constructor.
Qed.

Lemma lang_class_iff f s : lang (RClass f) s <-> exists c, s = String c "" /\ f c = true.
Proof. split; [inversion 1; eauto|]. intros (c & -> & ?). by constructor. Qed.

Lemma lang_string_iff t s : lang (RString t) s <-> s = t.
Proof.
  revert s. induction t as [|c t IH]; intros s; simpl.
  - split; [by inversion 1|]. intros ->. constructor.
  - rewrite lang_seq_iff. split.
    + intros (s1 & s2 & -> & (x & -> & Hx)%lang_class_iff & ->%IH).
      apply bool_decide_eq_true in Hx as ->. done.
    + intros ->. exists (String c ""), t. split_and!; [done| |by apply IH].
      apply lang_class_iff. exists c. by rewrite bool_decide_refl.
Qed.

Lemma lang_star_class_iff f s : lang (RStar (RClass f)) s <-> all_bytes f s = true.
Proof.
  split.
  - remember (RStar (RClass f)) as r eqn:E. induction 1; try done. injection E as ->.
    match goal with H : lang (RClass _) _ |- _ => apply lang_class_iff in H as (c & -> & Hc) end.
    simpl. rewrite Hc. auto.
  - induction s as [|c s IH]; simpl; [constructor|]. intros [Hc Hs]%andb_true_iff.
    change (String c s) with (String c "" ++ s). constructor; [by constructor|auto].
Qed.

Lemma lang_plus_class_iff f s :
  lang (RPlus (RClass f)) s <-> s <> "" /\ all_bytes f s = true.
Proof.
  unfold RPlus. rewrite lang_seq_iff. split.
  - intros (s1 & s2 & -> & (c & -> & Hc)%lang_class_iff & H%lang_star_class_iff).
    str_simpl. by rewrite Hc.
  - destruct s as [|c s]; simpl; [by intros []|]. intros [_ [Hc Hs]%andb_true_iff].
    exists (String c ""), s. split_and!; [done|by constructor|by apply lang_star_class_iff].
Qed.

(** The texts the pattern accepts. *)
Lemma IsNotFoundErr_spec err :
  IsNotFoundErr err = true <->
  exists w1 k w2 c, error_text err = "key" ++ w1 ++ k ++ w2 ++ "not" ++ String c "found" /\
    (w1 <> "" /\ all_bytes is_space w1 = true) /\
    (k <> "" /\ all_bytes (fun c => negb (is_space c)) k = true) /\
    (w2 <> "" /\ all_bytes is_space w2 = true) /\ is_space c = true.
Proof.
  unfold IsNotFoundErr, not_found_pattern. rewrite re_match_lang. split.
  - intros (? & ? & E & ->%lang_string_iff &
      (w1 & ? & -> & H1%lang_plus_class_iff &
      (k & ? & -> & H2%lang_plus_class_iff &
      (w2 & ? & -> & H3%lang_plus_class_iff &
      (? & ? & -> & ->%lang_string_iff &
      (? & ? & -> & (c & -> & Hc)%lang_class_iff & ->%lang_string_iff)
        %lang_seq_iff)%lang_seq_iff)%lang_seq_iff)%lang_seq_iff)%lang_seq_iff)%lang_seq_iff.
    exists w1, k, w2, c. done.
  - intros (w1 & k & w2 & c & -> & H1 & H2 & H3 & H4).
    do 4 (constructor; [first [by apply lang_string_iff | by apply lang_plus_class_iff]|]).
    constructor; [by apply lang_string_iff|].
    change (String c "found") with (String c "" ++ "found").
    constructor; [by constructor|by apply lang_string_iff].
Qed.

(** On the store's own error. *)
Lemma IsNotFoundErr_key key :
  IsNotFoundErr (NotFoundError key) = true <->
  exists l k r, key = l ++ k ++ r /\
    all_bytes is_space l = true /\ all_bytes is_space r = true /\
    k <> "" /\ all_bytes (fun c => negb (is_space c)) k = true.
Proof.
  rewrite IsNotFoundErr_spec.
  assert (Ht : error_text (NotFoundError key) = "key" ++ (String " " key) ++ String " " "not found").
  { reflexivity. }
  rewrite Ht. split.
  - intros (w1 & k & w2 & c & E%string_app_inj_l & [Hw1 Hs1] & [Hk Hns] & [Hw2 Hs2] & Hc).
    destruct w1 as [|x w1]; [done|].
    destruct (string_snoc w2 Hw2) as (r & d & ->).
    rewrite !string_app_cons in E. injection E as <- E.
    assert (key = w1 ++ k ++ r /\ d = " "%char) as [-> ->].
    { assert (E2 : (((key ++ " ") ++ "not") ++ " ") ++ "found"
                 = ((((w1 ++ k ++ r) ++ String d "") ++ "not") ++ String c "") ++ "found").
      { rewrite !string_app_assoc. rewrite !string_app_assoc in E. exact E. }
      apply string_app_inj_r, last_byte_app in E2 as [E2 _].
      apply string_app_inj_r, last_byte_app in E2 as [-> <-]. done. }
    exists w1, k, r. apply andb_true_iff in Hs1 as [_ Hs1].
    rewrite all_bytes_app, andb_true_iff in Hs2. destruct Hs2. done.
  - intros (l & k & r & -> & Hl & Hr & Hk & Hns).
    exists (String " " l), k, (r ++ " "), " "%char. split_and!; try done.
    + by rewrite !string_app_cons, !string_app_assoc.
    + by destruct r.
    + by rewrite all_bytes_app, Hr.
Qed.

Lemma IsNotFoundErr_plain key :
  key <> "" -> all_bytes (fun c => negb (is_space c)) key = true ->
  IsNotFoundErr (NotFoundError key) = true.
Proof.
  intros Hk Hns. apply IsNotFoundErr_key. exists "", key, "". by rewrite string_app_nil_r.
Qed.

(** A key with white space between two other bytes. *)
Lemma IsNotFoundErr_inner_space x a sp b y :
  is_space x = false -> is_space sp = true -> is_space y = false ->
  IsNotFoundErr (NotFoundError (String x a ++ String sp b ++ String y "")) = false.
Proof.
  intros Hx Hsp Hy. apply not_true_iff_false. intros (l & k & r & E & Hl & Hr & Hk & Hns)%IsNotFoundErr_key.
  destruct l as [|c l].
  - destruct (decide (r = "")) as [->|Hne].
    + rewrite string_app_nil, string_app_nil_r in E. rewrite <- E in Hns.
      rewrite all_bytes_app in Hns. rewrite string_app_cons in Hns. simpl in Hns.
      rewrite Hsp in Hns. simpl in Hns. by rewrite andb_false_r in Hns.
    + destruct (string_snoc r Hne) as (r' & d & ->).
      assert (E2 : (String x a ++ String sp b) ++ String y "" = (k ++ r') ++ String d "").
      { rewrite !string_app_assoc. exact E. }
      apply last_byte_app in E2 as [_ <-]. rewrite all_bytes_app in Hr. simpl in Hr.
      by rewrite Hy, andb_false_r in Hr.
  - rewrite !string_app_cons in E. injection E as <- _. simpl in Hl. by rewrite Hx in Hl.
Qed.

(** The error the transaction makes of a missing configuration. *)
Lemma IsNotFoundErr_nested key :
  IsNotFoundErr (NotFoundError (error_text (NotFoundError key))) = false.
Proof.
  assert (error_text (NotFoundError key) =
    String "k" "ey" ++ String " " (key ++ " not foun") ++ String "d" "") as ->.
  { change (error_text (NotFoundError key)) with ("key " ++ key ++ " not found").
    by rewrite !string_app_cons, !string_app_assoc. }
  by apply IsNotFoundErr_inner_space.
Qed.

(** ** Properties *)

(** What the listener's test for "not found" answers on the store's own
    error: it holds exactly when the key, up to white space around it, is not
    empty and has no white space inside; so it misses keys that contain a
    space. *)
Theorem IsNotFoundErr_NotFoundError key :
  IsNotFoundErr (NotFoundError key) = true <->
  exists l k r, key = l ++ k ++ r /\
    all_bytes is_space l = true /\ all_bytes is_space r = true /\
    k <> "" /\ all_bytes (fun c => negb (is_space c)) k = true.
Proof. exact (IsNotFoundErr_key key). Qed.
