(* ===== verification/Redis.v ===== *)
(** * The Redis client the store calls

    The client ([go-redis]) and the server are not part of the repository.
    Here is what the store relies on: the commands it sends, the documented
    effect of each on the keyspace, and the two laws a client obeys.  The
    values are opaque byte strings of a type [B].

    [MemRedis], at the end, is a client that obeys them, with a script of
    faults; the examples of the library run on it. *)

From Stdlib Require Import ZArith Ascii.
From stdpp Require Import base tactics strings list gmap sets.
From S2P Require Import Prelude GoLib Proto.

(** ** Replies, values, commands *)

(** [RTimeout]: an error while the deadline of the context has passed;
    [RError]: any other error.  [RNil] is [redis.Nil], [RTxFailed] is
    [redis.TxFailedErr]. *)
Inductive reply (A : Type) :=
| ROk (a : A)
| RNil
| RTxFailed
| RTimeout (msg : string)
| RError (msg : string).
Arguments ROk {A} a.
Arguments RNil {A}.
Arguments RTxFailed {A}.
Arguments RTimeout {A} msg.
Arguments RError {A} msg.

Inductive rval (B : Type) :=
| RString (b : B)
| RSet (s : gset string).
Arguments RString {B} b.
Arguments RSet {B} s.

(** [CExec] is the [MULTI .. EXEC] of a pipeline of [SET] commands on the
    connection that watches; [CUnwatch] ends the watch. *)
Inductive command (B : Type) : Type -> Type :=
| CGet (k : string) : command B B
| CSet (k : string) (b : B) (ttl : Z) : command B unit
| CExists (k : string) : command B Z
| CSAdd (k m : string) : command B Z
| CSRem (k m : string) : command B Z
| CSMembers (k : string) : command B (list string)
| CPing : command B string
| CWatch (k : string) : command B unit
| CExec (sets : list (string * B)) : command B unit
| CUnwatch : command B unit.
Arguments CGet {B} k.
Arguments CSet {B} k b ttl.
Arguments CExists {B} k.
Arguments CSAdd {B} k m.
Arguments CSRem {B} k m.
Arguments CSMembers {B} k.
Arguments CPing {B}.
Arguments CWatch {B} k.
Arguments CExec {B} sets.
Arguments CUnwatch {B}.

(** The keyspace, and the key watched by the current transaction with a flag
    that tells whether it was modified since. *)
Record rview (B : Type) := mkView {
  contents : gmap string (rval B);
  watching : option (string * bool) }.
Arguments mkView {B} contents watching.
Arguments contents {B} r.
Arguments watching {B} r.

Section semantics.
Context {B : Type}.
Implicit Types (v : rview B) (k m : string) (b : B).

(** A write to [k] marks a watch on [k]. *)
Definition touch k (w : option (string * bool)) : option (string * bool) :=
  match w with
  | Some (k', d) => Some (k', d || (k =s k'))
  | None => None
  end.

Definition write k (x : rval B) v : rview B :=
  mkView (<[k := x]> (contents v)) (touch k (watching v)).

Definition set_at k v : option (gset string) :=
  match contents v !! k with
  | None => Some ∅
  | Some (RSet s) => Some s
  | Some (RString _) => None
  end.

(** An empty set is no key at all. *)
Definition write_set k (s : gset string) v : rview B :=
  if decide (s = ∅) then mkView (delete k (contents v)) (touch k (watching v))
  else write k (RSet s) v.

Definition exec_sets (sets : list (string * B)) (c : gmap string (rval B))
    : gmap string (rval B) :=
  foldl (fun c p => <[fst p := RString (snd p)]> c) c sets.

Definition is_error {A} (r : reply A) : Prop :=
  match r with RError _ => True | _ => False end.

(** What a command may answer and do when the server is reachable.  The order
    of the members of a set is not specified, and nothing is promised about a
    value stored with a time to live. *)
Definition redis_ok {A} (c : command B A) v (r : reply A) v' : Prop :=
  match c in command _ A return reply A -> Prop with
  | CGet k => fun r => v' = v /\
      match contents v !! k with
      | Some (RString b) => r = ROk b
      | Some (RSet _) => is_error r
      | None => r = RNil
      end
  | CSet k b ttl => fun r => ttl = 0 -> r = ROk tt /\ v' = write k (RString b) v
  | CExists k => fun r => v' = v /\
      r = ROk (match contents v !! k with Some _ => 1 | None => 0 end)
  | CSAdd k m => fun r =>
      match set_at k v with
      | Some s => r = ROk (if decide (m ∈ s) then 0 else 1) /\
                  v' = (if decide (m ∈ s) then v else write_set k ({[m]} ∪ s) v)
      | None => is_error r /\ v' = v
      end
  | CSRem k m => fun r =>
      match set_at k v with
      | Some s => r = ROk (if decide (m ∈ s) then 1 else 0) /\
                  v' = (if decide (m ∈ s) then write_set k (s ∖ {[m]}) v else v)
      | None => is_error r /\ v' = v
      end
  | CSMembers k => fun r => v' = v /\
      match set_at k v with
      | Some s => exists l, r = ROk l /\ l ≡ₚ elements s
      | None => is_error r
      end
  | CPing => fun r => r = ROk "PONG" /\ v' = v
  | CWatch k => fun r => r = ROk tt /\ v' = mkView (contents v) (Some (k, false))
  | CExec sets => fun r =>
      match watching v with
      | Some (_, true) => r = RTxFailed /\ v' = mkView (contents v) None
      | _ => r = ROk tt /\ v' = mkView (exec_sets sets (contents v)) None
      end
  | CUnwatch => fun r => r = ROk tt /\ v' = mkView (contents v) None
  end r.

(** A command that failed to answer may or may not have been executed. *)
Definition redis_fault {A} (c : command B A) v (r : reply A) v' : Prop :=
  match r with RTimeout _ | RError _ => True | _ => False end /\
  (v' = v \/ exists r', redis_ok c v r' v').

End semantics.

Class RedisClient (B W : Type) := {
  do_cmd : forall {A}, context -> command B A -> W -> reply A * W }.

(** The laws of a client whose database no one else writes: each command is
    carried out as documented, or fails; while the world is [healthy] none
    fails, and it stays healthy. *)
Class RedisLaws (B W : Type) `{!GoEnv W, !RedisClient B W} := {
  view : W -> rview B;
  healthy : W -> Prop;
  do_cmd_spec : forall A c (cmd : command B A) w r w',
    do_cmd c cmd w = (r, w') ->
    redis_ok cmd (view w) r (view w') \/ redis_fault cmd (view w) r (view w');
  do_cmd_healthy : forall A c (cmd : command B A) w r w',
    healthy w -> do_cmd c cmd w = (r, w') ->
    redis_ok cmd (view w) r (view w') /\ healthy w';
  sleep_view : forall d w, view (time_Sleep d w) = view w;
  sleep_healthy : forall d w, healthy w -> healthy (time_Sleep d w);
  rand_view : forall n w, view (snd (rand_Intn n w)) = view w;
  rand_healthy : forall n w, healthy w -> healthy (snd (rand_Intn n w)) }.

(** ** A client in memory *)

(** A fault on a command: an error or a timeout, after the command was carried
    out or not. *)
Inductive fault :=
| NoFault
| Fault (timeout applied : bool).

Record MemRedis (B : Type) := mkMem {
  mem_view : rview B;
  mem_faults : list fault;   (** for the next commands; none after the end *)
  mem_calls : list string;   (** the commands received, latest first *)
  mem_clock : Z;             (** milliseconds slept *)
  mem_uuids : nat }.         (** identifiers handed out *)
Arguments mkMem {B}.
Arguments mem_view {B} m.
Arguments mem_faults {B} m.
Arguments mem_calls {B} m.
Arguments mem_clock {B} m.
Arguments mem_uuids {B} m.

Section mem.
Context {B : Type}.

Definition mem_run {A} (c : command B A) (v : rview B) : reply A * rview B :=
  match c in command _ A return reply A * rview B with
  | CGet k =>
      (match contents v !! k with
       | Some (RString b) => ROk b
       | Some (RSet _) => RError "WRONGTYPE"
       | None => RNil
       end, v)
  | CSet k b ttl => (ROk tt, write k (RString b) v)
  | CExists k => (ROk (match contents v !! k with Some _ => 1 | None => 0 end), v)
  | CSAdd k m =>
      match set_at k v with
      | Some s => (ROk (if decide (m ∈ s) then 0 else 1),
                   if decide (m ∈ s) then v else write_set k ({[m]} ∪ s) v)
      | None => (RError "WRONGTYPE", v)
      end
  | CSRem k m =>
      match set_at k v with
      | Some s => (ROk (if decide (m ∈ s) then 1 else 0),
                   if decide (m ∈ s) then write_set k (s ∖ {[m]}) v else v)
      | None => (RError "WRONGTYPE", v)
      end
  | CSMembers k =>
      (match set_at k v with
       | Some s => ROk (elements s)
       | None => RError "WRONGTYPE"
       end, v)
  | CPing => (ROk "PONG", v)
  | CWatch k => (ROk tt, mkView (contents v) (Some (k, false)))
  | CExec sets =>
      match watching v with
      | Some (_, true) => (RTxFailed, mkView (contents v) None)
      | _ => (ROk tt, mkView (exec_sets sets (contents v)) None)
      end
  | CUnwatch => (ROk tt, mkView (contents v) None)
  end.

Definition command_name {A} (c : command B A) : string :=
  match c with
  | CGet k => "GET " ++ k
  | CSet k _ _ => "SET " ++ k
  | CExists k => "EXISTS " ++ k
  | CSAdd k m => "SADD " ++ k ++ " " ++ m
  | CSRem k m => "SREM " ++ k ++ " " ++ m
  | CSMembers k => "SMEMBERS " ++ k
  | CPing => "PING"
  | CWatch k => "WATCH " ++ k
  | CExec _ => "EXEC"
  | CUnwatch => "UNWATCH"
  end.

Definition mem_cmd {A} (ctx : context) (c : command B A) (w : MemRedis B)
    : reply A * MemRedis B :=
  let f := hd NoFault (mem_faults w) in
  let rv := mem_run c (mem_view w) in
  let after v := mkMem v (tl (mem_faults w)) (command_name c :: mem_calls w)
                       (mem_clock w) (mem_uuids w) in
  match f with
  | NoFault => (fst rv, after (snd rv))
  | Fault timeout applied =>
      (if timeout then RTimeout "i/o timeout" else RError "connection reset",
       after (if applied then snd rv else mem_view w))
  end.

#[export] Instance mem_client : RedisClient B (MemRedis B) := {
  do_cmd A := mem_cmd }.

#[export] Instance mem_env : GoEnv (MemRedis B) := {
  rand_Intn n w := ((n - 1) `max` 0, w);
  time_Sleep d w := mkMem (mem_view w) (mem_faults w) (mem_calls w)
                          (mem_clock w + d) (mem_uuids w);
  uuid_NewString w :=
    (test_uuid (mem_uuids w),
     mkMem (mem_view w) (mem_faults w) (mem_calls w) (mem_clock w) (S (mem_uuids w)));
  timestamppb_Now w := (mem_clock w, w) }.

#[export] Instance mem_env_laws : GoEnvLaws (MemRedis B).
Proof. split; [simpl; intros; lia|done|intros w; apply test_uuid_utf8]. Qed.

Definition mem_ok (w : MemRedis B) : Prop := Forall (fun f => f = NoFault) (mem_faults w).

Lemma mem_run_ok {A} (c : command B A) v : redis_ok c v (fst (mem_run c v)) (snd (mem_run c v)).
Proof.
  destruct c; simpl; try done; try (split; [done|]).
  - by destruct (contents v !! k) as [[]|].
  - by destruct (set_at k v).
  - by destruct (set_at k v).
  - destruct (set_at k v); [eauto|done].
  - by destruct (watching v) as [[? []]|].
Qed.

#[export] Instance mem_laws : RedisLaws B (MemRedis B).
Proof.
  refine {| view := mem_view; healthy := mem_ok |}; try done.
  - intros A c cmd w r w'. simpl. unfold mem_cmd.
    pose proof (mem_run_ok cmd (mem_view w)) as Hok.
    destruct (hd NoFault (mem_faults w)) as [|t a].
    + intros [= <- <-]. left. done.
    + intros [= <- <-]. right. split; [by destruct t|]. destruct a; [right; eauto|by left].
  - intros A c cmd w r w' Hh. simpl. unfold mem_cmd, mem_ok in *.
    pose proof (mem_run_ok cmd (mem_view w)) as Hok.
    destruct (mem_faults w) as [|f fs]; simpl.
    + intros [= <- <-]. done.
    + inversion Hh; subst. intros [= <- <-]. done.
Defined.

Definition mem_empty : MemRedis B := mkMem (mkView ∅ None) [] [] 0 0.

End mem.

(** ** A serialization for the examples: the message itself *)
Inductive wire :=
| WConfiguration (c : Configuration)
| WFsm (f : FiniteStateMachine)
| WEvent (e : Event)
| WOutcome (o : EventOutcome).

Definition wrong_wire : error := Errorf "proto: cannot parse invalid wire-format data".

#[export] Instance wire_configuration : ProtoMessage wire Configuration := {
  Marshal c := Ok (WConfiguration c);
  Unmarshal b := match b with WConfiguration c => Ok c | _ => Fail wrong_wire end }.
#[export] Instance wire_fsm : ProtoMessage wire FiniteStateMachine := {
  Marshal f := Ok (WFsm f);
  Unmarshal b := match b with WFsm f => Ok f | _ => Fail wrong_wire end }.
#[export] Instance wire_event : ProtoMessage wire Event := {
  Marshal e := Ok (WEvent e);
  Unmarshal b := match b with WEvent e => Ok e | _ => Fail wrong_wire end }.
#[export] Instance wire_outcome : ProtoMessage wire EventOutcome := {
  Marshal o := Ok (WOutcome o);
  Unmarshal b := match b with WOutcome o => Ok o | _ => Fail wrong_wire end }.

#[export] Instance wire_configuration_laws : ProtoLaws wire Configuration.
Proof. split. by intros v b [= <-]. Qed.
#[export] Instance wire_fsm_laws : ProtoLaws wire FiniteStateMachine.
Proof. split. by intros v b [= <-]. Qed.
#[export] Instance wire_event_laws : ProtoLaws wire Event.
Proof. split. by intros v b [= <-]. Qed.
#[export] Instance wire_outcome_laws : ProtoLaws wire EventOutcome.
Proof. split. by intros v b [= <-]. Qed.

#[export] Instance wire_configuration_total : ProtoTotal wire Configuration.
Proof. by split. Qed.
#[export] Instance wire_fsm_total : ProtoTotal wire FiniteStateMachine.
Proof. by split. Qed.
#[export] Instance wire_event_total : ProtoTotal wire Event.
Proof. by split. Qed.
#[export] Instance wire_outcome_total : ProtoTotal wire EventOutcome.
Proof. by split. Qed.

