(* ===== verification/RedisStore.v ===== *)
(** * The store on Redis: [pkg/storage/redis_store.go]

    Every operation of [RedisStore], over any Redis client and any
    serialization of the four stored messages. *)

From Stdlib Require Import ZArith Ascii.
From stdpp Require Import base tactics strings list gmap sets.
From S2P Require Import Prelude GoLib Proto Fsm Keys StoreTypes Redis.

(** ** Definitions *)

Definition NeverExpire : Z := 0.
Definition DefaultRedisDb : Z := 0.
Definition DefaultMaxRetries : Z := 3.
(** Nanoseconds. *)
Definition DefaultTimeout : Z := 200 * Millisecond.

(** The struct; [client] is the world the Redis client acts on. *)
Record RedisStore (W : Type) := mkStore {
  client : W;
  Timeout : Z;
  MaxRetries : Z }.
Arguments mkStore {W}.
Arguments client {W} r.
Arguments Timeout {W} r.
Arguments MaxRetries {W} r.

Definition with_client {W} (csm : RedisStore W) (w : W) : RedisStore W :=
  mkStore w (Timeout csm) (MaxRetries csm).

Section redis_store.
Context {B W : Type} `{!GoEnv W, !RedisClient B W}.
Context `{!ProtoMessage B Configuration, !ProtoMessage B FiniteStateMachine,
          !ProtoMessage B Event, !ProtoMessage B EventOutcome}.

(** The most iterations of a retry loop that are looked at. *)
Variable fuel : nat.

Abbreviation M := (Go (RedisStore W)).

Definition redis {A} (ctx : context) (cmd : command B A) : M (reply A) := fun csm =>
  let (r, w') := do_cmd ctx cmd (client csm) in (Done r, with_client csm w').

Definition wait : M () := fun csm =>
  let (waitForMsec, w') := rand_Intn 500 (client csm) in
  (Done tt, with_client csm (time_Sleep (waitForMsec * Millisecond) w')).

Definition err_of {A} (r : Res A) : option StoreErr :=
  match r with Ok _ => None | Fail e => Some e end.

(** *** Internal methods *)

Fixpoint get_loop (T : Type) `{!ProtoMessage B T} (n : nat) (attemptsLeft : Z) (key : string)
    : M (Res T) :=
  match n with
  | O => go_spin
  | S n' =>
      timeout ← go_gets Timeout;
      let attemptsLeft := int_wrap (attemptsLeft - 1) in
      cmd ← redis (WithTimeout timeout) (CGet key);
      match cmd with
      | RNil => mret (Fail (NotFoundError key))
      | RTimeout err =>
          if attemptsLeft =s 0 then mret (Fail (Errorf err))
          else (wait;; get_loop T n' attemptsLeft key)
      | RError err => mret (Fail (GenericStoreError err))
      | RTxFailed => mret (Fail (GenericStoreError (error_text RedisTxFailedErr)))
      | ROk data => mret (Unmarshal data)
      end
  end.

Definition get (T : Type) `{!ProtoMessage B T} (key : string) : M (Res T) :=
  attemptsLeft ← go_gets MaxRetries;
  get_loop T fuel attemptsLeft key.

Fixpoint put_loop {T : Type} `{!ProtoMessage B T} (n : nat) (attemptsLeft : Z) (key : string)
    (value : T) (ttl : Z) : M (option StoreErr) :=
  match n with
  | O => go_spin
  | S n' =>
      timeout ← go_gets Timeout;
      let attemptsLeft := int_wrap (attemptsLeft - 1) in
      match Marshal value with
      | Fail err => mret (Some (InvalidDataError (error_text err)))
      | Ok data =>
          cmd ← redis (WithTimeout timeout) (CSet key data ttl);
          match cmd with
          | RTimeout err =>
              if attemptsLeft =s 0 then mret (Some (TooManyAttempts ""))
              else (wait;; put_loop n' attemptsLeft key value ttl)
          | RError err => mret (Some (GenericStoreError err))
          | RNil => mret (Some (GenericStoreError (error_text RedisNil)))
          | RTxFailed => mret (Some (GenericStoreError (error_text RedisTxFailedErr)))
          | ROk _ => mret None
          end
      end
  end.

Definition put {T : Type} `{!ProtoMessage B T} (key : string) (value : T) (ttl : Z)
    : M (option StoreErr) :=
  attemptsLeft ← go_gets MaxRetries;
  put_loop fuel attemptsLeft key value ttl.

(** [cmd.Val()]: the zero value when the command failed. *)
Definition Val (r : reply Z) : Z := match r with ROk n => n | _ => 0 end.

(** [cmd.Err()], as a text. *)
Definition Err {A} (r : reply A) : option string :=
  match r with
  | ROk _ => None
  | RNil => Some (error_text RedisNil)
  | RTxFailed => Some (error_text RedisTxFailedErr)
  | RTimeout err | RError err => Some err
  end.

(** *** StoreManager *)

Definition rs_Health : M (option StoreErr) :=
  timeout ← go_gets Timeout;
  r ← redis (WithTimeout timeout) CPing;
  match Err r with
  | Some err => mret (Some (GenericStoreError err))
  | None => mret None
  end.

Definition rs_SetTimeout (duration : Z) : M () := fun csm =>
  (Done tt, mkStore (client csm) duration (MaxRetries csm)).

Definition rs_GetTimeout : M Z := go_gets Timeout.

(** *** ConfigStore *)

Definition rs_GetConfig (id : string) : M (Res Configuration) :=
  get Configuration (NewKeyForConfig id).

Definition rs_PutConfig (cfg : option Configuration) : M (option StoreErr) :=
  match cfg with
  | None => mret (Some (InvalidDataError "nil config"))
  | Some cfg =>
      let key := NewKeyForConfig (GetVersionId cfg) in
      r ← redis Background (CExists key);
      if Val r =s 1 then mret (Some (AlreadyExistsError key))
      else
        redis Background (CSAdd ConfigsPrefix (cfg_Name cfg));;
        redis Background (CSAdd (NewKeyForConfig (cfg_Name cfg)) (GetVersionId cfg));;
        put key cfg NeverExpire
  end.

Definition members (r : reply (list string)) : list string :=
  match r with ROk l => l | _ => [] end.

Definition rs_GetAllConfigs : M (list string) :=
  r ← redis Background (CSMembers ConfigsPrefix); mret (members r).

Definition rs_GetAllVersions (name : string) : M (list string) :=
  r ← redis Background (CSMembers (NewKeyForConfig name)); mret (members r).

(** *** FSMStore *)

Definition rs_GetStateMachine (id cfg : string) : M (Res FiniteStateMachine) :=
  get FiniteStateMachine (NewKeyForMachine id cfg).

Definition rs_PutStateMachine (id : string) (stateMachine : option FiniteStateMachine)
    : M (option StoreErr) :=
  match stateMachine with
  | None => mret (Some (InvalidDataError "nil statemachine"))
  | Some f =>
      let configName := hd "" (Split (fsm_ConfigId f) ":"%char) in
      put (NewKeyForMachine id configName) f NeverExpire
  end.

Definition rs_GetAllInState (cfg state : string) : M (list string) :=
  r ← redis Background (CSMembers (NewKeyForMachinesByState cfg state)); mret (members r).

Definition rs_UpdateState (cfgName id oldState newState : string) : M (option StoreErr) :=
  err ← (if oldState =s "" then mret None
         else r ← redis Background (CSRem (NewKeyForMachinesByState cfgName oldState) id);
              mret (Err r));
  match err with
  | Some err =>
      mret (Some (Errorf (Sprintf "cannot remove FSM [%s#%s] from state set `%s`: %s"
                            [cfgName; id; oldState; err])))
  | None =>
      err ← (if newState =s "" then mret None
             else r ← redis Background (CSAdd (NewKeyForMachinesByState cfgName newState) id);
                  mret (Err r));
      match err with
      | Some err =>
          mret (Some (Errorf (Sprintf "cannot add FSM [%s#%s] to state set `%s`: %s"
                                [cfgName; id; newState; err])))
      | None => mret None
      end
  end.

(** The function given to [tx.TxPipelined]: it queues the [SET] of the machine
    (which cannot fail before the pipeline is sent) and updates the state
    sets, on a connection of its own, at once.  An error discards the queue. *)
Definition tx_pipeline (id cfgName oldState : string) (fsm : FiniteStateMachine)
    : M (Res (list (string * B))) :=
  match Marshal fsm with
  | Fail err => mret (Fail (InvalidDataError (error_text err)))
  | Ok data =>
      let queue := [(NewKeyForMachine id cfgName, data)] in
      err ← rs_UpdateState cfgName id oldState (fsm_State fsm);
      match err with
      | Some err => mret (Fail err)
      | None => mret (Ok queue)
      end
  end.

Definition exec_err (r : reply unit) : option error :=
  match r with
  | ROk _ => None
  | RTxFailed => Some RedisTxFailedErr
  | RNil => Some RedisNil
  | RTimeout err | RError err => Some (Errorf err)
  end.

(** The body [txf] of the transaction. *)
Definition txf (id cfgName : string) (evt : option Event) (ctx : context) : M (option error) :=
  r ← rs_GetStateMachine id cfgName;
  match r with
  | Fail err => mret (Some (NotFoundError (NewKeyForMachine id cfgName)))
  | Ok fsm =>
      r ← rs_GetConfig (fsm_ConfigId fsm);
      match r with
      | Fail err => mret (Some (NotFoundError (error_text err)))
      | Ok cfg =>
          let oldState := fsm_State fsm in
          r ← go_lift (SendEvent (mkCSM cfg fsm) evt);
          match r with
          | (Some err, _) => mret (Some err)
          | (None, x) =>
              q ← tx_pipeline id cfgName oldState (csm_FSM x);
              match q with
              | Fail err => mret (Some err)
              | Ok queue => r ← redis ctx (CExec queue); mret (exec_err r)
              end
          end
      end
  end.

(** [client.Watch(ctx, txf, key)]: watch the key, run the function, close the
    transaction. *)
Definition Watch (ctx : context) (body : M (option error)) (key : string) : M (option error) :=
  r ← redis ctx (CWatch key);
  match exec_err r with
  | Some err => mret (Some err)
  | None =>
      err ← body;
      redis ctx CUnwatch;;
      mret err
  end.

(** The [for i := 0; i < DefaultMaxRetries; i++] loop, with [n] rounds left. *)
Fixpoint TxProcessEvent_loop (n : nat) (ctx : context) (id cfgName : string)
    (evt : option Event) : M (option StoreErr) :=
  match n with
  | O => mret (Some (TooManyAttempts ""))
  | S n' =>
      let key := NewKeyForMachine id cfgName in
      err ← Watch ctx (txf id cfgName evt ctx) key;
      if err =s Some RedisTxFailedErr then TxProcessEvent_loop n' ctx id cfgName evt
      else mret err
  end.

Definition rs_TxProcessEvent (id cfgName : string) (evt : option Event) : M (option StoreErr) :=
  let ctx := WithTimeout DefaultTimeout in
  TxProcessEvent_loop (Z.to_nat DefaultMaxRetries) ctx id cfgName evt.

(** *** EventStore *)

Definition rs_GetEvent (id cfg : string) : M (Res Event) :=
  get Event (NewKeyForEvent id cfg).

Definition rs_PutEvent (event : option Event) (cfg : string) (ttl : Z) : M (option StoreErr) :=
  match event with
  | None => mret (Some (InvalidDataError "nil event"))
  | Some event => put (NewKeyForEvent (evt_EventId event) cfg) event ttl
  end.

Definition rs_AddEventOutcome (id cfg : string) (response : option EventOutcome) (ttl : Z)
    : M (option StoreErr) :=
  match response with
  | None => mret (Some (InvalidDataError "nil response"))
  | Some response => put (NewKeyForOutcome id cfg) response ttl
  end.

Definition rs_GetOutcomeForEvent (id cfg : string) : M (Res EventOutcome) :=
  get EventOutcome (NewKeyForOutcome id cfg).

Definition redis_store_manager : StoreManager (RedisStore W) := {|
  GetConfig := rs_GetConfig;
  PutConfig := rs_PutConfig;
  GetAllConfigs := rs_GetAllConfigs;
  GetAllVersions := rs_GetAllVersions;
  GetStateMachine := rs_GetStateMachine;
  PutStateMachine := rs_PutStateMachine;
  GetAllInState := rs_GetAllInState;
  UpdateState := rs_UpdateState;
  TxProcessEvent := rs_TxProcessEvent;
  GetEvent := rs_GetEvent;
  PutEvent := rs_PutEvent;
  AddEventOutcome := rs_AddEventOutcome;
  GetOutcomeForEvent := rs_GetOutcomeForEvent;
  SetTimeout := rs_SetTimeout;
  GetTimeout := rs_GetTimeout;
  Health := rs_Health |}.

End redis_store.

(** *** Construction *)

(** What [redis.NewClusterClient] and [redis.NewClient] are given: whether the
    connection uses TLS (from version 1.2 on), where to connect, and for a
    single node the database. *)
Inductive redis_options :=
| ClusterOptions (tls : bool) (Addrs : list string)
| NodeOptions (tls : bool) (Addr : string) (DB : Z).

(** [os_Getenv] is the environment of the process, [connect] what go-redis makes
    of the options; no command is sent. *)
Definition NewRedisStore {W} (os_Getenv : string -> string) (connect : redis_options -> W)
    (address : string) (isCluster : bool) (db timeout maxRetries : Z) : RedisStore W :=
  let tls := negb (os_Getenv "REDIS_TLS" =s "") in
  let client :=
    if isCluster then connect (ClusterOptions tls (Split address ","%char))
    else connect (NodeOptions tls address db) in
  mkStore client timeout maxRetries.

Definition NewRedisStoreWithDefaults {W} (os_Getenv : string -> string)
    (connect : redis_options -> W) (address : string) : RedisStore W :=
  NewRedisStore os_Getenv connect address false DefaultRedisDb DefaultTimeout DefaultMaxRetries.

(** ** Termination *)

Section termination.
Context {B W : Type} `{!GoEnv W, !RedisClient B W}.
Context `{!ProtoMessage B Configuration, !ProtoMessage B FiniteStateMachine,
          !ProtoMessage B Event, !ProtoMessage B EventOutcome}.

(** [returns m]: from any store whose retry count is positive and covered by
    the fuel, [m] does not run out of fuel, whatever the client answers, and
    leaves the settings alone. *)
Definition settings_ok (fuel : nat) (csm : RedisStore W) : Prop :=
  1 <= MaxRetries csm < 2 ^ 63 /\ (Z.to_nat (MaxRetries csm) <= fuel)%nat.

Definition returns (fuel : nat) {A} (m : Go (RedisStore W) A) : Prop :=
  forall csm, settings_ok fuel csm -> fst (m csm) <> Spin /\ settings_ok fuel (snd (m csm)).

Context (fuel : nat).

Lemma returns_ret {A} (a : A) : returns fuel (mret a).
Proof. by intros csm H. Qed.

Lemma returns_gets {A} (f : RedisStore W -> A) : returns fuel (go_gets f).
Proof. by intros csm H. Qed.

Lemma returns_lift {A} (r : result A) : r <> Spin -> returns fuel (go_lift r).
Proof. by intros Hr csm H. Qed.

Lemma returns_redis {A} ctx (cmd : command B A) : returns fuel (redis ctx cmd).
Proof. intros csm H. unfold redis. by destruct (do_cmd ctx cmd (client csm)). Qed.

Lemma returns_wait : returns fuel (@wait W _).
Proof. intros csm H. unfold wait. by destruct (rand_Intn 500 (client csm)). Qed.

Lemma returns_bind {A C} (m : Go (RedisStore W) A) (k : A -> Go (RedisStore W) C) :
  returns fuel m -> (forall a, returns fuel (k a)) -> returns fuel (m ≫= k).
Proof.
  intros Hm Hk csm H. destruct (Hm csm H) as [Hs Hok]. unfold mbind, go_bind.
  destruct (m csm) as [[a| |] csm']; simpl in *; [by apply Hk|done|done].
Qed.

Hint Resolve returns_ret returns_gets returns_redis returns_wait : returns.

Ltac go_returns :=
  repeat match goal with
  | |- returns _ (_ ≫= _) => apply returns_bind; [| intros ?]
  | |- returns _ (if ?b then _ else _) => destruct b eqn:?
  | |- returns _ (match ?x with _ => _ end) => destruct x eqn:?
  | |- _ => solve [eauto with returns]
  end.

(** The countdown reaches 0 before the fuel does. *)
Lemma get_loop_returns T `{!ProtoMessage B T} n left key :
  1 <= left < 2 ^ 63 -> (Z.to_nat left <= n)%nat -> returns fuel (get_loop T n left key).
Proof.
  revert left. induction n as [|n IH]; intros left Hl Hn; [lia|]. cbn [get_loop].
  rewrite int_wrap_small by lia. go_returns.
  apply IH; repeat match goal with H : (_ =s _) = false |- _ => apply bool_decide_eq_false in H end; lia.
Qed.

Lemma put_loop_returns {T} `{!ProtoMessage B T} n left key (value : T) ttl :
  1 <= left < 2 ^ 63 -> (Z.to_nat left <= n)%nat -> returns fuel (put_loop n left key value ttl).
Proof.
  revert left. induction n as [|n IH]; intros left Hl Hn; [lia|]. cbn [put_loop].
  rewrite int_wrap_small by lia. go_returns.
  apply IH; repeat match goal with H : (_ =s _) = false |- _ => apply bool_decide_eq_false in H end; lia.
Qed.

Lemma get_returns T `{!ProtoMessage B T} key : returns fuel (get fuel T key).
Proof. intros csm H. by apply get_loop_returns; destruct H. Qed.

Lemma put_returns {T} `{!ProtoMessage B T} key (value : T) ttl :
  returns fuel (put fuel key value ttl).
Proof. intros csm H. by apply put_loop_returns; destruct H. Qed.

Hint Resolve get_returns put_returns : returns.

Lemma UpdateState_returns c id o n : returns fuel (rs_UpdateState c id o n).
Proof. unfold rs_UpdateState. go_returns. Qed.

Hint Resolve UpdateState_returns : returns.

Lemma tx_pipeline_returns id c o f : returns fuel (tx_pipeline id c o f).
Proof. unfold tx_pipeline. cbv zeta. go_returns. Qed.

Lemma SendEvent_no_spin x evt : SendEvent x evt <> Spin.
Proof.
  unfold SendEvent. enough (forall ts f, SendEvent_loop ts f evt <> Spin) as H.
  { specialize (H (cfg_Transitions (csm_Config x)) (csm_FSM x)).
    by destruct (SendEvent_loop _ _ _). }
  induction ts as [|t ts IH]; intros f; [done|]. cbn -[mbind].
  destruct (tr_From t =s fsm_State f); [|done]. destruct evt as [ev|]; [|done]. simpl.
  destruct (evt_Transition ev); [|done]. simpl. by destruct (_ =s _).
Qed.

Hint Resolve tx_pipeline_returns returns_lift SendEvent_no_spin : returns.

Lemma txf_returns id c evt ctx : returns fuel (txf fuel id c evt ctx).
Proof.
  unfold txf, rs_GetStateMachine, rs_GetConfig. cbv zeta. go_returns.
Qed.

Lemma TxProcessEvent_loop_returns n ctx id c evt :
  returns fuel (TxProcessEvent_loop fuel n ctx id c evt).
Proof.
  induction n as [|n IH]; cbn [TxProcessEvent_loop]; [apply returns_ret|].
  unfold Watch. go_returns. apply txf_returns.
Qed.

(** Every operation returns. *)
Lemma PutConfig_returns oc : returns fuel (rs_PutConfig fuel oc).
Proof. unfold rs_PutConfig. cbv zeta. go_returns. Qed.

End termination.

(** ** Durability: a value once stored is the value read *)

Section durability.
Context {B W : Type} `{!GoEnv W, !RedisClient B W, !RedisLaws B W}.

Lemma redis_inv {A} ctx (cmd : command B A) csm r csm' :
  redis ctx cmd csm = (Done r, csm') ->
  redis_ok cmd (view (client csm)) r (view (client csm')) \/
  redis_fault cmd (view (client csm)) r (view (client csm')).
Proof.
  unfold redis. destruct (do_cmd ctx cmd (client csm)) as [r' w'] eqn:E. intros [= -> <-].
  exact (do_cmd_spec _ _ _ _ _ _ E).
Qed.

Lemma wait_view csm csm' u :
  wait csm = (u, csm') -> view (client csm') = view (client csm).
Proof.
  unfold wait. destruct (rand_Intn 500 (client csm)) as [n w'] eqn:E. intros [= <- <-]. simpl.
  rewrite sleep_view. pose proof (rand_view (B:=B) 500 (client csm)) as H. by rewrite E in H.
Qed.

(** A successful [put] leaves the encoding of the value under the key. *)
Lemma put_loop_stores {T} `{!ProtoMessage B T} n left key (v : T) csm csm' :
  put_loop n left key v NeverExpire csm = (Done None, csm') ->
  exists b, Marshal v = Ok b /\ contents (view (client csm')) !! key = Some (RString b).
Proof.
  revert left csm. induction n as [|n IH]; intros left csm; cbn [put_loop]; [done|].
  rewrite go_bind_gets. cbv zeta. destruct (Marshal v) as [b|err] eqn:Em; [|done].
  destruct (redis (WithTimeout (Timeout csm)) (CSet key b NeverExpire) csm) as [r1 csm1] eqn:E.
  destruct r1 as [r| |]; [|by rewrite (go_bind_panic _ _ _ _ E)|by rewrite (go_bind_spin _ _ _ _ E)].
  rewrite (go_bind_done _ _ _ _ _ E). destruct r as [u| | |msg|msg]; try done.
  - intros [= <-]. exists b. split; [done|].
    destruct (redis_inv _ _ _ _ _ E) as [H|[[] _]]. destruct (H eq_refl) as [_ ->].
    simpl. apply lookup_insert_eq.
  - case_bool_decide; [done|]. destruct (wait csm1) as [u csm2] eqn:Ew.
    destruct u as [[]| |]; [|by rewrite (go_bind_panic _ _ _ _ Ew)|by rewrite (go_bind_spin _ _ _ _ Ew)].
    rewrite (go_bind_done _ _ _ _ _ Ew). apply IH.
Qed.

(** The store when a [get] sends its command after [k] timeouts, and the reply. *)
Fixpoint before_get (k : nat) (key : string) (csm : RedisStore W) : RedisStore W :=
  match k with
  | O => csm
  | S k' => before_get k' key (snd (wait (snd (redis (WithTimeout (Timeout csm)) (CGet (B:=B) key) csm))))
  end.
Definition get_reply (k : nat) (key : string) (csm : RedisStore W) : reply B :=
  let c := before_get k key csm in fst (do_cmd (WithTimeout (Timeout c)) (CGet key) (client c)).

(** What [get] makes of the last reply it gets, under a key that holds [v]. *)
Definition get_answer {T} (key : string) (v : T) (r : reply B) : result (Res T) :=
  match r with
  | ROk _ => Done (Ok v)
  | RNil => Done (Fail (NotFoundError key))
  | RTxFailed => Done (Fail (GenericStoreError (error_text RedisTxFailedErr)))
  | RTimeout msg => Done (Fail (Errorf msg))
  | RError msg => Done (Fail (GenericStoreError msg))
  end.

(** The reply to a [GET] of a key that holds a string leaves the database alone. *)
Lemma get_stored key b csm : contents (view (client csm)) !! key = Some (RString b) ->
  let w' := snd (do_cmd (WithTimeout (Timeout csm)) (CGet key) (client csm)) in
  view w' = view (client csm) /\
  match get_reply 0 key csm with
  | ROk b' => b' = b
  | RTimeout _ | RError _ => True
  | RNil | RTxFailed => False
  end.
Proof.
  intros Hb. unfold get_reply. simpl. destruct (do_cmd _ _ _) as [r w'] eqn:E. simpl.
  destruct (do_cmd_spec _ _ _ _ _ _ E) as [[Hv H]|[H [Hv|(r' & Hv & _)]]];
    [rewrite Hb in H; by subst r|by destruct r..].
Qed.

(** [get] of a key that holds an encoded value. *)
Lemma get_loop_answers T `{!ProtoMessage B T} n left key b (v : T) csm :
  contents (view (client csm)) !! key = Some (RString b) -> Unmarshal b = Ok v ->
  1 <= left < 2 ^ 63 -> (Z.to_nat left <= n)%nat ->
  exists k, (k < Z.to_nat left)%nat /\
    (forall i, (i < k)%nat -> exists msg, get_reply i key csm = RTimeout msg) /\
    (forall msg, get_reply k key csm = RTimeout msg -> S k = Z.to_nat left) /\
    get_reply k key csm <> RNil /\ get_reply k key csm <> RTxFailed /\
    fst (get_loop T n left key csm) = get_answer key v (get_reply k key csm).
Proof.
  revert left csm. induction n as [|n IH]; intros left csm Hb Hu Hl Hn; [lia|]. cbn [get_loop].
  rewrite go_bind_gets. cbv zeta. rewrite int_wrap_small by lia.
  destruct (get_stored key b csm Hb) as [Hview Hreply]. cbv zeta in Hview.
  destruct (redis (WithTimeout (Timeout csm)) (CGet (B:=B) key) csm) as [r1 csm1] eqn:E.
  assert (Er : r1 = Done (get_reply 0 key csm) /\
    csm1 = with_client csm (snd (do_cmd (WithTimeout (Timeout csm)) (CGet (B:=B) key) (client csm)))).
  { unfold redis, get_reply in *. simpl. by destruct (do_cmd _ _ _) as [r w']; injection E as <- <-. }
  destruct Er as [-> Ecsm]. rewrite (go_bind_done _ _ _ _ _ E).
  destruct (get_reply 0 key csm) as [b'| | |msg|msg] eqn:E0; try done.
  - exists O. rewrite E0. subst b'. split_and!; try done; try lia. by rewrite Hu.
  - case_bool_decide as Hz.
    { exists O. rewrite E0. split_and!; try done; lia. }
    destruct (wait csm1) as [u csm2] eqn:Ew.
    assert (Hw : u = Done tt) by (unfold wait in Ew; destruct (rand_Intn 500 _); by injection Ew).
    subst u. rewrite (go_bind_done _ _ _ _ _ Ew).
    assert (Hstep : forall i, get_reply (S i) key csm = get_reply i key csm2).
    { intros i. unfold get_reply. cbn [before_get]. rewrite E. cbn [snd]. by rewrite Ew. }
    destruct (IH (left - 1) csm2) as (k & Hk & Hi & Hlast & Hnil & Htx & ->); [|done|lia|lia|].
    { rewrite (wait_view _ _ _ Ew), Ecsm. simpl. by rewrite Hview. }
    exists (S k). rewrite Hstep. split_and!; [lia| |intros m Hm; rewrite (Hlast m Hm); lia|done..].
    intros [|i] Hik; [by exists msg|]. rewrite Hstep. apply Hi. lia.
  - exists O. rewrite E0. split_and!; try done; lia.
Qed.

(** A healthy client answers. *)
Lemma get_reply_healthy key csm : healthy (client csm) ->
  forall msg, get_reply 0 key csm <> RTimeout msg /\
    (forall b, contents (view (client csm)) !! key = Some (RString b) -> get_reply 0 key csm <> RError msg).
Proof.
  intros Hh msg. unfold get_reply. simpl. destruct (do_cmd _ _ _) as [r w'] eqn:E. simpl.
  destruct (do_cmd_healthy _ _ _ _ _ _ Hh E) as [[_ H] _]. split.
  - intros ->. by repeat case_match.
  - intros b Hb ->. by rewrite Hb in H.
Qed.
End durability.

(** ** Properties *)

Section properties.
Context {B W : Type} `{!GoEnv W, !RedisClient B W}.
Context `{!ProtoMessage B Configuration, !ProtoMessage B FiniteStateMachine,
          !ProtoMessage B Event, !ProtoMessage B EventOutcome}.

(** C15. Every operation that talks to Redis in a loop comes back, whatever the client
    answers and however often it times out: with a positive retry count, [get]
    and [put] give up after at most that many attempts (the fuel), and
    [TxProcessEvent] after three rounds; none is cut short by the fuel, and a
    larger fuel changes nothing about it. *)
Theorem store_loops_terminate fuel csm :
  settings_ok fuel csm ->
  (forall key, fst (get fuel Configuration key csm) <> Spin) /\
  (forall key (e : Event) ttl, fst (put fuel key e ttl csm) <> Spin) /\
  (forall oc, fst (rs_PutConfig fuel oc csm) <> Spin) /\
  (forall id cfg evt, fst (rs_TxProcessEvent fuel id cfg evt csm) <> Spin).
Proof.
  intros H. split_and!; intros; [by apply get_returns|by apply put_returns|by apply PutConfig_returns|].
  unfold rs_TxProcessEvent. by apply TxProcessEvent_loop_returns.
Qed.

(** With a retry count of zero the countdown starts below its end: against
    a server that keeps timing out, [get] is still asking after any number of
    attempts below 2^63. *)
Theorem zero_retries_never_give_up T `{!ProtoMessage B T} fuel key csm :
  (forall ctx w, exists msg w', do_cmd ctx (CGet (B:=B) key) w = (RTimeout msg, w')) ->
  MaxRetries csm = 0 -> Z.of_nat fuel < 2 ^ 63 -> fst (get fuel T key csm) = Spin.
Proof.
  intros Hto Hm Hf. unfold get. rewrite go_bind_gets, Hm. clear Hm.
  assert (H : forall n left csm, - 2 ^ 63 + Z.of_nat n < left <= 0 ->
    fst (get_loop T n left key csm) = Spin); [|apply H; lia].
  clear csm Hf. induction n as [|n IH]; intros left csm Hl; [done|]. cbn [get_loop].
  rewrite go_bind_gets. cbv zeta. rewrite int_wrap_small by lia.
  destruct (Hto (WithTimeout (Timeout csm)) (client csm)) as (msg & w' & E).
  assert (E1 : redis (WithTimeout (Timeout csm)) (CGet (B:=B) key) csm
               = (Done (RTimeout msg), with_client csm w')) by by unfold redis; rewrite E.
  rewrite (go_bind_done _ _ _ _ _ E1), bool_decide_ne by lia.
  destruct (wait (with_client csm w')) as [u csm2] eqn:Ew.
  assert (u = Done tt) as ->.
  { unfold wait in Ew. destruct (rand_Intn 500 _). by injection Ew as <- _. }
  rewrite (go_bind_done _ _ _ _ _ Ew). apply IH. lia.
Qed.

(** C21. What was stored is what is read, and nothing else.  If a [put] without
    expiration returned no error, whatever went wrong on its way, then as long as the
    key is not written again [get], with a positive retry count, answers by the
    first reply that is not a timeout, within that count: the very value when
    the server answered, and else the error of that reply; a timeout is the
    answer only when all replies were.  No reply is that the key is not there,
    and over a client that does not fail [get] answers the value. *)
Theorem put_get_roundtrip T `{!ProtoMessage B T, !ProtoLaws B T, !RedisLaws B W}
    fuel1 fuel2 key (v : T) csm csm1 csm2 :
  put fuel1 key v NeverExpire csm = (Done None, csm1) ->
  contents (view (client csm2)) !! key = contents (view (client csm1)) !! key ->
  settings_ok fuel2 csm2 ->
  (exists k, (k < Z.to_nat (MaxRetries csm2))%nat /\
    (forall i, (i < k)%nat -> exists msg, get_reply i key csm2 = RTimeout msg) /\
    (forall msg, get_reply k key csm2 = RTimeout msg -> S k = Z.to_nat (MaxRetries csm2)) /\
    get_reply k key csm2 <> RNil /\ get_reply k key csm2 <> RTxFailed /\
    fst (get fuel2 T key csm2) = get_answer key v (get_reply k key csm2)) /\
  (healthy (client csm2) -> fst (get fuel2 T key csm2) = Done (Ok v)).
Proof.
  intros Hp Hsame [Hm Hfuel]. unfold put in Hp. rewrite go_bind_gets in Hp.
  destruct (put_loop_stores _ _ _ _ _ _ Hp) as (b & Hb & Hc). rewrite <- Hsame in Hc.
  destruct (get_loop_answers T fuel2 (MaxRetries csm2) key b v csm2 Hc (Unmarshal_Marshal _ _ Hb) Hm Hfuel)
    as (k & Hk & Hi & Hlast & Hnil & Htx & Hget).
  unfold get. rewrite go_bind_gets. split; [by exists k|]. intros Hh.
  pose proof (get_reply_healthy (B:=B) key csm2 Hh) as Hok.
  destruct k as [|k]; [|destruct (Hi O) as [msg H0]; [lia|]; by destruct (Hok msg)].
  rewrite Hget. unfold get_answer. destruct (get_reply 0 key csm2) as [| | |msg|msg] eqn:E; try done.
  - by destruct (Hok msg).
  - destruct (Hok msg) as [_ He]. by destruct (He b Hc).
Qed.

End properties.

(** *** Examples, on the client in memory *)

Abbreviation Mem := (MemRedis wire).

Definition mem_store (faults : list fault) : RedisStore Mem :=
  mkStore (mkMem (mkView ∅ None) faults [] 0 0) DefaultTimeout DefaultMaxRetries.

(** A first command that times out but was carried out, then a lost one. *)
Definition shaky : RedisStore Mem :=
  mem_store [Fault true true; Fault true false; NoFault; Fault true false].

Lemma store_loops_terminate_witness :
  fst (put 3 "k" (mkEvent "1" None None "" "") 0 shaky) <> Spin.
Proof.
  apply (store_loops_terminate (B:=wire) 3 shaky). unfold settings_ok. simpl.
  unfold DefaultMaxRetries. lia.
Defined.

(** A client that never answers in time. *)
Definition deaf_env : GoEnv unit :=
  {| rand_Intn n w := (0, w); time_Sleep d w := w; uuid_NewString w := ("u", w);
     timestamppb_Now w := (0, w) |}.
Definition deaf_client : RedisClient wire unit :=
  {| do_cmd A ctx c w := (RTimeout "i/o timeout", w) |}.

Lemma zero_retries_never_give_up_witness :
  fst (@get wire unit deaf_env deaf_client 1000 Configuration _ "configs#orders:v1"
         (mkStore tt DefaultTimeout 0)) = Spin.
Proof.
  apply zero_retries_never_give_up; [|reflexivity|reflexivity].
  intros ctx w. by eexists _, _.
Defined.

Definition after_put : RedisStore Mem :=
  snd (put (B:=wire) 3 "configs#mars_rover:v2.0" mars_rover NeverExpire shaky).

Definition slow_rover : RedisStore Mem :=
  mkStore (mkMem (mem_view (client after_put)) [Fault true false; Fault true false] [] 0 0) DefaultTimeout 3.

(** Two timeouts on the way back, and three retries. *)
Lemma put_get_roundtrip_witness :
  fst (get (B:=wire) 3 Configuration "configs#mars_rover:v2.0" slow_rover) = Done (Ok mars_rover).
Proof.
  destruct (put_get_roundtrip (B:=wire) Configuration 3 3 "configs#mars_rover:v2.0" mars_rover
           shaky after_put slow_rover) as ((k & Hk & Hi & Hlast & _ & _ & Hget) & _).
  - vm_compute. reflexivity.
  - reflexivity.
  - split; vm_compute; [split; [discriminate|reflexivity]|apply le_n].
  - rewrite Hget. destruct k as [|[|[|k]]]; [specialize (Hlast _ eq_refl); discriminate Hlast
      |specialize (Hlast _ eq_refl); discriminate Hlast|reflexivity|].
    change (Z.to_nat (MaxRetries slow_rover)) with 3%nat in Hk. lia.
Defined.

(** [PutConfig] decides by [EXISTS] whether the configuration is already
    there, and takes a failed [EXISTS] for "no": one lost reply is enough for
    a stored, immutable configuration to be replaced without an error. *)
Theorem PutConfig_overwrites_on_failed_exists :
  exists (c1 c2 : Configuration) (csm csm1 csm2 : RedisStore Mem),
    GetVersionId c1 = GetVersionId c2 /\ c1 <> c2 /\
    rs_GetConfig 3 (GetVersionId c1) csm = (Done (Ok c1), csm1) /\
    mem_faults (client csm1) = [Fault false false] /\
    rs_PutConfig 3 (Some c2) csm1 = (Done None, csm2) /\
    fst (rs_GetConfig 3 (GetVersionId c1) csm2) = Done (Ok c2).
Proof.
  set (c2 := mkConfiguration "mars_rover" "v2.0" ["earth"] [] "earth").
  exists mars_rover, c2, (snd (rs_PutConfig 3 (Some mars_rover)
    (mem_store [NoFault; NoFault; NoFault; NoFault; NoFault; Fault false false]))).
  eexists _, _. split_and!; [reflexivity|done|vm_compute; reflexivity..].
Qed.
