(* ===== verification/StoreSpec.v ===== *)
(** * What a store promises: the contract of [StoreManager]

    The comments of the interface in [pkg/storage/types.go] as an executable
    specification: a store is a handful of finite maps.  [StoreRefines] says
    that an implementation behaves like it, step by step; the clients of a
    store are proved against that class, and [RedisRefinement.v] discharges it
    for the store on Redis. *)

From Stdlib Require Import ZArith Ascii.
From stdpp Require Import base tactics strings list gmap sets.
From S2P Require Import Prelude GoLib Proto Fsm Keys StoreTypes.

(** ** Definitions *)

(** Machines, events and outcomes are filed under the name of the
    configuration (without its version) and their id; [st_states] has, for a
    configuration name and a state, the ids of the machines in that state. *)
Record Store := mkSpec {
  st_names : gset string;
  st_versions : gmap string (gset string);
  st_configs : gmap string Configuration;
  st_fsms : gmap (string * string) FiniteStateMachine;
  st_states : gmap (string * string) (gset string);
  st_events : gmap (string * string) Event;
  st_outcomes : gmap (string * string) EventOutcome;
  st_timeout : Z }.

Definition spec_empty : Store := mkSpec ∅ ∅ ∅ ∅ ∅ ∅ ∅ 0.

Definition upd_configs f (s : Store) : Store :=
  mkSpec (st_names s) (st_versions s) (f (st_configs s)) (st_fsms s) (st_states s)
         (st_events s) (st_outcomes s) (st_timeout s).
Definition upd_names f (s : Store) : Store :=
  mkSpec (f (st_names s)) (st_versions s) (st_configs s) (st_fsms s) (st_states s)
         (st_events s) (st_outcomes s) (st_timeout s).
Definition upd_versions f (s : Store) : Store :=
  mkSpec (st_names s) (f (st_versions s)) (st_configs s) (st_fsms s) (st_states s)
         (st_events s) (st_outcomes s) (st_timeout s).
Definition upd_fsms f (s : Store) : Store :=
  mkSpec (st_names s) (st_versions s) (st_configs s) (f (st_fsms s)) (st_states s)
         (st_events s) (st_outcomes s) (st_timeout s).
Definition upd_states f (s : Store) : Store :=
  mkSpec (st_names s) (st_versions s) (st_configs s) (st_fsms s) (f (st_states s))
         (st_events s) (st_outcomes s) (st_timeout s).
Definition upd_events f (s : Store) : Store :=
  mkSpec (st_names s) (st_versions s) (st_configs s) (st_fsms s) (st_states s)
         (f (st_events s)) (st_outcomes s) (st_timeout s).
Definition upd_outcomes f (s : Store) : Store :=
  mkSpec (st_names s) (st_versions s) (st_configs s) (st_fsms s) (st_states s)
         (st_events s) (f (st_outcomes s)) (st_timeout s).
Definition upd_timeout f (s : Store) : Store :=
  mkSpec (st_names s) (st_versions s) (st_configs s) (st_fsms s) (st_states s)
         (st_events s) (st_outcomes s) (f (st_timeout s)).

(** The set filed under a key; no entry is the empty set. *)
Definition set_of {K} `{Countable K} (m : gmap K (gset string)) (k : K) : gset string :=
  default ∅ (m !! k).

Section spec.
(** The serialization shows in one way only: a message that cannot be
    serialized is refused. *)
Context (B : Type) `{!ProtoMessage B Configuration, !ProtoMessage B FiniteStateMachine,
          !ProtoMessage B Event, !ProtoMessage B EventOutcome}.

Abbreviation M := (Go Store).

Definition lookup_or {A} (key : string) (o : option A) : Res A :=
  match o with Some a => Ok a | None => Fail (NotFoundError key) end.

(** Store [value] with [f], unless it cannot be serialized. *)
Definition spec_put {T} `{!ProtoMessage B T} (value : T) (f : Store -> Store)
    : M (option StoreErr) :=
  match Marshal value with
  | Fail err => mret (Some (InvalidDataError (error_text err)))
  | Ok _ => go_modify f;; mret None
  end.

Definition spec_GetConfig (versionId : string) : M (Res Configuration) :=
  go_gets (fun s => lookup_or (NewKeyForConfig versionId) (st_configs s !! versionId)).

Definition spec_PutConfig (cfg : option Configuration) : M (option StoreErr) :=
  match cfg with
  | None => mret (Some (InvalidDataError "nil config"))
  | Some c =>
      let id := GetVersionId c in
      o ← go_gets (fun s => st_configs s !! id);
      match o with
      | Some _ => mret (Some (AlreadyExistsError (NewKeyForConfig id)))
      | None =>
          go_modify (upd_names (fun names => {[cfg_Name c]} ∪ names));;
          go_modify (upd_versions (fun m => <[cfg_Name c := {[id]} ∪ set_of m (cfg_Name c)]> m));;
          spec_put c (upd_configs (fun m => <[id := c]> m))
      end
  end.

Definition spec_GetAllConfigs : M (list string) := go_gets (fun s => elements (st_names s)).

Definition spec_GetAllVersions (name : string) : M (list string) :=
  go_gets (fun s => elements (set_of (st_versions s) name)).

Definition spec_GetStateMachine (id cfg : string) : M (Res FiniteStateMachine) :=
  go_gets (fun s => lookup_or (NewKeyForMachine id cfg) (st_fsms s !! (cfg, id))).

Definition config_name (configId : string) : string := hd "" (Split configId ":"%char).

Definition spec_PutStateMachine (id : string) (fsm : option FiniteStateMachine)
    : M (option StoreErr) :=
  match fsm with
  | None => mret (Some (InvalidDataError "nil statemachine"))
  | Some f => spec_put f (upd_fsms (fun m => <[(config_name (fsm_ConfigId f), id) := f]> m))
  end.

Definition spec_GetAllInState (cfg state : string) : M (list string) :=
  go_gets (fun s => elements (set_of (st_states s) (cfg, state))).

Definition move_state (cfgName id oldState newState : string)
    (m : gmap (string * string) (gset string)) : gmap (string * string) (gset string) :=
  let m1 := if oldState =s "" then m
            else <[(cfgName, oldState) := set_of m (cfgName, oldState) ∖ {[id]}]> m in
  if newState =s "" then m1
  else <[(cfgName, newState) := {[id]} ∪ set_of m1 (cfgName, newState)]> m1.

Definition spec_UpdateState (cfgName id oldState newState : string) : M (option StoreErr) :=
  go_modify (upd_states (move_state cfgName id oldState newState));; mret None.

Definition spec_TxProcessEvent (id cfgName : string) (evt : option Event)
    : M (option StoreErr) :=
  o ← go_gets (fun s => st_fsms s !! (cfgName, id));
  match o with
  | None => mret (Some (NotFoundError (NewKeyForMachine id cfgName)))
  | Some fsm =>
      r ← spec_GetConfig (fsm_ConfigId fsm);
      match r with
      | Fail err => mret (Some (NotFoundError (error_text err)))
      | Ok cfg =>
          r ← go_lift (SendEvent (mkCSM cfg fsm) evt);
          match r with
          | (Some err, _) => mret (Some err)
          | (None, x) =>
              spec_put (csm_FSM x) (fun s =>
                upd_fsms (fun m => <[(cfgName, id) := csm_FSM x]> m)
                  (upd_states (move_state cfgName id (fsm_State fsm) (fsm_State (csm_FSM x))) s))
          end
      end
  end.

Definition spec_GetEvent (id cfg : string) : M (Res Event) :=
  go_gets (fun s => lookup_or (NewKeyForEvent id cfg) (st_events s !! (cfg, id))).

Definition spec_PutEvent (event : option Event) (cfg : string) (ttl : Z) : M (option StoreErr) :=
  match event with
  | None => mret (Some (InvalidDataError "nil event"))
  | Some e => spec_put e (upd_events (fun m => <[(cfg, evt_EventId e) := e]> m))
  end.

Definition spec_AddEventOutcome (eventId cfgName : string) (response : option EventOutcome)
    (ttl : Z) : M (option StoreErr) :=
  match response with
  | None => mret (Some (InvalidDataError "nil response"))
  | Some o => spec_put o (upd_outcomes (fun m => <[(cfgName, eventId) := o]> m))
  end.

Definition spec_GetOutcomeForEvent (eventId cfgName : string) : M (Res EventOutcome) :=
  go_gets (fun s => lookup_or (NewKeyForOutcome eventId cfgName) (st_outcomes s !! (cfgName, eventId))).

Definition spec_SetTimeout (d : Z) : M () := go_modify (upd_timeout (fun _ => d)).
Definition spec_GetTimeout : M Z := go_gets st_timeout.
Definition spec_Health : M (option StoreErr) := mret None.

Definition spec_manager : StoreManager Store := {|
  GetConfig := spec_GetConfig;
  PutConfig := spec_PutConfig;
  GetAllConfigs := spec_GetAllConfigs;
  GetAllVersions := spec_GetAllVersions;
  GetStateMachine := spec_GetStateMachine;
  PutStateMachine := spec_PutStateMachine;
  GetAllInState := spec_GetAllInState;
  UpdateState := spec_UpdateState;
  TxProcessEvent := spec_TxProcessEvent;
  GetEvent := spec_GetEvent;
  PutEvent := spec_PutEvent;
  AddEventOutcome := spec_AddEventOutcome;
  GetOutcomeForEvent := spec_GetOutcomeForEvent;
  SetTimeout := spec_SetTimeout;
  GetTimeout := spec_GetTimeout;
  Health := spec_Health |}.

End spec.

(** ** Simulation

    [sim R E m1 m2]: from related worlds the two computations have related
    outcomes and end in related worlds. *)
Definition rel_result {A1 A2} (E : A1 -> A2 -> Prop) (r1 : result A1) (r2 : result A2) : Prop :=
  match r1, r2 with
  | Done a1, Done a2 => E a1 a2
  | Panicked, Panicked => True
  | Spin, Spin => True
  | _, _ => False
  end.

Definition sim {W1 W2 A1 A2} (R : W1 -> W2 -> Prop) (E : A1 -> A2 -> Prop)
    (m1 : Go W1 A1) (m2 : Go W2 A2) : Prop :=
  forall w1 w2, R w1 w2 ->
    rel_result E (fst (m1 w1)) (fst (m2 w2)) /\ R (snd (m1 w1)) (snd (m2 w2)).

(** Arguments for which the collections of a store do not overlap. *)
Definition good_config_id (id : string) : bool :=
  has_byte ":"%char id && plain (config_name id).

Definition good_fsm (f : FiniteStateMachine) : bool := good_config_id (fsm_ConfigId f).

Definition good_config (c : Configuration) : bool := plain (cfg_Name c).

(** The contract: [R] relates the worlds of the specification and of an
    implementation, and every operation preserves it and gives the answer of
    the specification (the order of a set's members is left open). *)
Class StoreRefines (B : Type) `{!ProtoMessage B Configuration, !ProtoMessage B FiniteStateMachine,
    !ProtoMessage B Event, !ProtoMessage B EventOutcome}
    {W : Type} (impl : StoreManager W) (R : Store -> W -> Prop) : Prop := {
  sim_GetConfig id : good_config_id id = true ->
    sim R eq (spec_GetConfig id) (GetConfig id);
  sim_PutConfig oc : match oc with Some c => good_config c = true | None => True end ->
    sim R eq (spec_PutConfig B oc) (PutConfig oc);
  sim_GetAllConfigs : sim R Permutation spec_GetAllConfigs GetAllConfigs;
  sim_GetAllVersions name : plain name = true ->
    sim R Permutation (spec_GetAllVersions name) (GetAllVersions name);
  sim_GetStateMachine id cfg : plain cfg = true ->
    sim R eq (spec_GetStateMachine id cfg) (GetStateMachine id cfg);
  sim_PutStateMachine id o : match o with Some f => good_fsm f = true | None => True end ->
    sim R eq (spec_PutStateMachine B id o) (PutStateMachine id o);
  sim_GetAllInState cfg state : plain cfg = true ->
    sim R Permutation (spec_GetAllInState cfg state) (GetAllInState cfg state);
  sim_UpdateState cfg id o n : plain cfg = true ->
    sim R eq (spec_UpdateState cfg id o n) (UpdateState cfg id o n);
  sim_TxProcessEvent id cfg evt : plain cfg = true ->
    sim R eq (spec_TxProcessEvent B id cfg evt) (TxProcessEvent id cfg evt);
  sim_GetEvent id cfg : plain cfg = true ->
    sim R eq (spec_GetEvent id cfg) (GetEvent id cfg);
  sim_PutEvent o cfg : plain cfg = true ->
    sim R eq (spec_PutEvent B o cfg 0) (PutEvent o cfg 0);
  sim_AddEventOutcome id cfg o : plain cfg = true ->
    sim R eq (spec_AddEventOutcome B id cfg o 0) (AddEventOutcome id cfg o 0);
  sim_GetOutcomeForEvent id cfg : plain cfg = true ->
    sim R eq (spec_GetOutcomeForEvent id cfg) (GetOutcomeForEvent id cfg);
  sim_SetTimeout d : sim R eq (spec_SetTimeout d) (SetTimeout d);
  sim_GetTimeout : sim R eq spec_GetTimeout GetTimeout;
  sim_Health : sim R eq spec_Health Health }.

(** ** Lemmas *)

Section sim_lemmas.
Context {W1 W2 : Type} (R : W1 -> W2 -> Prop).

Lemma sim_ret {A1 A2} (E : A1 -> A2 -> Prop) a1 a2 : E a1 a2 -> sim R E (mret a1) (mret a2).
Proof. by intros H w1 w2 HR. Qed.

Lemma sim_lift {A} (r : result A) : sim R eq (go_lift r) (go_lift r).
Proof. intros w1 w2 HR. split; [by destruct r|done]. Qed.

Lemma sim_bind {A1 A2 C1 C2} (E : A1 -> A2 -> Prop) (F : C1 -> C2 -> Prop)
    (m1 : Go W1 A1) (m2 : Go W2 A2) k1 k2 :
  sim R E m1 m2 -> (forall a1 a2, E a1 a2 -> sim R F (k1 a1) (k2 a2)) ->
  sim R F (m1 ≫= k1) (m2 ≫= k2).
Proof.
  intros Hm Hk w1 w2 HR. destruct (Hm w1 w2 HR) as [Hr HR'].
  unfold mbind, go_bind. destruct (m1 w1) as [[a1| |] w1'], (m2 w2) as [[a2| |] w2'];
    simpl in *; try done. by apply Hk.
Qed.

Lemma sim_bind_eq {A C1 C2} (F : C1 -> C2 -> Prop) (m1 : Go W1 A) (m2 : Go W2 A) k1 k2 :
  sim R eq m1 m2 -> (forall a, sim R F (k1 a) (k2 a)) -> sim R F (m1 ≫= k1) (m2 ≫= k2).
Proof. intros Hm Hk. apply (sim_bind eq); [done|]. by intros a ? <-. Qed.

End sim_lemmas.

Lemma set_of_insert {K} `{Countable K} (m : gmap K (gset string)) k s k' :
  set_of (<[k := s]> m) k' = if decide (k = k') then s else set_of m k'.
Proof. unfold set_of. rewrite lookup_insert. by case_decide. Qed.

Lemma set_of_move cfg id o n m c st :
  set_of (move_state cfg id o n m) (c, st) =
  if decide (c = cfg) then
    (if decide (st = n /\ n <> "") then {[id]} else ∅) ∪
    (if decide (st = o /\ o <> "") then set_of m (c, st) ∖ {[id]} else set_of m (c, st))
  else set_of m (c, st).
Proof.
  unfold move_state.
  destruct (bool_decide_reflect (o = "")), (bool_decide_reflect (n = ""));
    rewrite ?set_of_insert; repeat case_decide; simplify_eq; try set_solver; intuition congruence.
Qed.

(** ** What the operations that succeed leave behind *)

Definition file_config (c : Configuration) (s : Store) : Store :=
  let id := GetVersionId c in
  mkSpec ({[cfg_Name c]} ∪ st_names s)
    (<[cfg_Name c := {[id]} ∪ set_of (st_versions s) (cfg_Name c)]> (st_versions s))
    (<[id := c]> (st_configs s))
    (st_fsms s) (st_states s) (st_events s) (st_outcomes s) (st_timeout s).

(** Only the name and the id were entered. *)
Definition enter_config (c : Configuration) (s : Store) : Store :=
  upd_versions (fun m => <[cfg_Name c := {[GetVersionId c]} ∪ set_of m (cfg_Name c)]> m)
    (upd_names (fun names => {[cfg_Name c]} ∪ names) s).

Definition file_fsm (name id : string) (f : FiniteStateMachine) : Store -> Store :=
  upd_fsms (fun m => <[(name, id) := f]> m).
Definition file_event (name : string) (e : Event) : Store -> Store :=
  upd_events (fun m => <[(name, evt_EventId e) := e]> m).
Definition file_outcome (name id : string) (o : EventOutcome) : Store -> Store :=
  upd_outcomes (fun m => <[(name, id) := o]> m).

(** A machine that moved to a new state, with its place in the state sets. *)
Definition file_move (name id : string) (f f' : FiniteStateMachine) (s : Store) : Store :=
  file_fsm name id f' (upd_states (move_state name id (fsm_State f) (fsm_State f')) s).

(** A machine filed for the first time, and put in the set of its state. *)
Definition file_new (c : Configuration) (id : string) (f : FiniteStateMachine) (s : Store) : Store :=
  upd_states (move_state (cfg_Name c) id "" (fsm_State f))
    (file_fsm (config_name (fsm_ConfigId f)) id f s).

Section facts.
Context {B : Type} `{!ProtoMessage B Configuration, !ProtoMessage B FiniteStateMachine,
  !ProtoMessage B Event, !ProtoMessage B EventOutcome}.

Lemma spec_put_ok {T} `{!ProtoMessage B T} (v : T) f s :
  is_ok (Marshal (B:=B) v) = true -> spec_put B v f s = (Done None, f s).
Proof. unfold spec_put. by destruct (Marshal v). Qed.

Lemma spec_PutConfig_exists c s : is_Some (st_configs s !! GetVersionId c) ->
  spec_PutConfig B (Some c) s = (Done (Some (AlreadyExistsError (NewKeyForConfig (GetVersionId c)))), s).
Proof. intros [c' Hc]. unfold spec_PutConfig. cbv zeta. by rewrite go_bind_gets, Hc. Qed.

Lemma spec_PutConfig_new c s : st_configs s !! GetVersionId c = None ->
  is_ok (Marshal (B:=B) c) = true -> spec_PutConfig B (Some c) s = (Done None, file_config c s).
Proof.
  intros Hc Hm. unfold spec_PutConfig. cbv zeta. rewrite go_bind_gets, Hc.
  unfold mbind, go_bind, go_modify. by rewrite spec_put_ok.
Qed.

Lemma spec_PutConfig_unserializable c s err : st_configs s !! GetVersionId c = None ->
  Marshal (B:=B) c = Fail err ->
  spec_PutConfig B (Some c) s = (Done (Some (InvalidDataError (error_text err))), enter_config c s).
Proof.
  intros Hc Hm. unfold spec_PutConfig. cbv zeta. rewrite go_bind_gets, Hc. unfold spec_put. by rewrite Hm.
Qed.

(** The three ways a transaction ends that returns. *)
Lemma spec_TxProcessEvent_cases id name evt s f c :
  st_fsms s !! (name, id) = Some f -> st_configs s !! fsm_ConfigId f = Some c ->
  spec_TxProcessEvent B id name evt s =
  match SendEvent (mkCSM c f) evt with
  | Done (Some err, _) => (Done (Some err), s)
  | Done (None, x) =>
      spec_put B (csm_FSM x) (fun s => file_move name id f (csm_FSM x) s) s
  | Panicked => (Panicked, s)
  | Spin => (Spin, s)
  end.
Proof.
  intros Hf Hc. unfold spec_TxProcessEvent, spec_GetConfig. rewrite go_bind_gets, Hf, go_bind_gets, Hc.
  cbn [lookup_or]. by destruct (SendEvent _ _) as [[[err|] x]| |].
Qed.

Lemma spec_TxProcessEvent_fires id name ev tr t s f c :
  st_fsms s !! (name, id) = Some f -> st_configs s !! fsm_ConfigId f = Some c ->
  evt_Transition ev = Some tr -> enabled c (fsm_State f) (tr_Event tr) = Some t ->
  let f' := csm_FSM (fire (mkCSM c f) t ev) in
  is_ok (Marshal (B:=B) f') = true ->
  spec_TxProcessEvent B id name (Some ev) s = (Done None, file_move name id f f' s).
Proof.
  intros Hf Hc Htr Ht f' Hm. rewrite (spec_TxProcessEvent_cases _ _ _ _ _ _ Hf Hc).
  rewrite (SendEvent_enabled _ _ _ Htr). simpl. rewrite Ht. by apply spec_put_ok.
Qed.

Lemma spec_TxProcessEvent_refuses id name ev tr s f c :
  st_fsms s !! (name, id) = Some f -> st_configs s !! fsm_ConfigId f = Some c ->
  evt_Transition ev = Some tr -> enabled c (fsm_State f) (tr_Event tr) = None ->
  spec_TxProcessEvent B id name (Some ev) s = (Done (Some UnexpectedTransitionError), s).
Proof.
  intros Hf Hc Htr Ht. rewrite (spec_TxProcessEvent_cases _ _ _ _ _ _ Hf Hc).
  rewrite (SendEvent_enabled _ _ _ Htr). simpl. by rewrite Ht.
Qed.

Lemma spec_TxProcessEvent_no_fsm id name evt s :
  st_fsms s !! (name, id) = None ->
  spec_TxProcessEvent B id name evt s = (Done (Some (NotFoundError (NewKeyForMachine id name))), s).
Proof. intros Hf. unfold spec_TxProcessEvent. by rewrite go_bind_gets, Hf. Qed.

Lemma spec_TxProcessEvent_no_config id name evt s f :
  st_fsms s !! (name, id) = Some f -> st_configs s !! fsm_ConfigId f = None ->
  spec_TxProcessEvent B id name evt s =
  (Done (Some (NotFoundError (error_text (NotFoundError (NewKeyForConfig (fsm_ConfigId f)))))), s).
Proof.
  intros Hf Hc. unfold spec_TxProcessEvent, spec_GetConfig.
  by rewrite go_bind_gets, Hf, go_bind_gets, Hc.
Qed.

End facts.

(** ** Sequences of operations *)

Inductive op :=
| OGetConfig (id : string)
| OPutConfig (cfg : option Configuration)
| OGetAllConfigs
| OGetAllVersions (name : string)
| OGetStateMachine (id cfg : string)
| OPutStateMachine (id : string) (fsm : option FiniteStateMachine)
| OGetAllInState (cfg state : string)
| OUpdateState (cfg id old new : string)
| OTxProcessEvent (id cfg : string) (evt : option Event)
| OGetEvent (id cfg : string)
| OPutEvent (evt : option Event) (cfg : string)
| OAddEventOutcome (id cfg : string) (o : option EventOutcome)
| OGetOutcomeForEvent (id cfg : string)
| OSetTimeout (d : Z)
| OGetTimeout
| OHealth.

Inductive answer :=
| AConfig (r : Res Configuration)
| AFsm (r : Res FiniteStateMachine)
| AEvent (r : Res Event)
| AOutcome (r : Res EventOutcome)
| AErr (e : option StoreErr)
| AList (l : list string)
| ATimeout (d : Z)
| AUnit.

(** The operation with its answer; values are stored without expiration, as
    every caller in the program does. *)
Definition run_op {W} `{!StoreManager W} (o : op) : Go W answer :=
  match o with
  | OGetConfig id => r ← GetConfig id; mret (AConfig r)
  | OPutConfig cfg => r ← PutConfig cfg; mret (AErr r)
  | OGetAllConfigs => r ← GetAllConfigs; mret (AList r)
  | OGetAllVersions name => r ← GetAllVersions name; mret (AList r)
  | OGetStateMachine id cfg => r ← GetStateMachine id cfg; mret (AFsm r)
  | OPutStateMachine id f => r ← PutStateMachine id f; mret (AErr r)
  | OGetAllInState cfg st => r ← GetAllInState cfg st; mret (AList r)
  | OUpdateState cfg id old new => r ← UpdateState cfg id old new; mret (AErr r)
  | OTxProcessEvent id cfg evt => r ← TxProcessEvent id cfg evt; mret (AErr r)
  | OGetEvent id cfg => r ← GetEvent id cfg; mret (AEvent r)
  | OPutEvent e cfg => r ← PutEvent e cfg 0; mret (AErr r)
  | OAddEventOutcome id cfg r => e ← AddEventOutcome id cfg r 0; mret (AErr e)
  | OGetOutcomeForEvent id cfg => r ← GetOutcomeForEvent id cfg; mret (AOutcome r)
  | OSetTimeout d => SetTimeout d;; mret AUnit
  | OGetTimeout => d ← GetTimeout; mret (ATimeout d)
  | OHealth => r ← Health; mret (AErr r)
  end.

Fixpoint run_ops {W} `{!StoreManager W} (os : list op) : Go W (list answer) :=
  match os with
  | [] => mret []
  | o :: os' => a ← run_op o; l ← run_ops os'; mret (a :: l)
  end.

Definition good_op (o : op) : bool :=
  match o with
  | OGetConfig id => good_config_id id
  | OPutConfig (Some c) => good_config c
  | OPutStateMachine _ (Some f) => good_fsm f
  | OGetAllVersions n => plain n
  | OGetStateMachine _ cfg | OGetAllInState cfg _ | OUpdateState cfg _ _ _
  | OTxProcessEvent _ cfg _ | OGetEvent _ cfg | OPutEvent _ cfg
  | OAddEventOutcome _ cfg _ | OGetOutcomeForEvent _ cfg => plain cfg
  | _ => true
  end.

(** Answers up to the order of lists. *)
Definition answer_rel (a1 a2 : answer) : Prop :=
  match a1, a2 with
  | AList l1, AList l2 => l1 ≡ₚ l2
  | _, _ => a1 = a2
  end.

Lemma answer_rel_refl a : answer_rel a a.
Proof. by destruct a; simpl. Qed.

Section ops.
Context {B : Type} `{!ProtoMessage B Configuration, !ProtoMessage B FiniteStateMachine,
  !ProtoMessage B Event, !ProtoMessage B EventOutcome}.
Context {W : Type} (impl : StoreManager W) (R : Store -> W -> Prop) `{HR : !StoreRefines B impl R}.

#[local] Existing Instance impl.

Lemma run_op_sim o : good_op o = true ->
  sim R answer_rel (run_op (StoreManager0 := spec_manager B) o) (run_op o).
Proof using HR.
  intros Hg. destruct o; cbn [run_op good_op] in *;
    first [ apply (sim_bind R Permutation);
            [ first [apply sim_GetAllConfigs | by apply sim_GetAllVersions | by apply sim_GetAllInState]
            | intros l1 l2 Hl; by apply sim_ret ]
          | apply sim_bind_eq; [| intros a; apply sim_ret, answer_rel_refl ] ].
  - by apply sim_GetConfig.
  - by apply sim_PutConfig; destruct cfg.
  - by apply sim_GetStateMachine.
  - by apply sim_PutStateMachine; destruct fsm.
  - by apply sim_UpdateState.
  - by apply sim_TxProcessEvent.
  - by apply sim_GetEvent.
  - by apply sim_PutEvent.
  - by apply sim_AddEventOutcome.
  - by apply sim_GetOutcomeForEvent.
  - apply sim_SetTimeout.
  - apply sim_GetTimeout.
  - apply sim_Health.
Qed.

Lemma run_ops_sim os : Forall (fun o => good_op o = true) os ->
  sim R (Forall2 answer_rel) (run_ops (StoreManager0 := spec_manager B) os) (run_ops os).
Proof using HR.
  induction 1 as [|o os Ho _ IH]; cbn [run_ops]; [by apply sim_ret|].
  eapply sim_bind; [by apply run_op_sim|]. intros a1 a2 Ha.
  eapply sim_bind; [apply IH|]. intros l1 l2 Hl. apply sim_ret. by constructor.
Qed.
End ops.

(** ** What the specification keeps *)

Definition configs_kept (s s' : Store) : Prop := st_configs s ⊆ st_configs s'.

#[export] Instance configs_kept_preorder : PreOrder configs_kept.
Proof. unfold configs_kept. split; [by intros s|]. intros s1 s2 s3. by etransitivity. Qed.

Section kept.
Context {B : Type} `{!ProtoMessage B Configuration, !ProtoMessage B FiniteStateMachine,
  !ProtoMessage B Event, !ProtoMessage B EventOutcome}.

Lemma modify_kept f : (forall s, st_configs (f s) = st_configs s) -> preserves configs_kept (go_modify f).
Proof. intros H s. unfold configs_kept. simpl. by rewrite H. Qed.

Lemma spec_put_kept {T} `{!ProtoMessage B T} (v : T) f :
  (forall s, st_configs (f s) = st_configs s) -> preserves configs_kept (spec_put B v f).
Proof.
  intros H. unfold spec_put. destruct (Marshal v); [|apply preserves_ret, _].
  apply preserves_bind; [apply _|by apply modify_kept|intros; apply preserves_ret, _].
Qed.

Lemma spec_PutConfig_kept oc : preserves configs_kept (spec_PutConfig B oc).
Proof.
  intros s. destruct oc as [c|]; [|reflexivity]. unfold spec_PutConfig. cbv zeta.
  rewrite go_bind_gets. destruct (st_configs s !! GetVersionId c) eqn:E; [reflexivity|].
  unfold spec_put, configs_kept. destruct (Marshal c); simpl; [|done].
  by apply insert_subseteq.
Qed.

Lemma run_op_kept o : preserves configs_kept (run_op (StoreManager0 := spec_manager B) o).
Proof.
  destruct o; cbn [run_op]; (apply preserves_bind; [apply _| |intros; apply preserves_ret, _]);
    try by (intros s; unfold configs_kept; simpl).
  - apply spec_PutConfig_kept.
  - destruct fsm; [by apply spec_put_kept|apply preserves_ret, _].
  - cbn. unfold spec_TxProcessEvent.
    apply preserves_bind; [apply _|apply preserves_gets, _|]. intros [f|]; [|apply preserves_ret, _].
    apply preserves_bind; [apply _|apply preserves_gets, _|]. intros [c|e]; [|apply preserves_ret, _].
    apply preserves_bind; [apply _|apply preserves_lift, _|]. intros [[e|] x]; [apply preserves_ret, _|].
    by apply spec_put_kept.
  - destruct evt; [by apply spec_put_kept|apply preserves_ret, _].
  - destruct o; [by apply spec_put_kept|apply preserves_ret, _].
Qed.

Lemma run_ops_kept os : preserves configs_kept (run_ops (StoreManager0 := spec_manager B) os).
Proof.
  induction os as [|o os IH]; cbn [run_ops]; [apply preserves_ret, _|].
  apply preserves_bind; [apply _|apply run_op_kept|]. intros a.
  apply preserves_bind; [apply _|done|]. intros l. apply preserves_ret, _.
Qed.
End kept.
