(* ===== verification/RedisRefinement.v ===== *)
(** * The store on Redis implements the contract

    [refines] relates a specification store to a [RedisStore]: each key of
    each collection holds the serialization of what the specification has
    there.  Under it, and on a client whose server is reachable, every
    operation of [RedisStore.v] is simulated by the one of [StoreSpec.v]. *)

From Stdlib Require Import ZArith Ascii.
From stdpp Require Import base tactics strings list gmap sets.
From S2P Require Import Prelude GoLib Proto Fsm Keys StoreTypes Redis RedisStore StoreSpec.

Section refinement.
Context {B W : Type} `{!GoEnv W, !RedisClient B W, !RedisLaws B W}.
Context `{!ProtoMessage B Configuration, !ProtoMessage B FiniteStateMachine,
          !ProtoMessage B Event, !ProtoMessage B EventOutcome}.
Context `{!ProtoLaws B Configuration, !ProtoLaws B FiniteStateMachine,
          !ProtoLaws B Event, !ProtoLaws B EventOutcome}.
Context (fuel : nat).

(** ** Definitions *)

Implicit Types (c : gmap string (rval B)) (s : Store) (csm : RedisStore W).

(** The key holds the serialization of the value, or nothing. *)
Definition val_rel {T} `{!ProtoMessage B T} c (key : string) (o : option T) : Prop :=
  match o with
  | Some v => exists b, c !! key = Some (RString b) /\ Unmarshal b = Ok v
  | None => c !! key = None
  end.

(** The key holds the set; the empty set is no key. *)
Definition set_rel c (key : string) (x : gset string) : Prop :=
  c !! key = if decide (x = ∅) then None else Some (RSet x).

Definition cell_rel c s (k : collection) : Prop :=
  match k with
  | KConfigNames => set_rel c (key_of k) (st_names s)
  | KConfig id =>
      if has_byte ":"%char id then val_rel c (key_of k) (st_configs s !! id)
      else set_rel c (key_of k) (set_of (st_versions s) id)
  | KMachine cfg id => val_rel c (key_of k) (st_fsms s !! (cfg, id))
  | KByState cfg state => set_rel c (key_of k) (set_of (st_states s) (cfg, state))
  | KEvent cfg id => val_rel c (key_of k) (st_events s !! (cfg, id))
  | KOutcome cfg id => val_rel c (key_of k) (st_outcomes s !! (cfg, id))
  end.

Definition cells_rel c s : Prop := forall k, plain_key k = true -> cell_rel c s k.

Definition fsms_good s : Prop :=
  forall k f, st_fsms s !! k = Some f -> good_fsm f = true.

Record refines s csm : Prop := {
  ref_cells : cells_rel (contents (view (client csm))) s;
  ref_good : fsms_good s;
  ref_healthy : healthy (client csm);
  ref_timeout : Timeout csm = st_timeout s }.

(** ** One command *)

Lemma redis_step {A} ctx (cmd : command B A) csm :
  healthy (client csm) ->
  exists r w', redis ctx cmd csm = (Done r, with_client csm w') /\ healthy w' /\
    redis_ok cmd (view (client csm)) r (view w').
Proof.
  intros Hh. unfold redis. destruct (do_cmd ctx cmd (client csm)) as [r w'] eqn:E.
  destruct (do_cmd_healthy _ _ _ _ _ _ Hh E). eauto.
Qed.

(** Running a command that changes nothing keeps the relation. *)
Lemma refines_client s csm w' :
  refines s csm -> healthy w' -> contents (view w') = contents (view (client csm)) ->
  refines s (with_client csm w').
Proof. intros [] Hh E. split; simpl; try done. by rewrite E. Qed.

Lemma get_spec T `{!ProtoMessage B T, !ProtoLaws B T} key (o : option T) s csm :
  (0 < fuel)%nat -> refines s csm -> val_rel (contents (view (client csm))) key o ->
  exists csm', get fuel T key csm = (Done (lookup_or key o), csm') /\ refines s csm' /\
    view (client csm') = view (client csm).
Proof.
  intros Hf HR Hv. unfold get. rewrite go_bind_gets. destruct fuel as [|n]; [lia|].
  cbn [get_loop]. rewrite go_bind_gets. cbv zeta.
  destruct (redis_step (WithTimeout (Timeout csm)) (CGet (B:=B) key) csm (ref_healthy _ _ HR))
    as (r & w' & E & Hh & Hv' & Hr).
  rewrite (go_bind_done _ _ _ _ _ E). exists (with_client csm w').
  split; [|split; [apply refines_client; [done..|by rewrite Hv']|done]].
  destruct o as [v|]; simpl in Hv.
  - destruct Hv as (b & Hb & Hu). rewrite Hb in Hr. subst r. simpl. by rewrite <- Hu.
  - rewrite Hv in Hr. by subst r.
Qed.

(** What a [put] does when the server is reachable. *)
Lemma put_spec {T} `{!ProtoMessage B T} key (value : T) csm :
  (0 < fuel)%nat -> healthy (client csm) ->
  match Marshal value with
  | Fail err => put fuel key value 0 csm = (Done (Some (InvalidDataError (error_text err))), csm)
  | Ok b => exists w', put fuel key value 0 csm = (Done None, with_client csm w') /\
      healthy w' /\ view w' = write key (RString b) (view (client csm))
  end.
Proof.
  intros Hf Hh. unfold put. rewrite go_bind_gets. destruct fuel as [|n]; [lia|].
  cbn [put_loop]. rewrite go_bind_gets. cbv zeta.
  destruct (Marshal value) as [b|err]; [|done].
  destruct (redis_step (WithTimeout (Timeout csm)) (CSet key b 0) csm Hh)
    as (r & w' & E & Hh' & Hok).
  destruct (Hok eq_refl) as [-> Hv]. rewrite (go_bind_done _ _ _ _ _ E). eauto.
Qed.

(** ** Writes *)

(** A change of one key. *)
Definition same_but (key : string) c c' : Prop :=
  forall key', key' <> key -> c' !! key' = c !! key'.

Lemma cells_update c c' s s' k :
  plain_key k = true -> cells_rel c s -> same_but (key_of k) c c' ->
  cell_rel c' s' k ->
  (forall k', k' <> k -> plain_key k' = true -> cell_rel c s k' -> cell_rel c s' k') ->
  cells_rel c' s'.
Proof.
  intros Hk Hc Hsame Hk' Ho k' Hp. destruct (decide (k' = k)) as [->|Hne]; [done|].
  assert (cell_rel c s' k') as H by auto.
  assert (key_of k' <> key_of k) as Hkey by (intros E; by apply key_of_inj in E).
  destruct k'; unfold cell_rel, val_rel, set_rel in *; by rewrite !(Hsame _ Hkey).
Qed.

Lemma same_but_insert key x c : same_but key c (<[key := x]> c).
Proof. intros key' H. by rewrite lookup_insert_ne. Qed.

Lemma same_but_refl key c : same_but key c c.
Proof. by intros key' H. Qed.

(** A watch on another key stays clean. *)
Definition unwatched (k : string) (v v' : rview B) : Prop :=
  forall key, key <> k -> watching v = Some (key, false) -> watching v' = Some (key, false).

Lemma unwatched_refl k (v : rview B) : unwatched k v v.
Proof. by intros key _ H. Qed.

Lemma touch_other k key : key <> k -> touch k (Some (key, false)) = Some (key, false).
Proof. intros H. simpl. by rewrite bool_decide_ne by congruence. Qed.

Lemma write_set_spec k x (v : rview B) :
  set_rel (contents (write_set k x v)) k x /\
  same_but k (contents v) (contents (write_set k x v)) /\ unwatched k v (write_set k x v).
Proof.
  unfold write_set, set_rel. case_decide; simpl.
  - split_and!; [by rewrite lookup_delete_eq| |].
    + intros k' H'. by rewrite lookup_delete_ne.
    + intros key Hk Hw. simpl. rewrite Hw. by apply touch_other.
  - split_and!; [by rewrite lookup_insert_eq|apply same_but_insert|].
    intros key Hk Hw. simpl. rewrite Hw. by apply touch_other.
Qed.

Lemma set_at_rel k x (v : rview B) : set_rel (contents v) k x -> set_at k v = Some x.
Proof. unfold set_rel, set_at. intros ->. by case_decide; subst. Qed.

(** [SADD] and [SREM] on a key that holds a set. *)
Lemma sadd_spec ctx k m x csm :
  healthy (client csm) -> set_rel (contents (view (client csm))) k x ->
  exists r w', redis ctx (CSAdd (B:=B) k m) csm = (Done (ROk r), with_client csm w') /\
    healthy w' /\ set_rel (contents (view w')) k ({[m]} ∪ x) /\
    same_but k (contents (view (client csm))) (contents (view w')) /\
    unwatched k (view (client csm)) (view w').
Proof.
  intros Hh Hx. destruct (redis_step ctx (CSAdd (B:=B) k m) csm Hh) as (r & w' & E & Hh' & Hok).
  simpl in Hok. rewrite (set_at_rel _ _ _ Hx) in Hok. destruct Hok as [-> Hv].
  eexists _, w'. split; [exact E|]. split; [done|]. rewrite Hv. case_decide.
  - replace ({[m]} ∪ x) with x by set_solver. by split_and!; [|apply same_but_refl|apply unwatched_refl].
  - apply write_set_spec.
Qed.

Lemma srem_spec ctx k m x csm :
  healthy (client csm) -> set_rel (contents (view (client csm))) k x ->
  exists r w', redis ctx (CSRem (B:=B) k m) csm = (Done (ROk r), with_client csm w') /\
    healthy w' /\ set_rel (contents (view w')) k (x ∖ {[m]}) /\
    same_but k (contents (view (client csm))) (contents (view w')) /\
    unwatched k (view (client csm)) (view w').
Proof.
  intros Hh Hx. destruct (redis_step ctx (CSRem (B:=B) k m) csm Hh) as (r & w' & E & Hh' & Hok).
  simpl in Hok. rewrite (set_at_rel _ _ _ Hx) in Hok. destruct Hok as [-> Hv].
  eexists _, w'. split; [exact E|]. split; [done|]. rewrite Hv. case_decide.
  - apply write_set_spec.
  - replace (x ∖ {[m]}) with x by set_solver. by split_and!; [|apply same_but_refl|apply unwatched_refl].
Qed.

Lemma val_rel_insert {T} `{!ProtoMessage B T, !ProtoLaws B T} c key (v : T) b :
  Marshal v = Ok b -> val_rel (<[key := RString b]> c) key (Some v).
Proof. intros Hm. exists b. rewrite lookup_insert_eq. split; [done|by apply Unmarshal_Marshal]. Qed.

(** A [put] of a value into its cell. *)
Lemma sim_put {T} `{!ProtoMessage B T, !ProtoLaws B T} k (value : T) f :
  (0 < fuel)%nat -> plain_key k = true ->
  (forall c s b, Marshal value = Ok b -> cells_rel c s ->
     cell_rel (<[key_of k := RString b]> c) (f s) k) ->
  (forall c s k', k' <> k -> plain_key k' = true -> cell_rel c s k' -> cell_rel c (f s) k') ->
  (forall s, fsms_good s -> fsms_good (f s)) -> (forall s, st_timeout (f s) = st_timeout s) ->
  sim refines eq (spec_put B value f) (put fuel (key_of k) value NeverExpire).
Proof.
  intros Hf Hk Hset Hother Hgood Htime s csm HR. unfold spec_put, NeverExpire.
  pose proof (put_spec (key_of k) value csm Hf (ref_healthy _ _ HR)) as Hput.
  destruct (Marshal value) as [b|err] eqn:Em; [|by rewrite Hput].
  destruct Hput as (w' & -> & Hh & Hv). simpl. split; [done|]. destruct HR. split; simpl.
  - rewrite Hv. simpl. eapply cells_update; eauto using same_but_insert.
  - auto.
  - done.
  - by rewrite Htime.
Qed.

(** ** The operations *)

Hypothesis fuel_pos : (0 < fuel)%nat.

Lemma sim_get T `{!ProtoMessage B T, !ProtoLaws B T} key (proj : Store -> option T) :
  (forall s csm, refines s csm -> val_rel (contents (view (client csm))) key (proj s)) ->
  sim refines eq (go_gets (fun s => lookup_or key (proj s))) (get fuel T key).
Proof.
  intros H s csm HR.
  destruct (get_spec T key (proj s) s csm fuel_pos HR (H _ _ HR)) as (csm' & -> & HR' & _). done.
Qed.

Lemma sim_members k (proj : Store -> gset string) :
  (forall s csm, refines s csm -> set_rel (contents (view (client csm))) (key_of k) (proj s)) ->
  sim refines Permutation (go_gets (fun s => elements (proj s)))
    (r ← redis Background (CSMembers (B:=B) (key_of k)); mret (members r)).
Proof.
  intros H s csm HR.
  destruct (redis_step Background (CSMembers (B:=B) (key_of k)) csm (ref_healthy _ _ HR))
    as (r & w' & E & Hh & Hv & Hok).
  rewrite (set_at_rel _ _ _ (H _ _ HR)) in Hok. destruct Hok as (l & -> & Hl).
  rewrite (go_bind_done _ _ _ _ _ E). split; [exact (Permutation_sym Hl)|].
  apply refines_client; [done..|by rewrite Hv].
Qed.

Lemma cell k s csm : plain_key k = true -> refines s csm ->
  cell_rel (contents (view (client csm))) s k.
Proof. intros Hk HR. by apply (ref_cells _ _ HR). Qed.

(** Adding to and removing from the set of a cell. *)
Definition cell_update (s s' : Store) k (x : gset string) : Prop :=
  (forall c, set_rel c (key_of k) x -> cell_rel c s' k) /\
  (forall c k', k' <> k -> plain_key k' = true -> cell_rel c s k' -> cell_rel c s' k') /\
  (fsms_good s -> fsms_good s') /\ st_timeout s' = st_timeout s.

Lemma sadd_refines k m x s s' csm :
  plain_key k = true -> refines s csm ->
  set_rel (contents (view (client csm))) (key_of k) x -> cell_update s s' k ({[m]} ∪ x) ->
  exists r w', redis Background (CSAdd (B:=B) (key_of k) m) csm = (Done (ROk r), with_client csm w') /\
    refines s' (with_client csm w') /\ unwatched (key_of k) (view (client csm)) (view w').
Proof.
  intros Hk HR Hx (Hc & Ho & Hg & Ht). destruct HR as [HC HG HH HT].
  destruct (sadd_spec Background (key_of k) m x csm HH Hx) as (r & w' & E & Hh & Hset & Hsame & Hw).
  exists r, w'. split_and!; [done| |done]. split; simpl; auto; [|by rewrite Ht].
  eapply cells_update; eauto.
Qed.

Lemma srem_refines k m x s s' csm :
  plain_key k = true -> refines s csm ->
  set_rel (contents (view (client csm))) (key_of k) x -> cell_update s s' k (x ∖ {[m]}) ->
  exists r w', redis Background (CSRem (B:=B) (key_of k) m) csm = (Done (ROk r), with_client csm w') /\
    refines s' (with_client csm w') /\ unwatched (key_of k) (view (client csm)) (view w').
Proof.
  intros Hk HR Hx (Hc & Ho & Hg & Ht). destruct HR as [HC HG HH HT].
  destruct (srem_spec Background (key_of k) m x csm HH Hx) as (r & w' & E & Hh & Hset & Hsame & Hw).
  exists r, w'. split_and!; [done| |done]. split; simpl; auto; [|by rewrite Ht].
  eapply cells_update; eauto.
Qed.

Lemma states_update s cfg st (x : gset string) :
  cell_update s (upd_states (fun m => <[(cfg, st) := x]> m) s) (KByState cfg st) x.
Proof.
  split_and!; try done.
  - intros c Hc. simpl. rewrite set_of_insert. by case_decide.
  - intros c k' Hne _ Hc. destruct k'; simpl in *; try done.
    rewrite set_of_insert. case_decide; [congruence|done].
Qed.

(** [UpdateState], with what it does to the watch of a transaction. *)
Lemma UpdateState_spec cfg id o n s csm :
  plain cfg = true -> refines s csm ->
  exists w', rs_UpdateState cfg id o n csm = (Done None, with_client csm w') /\
    refines (upd_states (move_state cfg id o n) s) (with_client csm w') /\
    forall i, watching (view (client csm)) = Some (NewKeyForMachine i cfg, false) ->
      watching (view w') = Some (NewKeyForMachine i cfg, false).
Proof.
  intros Hp HR. unfold rs_UpdateState, move_state.
  assert (Hkey : forall i st, NewKeyForMachine i cfg <> key_of (KByState cfg st)).
  { intros i st E. by apply (key_of_inj (KMachine cfg i) (KByState cfg st)) in E. }
  assert (exists w1,
    (if o =s "" then mret None
     else r ← redis Background (CSRem (NewKeyForMachinesByState cfg o) id); mret (Err r)) csm
    = (Done None, with_client csm w1) /\
    refines (upd_states (fun m => if o =s "" then m
             else <[(cfg, o) := set_of m (cfg, o) ∖ {[id]}]> m) s) (with_client csm w1) /\
    forall i, watching (view (client csm)) = Some (NewKeyForMachine i cfg, false) ->
      watching (view w1) = Some (NewKeyForMachine i cfg, false)) as (w1 & E1 & HR1 & Hw1).
  { destruct (o =s "").
    - exists (client csm). destruct csm. split_and!; [done| |auto]. by destruct s.
    - destruct (srem_refines (KByState cfg o) id _ s _ csm Hp HR (cell (KByState cfg o) _ _ Hp HR)
                 (states_update _ _ _ _)) as (r & w1 & E & HR1 & Hw).
      exists w1. split_and!; [|done|intros i; apply Hw, Hkey].
      simpl in E. by rewrite (go_bind_done _ _ _ _ _ E). }
  rewrite (go_bind_done _ _ _ _ _ E1). destruct (n =s "").
  { exists w1. done. }
  destruct (sadd_refines (KByState cfg n) id _ _ _ _ Hp HR1 (cell (KByState cfg n) _ _ Hp HR1)
             (states_update _ _ _ _)) as (r & w2 & E & HR2 & Hw).
  exists w2. simpl in E. rewrite (go_bind_done _ _ _ _ _ (go_bind_done _ _ _ _ _ E)).
  split_and!; [done|exact HR2|]. intros i H. apply Hw; [apply Hkey|]. by apply Hw1.
Qed.

(** The transaction, once the machine and its configuration were read: the
    watch is clean, so the commit succeeds. *)
Lemma tx_commit_spec id cfg old f s csm :
  plain cfg = true -> good_fsm f = true -> refines s csm ->
  watching (view (client csm)) = Some (NewKeyForMachine id cfg, false) ->
  let m2 := q ← tx_pipeline id cfg old f;
            match q with
            | Fail err => mret (Some err)
            | Ok queue =>
                r ← redis (WithTimeout DefaultTimeout) (CExec queue); mret (exec_err r)
            end in
  let m1 := spec_put B f (fun s =>
              upd_fsms (fun m => <[(cfg, id) := f]> m)
                (upd_states (move_state cfg id old (fsm_State f)) s)) in
  exists err csm', m2 csm = (Done err, csm') /\ fst (m1 s) = Done err /\
    refines (snd (m1 s)) csm' /\ err <> Some RedisTxFailedErr.
Proof.
  intros Hp Hg HR Hw. cbv zeta. unfold tx_pipeline, spec_put.
  destruct (Marshal f) as [b|err] eqn:Em; [|by eexists _, _].
  destruct (UpdateState_spec cfg id old (fsm_State f) s csm Hp HR) as (w1 & E1 & HR1 & Hw1).
  specialize (Hw1 id Hw).
  destruct (redis_step (WithTimeout DefaultTimeout)
             (CExec [(NewKeyForMachine id cfg, b)]) _ (ref_healthy _ _ HR1))
    as (r & w2 & E2 & Hh & Hok).
  simpl in Hok. rewrite Hw1 in Hok. destruct Hok as [-> Hv2].
  eexists None, (with_client (with_client csm w1) w2).
  rewrite (go_bind_done _ _ _ _ _ (go_bind_done _ _ _ _ _ E1)).
  cbv beta iota. rewrite (go_bind_done _ _ _ _ _ E2). split_and!; [done..| |done].
  destruct HR1 as [HC HG _ HT]. split; simpl; [| |done|done].
  - rewrite Hv2. simpl.
    eapply (cells_update _ _ _ _ (KMachine cfg id) Hp HC); [apply same_but_insert| |].
    + simpl. rewrite lookup_insert_eq. eapply val_rel_insert; eauto.
    + intros k' Hne _ Hc. destruct k'; simpl in *; try done.
      rewrite lookup_insert_ne by congruence. done.
  - intros k f' Hf. simpl in Hf. rewrite lookup_insert in Hf. case_decide; [by simplify_eq|eauto].
Qed.

(** The body of the transaction. *)
Lemma txf_spec id cfg evt s csm :
  plain cfg = true -> refines s csm ->
  watching (view (client csm)) = Some (NewKeyForMachine id cfg, false) ->
  let r1 := spec_TxProcessEvent B id cfg evt s in
  exists r csm', txf fuel id cfg evt (WithTimeout DefaultTimeout) csm = (r, csm') /\
    fst r1 = r /\ refines (snd r1) csm' /\ r <> Done (Some RedisTxFailedErr).
Proof.
  intros Hp HR Hw. cbv zeta. unfold spec_TxProcessEvent, txf, rs_GetStateMachine. rewrite go_bind_gets.
  destruct (get_spec FiniteStateMachine _ _ s csm fuel_pos HR (cell (KMachine cfg id) _ _ Hp HR))
    as (csm1 & E1 & HR1 & Hv1). simpl in E1. rewrite (go_bind_done _ _ _ _ _ E1).
  destruct (st_fsms s !! (cfg, id)) as [f|] eqn:Ef; [|by eexists _, csm1].
  cbn [lookup_or]. cbv zeta. pose proof (ref_good _ _ HR _ _ Ef) as Hgood.
  unfold spec_GetConfig, rs_GetConfig. rewrite go_bind_gets.
  assert (Hcell : val_rel (contents (view (client csm1))) (NewKeyForConfig (fsm_ConfigId f))
                    (st_configs s !! fsm_ConfigId f)).
  { pose proof (cell (KConfig (fsm_ConfigId f)) _ _ eq_refl HR1) as Hc. simpl in Hc.
    apply andb_true_iff in Hgood as [Hg _]. by rewrite Hg in Hc. }
  destruct (get_spec Configuration _ _ s csm1 fuel_pos HR1 Hcell) as (csm2 & E2 & HR2 & Hv2).
  rewrite (go_bind_done _ _ _ _ _ E2).
  destruct (st_configs s !! fsm_ConfigId f) as [c|]; cbn [lookup_or]; [|by eexists _, csm2].
  destruct (SendEvent (mkCSM c f) evt) as [[[err|] x]| |] eqn:Es; cbn [go_lift mbind go_bind].
  - eexists _, csm2. split_and!; [done..|].
    by destruct (SendEvent_inv _ _ _ _ Es) as [[[= ->] _]|[? _]].
  - destruct (SendEvent_Config _ _ _ _ Es) as [_ Hid].
    destruct (tx_commit_spec id cfg (fsm_State f) (csm_FSM x) s csm2) as (err & csm' & E & Es1 & HR' & Hne);
      [done| |done| |].
    + unfold good_fsm. by rewrite Hid.
    + by rewrite Hv2, Hv1.
    + eexists (Done err), csm'. split_and!; [exact E|exact Es1|exact HR'|congruence].
  - by eexists _, csm2.
  - by eexists _, csm2.
Qed.

Lemma Watch_run ctx (body : Go (RedisStore W) (option error)) key csm w1 r csm2 :
  redis ctx (CWatch (B:=B) key) csm = (Done (ROk tt), with_client csm w1) ->
  body (with_client csm w1) = (r, csm2) ->
  Watch (B:=B) ctx body key csm =
  match r with
  | Done err => (Done err, snd (redis ctx (CUnwatch (B:=B)) csm2))
  | Panicked => (Panicked, csm2)
  | Spin => (Spin, csm2)
  end.
Proof.
  intros E1 E2. unfold Watch. rewrite (go_bind_done _ _ _ _ _ E1). cbv beta iota. cbn [exec_err].
  unfold mbind, go_bind. rewrite E2. destruct r as [err| |]; [|done|done].
  unfold redis. by destruct (do_cmd ctx CUnwatch (client csm2)).
Qed.

Lemma TxProcessEvent_sim id cfg evt : plain cfg = true ->
  sim refines eq (spec_TxProcessEvent B id cfg evt) (rs_TxProcessEvent fuel id cfg evt).
Proof.
  intros Hp s csm HR. unfold rs_TxProcessEvent.
  change (Z.to_nat DefaultMaxRetries) with 3%nat. cbn [TxProcessEvent_loop]. cbv zeta.
  set (ctx := WithTimeout DefaultTimeout).
  destruct (redis_step ctx (CWatch (B:=B) (NewKeyForMachine id cfg)) csm
             (ref_healthy _ _ HR)) as (r & w1 & E1 & Hh1 & -> & Hv1).
  assert (HR1 : refines s (with_client csm w1)).
  { apply refines_client; [done..|]. by rewrite Hv1. }
  destruct (txf_spec id cfg evt s (with_client csm w1) Hp HR1) as (r & csm2 & E2 & Er & HR2 & Hne).
  { simpl. by rewrite Hv1. }
  pose proof (Watch_run ctx _ _ _ _ _ _ E1 E2) as E3. rewrite Er.
  destruct r as [err| |]; [|by rewrite (go_bind_panic _ _ _ _ E3)|by rewrite (go_bind_spin _ _ _ _ E3)].
  rewrite (go_bind_done _ _ _ _ _ E3), bool_decide_ne by congruence. split; [done|]. simpl.
  destruct (redis_step ctx (CUnwatch (B:=B)) csm2 (ref_healthy _ _ HR2))
    as (r & w4 & E4 & Hh4 & -> & Hv4).
  rewrite E4. apply refines_client; [done..|]. by rewrite Hv4.
Qed.

Lemma PutConfig_sim oc : match oc with Some c => good_config c = true | None => True end ->
  sim refines eq (spec_PutConfig B oc) (rs_PutConfig fuel oc).
Proof.
  destruct oc as [c|]; [|by intros _; apply sim_ret]. intros Hg s csm HR.
  unfold spec_PutConfig, rs_PutConfig. cbv zeta. rewrite go_bind_gets.
  assert (Hc : has_byte ":"%char (cfg_Name c) = false) by by apply plain_spec in Hg as [? _].
  assert (Hid : has_byte ":"%char (GetVersionId c) = true).
  { unfold GetVersionId. rewrite has_byte_app. apply orb_true_r. }
  destruct (redis_step Background (CExists (B:=B) (NewKeyForConfig (GetVersionId c))) csm
             (ref_healthy _ _ HR)) as (r & w1 & E1 & Hh1 & Hv1 & ->).
  rewrite (go_bind_done _ _ _ _ _ E1).
  assert (HR1 : refines s (with_client csm w1)) by (apply refines_client; [done..|by rewrite Hv1]).
  pose proof (cell (KConfig (GetVersionId c)) _ _ eq_refl HR) as Hcell. simpl in Hcell.
  rewrite Hid in Hcell. destruct (st_configs s !! GetVersionId c) as [c0|] eqn:Eo; simpl in Hcell.
  { destruct Hcell as (b & -> & _). done. }
  rewrite Hcell. cbn [Val]. rewrite bool_decide_ne by done.
  set (s2 := upd_names (fun names => {[cfg_Name c]} ∪ names) s).
  destruct (sadd_refines KConfigNames (cfg_Name c) _ s s2 _ eq_refl HR1
             (cell KConfigNames _ _ eq_refl HR1)) as (r2 & w2 & E2 & HR2 & _).
  { split_and!; try done. intros c' k' Hne _ Hk. by destruct k'. }
  set (s3 := upd_versions (fun m => <[cfg_Name c := {[GetVersionId c]} ∪ set_of m (cfg_Name c)]> m) s2).
  assert (Hx : set_rel (contents (view (client (with_client (with_client csm w1) w2))))
                 (key_of (KConfig (cfg_Name c))) (set_of (st_versions s2) (cfg_Name c))).
  { pose proof (cell (KConfig (cfg_Name c)) _ _ eq_refl HR2) as H2. simpl in H2. by rewrite Hc in H2. }
  destruct (sadd_refines (KConfig (cfg_Name c)) (GetVersionId c) _ s2 s3 _ eq_refl HR2 Hx)
    as (r3 & w3 & E3 & HR3 & _).
  { split_and!; try done.
    - intros c' H'. simpl. rewrite Hc, set_of_insert. by case_decide.
    - intros c' k' Hne _ Hk. destruct k'; try done. simpl in *.
      destruct (has_byte _ id); [done|]. rewrite set_of_insert. case_decide; [congruence|done]. }
  rewrite (go_bind_done _ _ _ _ _ E2). simpl in E3. rewrite (go_bind_done _ _ _ _ _ E3).
  apply (sim_put (KConfig (GetVersionId c)) c _ fuel_pos eq_refl); try done.
  - intros c' s' b Hm _. simpl. rewrite Hid, lookup_insert_eq. by eapply val_rel_insert.
  - intros c' s' k' Hne _ Hk. destruct k'; try done. simpl in *.
    destruct (has_byte _ id); [|done]. rewrite lookup_insert_ne by congruence. done.
Qed.

(** The contract holds. *)
Lemma redis_refines : StoreRefines B (redis_store_manager fuel) refines.
Proof.
  split; cbn [GetConfig PutConfig GetAllConfigs GetAllVersions GetStateMachine PutStateMachine
    GetAllInState UpdateState TxProcessEvent GetEvent PutEvent AddEventOutcome GetOutcomeForEvent
    SetTimeout GetTimeout Health redis_store_manager].
  - intros id Hg. apply (sim_get Configuration _ (fun s => st_configs s !! id)). intros s csm HR.
    pose proof (cell (KConfig id) _ _ eq_refl HR) as Hc. simpl in Hc.
    apply andb_true_iff in Hg as [Hg _]. by rewrite Hg in Hc.
  - apply PutConfig_sim.
  - apply (sim_members KConfigNames st_names). intros s csm HR. by apply (cell KConfigNames).
  - intros name Hp. apply (sim_members (KConfig name) (fun s => set_of (st_versions s) name)). intros s csm HR.
    pose proof (cell (KConfig name) _ _ eq_refl HR) as Hc. simpl in Hc.
    apply plain_spec in Hp as [Hp _]. by rewrite Hp in Hc.
  - intros id cfg Hp. apply (sim_get FiniteStateMachine _ (fun s => st_fsms s !! (cfg, id))).
    intros s csm HR. by apply (cell (KMachine cfg id)).
  - intros id [f|] Hg; [|by apply sim_ret]. pose proof Hg as [_ Hp]%andb_true_iff.
    apply (sim_put (KMachine (config_name (fsm_ConfigId f)) id) f _ fuel_pos Hp); try done.
    + intros c s b Hm _. simpl. rewrite lookup_insert_eq. by eapply val_rel_insert.
    + intros c s k' Hne _ Hk. destruct k'; try done. simpl. by rewrite lookup_insert_ne by congruence.
    + intros s H k f' Hf. simpl in Hf. rewrite lookup_insert in Hf. case_decide; [by simplify_eq|eauto].
  - intros cfg st Hp. apply (sim_members (KByState cfg st) (fun s => set_of (st_states s) (cfg, st))). intros s csm HR. by apply (cell (KByState cfg st)).
  - intros cfg id o n Hp s csm HR. destruct (UpdateState_spec cfg id o n s csm Hp HR) as (w' & -> & HR' & _).
    done.
  - apply TxProcessEvent_sim.
  - intros id cfg Hp. apply (sim_get Event _ (fun s => st_events s !! (cfg, id))).
    intros s csm HR. by apply (cell (KEvent cfg id)).
  - intros [e|] cfg Hp; [|by apply sim_ret].
    apply (sim_put (KEvent cfg (evt_EventId e)) e _ fuel_pos Hp); try done.
    + intros c s b Hm _. simpl. rewrite lookup_insert_eq. by eapply val_rel_insert.
    + intros c s k' Hne _ Hk. destruct k'; try done. simpl. by rewrite lookup_insert_ne by congruence.
  - intros id cfg [e|] Hp; [|by apply sim_ret].
    apply (sim_put (KOutcome cfg id) e _ fuel_pos Hp); try done.
    + intros c s b Hm _. simpl. rewrite lookup_insert_eq. by eapply val_rel_insert.
    + intros c s k' Hne _ Hk. destruct k'; try done. simpl. by rewrite lookup_insert_ne by congruence.
  - intros id cfg Hp. apply (sim_get EventOutcome _ (fun s => st_outcomes s !! (cfg, id))).
    intros s csm HR. by apply (cell (KOutcome cfg id)).
  - intros d s csm [HC HG HH HT]. split; [done|]. by split.
  - intros s csm HR. split; [|done]. simpl. by rewrite (ref_timeout _ _ HR).
  - intros s csm HR. unfold rs_Health. rewrite go_bind_gets.
    destruct (redis_step (WithTimeout (Timeout csm)) (CPing (B:=B)) csm (ref_healthy _ _ HR))
      as (r & w' & E & Hh & -> & Hv).
    rewrite (go_bind_done _ _ _ _ _ E). split; [done|]. apply refines_client; [done..|]. by rewrite Hv.
Qed.

(** A store over an empty database. *)
Lemma refines_empty csm :
  healthy (client csm) -> contents (view (client csm)) = ∅ ->
  refines (upd_timeout (fun _ => Timeout csm) spec_empty) csm.
Proof.
  intros Hh He. split; try done. rewrite He. intros k _.
  destruct k; simpl; try done. by destruct (has_byte _ id).
Qed.

End refinement.

(** ** Properties *)

Section theorems.
Context {B W : Type} `{!GoEnv W, !RedisClient B W, !RedisLaws B W}.
Context `{!ProtoMessage B Configuration, !ProtoMessage B FiniteStateMachine,
          !ProtoMessage B Event, !ProtoMessage B EventOutcome}.
Context `{!ProtoLaws B Configuration, !ProtoLaws B FiniteStateMachine,
          !ProtoLaws B Event, !ProtoLaws B EventOutcome}.

(** The operations of the two stores. *)
Definition redis_ops (fuel : nat) : list op -> Go (RedisStore W) (list answer) :=
  run_ops (StoreManager0 := redis_store_manager (B:=B) fuel).


(** C19. A stored configuration is immutable on a server that answers, to whose
    database no one else writes, and with names of configurations that hold
    neither ':' nor '#': from any state a sequence of operations leads to from an
    empty database, what [GetConfig] answers for an id it still answers after any
    further operations.  (When the server fails it is not:
    [PutConfig_overwrites_on_failed_exists] of [RedisStore.v].) *)
Theorem configurations_immutable fuel csm0 os1 os2 id c as1 as2 csm1 csm2 csm3 :
  (0 < fuel)%nat -> healthy (client csm0) -> contents (view (client csm0)) = ∅ ->
  Forall (fun o => good_op o = true) (os1 ++ os2) -> good_config_id id = true ->
  redis_ops fuel os1 csm0 = (Done as1, csm1) ->
  rs_GetConfig fuel id csm1 = (Done (Ok c), csm2) ->
  redis_ops fuel os2 csm2 = (Done as2, csm3) ->
  fst (rs_GetConfig fuel id csm3) = Done (Ok c).
Proof.
  intros Hf Hh He [Hg1 Hg2]%Forall_app Hid E1 E2 E3.
  pose proof (redis_refines (B:=B) fuel Hf) as HS.
  destruct (run_ops_sim (redis_store_manager fuel) refines (HR := HS) os1 Hg1 _ _
             (refines_empty csm0 Hh He)) as [_ R1].
  unfold redis_ops in E1. rewrite E1 in R1. simpl in R1.
  destruct (sim_GetConfig (impl := redis_store_manager fuel) (StoreRefines := HS) id Hid _ _ R1) as [A2 R2].
  cbn [GetConfig redis_store_manager] in A2, R2. rewrite E2 in A2, R2. simpl in A2, R2.
  destruct (run_ops_sim (redis_store_manager fuel) refines (HR := HS) os2 Hg2 _ _ R2) as [_ R3].
  unfold redis_ops in E3. rewrite E3 in R3. simpl in R3.
  destruct (sim_GetConfig (impl := redis_store_manager fuel) (StoreRefines := HS) id Hid _ _ R3) as [A4 _].
  cbn [GetConfig redis_store_manager] in A4. simpl in A4.
  destruct (fst (rs_GetConfig fuel id csm3)) as [r| |]; [|done|done]. subst r. f_equal.
  match type of A2 with lookup_or _ (st_configs ?s !! _) = _ => set (s1 := s) in * end.
  pose proof (run_ops_kept (B:=B) os2 s1) as Hk.
  destruct (st_configs s1 !! id) as [c'|] eqn:Ec; [|done]. injection A2 as ->.
  by rewrite (lookup_weaken _ _ _ _ Ec Hk).
Qed.

End theorems.

(** *** Examples *)

Definition rover_ops : list op :=
  [OPutConfig (Some mars_rover); OPutConfig (Some mars_rover);
   OPutStateMachine "7" (Some (csm_FSM (rover_on "earth")));
   OUpdateState "mars_rover" "7" "" "earth";
   OTxProcessEvent "7" "mars_rover" (Some (event "1" "launch"));
   OTxProcessEvent "7" "mars_rover" (Some (event "2" "launch"));
   OGetAllInState "mars_rover" "orbit"; OGetStateMachine "7" "mars_rover"].


Definition answers (r : result (list answer) * RedisStore Mem) : list answer :=
  match fst r with Done l => l | _ => [] end.

Definition rover_run1 := redis_ops (B:=wire) 1 rover_ops (mem_store []).
Definition rover_read := snd (rs_GetConfig (B:=wire) 1 "mars_rover:v2.0" (snd rover_run1)).
Definition rover_run2 := redis_ops (B:=wire) 1 rover_ops rover_read.

Lemma configurations_immutable_witness :
  fst (rs_GetConfig (B:=wire) 1 "mars_rover:v2.0" (snd rover_run2)) = Done (Ok mars_rover).
Proof.
  apply (configurations_immutable (B:=wire) 1 (mem_store []) rover_ops rover_ops
           "mars_rover:v2.0" mars_rover (answers rover_run1) (answers rover_run2)
           (snd rover_run1) rover_read (snd rover_run2)).
  - lia.
  - constructor.
  - reflexivity.
  - repeat constructor.
  - reflexivity.
  - vm_compute. reflexivity.
  - vm_compute. reflexivity.
  - vm_compute. reflexivity.
Defined.
