(* ===== verification/Effort.v ===== *)
(** * How much a store call may cost

    The commands that an operation of the store on Redis sends, and the time it
    spends waiting between retries, bounded by the retry count, whatever the
    server answers.  The client's world is instrumented with two counters. *)

From Stdlib Require Import ZArith Lia Ascii.
From stdpp Require Import base tactics strings list gmap sets.
From S2P Require Import Prelude GoLib Proto Fsm Keys StoreTypes Redis RedisStore StoreSpec.

(** ** Definitions *)

(** A world with the number of commands sent so far and the nanoseconds slept. *)
Record Metered (W : Type) := mkMetered {
  m_world : W;
  m_commands : Z;
  m_slept : Z }.
Arguments mkMetered {W}.
Arguments m_world {W} m.
Arguments m_commands {W} m.
Arguments m_slept {W} m.

Section metered.
Context {B W : Type} `{!GoEnv W, !RedisClient B W}.

Definition metered {A} (f : W -> A * W) (m : Metered W) : A * Metered W :=
  let (a, w) := f (m_world m) in (a, mkMetered w (m_commands m) (m_slept m)).

#[export] Instance metered_env : GoEnv (Metered W) := {
  rand_Intn n := metered (rand_Intn n);
  time_Sleep d m := mkMetered (time_Sleep d (m_world m)) (m_commands m) (m_slept m + d);
  uuid_NewString := metered uuid_NewString;
  timestamppb_Now := metered timestamppb_Now }.

#[export] Instance metered_client : RedisClient B (Metered W) := {
  do_cmd _ ctx c m :=
    let (r, w) := do_cmd ctx c (m_world m) in (r, mkMetered w (m_commands m + 1) (m_slept m)) }.

End metered.

(** The longest wait between two attempts, in nanoseconds. *)
Definition longest_wait : Z := 499 * Millisecond.

(** The bounds for an operation of a store that retries [n] times. *)
Definition op_commands (n : Z) (o : op) : Z :=
  match o with
  | OGetConfig _ | OGetStateMachine _ _ | OGetEvent _ _ | OGetOutcomeForEvent _ _ => n
  | OPutStateMachine _ _ | OPutEvent _ _ | OAddEventOutcome _ _ _ => n
  | OPutConfig _ => n + 3
  | OTxProcessEvent _ _ _ => 6 * n + 15
  | OUpdateState _ _ _ _ => 2
  | OGetAllConfigs | OGetAllVersions _ | OGetAllInState _ _ | OHealth => 1
  | OSetTimeout _ | OGetTimeout => 0
  end.

Definition op_waits (n : Z) (o : op) : Z :=
  match o with
  | OTxProcessEvent _ _ _ => 6 * (n - 1)
  | OUpdateState _ _ _ _ | OGetAllConfigs | OGetAllVersions _ | OGetAllInState _ _ | OHealth
  | OSetTimeout _ | OGetTimeout => 0
  | _ => n - 1
  end.

(** ** Lemmas *)

Section costs.
Context {B W : Type} `{!GoEnv W, !GoEnvLaws W, !RedisClient B W}.
Context `{!ProtoMessage B Configuration, !ProtoMessage B FiniteStateMachine,
          !ProtoMessage B Event, !ProtoMessage B EventOutcome}.
Context (fuel : nat) (n : Z).

Abbreviation MS := (RedisStore (Metered W)).

(** [costs m c d]: with a retry count of [n], [m] sends at most [c] commands and
    waits at most [d] times, each time no longer than [longest_wait]; it leaves
    the retry count. *)
Definition costs {A} (m : Go MS A) (c d : Z) : Prop := forall csm, MaxRetries csm = n ->
  let csm' := snd (m csm) in
  MaxRetries csm' = n /\
  m_commands (client csm) <= m_commands (client csm') <= m_commands (client csm) + c /\
  m_slept (client csm) <= m_slept (client csm') <= m_slept (client csm) + d * longest_wait.

Lemma costs_ret {A} (a : A) c d : 0 <= c -> 0 <= d -> costs (mret a) c d.
Proof. intros Hc Hd csm Hn. unfold longest_wait, Millisecond. simpl. lia. Qed.

Lemma costs_gets {A} (f : MS -> A) c d : 0 <= c -> 0 <= d -> costs (go_gets f) c d.
Proof. intros Hc Hd csm Hn. unfold longest_wait, Millisecond. simpl. lia. Qed.

Lemma costs_lift {A} (r : result A) c d : 0 <= c -> 0 <= d -> costs (go_lift r) c d.
Proof. intros Hc Hd csm Hn. unfold longest_wait, Millisecond. simpl. lia. Qed.

Lemma costs_spin {A} c d : 0 <= c -> 0 <= d -> costs (go_spin (A:=A)) c d.
Proof. intros Hc Hd csm Hn. unfold longest_wait, Millisecond. simpl. lia. Qed.

Lemma costs_redis {A} ctx (cmd : command B A) c d : 1 <= c -> 0 <= d -> costs (redis ctx cmd) c d.
Proof.
  intros Hc Hd csm Hn. unfold redis. simpl. destruct (do_cmd ctx cmd _) as [r w].
  unfold longest_wait, Millisecond. simpl. lia.
Qed.

Lemma costs_wait c d : 0 <= c -> 1 <= d -> costs wait c d.
Proof.
  intros Hc Hd csm Hn. unfold wait. simpl. unfold metered.
  pose proof (rand_Intn_range 500 (m_world (client csm)) ltac:(lia)) as Hr.
  destruct (rand_Intn 500 _) as [k w]. unfold longest_wait, Millisecond. simpl in *. lia.
Qed.

Lemma costs_bind {A C} (m : Go MS A) (k : A -> Go MS C) c1 d1 c d :
  costs m c1 d1 -> (forall a, costs (k a) (c - c1) (d - d1)) -> c1 <= c -> d1 <= d ->
  costs (m ≫= k) c d.
Proof.
  intros Hm Hk Hc Hd csm Hn. specialize (Hm csm Hn). unfold mbind, go_bind.
  assert (Hl : 0 < longest_wait) by done.
  destruct (m csm) as [[a| |] csm1]; simpl in Hm |- *; destruct Hm as (Hn1 & Hc1 & Hd1); [|nia..].
  destruct (Hk a csm1 Hn1) as (Hn2 & Hc2 & Hd2). nia.
Qed.

(** The bound of a first step by its kind, then the rest. *)
Ltac cost :=
  repeat match goal with
  | |- costs (go_gets _ ≫= _) _ _ => apply (costs_bind _ _ 0 0); [apply costs_gets; lia|intros ?|lia|lia]
  | |- costs (go_lift _ ≫= _) _ _ => apply (costs_bind _ _ 0 0); [apply costs_lift; lia|intros ?|lia|lia]
  | |- costs (mret _ ≫= _) _ _ => apply (costs_bind _ _ 0 0); [apply costs_ret; lia|intros ?|lia|lia]
  | |- costs (redis _ _ ≫= _) _ _ => apply (costs_bind _ _ 1 0); [apply costs_redis; lia|intros ?|lia|lia]
  | |- costs (mret _) _ _ => apply costs_ret; lia
  | |- costs (if ?b then _ else _) _ _ => destruct b eqn:?
  | |- costs (match ?x with _ => _ end) _ _ => destruct x eqn:?
  end.

Lemma get_loop_costs T `{!ProtoMessage B T} f left key : 1 <= left < 2 ^ 63 ->
  costs (get_loop T f left key) left (left - 1).
Proof.
  revert left. induction f as [|f IH]; intros left Hl; cbn [get_loop]; [apply costs_spin; lia|].
  rewrite int_wrap_small by lia. cost.
  apply bool_decide_eq_false in Heqb.
  apply (costs_bind _ _ 0 1); [apply costs_wait; lia|intros ?|lia|lia].
  replace (left - 0 - 1 - 0) with (left - 1) by lia. replace (left - 1 - 0 - 0 - 1) with (left - 1 - 1) by lia.
  apply IH. lia.
Qed.

Lemma put_loop_costs {T} `{!ProtoMessage B T} f left key (value : T) ttl : 1 <= left < 2 ^ 63 ->
  costs (put_loop f left key value ttl) left (left - 1).
Proof.
  revert left. induction f as [|f IH]; intros left Hl; cbn [put_loop]; [apply costs_spin; lia|].
  rewrite int_wrap_small by lia. cost.
  apply bool_decide_eq_false in Heqb.
  apply (costs_bind _ _ 0 1); [apply costs_wait; lia|intros ?|lia|lia].
  replace (left - 0 - 1 - 0) with (left - 1) by lia. replace (left - 1 - 0 - 0 - 1) with (left - 1 - 1) by lia.
  apply IH. lia.
Qed.

Hypothesis Hn : 1 <= n < 2 ^ 63.

Lemma get_costs T `{!ProtoMessage B T} key : costs (get fuel T key) n (n - 1).
Proof using Hn GoEnvLaws0. intros csm E. unfold get. rewrite go_bind_gets, E. by apply get_loop_costs. Qed.

Lemma put_costs {T} `{!ProtoMessage B T} key (value : T) ttl : costs (put fuel key value ttl) n (n - 1).
Proof using Hn GoEnvLaws0. intros csm E. unfold put. rewrite go_bind_gets, E. by apply put_loop_costs. Qed.

Lemma UpdateState_costs c id old new : costs (rs_UpdateState c id old new) 2 0.
Proof.
  unfold rs_UpdateState. apply (costs_bind _ _ 1 0); [|intros ?|lia|lia]; cost.
  apply (costs_bind _ _ 1 0); [|intros ?|lia|lia]; cost.
Qed.

Lemma txf_costs id c evt ctx : costs (txf fuel id c evt ctx) (2 * n + 3) (2 * (n - 1)).
Proof using Hn GoEnvLaws0.
  unfold txf, rs_GetStateMachine, rs_GetConfig.
  apply (costs_bind _ _ n (n - 1)); [apply get_costs|intros r1|lia|lia]. cost.
  apply (costs_bind _ _ n (n - 1)); [apply get_costs|intros r2|lia|lia]. cost.
  apply (costs_bind _ _ 2 0); [|intros q|lia|lia]; cost.
  unfold tx_pipeline. cost. apply (costs_bind _ _ 2 0); [apply UpdateState_costs|intros ?|lia|lia]. cost.
Qed.

Lemma Watch_costs ctx body key c d : 0 <= c -> 0 <= d -> costs body c d ->
  costs (Watch (B:=B) ctx body key) (c + 2) d.
Proof.
  intros Hc Hd Hb. unfold Watch. cost.
  apply (costs_bind _ _ c d); [done|intros err|lia|lia]. cost.
Qed.

Lemma TxProcessEvent_loop_costs k ctx id c evt :
  costs (TxProcessEvent_loop fuel k ctx id c evt) (Z.of_nat k * (2 * n + 5)) (Z.of_nat k * (2 * (n - 1))).
Proof using Hn GoEnvLaws0.
  induction k as [|k IH]; cbn [TxProcessEvent_loop]; [apply costs_ret; lia|]. cbv zeta.
  apply (costs_bind _ _ (2 * n + 3 + 2) (2 * (n - 1))); [apply Watch_costs; [lia|lia|apply txf_costs]|intros err|nia|nia].
  cost; [|apply costs_ret; nia].
  replace (Z.of_nat (S k) * (2 * n + 5) - (2 * n + 3 + 2)) with (Z.of_nat k * (2 * n + 5)) by lia.
  replace (Z.of_nat (S k) * (2 * (n - 1)) - 2 * (n - 1)) with (Z.of_nat k * (2 * (n - 1))) by lia.
  exact IH.
Qed.

Lemma costs_answer {A} (m : Go MS A) (f : A -> answer) c d :
  0 <= c -> 0 <= d -> costs m c d -> costs (a ← m; mret (f a)) c d.
Proof. intros Hc Hd Hm. apply (costs_bind _ _ c d); [done|intros a|lia|lia]. apply costs_ret; lia. Qed.

Lemma members_costs {A} ctx (cmd : command B A) (f : reply A -> list string) :
  costs (r ← redis ctx cmd; mret (f r)) 1 0.
Proof. cost. Qed.

Lemma run_op_costs o :
  costs (run_op (StoreManager0 := redis_store_manager (B:=B) fuel) o) (op_commands n o) (op_waits n o).
Proof using Hn GoEnvLaws0.
  destruct o; cbn [run_op op_commands op_waits]; apply costs_answer; try lia;
    first [by apply get_costs | by apply UpdateState_costs | by apply members_costs | idtac].
  - destruct cfg as [c|]; cbn [PutConfig redis_store_manager rs_PutConfig]; [|apply costs_ret; lia]. cbv zeta. cost.
    replace (n + 3 - 1 - 1 - 1) with n by lia. replace (n - 1 - 0 - 0 - 0) with (n - 1) by lia. apply put_costs.
  - destruct fsm; [by apply put_costs|apply costs_ret; lia].
  - pose proof (TxProcessEvent_loop_costs 3 (WithTimeout DefaultTimeout) id cfg evt) as H.
    replace (Z.of_nat 3 * (2 * n + 5)) with (6 * n + 15) in H by lia.
    by replace (Z.of_nat 3 * (2 * (n - 1))) with (6 * (n - 1)) in H by lia.
  - destruct evt; [by apply put_costs|apply costs_ret; lia].
  - destruct o; [by apply put_costs|apply costs_ret; lia].
  - intros csm E. simpl. unfold longest_wait, Millisecond. split; [done|lia].
  - apply costs_gets; lia.
  - cbn [Health redis_store_manager rs_Health]. unfold rs_Health. cost.
Qed.

End costs.

(** ** Properties *)

(** C16. No operation of the store runs away: with a retry count of [n], whatever
    the server answers and however many attempts are looked at, it sends at
    most the commands of the table ([n] for a read or write of one value, [n + 3] to file
    a configuration, [6n + 15] for a transaction with its three rounds) and
    waits at most the times of the table, none longer than 499 milliseconds. *)
Theorem store_calls_bounded {B W} `{!GoEnv W, !GoEnvLaws W, !RedisClient B W}
    `{!ProtoMessage B Configuration, !ProtoMessage B FiniteStateMachine,
      !ProtoMessage B Event, !ProtoMessage B EventOutcome} fuel o (csm : RedisStore (Metered W)) :
  1 <= MaxRetries csm < 2 ^ 63 ->
  let csm' := snd (run_op (StoreManager0 := redis_store_manager (B:=B) fuel) o csm) in
  m_commands (client csm) <= m_commands (client csm') <=
    m_commands (client csm) + op_commands (MaxRetries csm) o /\
  m_slept (client csm) <= m_slept (client csm') <=
    m_slept (client csm) + op_waits (MaxRetries csm) o * longest_wait.
Proof.
  intros Hn. cbv zeta. by destruct (run_op_costs fuel (MaxRetries csm) Hn o csm eq_refl) as (_ & Hc & Hd).
Qed.

(** *** Example: a server that never answers in time *)

#[export] Instance stuck_client : RedisClient unit TestEnv := {
  do_cmd _ ctx c e := (RTimeout "i/o timeout", e) }.

#[export] Instance unit_proto {T} : ProtoMessage unit T := {
  Marshal v := Ok tt;
  Unmarshal b := Fail (Errorf "empty") }.

Definition stuck_store : RedisStore (Metered TestEnv) :=
  mkStore (mkMetered (mkTestEnv 0 0 []) 0 0) DefaultTimeout DefaultMaxRetries.

(** A write that is given up after three commands; the bound is reached. *)
Example stuck_write :
  m_commands (client (snd (run_op (StoreManager0 := redis_store_manager (B:=unit) 3)
    (OPutEvent (Some (event "1" "launch")) "rover") stuck_store))) = 3.
Proof. reflexivity. Qed.

Lemma store_calls_bounded_witness :
  m_commands (client (snd (run_op (StoreManager0 := redis_store_manager (B:=unit) 3)
    (OTxProcessEvent "7" "rover" (Some (event "1" "launch"))) stuck_store))) <= 33.
Proof.
  exact (proj2 (proj1 (store_calls_bounded (B:=unit) 3 (OTxProcessEvent "7" "rover" (Some (event "1" "launch")))
    stuck_store ltac:(split; reflexivity || discriminate)))).
Defined.
