(* ===== verification/Process.v ===== *)
(** * The world of the server process

    A store, the environment of the process (clock, identifiers, contexts, the
    readiness of the other end of a channel or stream) and the traces of what
    went over its channels.  The gRPC server, the events listener and the SQS
    clients all run in it. *)

From Stdlib Require Import ZArith.
From stdpp Require Import base tactics strings list.
From S2P Require Import Prelude GoLib Proto Fsm StoreTypes StoreSpec.

(** ** Definitions *)

(** The context of a call: its deadline, if it has one, on the clock of
    [time_Now]. *)
Record rpc_context := mkCtx { ctx_Deadline : option Z }.

(** [ctx_Err] is [ctx.Err()]; [select_send d] tells whether a receiver takes a
    value offered on a channel before the timer of [d] nanoseconds fires;
    [stream_SendMsg] is the error of [stream.SendMsg], if any. *)
Class ServerEnv (E : Type) := {
  server_env :: GoEnv E;
  time_Now : E -> Z * E;
  ctx_Err : rpc_context -> E -> option error * E;
  select_send : Z -> E -> bool * E;
  stream_SendMsg : E -> option error * E }.

Record Process (S E : Type) := mkProcess {
  p_store : S;
  p_env : E;
  p_events : list EventRequest;          (** sent on the events channel, oldest first *)
  p_notifications : list EventResponse   (** sent on the notifications channel *) }.
Arguments mkProcess {S E}.
Arguments p_store {S E} p.
Arguments p_env {S E} p.
Arguments p_events {S E} p.
Arguments p_notifications {S E} p.

Section lifting.
Context {S E : Type}.

Definition on_store {A} (m : Go S A) : Go (Process S E) A := fun p =>
  let (r, s') := m (p_store p) in
  (r, mkProcess s' (p_env p) (p_events p) (p_notifications p)).

Definition on_env {A} (m : Go E A) : Go (Process S E) A := fun p =>
  let (r, e') := m (p_env p) in
  (r, mkProcess (p_store p) e' (p_events p) (p_notifications p)).

(** An operation of the environment that always returns. *)
Definition env_op {A} (f : E -> A * E) : Go (Process S E) A :=
  on_env (fun e => let (a, e') := f e in (Done a, e')).

Definition post_event (r : EventRequest) : Go (Process S E) () :=
  go_modify (fun p => mkProcess (p_store p) (p_env p) (p_events p ++ [r]) (p_notifications p)).

Definition post_notification (r : EventResponse) : Go (Process S E) () :=
  go_modify (fun p => mkProcess (p_store p) (p_env p) (p_events p) (p_notifications p ++ [r])).

End lifting.

(** The process with its store, or its environment, replaced. *)
Definition set_store {S E} (p : Process S E) (s : S) : Process S E :=
  mkProcess s (p_env p) (p_events p) (p_notifications p).
Definition set_env {S E} (p : Process S E) (e : E) : Process S E :=
  mkProcess (p_store p) e (p_events p) (p_notifications p).

(** The name of the event of a request. *)
Definition event_name (request : EventRequest) : string :=
  match carried (req_Event request) with Some t => tr_Event t | None => "" end.

(** Processes over related stores that agree on the rest. *)
Definition lift_rel {S1 S2 E} (R : S1 -> S2 -> Prop) (p1 : Process S1 E) (p2 : Process S2 E) : Prop :=
  R (p_store p1) (p_store p2) /\ p_env p1 = p_env p2 /\ p_events p1 = p_events p2 /\
  p_notifications p1 = p_notifications p2.

(** ** Lemmas *)

Section steps.
Context {S E : Type}.

Lemma on_store_step {A C} (m : Go S A) (k : A -> Go (Process S E) C) p a s' :
  m (p_store p) = (Done a, s') -> (on_store m ≫= k) p = k a (set_store p s').
Proof. intros H. unfold mbind, go_bind, on_store. by rewrite H. Qed.

Lemma on_env_step {A C} (m : Go E A) (k : A -> Go (Process S E) C) p a e' :
  m (p_env p) = (Done a, e') -> (on_env m ≫= k) p = k a (set_env p e').
Proof. intros H. unfold mbind, go_bind, on_env. by rewrite H. Qed.

Lemma env_op_step {A C} (f : E -> A * E) (k : A -> Go (Process S E) C) p :
  (env_op f ≫= k) p = k (fst (f (p_env p))) (set_env p (snd (f (p_env p)))).
Proof. unfold mbind, go_bind, env_op, on_env. by destruct (f (p_env p)). Qed.

Lemma set_store_id (p : Process S E) : set_store p (p_store p) = p.
Proof. by destruct p. Qed.

End steps.

Section sims.
Context {S1 S2 E : Type} (R : S1 -> S2 -> Prop).

Lemma sim_on_store {A1 A2} (F : A1 -> A2 -> Prop) (m1 : Go S1 A1) (m2 : Go S2 A2) :
  sim R F m1 m2 -> sim (lift_rel (E:=E) R) F (on_store m1) (on_store m2).
Proof.
  intros H p1 p2 (HR & He & Hc & Hn). destruct (H _ _ HR) as [Hr HR']. unfold on_store.
  destruct (m1 (p_store p1)), (m2 (p_store p2)); done.
Qed.

Lemma sim_on_env {A} (m : Go E A) : sim (lift_rel R) eq (on_env m) (on_env m).
Proof.
  intros p1 p2 (HR & He & Hc & Hn). unfold on_env. rewrite He.
  destruct (m (p_env p2)) as [r e']. split; [by destruct r|done].
Qed.

Lemma sim_env_op {A} (f : E -> A * E) : sim (lift_rel R) eq (env_op f) (env_op f).
Proof. apply sim_on_env. Qed.

Lemma sim_post_event r : sim (lift_rel (E:=E) R) eq (post_event r) (post_event r).
Proof. intros p1 p2 (HR & He & Hc & Hn). split; [done|]. split_and!; simpl; congruence. Qed.

Lemma sim_post_notification r :
  sim (lift_rel (E:=E) R) eq (post_notification r) (post_notification r).
Proof. intros p1 p2 (HR & He & Hc & Hn). split; [done|]. split_and!; simpl; congruence. Qed.

End sims.

#[export] Hint Resolve sim_on_store sim_on_env sim_env_op sim_post_event sim_post_notification
  sim_lift : sim.

(** Split a goal [sim R eq m m'] between two instances of one program. *)
Ltac go_sim :=
  repeat match goal with
  | |- sim _ eq (_ ≫= _) (_ ≫= _) => apply sim_bind_eq; [| intros ?]
  | |- sim _ eq (mret _) (mret _) => by apply sim_ret
  | |- sim _ _ (if ?b then _ else _) (if ?b then _ else _) => destruct b eqn:?
  | |- sim _ _ (match ?x with _ => _ end) (match ?x with _ => _ end) => destruct x eqn:?
  | |- _ => solve [eauto with sim]
  end.

(** The environment of the examples, with a script for the selects; a message sent
    on a stream always goes through. *)
#[export] Instance test_server_env : ServerEnv TestEnv := {
  server_env := test_env;
  time_Now e := (te_clock e, e);
  ctx_Err c e :=
    (match ctx_Deadline c with
     | Some d => if (d <? te_clock e)%Z then Some ContextDeadlineExceeded else None
     | None => None
     end, e);
  select_send d e :=
    (hd true (te_selects e), mkTestEnv (te_clock e) (te_ids e) (tl (te_selects e)));
  stream_SendMsg e := (None, e) }.

(** A process that just started. *)
Definition quiet {S} (s : S) : Process S TestEnv := mkProcess s (mkTestEnv 0 0 []) [] [].
