(* ===== verification/Unreliable.v ===== *)
(** * Stores that fail

    The errors that operations of a store return.  A store with the contract of
    [StoreSpec.v] and a script of faults: an operation that meets one returns
    its error and leaves whatever the fault says, done, not done or half done;
    the others keep the contract.  What the handlers do when the store fails is
    proved over it. *)

From Stdlib Require Import ZArith.
From stdpp Require Import base tactics strings list gmap.
From S2P Require Import Prelude GoLib Proto Fsm Keys StoreTypes StoreSpec Process.

(** ** Definitions *)

(** The error, and what the failed operation did to the store. *)
Record store_fault := mkFault {
  fault_error : StoreErr;
  fault_effect : Store -> Store }.

(** [None] stands for an operation that works, as do all after the script. *)
Record Unreliable := mkUnreliable {
  u_store : Store;
  u_faults : list (option store_fault) }.

(** What the [n]-th operation from now meets. *)
Definition fault_at (u : Unreliable) (n : nat) : option store_fault := mjoin (u_faults u !! n).

Definition attempt {A} (failed : StoreErr -> A) (m : Go Store A) : Go Unreliable A := fun u =>
  match fault_at u 0 with
  | Some f => (Done (failed (fault_error f)), mkUnreliable (fault_effect f (u_store u)) (tl (u_faults u)))
  | None => let (r, s') := m (u_store u) in (r, mkUnreliable s' (tl (u_faults u)))
  end.

(** The store after an operation that may have met a fault. *)
Definition after_fault (f : option store_fault) (s s' : Store) : Store :=
  match f with Some f => fault_effect f s | None => s' end.

Section manager.
Context (B : Type) `{!ProtoMessage B Configuration, !ProtoMessage B FiniteStateMachine,
          !ProtoMessage B Event, !ProtoMessage B EventOutcome}.

(** A listing that fails is empty, as in the interface; the settings do not
    talk to a server. *)
Definition unreliable_manager : StoreManager Unreliable := {|
  GetConfig id := attempt Fail (spec_GetConfig id);
  PutConfig c := attempt Some (spec_PutConfig B c);
  GetAllConfigs := attempt (fun _ => []) spec_GetAllConfigs;
  GetAllVersions name := attempt (fun _ => []) (spec_GetAllVersions name);
  GetStateMachine id cfg := attempt Fail (spec_GetStateMachine id cfg);
  PutStateMachine id f := attempt Some (spec_PutStateMachine B id f);
  GetAllInState cfg st := attempt (fun _ => []) (spec_GetAllInState cfg st);
  UpdateState cfg id o n := attempt Some (spec_UpdateState cfg id o n);
  TxProcessEvent id cfg evt := attempt Some (spec_TxProcessEvent B id cfg evt);
  GetEvent id cfg := attempt Fail (spec_GetEvent id cfg);
  PutEvent e cfg ttl := attempt Some (spec_PutEvent B e cfg ttl);
  AddEventOutcome id cfg o ttl := attempt Some (spec_AddEventOutcome B id cfg o ttl);
  GetOutcomeForEvent id cfg := attempt Fail (spec_GetOutcomeForEvent id cfg);
  SetTimeout d := fun u => (Done tt, mkUnreliable (upd_timeout (fun _ => d) (u_store u)) (u_faults u));
  GetTimeout := go_gets (fun u => st_timeout (u_store u));
  Health := attempt Some spec_Health |}.
End manager.

(** ** Lemmas *)

Lemma fault_at_tl s fs n : fault_at (mkUnreliable s (tl fs)) n = mjoin (fs !! S n).
Proof. unfold fault_at. destruct fs; simpl; [by destruct n|done]. Qed.

Section steps.
Context {E A C : Type} (failed : StoreErr -> A) (m : Go Store A).
Implicit Types (k : A -> Go (Process Unreliable E) C) (p : Process Unreliable E).

(** An operation that meets a fault. *)
Lemma attempt_fault k p f :
  fault_at (p_store p) 0 = Some f ->
  (on_store (attempt failed m) ≫= k) p =
  k (failed (fault_error f))
    (set_store p (mkUnreliable (fault_effect f (u_store (p_store p))) (tl (u_faults (p_store p))))).
Proof. intros H. apply on_store_step. unfold attempt. by rewrite H. Qed.

(** One that does not. *)
Lemma attempt_fine k p a s' :
  fault_at (p_store p) 0 = None -> m (u_store (p_store p)) = (Done a, s') ->
  (on_store (attempt failed m) ≫= k) p =
  k a (set_store p (mkUnreliable s' (tl (u_faults (p_store p))))).
Proof. intros H Hm. apply on_store_step. unfold attempt. by rewrite H, Hm. Qed.
End steps.
