(* ===== verification/GrpcServer.v ===== *)
(** * The gRPC server: [pkg/grpc/grpc_server.go]

    Every handler of [grpcSubscriber], over any store.  The results are Go's
    pairs of a message pointer and an error. *)

From Stdlib Require Import ZArith Ascii.
From stdpp Require Import base tactics strings list gmap sets.
From S2P Require Import Prelude GoLib Proto Fsm Keys StoreTypes Redis StoreSpec Process Unreliable.

(** ** Definitions *)

Inductive HealthState := HealthResponse_UNKNOWN | HealthResponse_READY | HealthResponse_NOT_READY.

Record HealthResponse := mkHealth {
  hr_State : HealthState;
  hr_Release : string;
  hr_TlsEnabled : bool }.

Record PutFsmRequest := mkPutFsm {
  pf_Id : string;
  pf_Fsm : option FiniteStateMachine }.

(** The [oneof] of the request. *)
Inductive GetFsmRequest_Query :=
| GetFsmRequest_Id (id : string)
| GetFsmRequest_State (state : string).

Record GetFsmRequest := mkGetFsm {
  gf_Config : string;
  gf_Query : option GetFsmRequest_Query }.

Definition GetFsmRequest_GetId (r : GetFsmRequest) : string :=
  match gf_Query r with Some (GetFsmRequest_Id id) => id | _ => "" end.
Definition GetFsmRequest_GetState (r : GetFsmRequest) : string :=
  match gf_Query r with Some (GetFsmRequest_State st) => st | _ => "" end.

Inductive EntityResponse :=
| PutResponse_Config (c : Configuration)
| PutResponse_Fsm (f : FiniteStateMachine).

Record PutResponse := mkPutResponse {
  pr_Id : string;
  pr_EntityResponse : EntityResponse }.

(** The server's [Config]; of the channel and the store, whether they are set.
    The settings of TLS are used when the server is created ([Tls.v]). *)
Record Config := mkConfig {
  EventsChannel_set : bool;
  Store_set : bool;
  gc_Timeout : Z;
  ServerAddress : string;
  TlsEnabled : bool;
  TlsCerts : string;
  TlsMutual : bool }.

Definition grpc_DefaultTimeout : Z := 200 * Millisecond.

Definition status_Error {A} (c : Code) (msg : string) : option A * option error :=
  (None, Some (StatusError c msg)).

Definition ok {A} (a : A) : option A * option error := (Some a, None).

Section handlers.
Context {S E : Type} (store : StoreManager S) `{!ServerEnv E}.
#[local] Existing Instance store.

(** The build's release name, and the server's configuration. *)
Variable Release : string.
Variable s : Config.

Abbreviation M := (Go (Process S E)).

(** [if deadline, ok := ctx.Deadline(); ok { if deadline.Before(time.Now()) .. }] *)
Definition deadline_passed (ctx : rpc_context) : M bool :=
  match ctx_Deadline ctx with
  | None => mret false
  | Some deadline => now ← env_op time_Now; mret (deadline <? now)%Z
  end.

Definition grpc_Health : M (option HealthResponse * option error) :=
  if negb (Store_set s) then mret (status_Error codes_Internal "data store not configured")
  else if negb (EventsChannel_set s)
  then mret (ok (mkHealth HealthResponse_NOT_READY Release (TlsEnabled s)))
  else
    err ← on_store Health;
    match err with
    | Some _ => mret (ok (mkHealth HealthResponse_NOT_READY Release (TlsEnabled s)))
    | None => mret (ok (mkHealth HealthResponse_READY Release (TlsEnabled s)))
    end.

Definition GetTransition_GetEvent (ev : Event) : string :=
  match evt_Transition ev with Some t => tr_Event t | None => "" end.

(** A nil channel never takes a value, so the select waits for its timer. *)
Definition grpc_SendEvent (ctx : rpc_context) (request : EventRequest)
    : M (option EventResponse * option error) :=
  if req_Id request =s "" then
    mret (status_Error codes_FailedPrecondition (error_text MissingDestinationError))
  else
    let missing := mret (status_Error codes_FailedPrecondition (error_text MissingEventNameError)) in
    match req_Event request with
    | None => missing
    | Some ev =>
        match evt_Transition ev with
        | None => missing
        | Some tr =>
            if tr_Event tr =s "" then missing
            else
              ev' ← on_env (UpdateEvent (Some ev));
              let request := mkEventRequest (Some ev') (req_Config request) (req_Id request) in
              timeout ← match ctx_Deadline ctx with
                        | Some deadline => now ← env_op time_Now; mret (deadline - now)
                        | None => mret (gc_Timeout s)
                        end;
              sent ← (if EventsChannel_set s then env_op (select_send timeout) else mret false);
              if (sent : bool) then
                post_event request;;
                mret (ok (mkEventResponse (evt_EventId ev') None))
              else mret (status_Error codes_DeadlineExceeded "cannot post event")
        end
    end.

Definition PutConfiguration (ctx : rpc_context) (cfg : Configuration)
    : M (option PutResponse * option error) :=
  match CheckValid cfg with
  | Some err =>
      mret (status_Error codes_InvalidArgument (Sprintf "invalid configuration: %v" [error_text err]))
  | None =>
      passed ← deadline_passed ctx;
      if (passed : bool) then err ← env_op (ctx_Err ctx); mret (None, err)
      else
        err ← on_store (PutConfig (Some cfg));
        match err with
        | Some err =>
            if Contains (error_text err) "already exists" then
              mret (status_Error codes_AlreadyExists
                      (Sprintf "cannot store configuration: %v" [error_text err]))
            else mret (status_Error codes_Internal (error_text err))
        | None =>
            passed ← deadline_passed ctx;
            if (passed : bool) then err ← env_op (ctx_Err ctx); mret (None, err)
            else mret (ok (mkPutResponse (GetVersionId cfg) (PutResponse_Config cfg)))
        end
  end.

(** The ids of the [ListResponse]; the handler never returns an error. *)
Definition GetAllConfigurations (cfgName : string) : M (list string) :=
  if cfgName =s "" then on_store GetAllConfigs else on_store (GetAllVersions cfgName).

Definition GetConfiguration (cfgId : string) : M (option Configuration * option error) :=
  r ← on_store (GetConfig cfgId);
  match r with
  | Fail err => mret (status_Error codes_NotFound (Sprintf "configuration %s not found" [cfgId]))
  | Ok cfg => mret (ok cfg)
  end.

(** [request.Fsm] is dereferenced unchecked. *)
Definition PutFiniteStateMachine (ctx : rpc_context) (request : PutFsmRequest)
    : M (option PutResponse * option error) :=
  fsm ← deref (pf_Fsm request);
  r ← on_store (GetConfig (fsm_ConfigId fsm));
  match r with
  | Fail _ =>
      mret (status_Error codes_FailedPrecondition (error_text (NotFoundError (fsm_ConfigId fsm))))
  | Ok cfg =>
      passed ← deadline_passed ctx;
      if (passed : bool) then err ← env_op (ctx_Err ctx); mret (None, err)
      else
        id ← (if pf_Id request =s "" then on_env NewString else mret (pf_Id request));
        let fsm := if fsm_State fsm =s "" then set_fsm_State (cfg_StartingState cfg) fsm else fsm in
        err ← on_store (PutStateMachine id (Some fsm));
        match err with
        | Some err => mret (status_Error codes_Internal (error_text err))
        | None =>
            err ← on_store (UpdateState (cfg_Name cfg) id "" (fsm_State fsm));
            match err with
            | Some err => mret (status_Error codes_Internal (error_text err))
            | None => mret (ok (mkPutResponse id (PutResponse_Fsm fsm)))
            end
        end
  end.

Definition GetFiniteStateMachine (req : GetFsmRequest)
    : M (option FiniteStateMachine * option error) :=
  let cfg := gf_Config req in
  if cfg =s "" then
    mret (status_Error codes_InvalidArgument
            "configuration name must always be provided when looking up statemachine")
  else
    let fsmId := GetFsmRequest_GetId req in
    if fsmId =s "" then
      mret (status_Error codes_InvalidArgument
              "ID must always be provided when looking up statemachine")
    else
      r ← on_store (GetStateMachine fsmId cfg);
      match r with
      | Fail _ => mret (status_Error codes_NotFound (error_text (NotFoundError fsmId)))
      | Ok fsm => mret (ok fsm)
      end.

Definition grpc_GetAllInState (req : GetFsmRequest) : M (option (list string) * option error) :=
  let cfg := gf_Config req in
  if cfg =s "" then
    mret (status_Error codes_InvalidArgument "configuration must always be specified")
  else
    let state := GetFsmRequest_GetState req in
    if state =s "" then
      mret (status_Error codes_Unimplemented "missing state, table scan not implemented")
    else
      ids ← on_store (GetAllInState cfg state);
      mret (ok ids).

Definition GetEventOutcome (req : EventRequest) : M (option EventResponse * option error) :=
  let evtId := req_Id req in
  let cfg := req_Config req in
  r ← on_store (GetOutcomeForEvent evtId cfg);
  match r with
  | Fail err =>
      mret (status_Error codes_NotFound
              (Sprintf "cannot get outcome for event %s: %v" [evtId; error_text err]))
  | Ok outcome => mret (ok (mkEventResponse evtId (Some outcome)))
  end.

(** The streaming handlers return what was sent on the stream, and the error. *)
Fixpoint stream_fsms (cfgName : string) (ids : list string) (sent : list PutResponse)
    : M (list PutResponse * option error) :=
  match ids with
  | [] => mret (sent, None)
  | id :: ids' =>
      r ← on_store (GetStateMachine id cfgName);
      match r with
      | Fail err => mret (sent, Some err)
      | Ok fsm =>
          err ← env_op stream_SendMsg;
          match err with
          | Some err => mret (sent, Some err)
          | None => stream_fsms cfgName ids' (sent ++ [mkPutResponse id (PutResponse_Fsm fsm)])
          end
      end
  end.

Definition StreamAllInstate (req : GetFsmRequest) : M (list PutResponse * option error) :=
  response ← grpc_GetAllInState req;
  match response with
  | (_, Some err) => mret ([], Some err)
  | (ids, None) =>
      let cfgName := gf_Config req in
      stream_fsms cfgName (default [] ids) []
  end.

Fixpoint stream_configs (ids : list string) (sent : list Configuration)
    : M (list Configuration * option error) :=
  match ids with
  | [] => mret (sent, None)
  | cfgId :: ids' =>
      r ← on_store (GetConfig cfgId);
      match r with
      | Fail err => mret (sent, Some err)
      | Ok cfg =>
          err ← env_op stream_SendMsg;
          match err with
          | Some err => mret (sent, Some err)
          | None => stream_configs ids' (sent ++ [cfg])
          end
      end
  end.

Definition StreamAllConfigurations (value : string) : M (list Configuration * option error) :=
  if value =s "" then
    mret ([], Some (StatusError codes_InvalidArgument "must specify the Configuration name"))
  else
    ids ← GetAllConfigurations value;
    stream_configs ids [].

End handlers.

(** What a request to [SendEvent] must carry. *)
Definition complete_request (request : EventRequest) : bool :=
  negb (req_Id request =s "") && negb (event_name request =s "").

(** The machine that [PutFiniteStateMachine] files. *)
Definition started (c : Configuration) (f : FiniteStateMachine) : FiniteStateMachine :=
  if fsm_State f =s "" then set_fsm_State (cfg_StartingState c) f else f.

(** The configurations of a store are valid, have a plain name and are filed
    under their own id. *)
Definition well_filed (s : Store) : Prop :=
  forall id c, st_configs s !! id = Some c ->
    id = GetVersionId c /\ CheckValid c = None /\ plain (cfg_Name c) = true.

(** Whether the deadline of a call has passed on the clock of the environment,
    the environment after that was asked, and the error there is then. *)
Definition deadline_over {E} `{!ServerEnv E} (ctx : rpc_context) (e : E) : bool :=
  match ctx_Deadline ctx with Some d => (d <? fst (time_Now e))%Z | None => false end.
Definition after_clock {E} `{!ServerEnv E} (ctx : rpc_context) (e : E) : E :=
  match ctx_Deadline ctx with Some _ => snd (time_Now e) | None => e end.
Definition expired {E A} `{!ServerEnv E} (ctx : rpc_context) (e : E) : result (option A * option error) :=
  Done (None, fst (ctx_Err ctx (after_clock ctx e))).

(** A call that is answered with an error of the given code. *)
Definition refused {A} (code : Code) (r : result (option A * option error)) : Prop :=
  exists msg, r = Done (None, Some (StatusError code msg)).

(** The code for an error of [PutConfig]. *)
Definition put_code (err : StoreErr) : Code :=
  if Contains (error_text err) "already exists" then codes_AlreadyExists else codes_Internal.

(** The id of a new machine: the one asked for, or a fresh one. *)
Definition machine_id {E} `{!ServerEnv E} (req : PutFsmRequest) (e : E) : string :=
  if pf_Id req =s "" then fst (uuid_NewString e) else pf_Id req.

(** The status code of an error, as [status.FromError] reads it. *)
Definition status_code (err : option error) : option Code :=
  match err with Some (StatusError code _) => Some code | _ => None end.

(** ** Lemmas *)

Section lemmas.
Context {S E : Type} `{!ServerEnv E}.

Lemma deadline_passed_run ctx (p : Process S E) :
  deadline_passed ctx p = (Done (deadline_over ctx (p_env p)), set_env p (after_clock ctx (p_env p))).
Proof.
  unfold deadline_passed, deadline_over, after_clock. destruct (ctx_Deadline ctx); [|by destruct p].
  by rewrite env_op_step.
Qed.

Lemma deadline_step {A} ctx (k : bool -> Go (Process S E) A) p :
  (deadline_passed ctx ≫= k) p = k (deadline_over ctx (p_env p)) (set_env p (after_clock ctx (p_env p))).
Proof. apply go_bind_done, deadline_passed_run. Qed.

(** The early return of a call that is too late. *)
Lemma expired_run {A} ctx (p : Process S E) :
  (err ← env_op (ctx_Err ctx); mret (@None A, err)) (set_env p (after_clock ctx (p_env p))) =
  (expired ctx (p_env p), set_env p (snd (ctx_Err ctx (after_clock ctx (p_env p))))).
Proof. by rewrite env_op_step. Qed.

Lemma machine_id_step {A} req (k : string -> Go (Process S E) A) p :
  exists e, ((if pf_Id req =s "" then on_env NewString else mret (pf_Id req)) ≫= k) p =
    k (machine_id req (p_env p)) (set_env p e).
Proof.
  unfold machine_id. destruct (pf_Id req =s ""); [|exists (p_env p); by destruct p].
  exists (snd (uuid_NewString (p_env p))). unfold mbind, go_bind, on_env, NewString.
  by destruct (uuid_NewString (p_env p)).
Qed.

Lemma machine_id_nonempty req (e : E) `{!GoEnvLaws E} : machine_id req e <> "".
Proof.
  unfold machine_id. destruct (bool_decide_reflect (pf_Id req = "")); [apply uuid_NewString_nonempty|done].
Qed.

(** A request that lacks something is refused, and nothing happens. *)
Lemma grpc_SendEvent_incomplete s ctx request (p : Process S E) :
  complete_request request = false ->
  exists msg, grpc_SendEvent s ctx request p =
    (Done (None, Some (StatusError codes_FailedPrecondition msg)), p).
Proof.
  unfold complete_request, event_name, carried, grpc_SendEvent, status_Error.
  destruct (req_Id request =s ""); [eauto|].
  destruct (req_Event request) as [ev|]; [|eauto].
  destruct (evt_Transition ev) as [tr|]; [|eauto].
  destruct (tr_Event tr =s ""); [eauto|done].
Qed.

(** The wait for the other end of the channel. *)
Lemma grpc_SendEvent_offer s ctx request (p : Process S E) `{!GoEnvLaws E} :
  complete_request request = true ->
  exists ev ev' timeout e1,
    req_Event request = Some ev /\ completes ev ev' /\
    let offer := if EventsChannel_set s then select_send timeout e1 else (false, e1) in
    grpc_SendEvent s ctx request p =
    if fst offer
    then (Done (Some (mkEventResponse (evt_EventId ev') None), None),
          mkProcess (p_store p) (snd offer)
            (p_events p ++ [mkEventRequest (Some ev') (req_Config request) (req_Id request)])
            (p_notifications p))
    else (Done (None, Some (StatusError codes_DeadlineExceeded "cannot post event")),
          set_env p (snd offer)).
Proof.
  unfold complete_request, event_name, carried, grpc_SendEvent. intros H.
  destruct (req_Id request =s ""); [done|].
  destruct (req_Event request) as [ev|]; [|done].
  destruct (evt_Transition ev) as [tr|]; [|done].
  destruct (tr_Event tr =s ""); [done|].
  destruct (UpdateEvent_spec ev (p_env p)) as (ev' & e' & E1 & Hc).
  rewrite (on_env_step _ _ _ _ _ E1).
  assert (Hk : forall A (k : Z -> Go (Process S E) A), exists timeout e1,
    ((match ctx_Deadline ctx with
      | Some deadline => now ← env_op time_Now; mret (deadline - now)
      | None => mret (gc_Timeout s)
      end) ≫= k) (set_env p e') = k timeout (set_env p e1)).
  { intros A k. destruct (ctx_Deadline ctx); [|by eexists _, _].
    unfold mbind at 1, go_bind at 1. rewrite env_op_step. by eexists _, _. }
  edestruct Hk as (timeout & e1 & ->). clear Hk. exists ev, ev', timeout, e1. split_and!; [done..|].
  destruct (EventsChannel_set s); simpl; [|done].
  rewrite env_op_step. simpl. by destruct (select_send timeout e1) as [[] e2].
Qed.
End lemmas.

(** *** The handlers over the specification of the store *)

Section on_spec.
Context {B : Type} `{!ProtoMessage B Configuration, !ProtoMessage B FiniteStateMachine,
  !ProtoMessage B Event, !ProtoMessage B EventOutcome}.
Context {E : Type} `{!ServerEnv E}.

Lemma AlreadyExists_text key : Contains (error_text (AlreadyExistsError key)) "already exists" = true.
Proof.
  pose proof (Contains_app ("key " ++ key ++ " ") "already exists" "") as H.
  rewrite !string_app_assoc in H. exact H.
Qed.

(** The store after [PutConfiguration], by what it held before. *)
Lemma PutConfiguration_store ctx cfg (p : Process Store E) :
  let s := p_store p in
  let '(r, p') := PutConfiguration (spec_manager B) ctx cfg p in
  match r with
  | Done (Some resp, err) =>
      CheckValid cfg = None /\ st_configs s !! GetVersionId cfg = None /\
      is_ok (Marshal (B:=B) cfg) = true /\ err = None /\
      resp = mkPutResponse (GetVersionId cfg) (PutResponse_Config cfg) /\
      p_store p' = file_config cfg s
  | Done (None, _) => True
  | _ => False
  end.
Proof.
  cbv zeta. unfold PutConfiguration. destruct (CheckValid cfg); [done|].
  assert (Hd : forall (q : Process Store E), exists b e,
    deadline_passed ctx q = (Done b, set_env q e)).
  { intros q. unfold deadline_passed. destruct (ctx_Deadline ctx).
    - rewrite env_op_step. by eexists _, _.
    - exists false, (p_env q). by destruct q. }
  destruct (Hd p) as ([] & e & E1); rewrite (go_bind_done _ _ _ _ _ E1);
    [rewrite env_op_step; done|].
  cbn [PutConfig spec_manager].
  destruct (st_configs (p_store p) !! GetVersionId cfg) as [c0|] eqn:Ec.
  { rewrite (on_store_step _ _ (set_env p e) _ _ (spec_PutConfig_exists cfg (p_store p) (mk_is_Some _ _ Ec))).
    by rewrite AlreadyExists_text. }
  destruct (Marshal (B:=B) cfg) as [b|err] eqn:Em.
  - rewrite (on_store_step _ _ (set_env p e) _ _ (spec_PutConfig_new (B:=B) cfg (p_store p) Ec ltac:(by rewrite Em))).
    destruct (Hd (set_store (set_env p e) (file_config cfg (p_store p)))) as ([] & e' & E2);
      rewrite (go_bind_done _ _ _ _ _ E2); [rewrite env_op_step; done|]. done.
  - assert (exists s', spec_PutConfig B (Some cfg) (p_store p) =
      (Done (Some (InvalidDataError (error_text err))), s')) as [s' E2].
    { unfold spec_PutConfig. cbv zeta. rewrite go_bind_gets, Ec. unfold spec_put. rewrite Em.
      by eexists. }
    rewrite (on_store_step _ _ (set_env p e) _ _ E2). by destruct (Contains _ _).
Qed.

Lemma GetConfiguration_run id (p : Process Store E) :
  GetConfiguration (spec_manager B) id p =
  (Done match st_configs (p_store p) !! id with
        | Some c => ok c
        | None => status_Error codes_NotFound (Sprintf "configuration %s not found" [id])
        end, p).
Proof.
  unfold GetConfiguration. cbn [GetConfig spec_manager].
  rewrite (on_store_step (spec_GetConfig id) _ p _ _ eq_refl), set_store_id.
  by destruct (st_configs (p_store p) !! id).
Qed.

Lemma GetAllConfigurations_run name (p : Process Store E) :
  GetAllConfigurations (spec_manager B) name p =
  (Done (elements (if name =s "" then st_names (p_store p)
                   else set_of (st_versions (p_store p)) name)), p).
Proof.
  unfold GetAllConfigurations. destruct p as [s e ev n]. by destruct (name =s "").
Qed.

Lemma deadline_passed_spec ctx (p : Process Store E) :
  exists b e, deadline_passed ctx p = (Done b, set_env p e).
Proof.
  unfold deadline_passed. destruct (ctx_Deadline ctx).
  - rewrite env_op_step. by eexists _, _.
  - exists false, (p_env p). by destruct p.
Qed.

(** The id a new machine gets. *)
Lemma machine_id_spec {A} (req : PutFsmRequest) (k : string -> Go (Process Store E) A) p `{!GoEnvLaws E} :
  exists id e, ((if pf_Id req =s "" then on_env NewString else mret (pf_Id req)) ≫= k) p =
    k id (set_env p e) /\ id <> "" /\ (pf_Id req <> "" -> id = pf_Id req).
Proof.
  destruct (bool_decide_reflect (pf_Id req = "")) as [H|H].
  - pose proof (uuid_NewString_nonempty (p_env p)).
    exists (fst (uuid_NewString (p_env p))), (snd (uuid_NewString (p_env p))).
    unfold mbind, go_bind, on_env, NewString.
    destruct (uuid_NewString (p_env p)) as [i e]. by split_and!.
  - exists (pf_Id req), (p_env p). split_and!; try done. by destruct p.
Qed.

(** [PutFiniteStateMachine] panics on a request without a machine, changes
    nothing unless it succeeds, and then files a started machine. *)
Lemma PutFiniteStateMachine_store ctx req (p : Process Store E) `{!GoEnvLaws E} :
  let s := p_store p in
  let '(r, p') := PutFiniteStateMachine (spec_manager B) ctx req p in
  p_events p' = p_events p /\ p_notifications p' = p_notifications p /\
  match r with
  | Done (Some resp, err) =>
      exists f c id, pf_Fsm req = Some f /\ st_configs s !! fsm_ConfigId f = Some c /\
        err = None /\ id <> "" /\ (pf_Id req <> "" -> id = pf_Id req) /\
        resp = mkPutResponse id (PutResponse_Fsm (started c f)) /\
        p_store p' = file_new c id (started c f) s
  | Done (None, _) => is_Some (pf_Fsm req) /\ p_store p' = s
  | Panicked => pf_Fsm req = None /\ p' = p
  | Spin => False
  end.
Proof.
  cbv zeta. unfold PutFiniteStateMachine. destruct (pf_Fsm req) as [f|] eqn:Ef; [|done].
  rewrite go_bind_deref. cbn [GetConfig spec_manager].
  rewrite (on_store_step (spec_GetConfig (fsm_ConfigId f)) _ p _ _ eq_refl), set_store_id.
  destruct (st_configs (p_store p) !! fsm_ConfigId f) as [c|] eqn:Ec; cbn [lookup_or]; [|done].
  destruct (deadline_passed_spec ctx p) as ([] & e & E1); rewrite (go_bind_done _ _ _ _ _ E1);
    [rewrite env_op_step; done|].
  match goal with |- context [((if pf_Id req =s "" then _ else _) ≫= ?k) ?q] =>
    destruct (machine_id_spec req k q) as (id & e' & E2 & Hid & Hgiven) end.
  rewrite E2. clear E1 E2. cbv zeta. fold (started c f). cbn [PutStateMachine UpdateState spec_manager].
  destruct (Marshal (B:=B) (started c f)) as [b|err] eqn:Em.
  - rewrite (on_store_step (spec_PutStateMachine B id (Some (started c f))) _ _ _ _
      (spec_put_ok (B:=B) _ _ _ ltac:(by rewrite Em))).
    split_and!; [done..|]. exists f, c, id. by split_and!.
  - rewrite (on_store_step (spec_PutStateMachine B id (Some (started c f))) _ _
      (Some (InvalidDataError (error_text err))) (p_store p)); [done|].
    simpl. unfold spec_put. by rewrite Em.
Qed.

Lemma GetFiniteStateMachine_run name id (p : Process Store E) : name <> "" -> id <> "" ->
  GetFiniteStateMachine (spec_manager B) (mkGetFsm name (Some (GetFsmRequest_Id id))) p =
  (Done match st_fsms (p_store p) !! (name, id) with
        | Some f => ok f
        | None => status_Error codes_NotFound (error_text (NotFoundError id))
        end, p).
Proof.
  intros Hn Hi. unfold GetFiniteStateMachine, GetFsmRequest_GetId. cbv zeta. cbn [gf_Config gf_Query].
  rewrite !bool_decide_ne by done. cbn [GetStateMachine spec_manager].
  rewrite (on_store_step (spec_GetStateMachine id name) _ p _ _ eq_refl), set_store_id.
  by destruct (st_fsms (p_store p) !! _).
Qed.

Lemma grpc_GetAllInState_run name st (p : Process Store E) : name <> "" -> st <> "" ->
  grpc_GetAllInState (spec_manager B) (mkGetFsm name (Some (GetFsmRequest_State st))) p =
  (Done (ok (elements (set_of (st_states (p_store p)) (name, st)))), p).
Proof.
  intros Hn Hi. unfold grpc_GetAllInState, GetFsmRequest_GetState. cbv zeta. cbn [gf_Config gf_Query].
  rewrite !bool_decide_ne by done. cbn [GetAllInState spec_manager].
  by rewrite (on_store_step (spec_GetAllInState name st) _ p _ _ eq_refl), set_store_id.
Qed.

(** What the loop of [StreamAllInstate] sends: the machines of the ids, up to
    the first one that is missing or that the stream does not take. *)
Lemma stream_fsms_run name ids sent (p : Process Store E) :
  exists fs err p', stream_fsms (spec_manager B) name ids sent p =
    (Done ((sent ++ fs)%list, err), p') /\ p_store p' = p_store p /\
    p_events p' = p_events p /\ p_notifications p' = p_notifications p /\
    Forall (fun r => exists f, r = mkPutResponse (pr_Id r) (PutResponse_Fsm f) /\
              st_fsms (p_store p) !! (name, pr_Id r) = Some f) fs /\
    match err with
    | None => map pr_Id fs = ids
    | Some err => exists id rest, ids = (map pr_Id fs ++ id :: rest)%list /\
        match st_fsms (p_store p) !! (name, id) with
        | None => err = NotFoundError (NewKeyForMachine id name)
        | Some _ => exists e, fst (stream_SendMsg e) = Some err
        end
    end.
Proof.
  revert sent p. induction ids as [|id ids IH]; intros sent p; simpl.
  { exists [], None, p. rewrite app_nil_r. by split_and!. }
  cbn [GetStateMachine spec_manager].
  rewrite (on_store_step (spec_GetStateMachine id name) _ p _ _ eq_refl), set_store_id.
  destruct (st_fsms (p_store p) !! (name, id)) as [f|] eqn:Ef; cbn [lookup_or].
  2:{ exists [], (Some (NotFoundError (NewKeyForMachine id name))), p. rewrite app_nil_r.
      split_and!; try done. exists id, ids. by rewrite Ef. }
  rewrite env_op_step. destruct (fst (stream_SendMsg (p_env p))) as [err|] eqn:Es.
  { eexists [], (Some err), _. rewrite app_nil_r. split; [reflexivity|]. split_and!; try done.
    exists id, ids. rewrite Ef. split; [done|]. by eexists. }
  destruct (IH (sent ++ [mkPutResponse id (PutResponse_Fsm f)])%list
    (set_env p (snd (stream_SendMsg (p_env p))))) as (fs & err & p' & -> & Hs & He & Hn & Hf & Herr).
  exists (mkPutResponse id (PutResponse_Fsm f) :: fs), err, p'. simpl in *.
  rewrite <- app_assoc. split_and!; try done; [constructor; [by exists f|done]|].
  destruct err as [err|]; [|by rewrite Herr]. destruct Herr as (id' & rest & -> & Herr).
  by exists id', rest.
Qed.

(** The same, said of the set the ids are the members of. *)
Lemma streamed_members name ids (members : gset string) fs err (s : Store) :
  ids = elements members ->
  Forall (fun r => exists f, r = mkPutResponse (pr_Id r) (PutResponse_Fsm f) /\
            st_fsms s !! (name, pr_Id r) = Some f) fs ->
  match err with
  | None => map pr_Id fs = ids
  | Some err => exists id rest, ids = (map pr_Id fs ++ id :: rest)%list /\
      match st_fsms s !! (name, id) with
      | None => err = NotFoundError (NewKeyForMachine id name)
      | Some _ => exists e, fst (stream_SendMsg e) = Some err
      end
  end ->
  NoDup (map pr_Id fs) /\
  (forall r, r ∈ fs -> pr_Id r ∈ members /\
     exists f, r = mkPutResponse (pr_Id r) (PutResponse_Fsm f) /\ st_fsms s !! (name, pr_Id r) = Some f) /\
  (err = None -> forall id, id ∈ members -> id ∈ map pr_Id fs) /\
  (forall e, err = Some e -> exists id, id ∈ members /\ (id ∉ map pr_Id fs) /\
     match st_fsms s !! (name, id) with
     | None => e = NotFoundError (NewKeyForMachine id name)
     | Some _ => exists w, fst (stream_SendMsg w) = Some e
     end) /\
  ((forall w, fst (stream_SendMsg w) = None) ->
   (err = None <-> forall id, id ∈ members -> is_Some (st_fsms s !! (name, id)))).
Proof.
  intros Hids Hf Herr. pose proof (NoDup_elements members) as Hnd. rewrite <- Hids in Hnd.
  assert (Hmem : forall id, id ∈ members <-> id ∈ ids) by (intros id; by rewrite Hids, elem_of_elements).
  assert (Hsent : forall r, r ∈ fs -> pr_Id r ∈ map pr_Id fs) by (intros r; apply list_elem_of_fmap_2).
  rewrite Forall_forall in Hf.
  assert (Hhas : forall id, id ∈ map pr_Id fs -> is_Some (st_fsms s !! (name, id))).
  { intros id (r & -> & Hr)%list_elem_of_fmap. destruct (Hf r Hr) as (f & _ & ->). by eexists. }
  setoid_rewrite Hmem. destruct err as [err|].
  - destruct Herr as (id & rest & -> & Herr). apply NoDup_app in Hnd as (Hnd & Hnot & _).
    assert (Hid : id ∈ (map pr_Id fs ++ id :: rest)%list) by (apply elem_of_app; right; by left).
    split_and!; [done|..|done| |].
    + intros r Hr. split; [apply elem_of_app; left; by apply Hsent|by apply Hf].
    + intros e [= <-]. exists id. split_and!; [done|intros Hin; apply (Hnot id Hin); by left|done].
    + intros Hok. split; [done|]. intros Hall. destruct (Hall id Hid) as [f Ef]. rewrite Ef in Herr.
      destruct Herr as [e He]. by rewrite Hok in He.
  - subst ids. rewrite Herr in *. split_and!; try done.
    intros r Hr. split; [by apply Hsent|by apply Hf].
Qed.
End on_spec.

(** ** Properties *)

(** C11. [SendEvent] posts a request or reports why not, never both.  It only
    touches the events channel: a request without destination or event name
    is refused with [FailedPrecondition]; a complete one is either posted
    exactly once, its event completed and otherwise unchanged, under the id
    that the response reports, or refused with [DeadlineExceeded] and not
    posted; and it is posted whenever the listener is there to take it. *)
Theorem grpc_SendEvent_posts_or_refuses {S E} `{!ServerEnv E, !GoEnvLaws E} s ctx request
    (p : Process S E) :
  let '(r, p') := grpc_SendEvent s ctx request p in
  p_store p' = p_store p /\ p_notifications p' = p_notifications p /\
  match r with
  | Done (None, Some (StatusError code _)) =>
      p_events p' = p_events p /\
      code = (if complete_request request then codes_DeadlineExceeded
              else codes_FailedPrecondition) /\
      (complete_request request = true -> EventsChannel_set s = true ->
         (forall d e, fst (select_send d e) = true) -> False)
  | Done (Some response, None) =>
      complete_request request = true /\
      exists ev ev', req_Event request = Some ev /\ completes ev ev' /\
        response = mkEventResponse (evt_EventId ev') None /\
        p_events p' =
          (p_events p ++ [mkEventRequest (Some ev') (req_Config request) (req_Id request)])%list
  | _ => False
  end.
Proof.
  destruct (complete_request request) eqn:Hr.
  - destruct (grpc_SendEvent_offer s ctx request p Hr) as (ev & ev' & t & e1 & Hev & Hc & E0).
    rewrite E0. cbv zeta. destruct (EventsChannel_set s) eqn:Hs; simpl.
    + destruct (select_send t e1) as [[] e2] eqn:Es; simpl; split_and!; try done; [eauto 10|].
      intros _ _ Hready. specialize (Hready t e1). by rewrite Es in Hready.
    + by split_and!.
  - destruct (grpc_SendEvent_incomplete s ctx request p Hr) as (msg & ->). by split_and!.
Qed.

Definition test_server : Config := mkConfig true true grpc_DefaultTimeout "" false "" false.


Definition launch_rpc : EventRequest := mkEventRequest (Some (event "" "launch")) "mars_rover" "7".

Lemma grpc_SendEvent_posts_or_refuses_witness :
  exists ev', completes (event "" "launch") ev' /\
    p_events (snd (grpc_SendEvent test_server (mkCtx None) launch_rpc (quiet tt))) =
    [mkEventRequest (Some ev') "mars_rover" "7"].
Proof.
  pose proof (grpc_SendEvent_posts_or_refuses test_server (mkCtx None) launch_rpc (quiet tt)) as H.
  assert (Hr : exists resp, fst (grpc_SendEvent test_server (mkCtx None) launch_rpc (quiet tt)) =
    Done (Some resp, None)) by (eexists; reflexivity).
  destruct Hr as [resp Hr]. destruct (grpc_SendEvent _ _ _ _) as [r p']. simpl in Hr. subst r.
  destruct H as (_ & _ & _ & ev & ev' & Hev & Hc & _ & Hp). injection Hev as <-.
  exists ev'. split; [exact Hc | exact Hp].
Defined.

Section configurations.
Context {B : Type} `{!ProtoMessage B Configuration, !ProtoMessage B FiniteStateMachine,
  !ProtoMessage B Event, !ProtoMessage B EventOutcome}.
Context {E : Type} `{!ServerEnv E}.

(** C25. What becomes of a configuration that is put, in every case: over a
    store that keeps its contract or fails, with or without a deadline.  An
    invalid one is [InvalidArgument] and nothing happens; a deadline that has
    passed is reported before the store is touched; a failing store is
    [Internal] (or [AlreadyExists], by the text of its error) and leaves what the
    failure left; a taken id is [AlreadyExists], and the store is as it was; one
    that cannot be serialized is refused with only its names entered; every
    other is filed, and acknowledged with its id unless the deadline passed
    meanwhile, which is reported although the configuration is stored. *)
Theorem PutConfiguration_outcomes ctx cfg (p : Process Unreliable E) :
  let u := p_store p in
  let s := u_store u in
  let e := p_env p in
  let '(r, p') := PutConfiguration (unreliable_manager B) ctx cfg p in
  let s' := u_store (p_store p') in
  p_events p' = p_events p /\ p_notifications p' = p_notifications p /\
  match CheckValid cfg with
  | Some _ => refused codes_InvalidArgument r /\ p' = p
  | None =>
      if deadline_over ctx e then r = expired ctx e /\ p_store p' = u
      else
        match fault_at u 0, st_configs s !! GetVersionId cfg, Marshal (B:=B) cfg with
        | Some x, _, _ => refused (put_code (fault_error x)) r /\ s' = fault_effect x s
        | None, Some _, _ => refused codes_AlreadyExists r /\ s' = s
        | None, None, Fail err =>
            refused (put_code (InvalidDataError (error_text err))) r /\ s' = enter_config cfg s
        | None, None, Ok _ =>
            s' = file_config cfg s /\
            let e1 := after_clock ctx e in
            r = if deadline_over ctx e1 then expired ctx e1
                else Done (ok (mkPutResponse (GetVersionId cfg) (PutResponse_Config cfg)))
        end
  end.
Proof.
  cbv zeta. unfold PutConfiguration. destruct (CheckValid cfg).
  { split_and!; try done. by eexists. }
  rewrite deadline_step. destruct (deadline_over ctx (p_env p)).
  { rewrite expired_run. by split_and!. }
  cbn [PutConfig unreliable_manager]. set (p1 := set_env p (after_clock ctx (p_env p))).
  change (p_store p) with (p_store p1).
  destruct (fault_at (p_store p1) 0) as [x|] eqn:Ex.
  { rewrite (attempt_fault _ _ _ _ _ Ex). unfold put_code.
    destruct (Contains _ _); (split_and!; try done; by eexists). }
  destruct (st_configs (u_store (p_store p1)) !! GetVersionId cfg) as [c0|] eqn:Ec.
  { rewrite (attempt_fine _ _ _ _ _ _ Ex (spec_PutConfig_exists (B:=B) cfg _ (mk_is_Some _ _ Ec))).
    rewrite AlreadyExists_text. split_and!; try done. by eexists. }
  destruct (Marshal (B:=B) cfg) as [b|err] eqn:Em.
  - rewrite (attempt_fine _ _ _ _ _ _ Ex (spec_PutConfig_new (B:=B) cfg _ Ec ltac:(by rewrite Em))).
    rewrite deadline_step. cbn [p_env p1 set_env set_store].
    destruct (deadline_over ctx (after_clock ctx (p_env p))); [rewrite env_op_step|]; by split_and!.
  - rewrite (attempt_fine _ _ _ _ _ _ Ex (spec_PutConfig_unserializable cfg _ err Ec Em)). unfold put_code.
    destruct (Contains _ _); (split_and!; try done; by eexists).
Qed.

(** An acknowledged configuration can be read back: whatever the deadline
    and the serialization do, after a response without error
    [GetConfiguration] answers that configuration for the id in the response,
    and [GetAllConfigurations] lists its name and, for its name, its id. *)
Theorem PutConfiguration_acknowledged ctx cfg (p p' : Process Store E) resp :
  PutConfiguration (spec_manager B) ctx cfg p = (Done (Some resp, None), p') ->
  GetConfiguration (spec_manager B) (pr_Id resp) p' = (Done (Some cfg, None), p') /\
  exists names ids,
    GetAllConfigurations (spec_manager B) "" p' = (Done names, p') /\ cfg_Name cfg ∈ names /\
    GetAllConfigurations (spec_manager B) (cfg_Name cfg) p' = (Done ids, p') /\ pr_Id resp ∈ ids.
Proof.
  intros H. pose proof (PutConfiguration_store (B:=B) ctx cfg p) as Hs. cbv zeta in Hs.
  rewrite H in Hs. destruct Hs as (Hv & _ & _ & _ & -> & Hp).
  apply CheckValid_named in Hv. rewrite GetConfiguration_run, Hp. simpl. rewrite lookup_insert_eq.
  split; [done|]. eexists _, _. rewrite !GetAllConfigurations_run, Hp.
  rewrite bool_decide_refl, bool_decide_ne by done. simpl.
  split_and!; [done| |done|]; apply elem_of_elements; [set_solver|].
  rewrite set_of_insert. rewrite decide_True by done. set_solver.
Qed.
End configurations.

(** The deadline passes while the store is at work: the clock of this
    environment moves on by one whenever it is asked. *)
Record Ticking := mkTicking { tick : Z }.

#[export] Instance ticking_env : GoEnv Ticking := {
  rand_Intn n e := (0, e);
  time_Sleep d e := mkTicking (tick e + d);
  uuid_NewString e := ("id", e);
  timestamppb_Now e := (tick e, e) }.

#[export] Instance ticking_server_env : ServerEnv Ticking := {
  server_env := ticking_env;
  time_Now e := (tick e, mkTicking (tick e + 1));
  ctx_Err c e := (Some ContextDeadlineExceeded, e);
  select_send d e := (true, e);
  stream_SendMsg e := (None, e) }.

Lemma PutConfiguration_outcomes_witness :
  let p := mkProcess (mkUnreliable spec_empty []) (mkTicking 0) [] [] in
  let '(r, p') := PutConfiguration (unreliable_manager wire) (mkCtx (Some 0)) mars_rover p in
  r = Done (None, Some ContextDeadlineExceeded) /\
  st_configs (u_store (p_store p')) !! "mars_rover:v2.0" = Some mars_rover.
Proof.
  pose proof (PutConfiguration_outcomes (B:=wire) (mkCtx (Some 0)) mars_rover
    (mkProcess (mkUnreliable spec_empty []) (mkTicking 0) [] [])) as H. cbv zeta in H |- *.
  destruct (PutConfiguration _ _ _ _) as [r p'].
  change (CheckValid mars_rover) with (@None error) in H. destruct H as (_ & _ & Hs & Hr).
  split; [exact Hr|]. rewrite Hs. reflexivity.
Defined.

Definition stored_rover : Process Store TestEnv :=
  snd (PutConfiguration (spec_manager wire) (mkCtx None) mars_rover (quiet spec_empty)).

Lemma PutConfiguration_acknowledged_witness :
  GetConfiguration (spec_manager wire) "mars_rover:v2.0" stored_rover =
  (Done (Some mars_rover, None), stored_rover).
Proof.
  refine (proj1 (PutConfiguration_acknowledged (B:=wire) (mkCtx None) mars_rover (quiet spec_empty)
    stored_rover (mkPutResponse "mars_rover:v2.0" (PutResponse_Config mars_rover)) _)).
  vm_compute. reflexivity.
Defined.

Lemma config_name_GetVersionId c : plain (cfg_Name c) = true -> config_name (GetVersionId c) = cfg_Name c.
Proof. intros [H _]%plain_spec. unfold config_name. by rewrite GetVersionId_Split. Qed.

Lemma well_filed_empty : well_filed spec_empty.
Proof. intros id c H. unfold spec_empty in H. simpl in H. by rewrite lookup_empty in H. Qed.

Lemma well_filed_file_config c s :
  well_filed s -> CheckValid c = None -> plain (cfg_Name c) = true -> well_filed (file_config c s).
Proof.
  intros Hw Hv Hp id c' H. simpl in H. apply lookup_insert_Some in H as [[<- <-]|[_ H]]; [done|].
  by apply Hw.
Qed.

Lemma started_ConfigId c f : fsm_ConfigId (started c f) = fsm_ConfigId f.
Proof. unfold started. by destruct (_ =s _). Qed.

Lemma started_State c f : CheckValid c = None -> fsm_State (started c f) <> "".
Proof.
  intros H. apply CheckValid_start in H. unfold started.
  by destruct (bool_decide_reflect (fsm_State f = "")).
Qed.

Section machines.
Context {B : Type} `{!ProtoMessage B Configuration, !ProtoMessage B FiniteStateMachine,
  !ProtoMessage B Event, !ProtoMessage B EventOutcome}.
Context {E : Type} `{!ServerEnv E, !GoEnvLaws E}.

(** C23. What becomes of a machine that is put, in every case: over a store that
    keeps its contract or fails, with or without a deadline.  A request without
    a machine panics; one whose configuration is not stored, or cannot be read,
    is [FailedPrecondition]; a deadline that has passed is reported; in all of
    these the store is as it was but for what a failing read did.  Otherwise
    the machine is stored under the id given or a fresh one, in its state or
    else the starting state of its configuration, and acknowledged once its id
    is in the set of that state; if storing it fails the answer is [Internal]
    and nothing else is done; if entering it in the set fails the answer is
    [Internal] too, but the machine stays stored. *)
Theorem PutFiniteStateMachine_outcomes ctx req (p : Process Unreliable E) :
  let u := p_store p in
  let s := u_store u in
  let e := p_env p in
  let '(r, p') := PutFiniteStateMachine (unreliable_manager B) ctx req p in
  let s' := u_store (p_store p') in
  p_events p' = p_events p /\ p_notifications p' = p_notifications p /\
  match pf_Fsm req with
  | None => r = Panicked /\ p' = p
  | Some f =>
      match fault_at u 0, st_configs s !! fsm_ConfigId f with
      | Some x, _ => refused codes_FailedPrecondition r /\ s' = fault_effect x s
      | None, None => refused codes_FailedPrecondition r /\ s' = s
      | None, Some c =>
          if deadline_over ctx e then r = expired ctx e /\ s' = s
          else
            let id := machine_id req (after_clock ctx e) in
            let f' := started c f in
            id <> "" /\
            match fault_at u 1, Marshal (B:=B) f' with
            | Some x, _ => refused codes_Internal r /\ s' = fault_effect x s
            | None, Fail _ => refused codes_Internal r /\ s' = s
            | None, Ok _ =>
                match fault_at u 2 with
                | Some x => refused codes_Internal r /\
                    s' = fault_effect x (file_fsm (config_name (fsm_ConfigId f')) id f' s)
                | None => r = Done (ok (mkPutResponse id (PutResponse_Fsm f'))) /\ s' = file_new c id f' s
                end
            end
      end
  end.
Proof.
  cbv zeta. unfold PutFiniteStateMachine. destruct (pf_Fsm req) as [f|]; [|by split_and!].
  rewrite go_bind_deref. cbn [GetConfig PutStateMachine UpdateState unreliable_manager].
  destruct (fault_at (p_store p) 0) as [x|] eqn:E0.
  { rewrite (attempt_fault _ _ _ _ _ E0). split_and!; try done. by eexists. }
  rewrite (attempt_fine _ (spec_GetConfig (fsm_ConfigId f)) _ p _ _ E0 eq_refl).
  destruct (st_configs (u_store (p_store p)) !! fsm_ConfigId f) as [c|]; cbn [lookup_or].
  2:{ split_and!; try done. by eexists. }
  rewrite deadline_step. cbn [p_env set_store]. destruct (deadline_over ctx (p_env p)).
  { rewrite env_op_step. by split_and!. }
  match goal with |- context [((if pf_Id req =s "" then _ else _) ≫= ?k) ?q] =>
    destruct (machine_id_step req k q) as (e' & ->) end.
  cbn [p_env set_env set_store]. set (id := machine_id req _).
  assert (Hid : id <> "") by exact (machine_id_nonempty req _).
  cbv zeta. fold (started c f). set (f' := started c f).
  set (u1 := mkUnreliable (u_store (p_store p)) (tl (u_faults (p_store p)))).
  match goal with |- context [(on_store (attempt _ (spec_PutStateMachine _ _ _)) ≫= _) ?q] => set (p1 := q) end.
  assert (H1 : fault_at (p_store p1) 0 = fault_at (p_store p) 1) by apply fault_at_tl.
  destruct (fault_at (p_store p) 1) as [x|] eqn:E1.
  { rewrite (attempt_fault _ _ _ _ _ H1). split_and!; try done. by eexists. }
  destruct (Marshal (B:=B) f') as [b|err] eqn:Em.
  2:{ rewrite (attempt_fine _ (spec_PutStateMachine B id (Some f')) _ p1
        (Some (InvalidDataError (error_text err))) (u_store (p_store p)) H1)
        by (simpl; unfold spec_put; by rewrite Em).
      split_and!; try done. by eexists. }
  rewrite (attempt_fine _ (spec_PutStateMachine B id (Some f')) _ p1 _ _ H1
    (spec_put_ok (B:=B) f' _ _ ltac:(by rewrite Em))).
  match goal with |- context [(on_store (attempt _ (spec_UpdateState _ _ _ _)) ≫= _) ?q] => set (p2 := q) end.
  assert (H2 : fault_at (p_store p2) 0 = fault_at (p_store p) 2).
  { unfold p2, p1, u1, fault_at. simpl. by destruct (u_faults (p_store p)) as [|? [|? ?]]. }
  destruct (fault_at (p_store p) 2) as [x|] eqn:E2.
  - rewrite (attempt_fault _ _ _ _ _ H2). split_and!; try done. by eexists.
  - rewrite (attempt_fine _ (spec_UpdateState (cfg_Name c) id "" (fsm_State f')) _ p2 _ _ H2 eq_refl).
    by split_and!.
Qed.

(** C24. An acknowledged machine can be looked up, if the name of its
    configuration has no colon: after a response without error, over a store
    that has the configuration under its id, [GetAllInState] lists the machine
    in its state; when the configuration's name is free of ':',
    [GetFiniteStateMachine] answers the machine of the response for that name
    and the id of the response; when it is not, the machine was filed under a
    shorter name, and a lookup by the name of the configuration answers what it
    answered before. *)
Theorem PutFiniteStateMachine_acknowledged ctx req (p p' : Process Store E) resp f c :
  pf_Fsm req = Some f -> st_configs (p_store p) !! fsm_ConfigId f = Some c ->
  fsm_ConfigId f = GetVersionId c -> CheckValid c = None ->
  PutFiniteStateMachine (spec_manager B) ctx req p = (Done (Some resp, None), p') ->
  let f' := started c f in
  let get := GetFiniteStateMachine (spec_manager B)
    (mkGetFsm (cfg_Name c) (Some (GetFsmRequest_Id (pr_Id resp)))) in
  fst (get p') = (if has_byte ":"%char (cfg_Name c) then fst (get p) else Done (Some f', None)) /\
  exists ids, grpc_GetAllInState (spec_manager B)
    (mkGetFsm (cfg_Name c) (Some (GetFsmRequest_State (fsm_State f')))) p' =
      (Done (Some ids, None), p') /\ pr_Id resp ∈ ids.
Proof.
  intros Hf Hc Hk Hv H. cbv zeta.
  pose proof (PutFiniteStateMachine_store (B:=B) ctx req p) as Hs. cbv zeta in Hs. rewrite H in Hs.
  destruct Hs as (_ & _ & f0 & c0 & id & Hf0 & Hc0 & _ & Hid & _ & -> & Hp). simplify_eq. cbn [pr_Id].
  rewrite !GetFiniteStateMachine_run by (try done; by apply CheckValid_named).
  rewrite grpc_GetAllInState_run by (first [by apply CheckValid_named | by apply started_State]).
  unfold file_new, file_fsm in Hp. rewrite started_ConfigId, Hk in Hp.
  rewrite Hp. simpl. split.
  - destruct (has_byte ":"%char (cfg_Name c)) eqn:Hb.
    + rewrite lookup_insert_ne; [done|]. intros [= Heq]. unfold config_name in Heq.
      pose proof (Split_head_no_sep (GetVersionId c) ":"%char) as Hh. by rewrite Heq, Hb in Hh.
    + unfold config_name. rewrite GetVersionId_Split by done. by rewrite lookup_insert_eq.
  - eexists. split; [done|]. assert (fsm_State (started c f) <> "") by by apply started_State.
    rewrite elem_of_elements, set_of_move, !decide_True by done. set_solver.
Qed.

(** C36. [StreamAllInstate] streams the state set, for any request and whatever
    the stream does: a request without a configuration name is
    [InvalidArgument], one without a state [Unimplemented], and nothing is
    sent.  Otherwise each response carries the stored machine of an id of the
    set, no id twice; without an error they are all there; an error is that of a
    member that has no machine, or of the stream, and that member was not sent.
    When the stream takes every message, there is an error exactly when a member
    of the set has no machine. *)
Theorem StreamAllInstate_streams req (p : Process Store E) :
  let name := gf_Config req in
  let st := GetFsmRequest_GetState req in
  let members := set_of (st_states (p_store p)) (name, st) in
  exists sent err p', StreamAllInstate (spec_manager B) req p = (Done (sent, err), p') /\
  p_store p' = p_store p /\
  (name = "" -> sent = [] /\ status_code err = Some codes_InvalidArgument) /\
  (name <> "" -> st = "" -> sent = [] /\ status_code err = Some codes_Unimplemented) /\
  (name <> "" -> st <> "" ->
    NoDup (map pr_Id sent) /\
    (forall r, r ∈ sent -> pr_Id r ∈ members /\
       exists f, r = mkPutResponse (pr_Id r) (PutResponse_Fsm f) /\
         st_fsms (p_store p) !! (name, pr_Id r) = Some f) /\
    (err = None -> forall id, id ∈ members -> id ∈ map pr_Id sent) /\
    (forall e, err = Some e -> exists id, id ∈ members /\ (id ∉ map pr_Id sent) /\
       match st_fsms (p_store p) !! (name, id) with
       | None => e = NotFoundError (NewKeyForMachine id name)
       | Some _ => exists w, fst (stream_SendMsg w) = Some e
       end) /\
    ((forall w, fst (stream_SendMsg w) = None) ->
     (err = None <-> forall id, id ∈ members -> is_Some (st_fsms (p_store p) !! (name, id))))).
Proof.
  destruct req as [name q]. cbv zeta. cbn [gf_Config]. set (st := GetFsmRequest_GetState _).
  destruct (decide (name = "")) as [->|Hn].
  { eexists [], _, p. split; [reflexivity|]. split_and!; done. }
  destruct (decide (st = "")) as [Hst|Hst].
  { eexists [], (Some (StatusError codes_Unimplemented _)), p. split; [|by split_and!].
    unfold StreamAllInstate, grpc_GetAllInState. cbv zeta. cbn [gf_Config]. rewrite bool_decide_ne by done. fold st. rewrite Hst, bool_decide_refl. reflexivity. }
  destruct q as [[i|st']|]; [by destruct Hst| |by destruct Hst]. change st' with st.
  unfold StreamAllInstate. rewrite (go_bind_done _ _ _ _ _ (grpc_GetAllInState_run (B:=B) name st p Hn Hst)).
  cbv zeta. cbn [ok gf_Config default]. unfold default. simpl id.
  destruct (stream_fsms_run (B:=B) name (elements (set_of (st_states (p_store p)) (name, st))) [] p)
    as (fs & err & p' & Er & Hs & _ & _ & Hf & Herr).
  exists fs, err, p'. split; [exact Er|]. split_and!; try done. intros _ _.
  by apply (streamed_members name _ _ _ _ _ eq_refl Hf Herr).
Qed.
End machines.

Definition rover_request : PutFsmRequest := mkPutFsm "7" (Some (mkFsm "mars_rover:v2.0" "" [])).

(** The set of the state cannot be reached: [Internal], with the machine stored. *)
Definition no_state_set : list (option store_fault) :=
  [None; None; Some (mkFault (Errorf "i/o timeout") id)].

Lemma PutFiniteStateMachine_outcomes_witness :
  let p := mkProcess (mkUnreliable (p_store stored_rover) no_state_set) (p_env stored_rover) [] [] in
  let '(r, p') := PutFiniteStateMachine (unreliable_manager wire) (mkCtx None) rover_request p in
  refused codes_Internal r /\
  st_fsms (u_store (p_store p')) !! ("mars_rover", "7") = Some (mkFsm "mars_rover:v2.0" "earth" []) /\
  set_of (st_states (u_store (p_store p'))) ("mars_rover", "earth") = ∅.
Proof.
  pose proof (PutFiniteStateMachine_outcomes (B:=wire) (mkCtx None) rover_request
    (mkProcess (mkUnreliable (p_store stored_rover) no_state_set) (p_env stored_rover) [] [])) as H.
  cbv zeta in H |- *. destruct (PutFiniteStateMachine _ _ _ _) as [r p'].
  destruct H as (_ & _ & _ & Hr & Hs). split; [exact Hr|]. rewrite Hs. split; reflexivity.
Defined.

Definition started_rover : Process Store TestEnv :=
  snd (PutFiniteStateMachine (spec_manager wire) (mkCtx None) rover_request stored_rover).

Lemma stored_rover_well_filed : well_filed (p_store stored_rover).
Proof.
  assert (p_store stored_rover = file_config mars_rover spec_empty) as -> by reflexivity.
  by apply well_filed_file_config; [apply well_filed_empty|..].
Qed.

Lemma PutFiniteStateMachine_acknowledged_witness :
  fst (GetFiniteStateMachine (spec_manager wire)
    (mkGetFsm "mars_rover" (Some (GetFsmRequest_Id "7"))) started_rover) =
  Done (Some (mkFsm "mars_rover:v2.0" "earth" []), None).
Proof.
  refine (proj1 (PutFiniteStateMachine_acknowledged (B:=wire) (mkCtx None) rover_request stored_rover
    started_rover (mkPutResponse "7" (PutResponse_Fsm (mkFsm "mars_rover:v2.0" "earth" [])))
    (mkFsm "mars_rover:v2.0" "" []) mars_rover eq_refl _ eq_refl eq_refl _)); vm_compute; reflexivity.
Defined.
