(* ===== verification/Tls.v ===== *)
(** * Transport security: [grpc_server.go] and [fsm-cli/client]

    [NewGrpcServer], [SetupTLSConfig] and [ParseCAFile] of
    [pkg/grpc/grpc_server.go] with the constants of [pkg/internal/config], and
    [NewClient] of [fsm-cli/client/client.go]: which files are read, what the
    two ends require of each other, and how the creation fails. *)

From Stdlib Require Import ZArith Lia Ascii.
From stdpp Require Import base tactics strings list.
From S2P Require Import Prelude GoLib Proto Fsm StoreTypes StoreSpec Files GrpcServer.

(** ** Definitions *)

(** What a process sees of its surroundings: environment variables and files. *)
Class OsEnv (W : Type) := {
  os_LookupEnv : W -> string -> option string;
  os_Stat : W -> string -> option error;
  os_ReadFile : W -> string -> Res string }.

Definition os_Getenv {W} `{!OsEnv W} (w : W) (key : string) : string :=
  default "" (os_LookupEnv w key).

(** The parsers of [crypto]: a certificate with its private key, and the
    certificates of a PEM file. *)
Class Crypto (KeyPair X509 : Type) := {
  X509KeyPair : string -> string -> Res KeyPair;
  certificates_of_PEM : string -> list X509 }.

Definition TlsConfigDirEnv : string := "TLS_CONFIG_DIR".
Definition DefaultConfigDir : string := "/etc/statemachine/certs".
Definition CAFile : string := "ca.pem".
Definition ServerCertFile : string := "server.pem".
Definition ServerKeyFile : string := "server-key.pem".

Inductive ClientAuthType := NoClientCert | RequireAndVerifyClientCert.

(** The fields of a [tls.Config] that the program sets. *)
Record tls_Config (KeyPair X509 : Type) := mkTls {
  tls_Certificates : list KeyPair;
  tls_RootCAs : option (list X509);
  tls_ServerName : string;
  tls_ClientAuth : ClientAuthType;
  tls_ClientCAs : option (list X509);
  tls_InsecureSkipVerify : bool }.
Arguments mkTls {KeyPair X509}.
Arguments tls_Certificates {KeyPair X509} t.
Arguments tls_RootCAs {KeyPair X509} t.
Arguments tls_ServerName {KeyPair X509} t.
Arguments tls_ClientAuth {KeyPair X509} t.
Arguments tls_ClientCAs {KeyPair X509} t.
Arguments tls_InsecureSkipVerify {KeyPair X509} t.

Inductive TransportCredentials (KeyPair X509 : Type) :=
| insecure_NewCredentials
| credentials_NewTLS (c : tls_Config KeyPair X509).
Arguments insecure_NewCredentials {KeyPair X509}.
Arguments credentials_NewTLS {KeyPair X509} c.

(** Assignments to fields of the server's [Config], which its creator shares. *)
Definition set_gc_Timeout (t : Z) (c : Config) : Config :=
  mkConfig (EventsChannel_set c) (Store_set c) t (ServerAddress c) (TlsEnabled c) (TlsCerts c) (TlsMutual c).
Definition set_TlsCerts (d : string) (c : Config) : Config :=
  mkConfig (EventsChannel_set c) (Store_set c) (gc_Timeout c) (ServerAddress c) (TlsEnabled c) d (TlsMutual c).

(** [%q]: a quoted string, with the escapes of Go.  A byte that is not ASCII is
    kept, as it is in a printable character. *)
Definition hex_digit (n : nat) : string := String (default "0"%char (String.get n "0123456789abcdef")) "".
Definition quote_byte (c : ascii) : string :=
  match String.index 0 (String c "") (String "007" (String "008" (String "009" (String "010"
          (String "011" (String "012" (String "013" (String "034" (String "092" "")))))))))
  with
  | Some i => String "092" (String (default "x"%char (String.get i
                (String.append "abtnvfr" (String "034" (String "092" ""))))) "")
  | None =>
      let n := nat_of_ascii c in
      if (n <? 32)%nat || (n =? 127)%nat
      then String "092" "x" ++ hex_digit (n / 16) ++ hex_digit (n mod 16)
      else String c ""
  end.
Fixpoint quote_bytes (s : string) : string :=
  match s with EmptyString => "" | String c s' => quote_byte c ++ quote_bytes s' end.
Definition Quote (s : string) : string := String "034" (quote_bytes s ++ String "034" "").

Example Quote_name : Quote ("ca" ++ String "009" "" ++ "pem") = String "034" ("ca" ++ String "092" "tpem" ++ String "034" "").
Proof. reflexivity. Qed.

Section tls.
Context {W KeyPair X509 : Type} `{!OsEnv W, !Crypto KeyPair X509}.
Variable w : W.

(** [tls.LoadX509KeyPair]. *)
Definition LoadX509KeyPair (certFile keyFile : string) : Res KeyPair :=
  match os_ReadFile w certFile with
  | Fail err => Fail err
  | Ok certPEM =>
      match os_ReadFile w keyFile with
      | Fail err => Fail err
      | Ok keyPEM => X509KeyPair certPEM keyPEM
      end
  end.

(** [AppendCertsFromPEM] tells whether there was a certificate. *)
Definition ParseCAFile (caFile : string) : Res (list X509) :=
  match os_Stat w caFile with
  | Some err => Fail err
  | None =>
      match os_ReadFile w caFile with
      | Fail err => Fail err
      | Ok b =>
          match certificates_of_PEM b with
          | [] => Fail (Errorf ("failed to parse root certificate: " ++ Quote caFile))
          | ca => Ok ca
          end
      end
  end.

Abbreviation M := (Go Config).

Definition SetupTLSConfig : M (Res (tls_Config KeyPair X509)) :=
  certs ← go_gets TlsCerts;
  (if certs =s "" then
     let certsDir := os_Getenv w TlsConfigDirEnv in
     if negb (certsDir =s "") then go_modify (set_TlsCerts certsDir)
     else go_modify (set_TlsCerts DefaultConfigDir)
   else mret tt);;
  cfg ← go_gets id;
  let certFile := path_Join [TlsCerts cfg; ServerCertFile] in
  let keyFile := path_Join [TlsCerts cfg; ServerKeyFile] in
  match LoadX509KeyPair certFile keyFile with
  | Fail err => mret (Fail err)
  | Ok kp =>
      match ParseCAFile (path_Join [TlsCerts cfg; CAFile]) with
      | Fail err => mret (Fail err)
      | Ok ca =>
          mret (Ok
            (if TlsMutual cfg
             then mkTls [kp] None (ServerAddress cfg) RequireAndVerifyClientCert (Some ca) false
             else mkTls [kp] None (ServerAddress cfg) NoClientCert None false))
      end
  end.

(** The server is its credentials: the one service that is registered reads its
    settings from [Config]. *)
Definition NewGrpcServer : M (Res (TransportCredentials KeyPair X509)) :=
  enabled ← go_gets TlsEnabled;
  creds ← (if negb enabled then mret (Ok insecure_NewCredentials)
           else
             serverTLSConfig ← SetupTLSConfig;
             match serverTLSConfig with
             | Fail err => mret (Fail err)
             | Ok c => mret (Ok (credentials_NewTLS c))
             end);
  match creds with
  | Fail err => mret (Fail err)
  | Ok creds =>
      timeout ← go_gets gc_Timeout;
      (if timeout =s 0 then go_modify (set_gc_Timeout grpc_DefaultTimeout) else mret tt);;
      mret (Ok creds)
  end.

(** *** The client *)

Definition ConfigDefaultDir : string := path_Join [os_Getenv w "HOME"; ".fsm"].
Definition CertsDir : string := path_Join [ConfigDefaultDir; "certs"].
Definition CaCert : string := "ca.pem".

(** [g.Dial] connects later; it refuses an address it cannot parse. *)
Variable g_Dial : string -> TransportCredentials KeyPair X509 -> Res unit.

(** The connection is its address and credentials; [None] is the nil client. *)
Definition NewClient (address : string) (hasTls : bool)
    : result (option (string * TransportCredentials KeyPair X509)) :=
  let addr := Split address ":"%char in
  creds ← (if negb hasTls then mret insecure_NewCredentials
           else
             match ParseCAFile (path_Join [CertsDir; CaCert]) with
             | Fail err => Panicked
             | Ok ca =>
                 mret (credentials_NewTLS (mkTls [] (Some ca) (hd "" addr) NoClientCert None false))
             end);
  match g_Dial address creds with
  | Fail err => mret None
  | Ok _ => mret (Some (address, creds))
  end.

End tls.
Arguments NewClient {W KeyPair X509 _ _} w g_Dial address hasTls.

(** The directory that the server takes its certificates from. *)
Definition certs_dir {W} `{!OsEnv W} (w : W) (cfg : Config) : string :=
  if TlsCerts cfg =s "" then
    if os_Getenv w TlsConfigDirEnv =s "" then DefaultConfigDir else os_Getenv w TlsConfigDirEnv
  else TlsCerts cfg.

(** What is needed to create a server with TLS, and what it is made of. *)
Definition server_material {W KeyPair X509} `{!OsEnv W, !Crypto KeyPair X509} (w : W) (dir : string)
    : Res (KeyPair * list X509) :=
  match LoadX509KeyPair w (path_Join [dir; ServerCertFile]) (path_Join [dir; ServerKeyFile]) with
  | Fail err => Fail err
  | Ok kp =>
      match ParseCAFile w (path_Join [dir; CAFile]) with
      | Fail err => Fail err
      | Ok ca => Ok (kp, ca)
      end
  end.

(** ** Lemmas *)

Section lemmas.
Context {W KeyPair X509 : Type} `{!OsEnv W, !Crypto KeyPair X509}.

Lemma SetupTLSConfig_run (w : W) cfg :
  SetupTLSConfig (KeyPair:=KeyPair) (X509:=X509) w cfg =
  (Done (match server_material w (certs_dir w cfg) with
         | Fail err => Fail err
         | Ok (kp, ca) =>
             Ok (mkTls [kp] None (ServerAddress cfg)
                   (if TlsMutual cfg then RequireAndVerifyClientCert else NoClientCert)
                   (if TlsMutual cfg then Some ca else None) false)
         end), set_TlsCerts (certs_dir w cfg) cfg).
Proof.
  unfold SetupTLSConfig, server_material, certs_dir. rewrite go_bind_gets.
  destruct cfg as [ev st t addr en certs mutual]. cbn [TlsCerts TlsMutual ServerAddress].
  destruct (certs =s "") eqn:E; [destruct (os_Getenv w TlsConfigDirEnv =s "") eqn:E2|];
    unfold mbind, go_bind, go_modify, go_gets, id, set_TlsCerts; cbn -[LoadX509KeyPair ParseCAFile path_Join];
    destruct (LoadX509KeyPair w _ _) as [kp|err]; try done;
    cbn -[ParseCAFile path_Join]; destruct (ParseCAFile w _) as [ca|err]; try done;
    by destruct mutual.
Qed.

(** The credentials that the settings ask for, and the settings afterwards. *)
Definition server_credentials (w : W) (cfg : Config) : Res (TransportCredentials KeyPair X509) :=
  if TlsEnabled cfg then
    match server_material w (certs_dir w cfg) with
    | Fail err => Fail err
    | Ok (kp, ca) =>
        Ok (credentials_NewTLS (mkTls [kp] None (ServerAddress cfg)
              (if TlsMutual cfg then RequireAndVerifyClientCert else NoClientCert)
              (if TlsMutual cfg then Some ca else None) false))
    end
  else Ok insecure_NewCredentials.

Definition server_settings (w : W) (cfg : Config) : Config :=
  let cfg' := if TlsEnabled cfg then set_TlsCerts (certs_dir w cfg) cfg else cfg in
  if is_ok (server_credentials w cfg) && (gc_Timeout cfg =s 0)
  then set_gc_Timeout grpc_DefaultTimeout cfg' else cfg'.

Lemma certs_dir_set (w : W) cfg : certs_dir w (set_TlsCerts (certs_dir w cfg) cfg) = certs_dir w cfg.
Proof.
  unfold certs_dir, set_TlsCerts. simpl. destruct (bool_decide_reflect (TlsCerts cfg = "")) as [H|H].
  - destruct (bool_decide_reflect (os_Getenv w TlsConfigDirEnv = "")) as [H'|H']; [done|].
    by rewrite !bool_decide_ne.
  - by rewrite bool_decide_ne.
Qed.

Lemma server_credentials_settings (w : W) cfg :
  server_credentials w (server_settings w cfg) = server_credentials w cfg.
Proof.
  assert (Hc : forall t c, server_credentials w (set_gc_Timeout t c) = server_credentials w c) by done.
  assert (Hd : server_credentials w (set_TlsCerts (certs_dir w cfg) cfg) = server_credentials w cfg).
  { unfold server_credentials. by rewrite certs_dir_set. }
  unfold server_settings. destruct (TlsEnabled cfg); destruct (_ && _); rewrite ?Hc, ?Hd; done.
Qed.

Lemma NewGrpcServer_run (w : W) cfg :
  NewGrpcServer w cfg = (Done (server_credentials w cfg), server_settings w cfg).
Proof.
  unfold NewGrpcServer. rewrite go_bind_gets.
  set (m := if negb (TlsEnabled cfg) then _ else _).
  assert (Hm : m cfg = (Done (server_credentials w cfg),
    if TlsEnabled cfg then set_TlsCerts (certs_dir w cfg) cfg else cfg)).
  { unfold m, server_credentials. destruct (TlsEnabled cfg); [|done]. cbn [negb].
    rewrite (go_bind_done _ _ _ _ _ (SetupTLSConfig_run w cfg)).
    by destruct (server_material w _) as [[kp ca]|err]. }
  rewrite (go_bind_done _ _ _ _ _ Hm). unfold server_settings.
  destruct (server_credentials w cfg) as [creds|err]; [|done]. rewrite go_bind_gets. simpl.
  assert (Ht : gc_Timeout (if TlsEnabled cfg then set_TlsCerts (certs_dir w cfg) cfg else cfg) = gc_Timeout cfg)
    by (by destruct (TlsEnabled cfg)).
  rewrite Ht. by destruct (gc_Timeout cfg =s 0).
Qed.

Lemma server_settings_timeout (w : W) cfg : is_ok (server_credentials w cfg) = true ->
  gc_Timeout (server_settings w cfg) <> 0.
Proof.
  intros H. unfold server_settings. rewrite H.
  destruct (bool_decide_reflect (gc_Timeout cfg = 0)) as [E|E]; simpl; [done|]. by destruct (TlsEnabled cfg).
Qed.

Lemma server_settings_idem (w : W) cfg : is_ok (server_credentials w cfg) = true ->
  server_settings w (server_settings w cfg) = server_settings w cfg.
Proof.
  intros H. pose proof (server_settings_timeout w cfg H) as Ht.
  assert (Hd : certs_dir w (server_settings w cfg) = certs_dir w cfg).
  { unfold server_settings. destruct (TlsEnabled cfg), (_ && _); try done; apply (certs_dir_set w cfg). }
  unfold server_settings at 1. rewrite server_credentials_settings, H, (bool_decide_ne _ _ Ht), Hd. simpl.
  unfold server_settings. destruct (TlsEnabled cfg) eqn:Et, (_ && _); simpl; by rewrite Et.
Qed.
End lemmas.


(** ** The handshake

    What [crypto/tls] makes of the settings of the two ends, given how a
    server's certificate is verified (against the roots, for a name) and how a
    client's is. *)
Section handshake.
Context {KeyPair X509 : Type}.
Variable verify : option (list X509) -> string -> KeyPair -> bool.
Variable verify_client : list X509 -> KeyPair -> bool.

Definition handshake (client server : TransportCredentials KeyPair X509) : bool :=
  match client, server with
  | insecure_NewCredentials, insecure_NewCredentials => true
  | credentials_NewTLS c, credentials_NewTLS s =>
      match tls_Certificates s with
      | kp :: _ => tls_InsecureSkipVerify c || verify (tls_RootCAs c) (tls_ServerName c) kp
      | [] => false
      end &&
      match tls_ClientAuth s with
      | NoClientCert => true
      | RequireAndVerifyClientCert =>
          existsb (verify_client (default [] (tls_ClientCAs s))) (tls_Certificates c)
      end
  | _, _ => false
  end.
End handshake.

(** ** Properties *)

Section properties.
Context {W KeyPair X509 : Type} `{!OsEnv W, !Crypto KeyPair X509}.

(** C28. The creation of a server never panics and never falls back: with TLS
    enabled it gives either the error of the first file that cannot be used, or
    credentials with the certificate of the directory that demand a client
    certificate exactly when mutual TLS is set, checked against the directory's
    CA; without TLS it reads no file.  A server that was created has a timeout
    other than zero, and the settings it leaves give the same server again. *)
Theorem NewGrpcServer_outcomes (w : W) cfg :
  exists r cfg', NewGrpcServer (KeyPair:=KeyPair) (X509:=X509) w cfg = (Done r, cfg') /\
  (TlsEnabled cfg = false -> r = Ok insecure_NewCredentials) /\
  (TlsEnabled cfg = true ->
     match server_material w (certs_dir w cfg) with
     | Fail err => r = Fail err
     | Ok (kp, ca) => exists c, r = Ok (credentials_NewTLS c) /\ tls_Certificates c = [kp] /\
         tls_ServerName c = ServerAddress cfg /\
         (tls_ClientAuth c = RequireAndVerifyClientCert <-> TlsMutual cfg = true) /\
         (TlsMutual cfg = true -> tls_ClientCAs c = Some ca)
     end) /\
  (is_ok r = true -> gc_Timeout cfg' <> 0 /\ NewGrpcServer w cfg' = (Done r, cfg')).
Proof.
  exists (server_credentials w cfg), (server_settings w cfg). split; [apply NewGrpcServer_run|].
  split; [by unfold server_credentials; intros ->|]. split.
  - unfold server_credentials. intros ->. destruct (server_material w _) as [[kp ca]|err]; [|done].
    eexists. split; [reflexivity|]. split_and!; try done; by destruct (TlsMutual cfg).
  - intros H. split; [by apply server_settings_timeout|].
    by rewrite NewGrpcServer_run, server_credentials_settings, server_settings_idem.
Qed.
(** C29. Whether the command-line client and a server it is pointed at get to
    talk: without TLS on either side always; with TLS on both exactly when the
    server's certificate verifies, against the client's CA file, for the host
    of the address, and the server does not ask for a client certificate, which
    the client never has; with TLS on one side only, never.  The client is
    there unless its CA file cannot be used, which panics. *)
Theorem client_meets_server (w ws : W) (g_Dial : string -> TransportCredentials KeyPair X509 -> Res unit)
    verify verify_client cfg sc host port (hasTls : bool) :
  has_byte ":"%char host = false ->
  fst (NewGrpcServer ws cfg) = Done (Ok sc) ->
  let address := host ++ ":" ++ port in
  (forall c, is_ok (g_Dial address c) = true) ->
  match NewClient w g_Dial address hasTls with
  | Done (Some (_, cc)) =>
      handshake verify verify_client cc sc = true <->
      match hasTls, TlsEnabled cfg with
      | false, false => True
      | true, true =>
          TlsMutual cfg = false /\
          exists ca kp sca, ParseCAFile w (path_Join [CertsDir w; CaCert]) = Ok ca /\
            server_material ws (certs_dir ws cfg) = Ok (kp, sca) /\ verify (Some ca) host kp = true
      | _, _ => False
      end
  | Done None => False
  | Panicked => hasTls = true /\ is_ok (ParseCAFile w (path_Join [CertsDir w; CaCert])) = false
  | Spin => False
  end.
Proof.
  intros Hh Hs address Hdial. rewrite NewGrpcServer_run in Hs. injection Hs as Hs.
  assert (Hname : hd "" (Split address ":"%char) = host) by (unfold address; change (":" ++ port) with (String ":" port); by rewrite Split_app).
  unfold NewClient. rewrite Hname. clearbody address. unfold server_credentials in Hs.
  destruct hasTls; cbn [negb].
  - destruct (ParseCAFile w _) as [ca|err]; [|done]. cbn [mbind result_bind].
    specialize (Hdial (credentials_NewTLS (mkTls [] (Some ca) host NoClientCert None false))).
    simpl. destruct (g_Dial address _); [|done]. destruct (TlsEnabled cfg).
    + destruct (server_material ws _) as [[kp sca]|err]; simplify_eq. simpl.
      destruct (TlsMutual cfg); simpl; [rewrite andb_false_r; split; [done|by intros []]|].
      rewrite andb_true_r. split; [by intros ?; split; [done|exists ca, kp, sca]|].
      by intros (_ & ? & ? & ? & [= <-] & [= <- <-] & ?).
    + by simplify_eq.
  - specialize (Hdial insecure_NewCredentials). simpl. destruct (g_Dial address _); [|done].
    destruct (TlsEnabled cfg); [|by simplify_eq].
    by destruct (server_material ws _) as [[kp sca]|err]; simplify_eq.
Qed.

End properties.

(** The names of the server's files in an absolute directory, such as the
    default. *)
Lemma server_files e es : forallb proper (e :: es) = true ->
  map (fun f => path_Join [abs_dir (e :: es); f]) [ServerCertFile; ServerKeyFile; CAFile] =
  map (fun f => abs_dir (e :: es) ++ "/" ++ f) [ServerCertFile; ServerKeyFile; CAFile].
Proof. intros H. simpl. by rewrite !path_Join_abs. Qed.

Example default_files :
  map (fun f => path_Join [DefaultConfigDir; f]) [ServerCertFile; ServerKeyFile; CAFile] =
  ["/etc/statemachine/certs/server.pem"; "/etc/statemachine/certs/server-key.pem"; "/etc/statemachine/certs/ca.pem"].
Proof. reflexivity. Qed.

(** *** Examples: a machine with a few files *)

Record TestOs := mkTestOs { to_env : list (string * string); to_files : list (string * string) }.

Definition assoc (k : string) (l : list (string * string)) : option string :=
  snd <$> List.find (fun kv => fst kv =s k) l.

#[export] Instance test_os : OsEnv TestOs := {
  os_LookupEnv w k := assoc k (to_env w);
  os_Stat w f := match assoc f (to_files w) with Some _ => None | None => Some (Errorf "no such file") end;
  os_ReadFile w f := match assoc f (to_files w) with Some b => Ok b | None => Fail (Errorf "no such file") end }.

(** A certificate is the name it is for. *)
#[export] Instance test_crypto : Crypto string string := {
  X509KeyPair cert key := Ok cert;
  certificates_of_PEM b := if b =s "" then [] else [b] }.

Definition server_os : TestOs := mkTestOs [(TlsConfigDirEnv, "/certs")]
  [("/certs/server.pem", "fsm.example"); ("/certs/server-key.pem", "key"); ("/certs/ca.pem", "ca")].
Definition client_os : TestOs := mkTestOs [("HOME", "/home/me")] [("/home/me/.fsm/certs/ca.pem", "ca")].

Definition tls_server : Config := mkConfig true true 0 "" true "" false.

Definition test_verify (roots : option (list string)) (name : string) (cert : string) : bool :=
  (roots =s Some ["ca"]) && (name =s cert).

Example secure_server :
  NewGrpcServer server_os tls_server =
  (Done (Ok (credentials_NewTLS (mkTls ["fsm.example"] None "" NoClientCert None false))),
   mkConfig true true grpc_DefaultTimeout "" true "/certs" false).
Proof. reflexivity. Qed.

Definition fsm_credentials : TransportCredentials string string :=
  credentials_NewTLS (mkTls ["fsm.example"] None "" NoClientCert None false).
Definition cli_credentials : TransportCredentials string string :=
  credentials_NewTLS (mkTls [] (Some ["ca"]) "fsm.example" NoClientCert None false).

Lemma client_meets_server_witness :
  NewClient client_os (fun _ _ => Ok tt) "fsm.example:7398" true =
    Done (Some ("fsm.example:7398", cli_credentials)) /\
  handshake test_verify (fun _ _ => false) cli_credentials fsm_credentials = true.
Proof.
  assert (E : NewClient client_os (fun _ _ => Ok tt) ("fsm.example" ++ ":" ++ "7398") true =
    Done (Some ("fsm.example:7398", cli_credentials))) by reflexivity.
  split; [exact E|].
  pose proof (client_meets_server client_os server_os (fun _ _ => Ok tt) test_verify (fun _ _ => false)
    tls_server fsm_credentials "fsm.example" "7398" true eq_refl eq_refl (fun _ => eq_refl)) as H.
  cbv zeta in H. rewrite E in H. apply (proj2 H). split; [reflexivity|].
  exists ["ca"], "fsm.example", ["ca"]. split; [reflexivity|]. split; reflexivity.
Defined.

(** An IPv6 address in brackets has colons of its own: the name that the
    client asks of the server's certificate is a bracket. *)
Example ipv6_server_name :
  match NewClient (KeyPair:=string) client_os (fun _ _ => Ok tt) "[::1]:7398" true with
  | Done (Some (_, credentials_NewTLS c)) => tls_ServerName c = "["
  | _ => False
  end.
Proof. reflexivity. Qed.
