(* ===== verification/Listener.v ===== *)
(** * The events listener: [pkg/pubsub/listener.go]

    The loop that takes event requests from the channel, files the event,
    sends it to its machine and reports the outcome. *)

From Stdlib Require Import ZArith Ascii.
From stdpp Require Import base tactics strings list gmap sets.
From S2P Require Import Prelude GoLib Proto Fsm Keys StoreTypes Redis RedisStore StoreSpec.
From S2P Require Import RedisRefinement Process Unreliable.

(** ** Definitions *)

(** The getters of the generated code on a request. *)
Definition GetEvent_GetEventId (request : EventRequest) : string :=
  match req_Event request with Some ev => evt_EventId ev | None => "" end.

Definition makeResponse (request : EventRequest) (code : StatusCode) (details : string)
    : EventResponse :=
  {| rsp_EventId := GetEvent_GetEventId request;
     rsp_Outcome := Some {|
       out_Code := code;
       out_Details := details;
       out_Config := req_Config request;
       out_Id := req_Id request |} |}.

Definition GetOutcome_GetConfig (r : EventResponse) : string :=
  match rsp_Outcome r with Some o => out_Config o | None => "" end.

Section listener.
Context {S E : Type} (store : StoreManager S).
#[local] Existing Instance store.

(** Whether a notifications channel was configured.  The channel is unbuffered:
    the send completes when the publisher takes the message. *)
Variable notifications : bool.

Abbreviation M := (Go (Process S E)).

(** An error is only logged. *)
Definition reportOutcome (response : EventResponse) : M () :=
  on_store (AddEventOutcome (rsp_EventId response) (GetOutcome_GetConfig response)
              (rsp_Outcome response) NeverExpire);;
  mret tt.

Definition PostNotificationAndReportOutcome (eventResponse : EventResponse) : M () :=
  deref (rsp_Outcome eventResponse);;
  (if notifications then post_notification eventResponse else mret tt);;
  reportOutcome eventResponse.

(** The body of the loop.  The arguments of the logging calls after the event
    was stored dereference its transition. *)
Definition handle_request (request : EventRequest) : M () :=
  let fsmId := req_Id request in
  if fsmId =s "" then
    PostNotificationAndReportOutcome
      (makeResponse request EventOutcome_MissingDestination "no statemachine ID specified")
  else
    let cfgName := req_Config request in
    if cfgName =s "" then
      PostNotificationAndReportOutcome
        (makeResponse request EventOutcome_MissingDestination "no Configuration name specified")
    else
      err ← on_store (PutEvent (req_Event request) cfgName NeverExpire);
      match err with
      | Some err =>
          PostNotificationAndReportOutcome
            (makeResponse request EventOutcome_InternalError
               (Sprintf "could not store event: %v" [error_text err]))
      | None =>
          ev ← deref (req_Event request);
          deref (evt_Transition ev);;
          err ← on_store (TxProcessEvent fsmId cfgName (req_Event request));
          match err with
          | Some err =>
              let errCode := if IsNotFoundErr err then EventOutcome_FsmNotFound
                             else EventOutcome_InternalError in
              PostNotificationAndReportOutcome
                (makeResponse request errCode
                   (Sprintf "could not update statemachine [%s#%s] in store: %v"
                      [cfgName; fsmId; error_text err]))
          | None => reportOutcome (makeResponse request EventOutcome_Ok "")
          end
      end.

(** The requests received until the channel is closed, in order. *)
Fixpoint ListenForMessages (events : list EventRequest) : M () :=
  match events with
  | [] => mret tt
  | request :: events' => handle_request request;; ListenForMessages events'
  end.

End listener.

(** ** The listener over related stores *)

Section refinement.
Context {B : Type} `{!ProtoMessage B Configuration, !ProtoMessage B FiniteStateMachine,
  !ProtoMessage B Event, !ProtoMessage B EventOutcome}.
Context {W E : Type} (impl : StoreManager W) (R : Store -> W -> Prop) `{HR : !StoreRefines B impl R}.
Context (notifications : bool).

Abbreviation RP := (lift_rel (E:=E) R).

Lemma reportOutcome_sim r : plain (GetOutcome_GetConfig r) = true ->
  sim RP eq (reportOutcome (spec_manager B) r) (reportOutcome impl r).
Proof using HR.
  intros Hp. unfold reportOutcome. apply sim_bind_eq; [|intros; by apply sim_ret].
  apply sim_on_store. by apply (sim_AddEventOutcome (impl := impl)).
Qed.

Lemma Post_sim r : plain (GetOutcome_GetConfig r) = true ->
  sim RP eq (PostNotificationAndReportOutcome (spec_manager B) notifications r)
    (PostNotificationAndReportOutcome impl notifications r).
Proof using HR.
  intros Hp. unfold PostNotificationAndReportOutcome. apply sim_bind_eq; [apply sim_lift|]. intros _.
  apply sim_bind_eq; [|intros; by apply reportOutcome_sim].
  destruct notifications; [apply sim_post_notification|by apply sim_ret].
Qed.

(** Each request is handled alike. *)
Lemma handle_request_sim request : plain (req_Config request) = true ->
  sim RP eq (handle_request (spec_manager B) notifications request)
    (handle_request impl notifications request).
Proof using HR.
  intros Hp. unfold handle_request. cbv zeta.
  destruct (req_Id request =s ""); [by apply Post_sim|].
  destruct (req_Config request =s ""); [by apply Post_sim|].
  apply sim_bind_eq; [apply sim_on_store; by apply (sim_PutEvent (impl := impl))|].
  intros [err|]; [by apply Post_sim|].
  apply sim_bind_eq; [apply sim_lift|]. intros ev.
  apply sim_bind_eq; [apply sim_lift|]. intros _.
  apply sim_bind_eq; [apply sim_on_store; by apply (sim_TxProcessEvent (impl := impl))|].
  intros [err|]; [by apply Post_sim|by apply reportOutcome_sim].
Qed.

Lemma ListenForMessages_sim events :
  Forall (fun r => plain (req_Config r) = true) events ->
  sim RP eq (ListenForMessages (spec_manager B) notifications events)
    (ListenForMessages impl notifications events).
Proof using HR.
  induction 1 as [|r rs Hp _ IH]; cbn [ListenForMessages]; [by apply sim_ret|].
  apply sim_bind_eq; [by apply handle_request_sim|done].
Qed.
End refinement.

(** ** What the listener does with a request, over the specification *)

Definition outcome_code (s : Store) (request : EventRequest) : StatusCode :=
  let id := req_Id request in
  let cfg := req_Config request in
  if (id =s "") || (cfg =s "") then EventOutcome_MissingDestination
  else
    match st_fsms s !! (cfg, id) with
    | None => if IsNotFoundErr (NotFoundError (NewKeyForMachine id cfg))
              then EventOutcome_FsmNotFound else EventOutcome_InternalError
    | Some f =>
        match st_configs s !! fsm_ConfigId f with
        | None => EventOutcome_InternalError
        | Some c =>
            match enabled c (fsm_State f) (event_name request) with
            | None => EventOutcome_InternalError
            | Some _ => EventOutcome_Ok
            end
        end
    end.

(** The transition a request causes, with its machine. *)
Definition caused (s : Store) (request : EventRequest)
    : option (FiniteStateMachine * FiniteStateMachine) :=
  f ← st_fsms s !! (req_Config request, req_Id request);
  c ← st_configs s !! fsm_ConfigId f;
  ev ← req_Event request;
  t ← enabled c (fsm_State f) (event_name request);
  Some (f, csm_FSM (fire (mkCSM c f) t ev)).

(** The store once the event was filed and the machine moved, if it did. *)
Definition processed (s : Store) (request : EventRequest) : Store :=
  if (req_Id request =s "") || (req_Config request =s "") then s
  else
    match req_Event request with
    | None => s
    | Some ev =>
        let s1 := file_event (req_Config request) ev s in
        match caused s request with
        | None => s1
        | Some (f, f') => file_move (req_Config request) (req_Id request) f f' s1
        end
    end.

(** *** The same over a store that fails *)

Definition names_machine (request : EventRequest) : bool :=
  negb (req_Id request =s "") && negb (req_Config request =s "").

(** What the operations on the event and on the machine meet, and the one on
    the outcome, which is the next one. *)
Definition event_fault (u : Unreliable) (request : EventRequest) : option store_fault :=
  if names_machine request then fault_at u 0 else None.
Definition machine_fault (u : Unreliable) (request : EventRequest) : option store_fault :=
  if names_machine request then fault_at u 1 else None.
Definition outcome_fault (u : Unreliable) (request : EventRequest) : option store_fault :=
  if names_machine request then
    match fault_at u 0 with Some _ => fault_at u 1 | None => fault_at u 2 end
  else fault_at u 0.

Definition reported_code (u : Unreliable) (request : EventRequest) : StatusCode :=
  match event_fault u request, machine_fault u request with
  | Some _, _ => EventOutcome_InternalError
  | None, Some x => if IsNotFoundErr (fault_error x) then EventOutcome_FsmNotFound
                    else EventOutcome_InternalError
  | None, None => outcome_code (u_store u) request
  end.

(** The store when the outcome is about to be filed. *)
Definition processed_with_faults (u : Unreliable) (request : EventRequest) : Store :=
  let s := u_store u in
  match event_fault u request, machine_fault u request with
  | Some x, _ => fault_effect x s
  | None, Some x =>
      fault_effect x (match req_Event request with
                      | Some ev => file_event (req_Config request) ev s
                      | None => s
                      end)
  | None, None => processed s request
  end.

(** The texts of the errors are valid UTF-8, as all of the store are. *)
Definition readable_faults (u : Unreliable) : Prop :=
  forall x, Some x ∈ u_faults u -> valid_utf8 (error_text (fault_error x)) = true.

Definition valid_request (request : EventRequest) : bool :=
  valid_utf8 (req_Id request) && valid_utf8 (req_Config request) &&
  match req_Event request with Some ev => valid_message ev | None => true end.

(** Every machine and configuration of the store can be serialized. *)
Definition valid_store (s : Store) : Prop :=
  (forall k f, st_fsms s !! k = Some f -> valid_message f = true) /\
  (forall k c, st_configs s !! k = Some c -> valid_message c = true).

Lemma forallb_bind {A C} (f : A -> list C) (g : C -> bool) l :
  forallb g (l ≫= f) = forallb (fun a => forallb g (f a)) l.
Proof. induction l as [|a l IH]; [done|]. cbn. by rewrite forallb_app, IH. Qed.

Lemma valid_fsm_eq f : valid_message f =
  valid_utf8 (fsm_ConfigId f) && valid_utf8 (fsm_State f) && forallb valid_message (fsm_History f).
Proof.
  unfold valid_message at 1, message_strings, fsm_strings. rewrite forallb_app, forallb_bind. simpl.
  by rewrite andb_true_r.
Qed.

Lemma valid_transition c t : valid_message c = true -> t ∈ cfg_Transitions c -> valid_message t = true.
Proof.
  unfold valid_message, message_strings, configuration_strings.
  rewrite !forallb_app, !forallb_bind. intros [_ [_ H]%andb_true_iff]%andb_true_iff Ht%list_elem_of_In.
  rewrite forallb_forall in H. by apply H.
Qed.

Lemma valid_set_Transition ev t :
  valid_message ev = true -> valid_message t = true ->
  valid_message (set_evt_Transition (Some t) ev) = true.
Proof.
  unfold valid_message, message_strings, event_strings. rewrite !forallb_app.
  intros [H1 _]%andb_true_iff Ht. simpl in *. by rewrite H1.
Qed.

(** Firing a transition keeps the machine serializable. *)
Lemma valid_fire c f t ev e : valid_message f = true -> valid_message c = true ->
  valid_message ev = true -> enabled c (fsm_State f) e = Some t ->
  valid_message (csm_FSM (fire (mkCSM c f) t ev)) = true.
Proof.
  intros Hf Hc He (Hin & _ & _)%enabled_spec. pose proof (valid_transition _ _ Hc Hin) as Ht.
  rewrite valid_fsm_eq in *. simpl. apply andb_true_iff in Hf as [[-> _]%andb_true_iff Hh].
  rewrite forallb_app, Hh. simpl. rewrite (valid_set_Transition _ _ He Ht).
  unfold valid_message, message_strings, transition_strings in Ht. simpl in Ht.
  by apply andb_true_iff in Ht as [_ [-> _]%andb_true_iff].
Qed.

Section on_spec.
Context {B : Type} `{!ProtoMessage B Configuration, !ProtoMessage B FiniteStateMachine,
  !ProtoMessage B Event, !ProtoMessage B EventOutcome}.
Context `{!ProtoTotal B FiniteStateMachine, !ProtoTotal B Event, !ProtoTotal B EventOutcome}.
Context {E : Type} (notifications : bool).

Lemma reportOutcome_run evId o (p : Process Store E) :
  valid_message o = true ->
  reportOutcome (spec_manager B) (mkEventResponse evId (Some o)) p =
  (Done tt, set_store p (file_outcome (out_Config o) evId o (p_store p))).
Proof.
  intros Hv. unfold reportOutcome. cbn [AddEventOutcome spec_manager].
  by rewrite (on_store_step (spec_AddEventOutcome B evId (out_Config o) (Some o) NeverExpire) _ p _ _
    (spec_put_ok (B:=B) o _ _ (Marshal_valid o Hv))).
Qed.

(** Filing an outcome, with a notification unless all went well. *)
Definition report (request : EventRequest) (code : StatusCode) (details : string)
    (p : Process Store E) : Process Store E :=
  let r := makeResponse request code details in
  let o := mkEventOutcome code details (req_Config request) (req_Id request) in
  mkProcess (file_outcome (req_Config request) (rsp_EventId r) o (p_store p)) (p_env p) (p_events p)
    (if notifications && negb (code =s EventOutcome_Ok) then p_notifications p ++ [r]
     else p_notifications p)%list.

Lemma Post_run request code details (p : Process Store E) :
  valid_request request = true -> valid_utf8 details = true -> code <> EventOutcome_Ok ->
  PostNotificationAndReportOutcome (spec_manager B) notifications (makeResponse request code details) p
  = (Done tt, report request code details p).
Proof.
  intros Hv Hd Hc. unfold PostNotificationAndReportOutcome, makeResponse, report. simpl.
  rewrite bool_decide_ne by done. rewrite go_bind_deref.
  assert (Ho : valid_message (mkEventOutcome code details (req_Config request) (req_Id request)) = true).
  { unfold valid_request in Hv. apply andb_true_iff in Hv as [[Hi Hc']%andb_true_iff _].
    unfold valid_message, message_strings, outcome_strings. simpl. by rewrite Hd, Hc', Hi. }
  destruct notifications; simpl.
  - unfold mbind, go_bind, post_notification, go_modify. by rewrite reportOutcome_run.
  - rewrite go_bind_ret. rewrite reportOutcome_run by done. by destruct p.
Qed.

(** The text of what the transaction reports. *)
Lemma valid_details cfg id err :
  valid_utf8 cfg = true -> valid_utf8 id = true -> valid_utf8 err = true ->
  valid_utf8 (Sprintf "could not update statemachine [%s#%s] in store: %v" [cfg; id; err]) = true.
Proof.
  intros Hc Hi He.
  change (valid_utf8 ("could not update statemachine [" ++ cfg ++ "#" ++ id ++ "] in store: " ++ err ++ "") = true).
  repeat (apply valid_utf8_app; [done|]). done.
Qed.

Lemma valid_not_found key : valid_utf8 key = true -> valid_utf8 (error_text (NotFoundError key)) = true.
Proof.
  intros Hk. change (valid_utf8 ("key " ++ key ++ " not found") = true).
  repeat (apply valid_utf8_app; [done|]). done.
Qed.

Lemma valid_machine_key id cfg :
  valid_utf8 id = true -> valid_utf8 cfg = true -> valid_utf8 (NewKeyForMachine id cfg) = true.
Proof.
  intros Hi Hc. rewrite key_machine_shape. repeat (apply valid_utf8_app; [done|]).
  by apply (valid_utf8_app "#").
Qed.

Lemma TxProcessEvent_run request ev (s : Store) :
  valid_store s -> valid_request request = true -> req_Event request = Some ev ->
  is_Some (evt_Transition ev) -> req_Id request <> "" -> req_Config request <> "" ->
  let r := spec_TxProcessEvent B (req_Id request) (req_Config request) (Some ev) s in
  match caused s request with
  | Some (f, f') =>
      outcome_code s request = EventOutcome_Ok /\
      r = (Done None, file_move (req_Config request) (req_Id request) f f' s)
  | None => exists err, r = (Done (Some err), s) /\ valid_utf8 (error_text err) = true /\
      outcome_code s request =
        (if IsNotFoundErr err then EventOutcome_FsmNotFound else EventOutcome_InternalError)
  end.
Proof.
  intros [Hvf Hvc] Hv He [tr Htr] Hi Hc. cbv zeta. unfold outcome_code, caused, event_name.
  unfold valid_request in Hv. rewrite He in *. simpl. rewrite Htr, !bool_decide_ne by done. simpl.
  apply andb_true_iff in Hv as [[Hid Hcfg]%andb_true_iff Hev].
  destruct (st_fsms s !! _) as [f|] eqn:Ef; simpl.
  2:{ eexists. split; [by apply spec_TxProcessEvent_no_fsm|]. split; [|done].
      by apply valid_not_found, valid_machine_key. }
  pose proof (Hvf _ _ Ef) as Hf.
  destruct (st_configs s !! _) as [c|] eqn:Ec; simpl.
  2:{ eexists. split; [by eapply spec_TxProcessEvent_no_config|]. split; [|by rewrite IsNotFoundErr_nested].
      rewrite valid_fsm_eq in Hf. apply andb_true_iff in Hf as [[Hf _]%andb_true_iff _].
      apply valid_not_found, valid_not_found. by apply (valid_utf8_app "configs#"). }
  destruct (enabled _ _ _) as [t|] eqn:Et; simpl.
  - split; [done|]. eapply spec_TxProcessEvent_fires; try done.
    apply Marshal_valid. eapply valid_fire; eauto.
  - eexists. split; [by eapply spec_TxProcessEvent_refuses|]. by split.
Qed.

(** A request that names its machine and carries an event with a transition. *)
Lemma handle_request_run request (p : Process Store E) :
  valid_store (p_store p) -> valid_request request = true -> is_Some (carried (req_Event request)) ->
  exists details,
    handle_request (spec_manager B) notifications request p =
    (Done tt, report request (outcome_code (p_store p) request) details
                (set_store p (processed (p_store p) request))).
Proof.
  intros Hs Hv Hcar. unfold handle_request. cbv zeta.
  unfold processed. destruct (bool_decide_reflect (req_Id request = "")) as [Hi|Hi]; simpl.
  { exists "no statemachine ID specified". rewrite Post_run by done. unfold outcome_code.
    rewrite Hi, set_store_id. done. }
  destruct (bool_decide_reflect (req_Config request = "")) as [Hc|Hc]; simpl.
  { exists "no Configuration name specified". rewrite Post_run by done. unfold outcome_code.
    rewrite Hc, set_store_id. cbv zeta. by rewrite orb_true_r. }
  destruct (req_Event request) as [ev|] eqn:He; [|by destruct Hcar]. simpl in Hcar.
  destruct Hcar as [tr Htr]. cbn [PutEvent spec_manager].
  pose proof Hv as Hv'. unfold valid_request in Hv'. rewrite He in Hv'.
  apply andb_true_iff in Hv' as [[Hid Hcfg]%andb_true_iff Hev].
  rewrite (on_store_step (spec_PutEvent B (Some ev) (req_Config request) NeverExpire) _ p _ _
    (spec_put_ok (B:=B) ev _ _ (Marshal_valid ev Hev))).
  rewrite go_bind_deref, Htr, go_bind_deref. cbn [TxProcessEvent spec_manager].
  set (s1 := file_event (req_Config request) ev (p_store p)).
  assert (Hc1 : caused s1 request = caused (p_store p) request) by done.
  assert (Ho1 : outcome_code s1 request = outcome_code (p_store p) request) by done.
  pose proof (TxProcessEvent_run request ev s1 Hs Hv He (mk_is_Some _ _ Htr) Hi Hc) as HT.
  cbv zeta in HT. rewrite Hc1, Ho1 in HT.
  destruct (caused (p_store p) request) as [[f f']|].
  - destruct HT as [Ho HT]. exists "".
    rewrite (on_store_step (spec_TxProcessEvent B (req_Id request) (req_Config request) (Some ev)) _
      (set_store p s1) _ _ HT).
    unfold makeResponse. rewrite reportOutcome_run, Ho.
    + unfold report. by rewrite andb_false_r.
    + unfold valid_message, message_strings, outcome_strings. simpl. by rewrite Hid, Hcfg.
  - destruct HT as (err & HT & Herr & Ho).
    rewrite (on_store_step (spec_TxProcessEvent B (req_Id request) (req_Config request) (Some ev)) _
      (set_store p s1) _ _ HT).
    rewrite Post_run by (first [done | by apply valid_details | by destruct (IsNotFoundErr err)]).
    rewrite Ho. by eexists.
Qed.

(** A request whose event has no transition. *)
Lemma handle_request_no_transition request ev (p : Process Store E) :
  valid_request request = true -> req_Event request = Some ev -> evt_Transition ev = None ->
  req_Id request <> "" -> req_Config request <> "" ->
  handle_request (spec_manager B) notifications request p =
  (Panicked, set_store p (file_event (req_Config request) ev (p_store p))).
Proof.
  intros Hv He Htr Hi Hc. unfold handle_request. cbv zeta. rewrite !bool_decide_ne by done.
  unfold valid_request in Hv. rewrite He in *. apply andb_true_iff in Hv as [_ Hev].
  cbn [PutEvent spec_manager].
  rewrite (on_store_step (spec_PutEvent B (Some ev) (req_Config request) NeverExpire) _ p _ _
    (spec_put_ok (B:=B) ev _ _ (Marshal_valid ev Hev))).
  by rewrite go_bind_deref, Htr.
Qed.

(** A request that names its machine and carries no event. *)
Lemma handle_request_no_event request (p : Process Store E) :
  valid_request request = true -> req_Event request = None ->
  exists code details, code <> EventOutcome_Ok /\
    handle_request (spec_manager B) notifications request p = (Done tt, report request code details p).
Proof.
  intros Hv He. unfold handle_request. cbv zeta.
  destruct (req_Id request =s ""); [eexists _, _; split; [|by apply Post_run]; done|].
  destruct (req_Config request =s ""); [eexists _, _; split; [|by apply Post_run]; done|].
  cbn [PutEvent spec_manager]. rewrite He.
  rewrite (on_store_step (spec_PutEvent B None (req_Config request) NeverExpire) _ p _ _ eq_refl),
    set_store_id.
  eexists _, _; split; [|by apply Post_run]; done.
Qed.

(** *** Over a store that fails *)

Definition file_report (request : EventRequest) (code : StatusCode) (details : string)
    (p : Process Unreliable E) : Process Unreliable E :=
  let r := makeResponse request code details in
  let o := mkEventOutcome code details (req_Config request) (req_Id request) in
  let s := u_store (p_store p) in
  let s' := after_fault (fault_at (p_store p) 0) s (file_outcome (req_Config request) (rsp_EventId r) o s) in
  mkProcess (mkUnreliable s' (tl (u_faults (p_store p)))) (p_env p) (p_events p)
    (if notifications && negb (code =s EventOutcome_Ok) then p_notifications p ++ [r]
     else p_notifications p)%list.

Lemma valid_report request code details :
  valid_request request = true -> valid_utf8 details = true ->
  valid_message (mkEventOutcome code details (req_Config request) (req_Id request)) = true.
Proof.
  intros [[Hi Hc]%andb_true_iff _]%andb_true_iff Hd.
  unfold valid_message, message_strings, outcome_strings. simpl. by rewrite Hd, Hc, Hi.
Qed.

Lemma reportOutcome_attempt request code details (p : Process Unreliable E) :
  valid_request request = true -> valid_utf8 details = true ->
  reportOutcome (unreliable_manager B) (makeResponse request code details) p =
  (Done tt, set_store p (p_store (file_report request code details p))).
Proof.
  intros Hv Hd. pose proof (valid_report request code details Hv Hd) as Ho.
  unfold reportOutcome, makeResponse, file_report. cbv zeta. cbn [AddEventOutcome unreliable_manager].
  destruct (fault_at (p_store p) 0) as [x|] eqn:Ex.
  - by rewrite (attempt_fault _ _ _ _ _ Ex).
  - match goal with |- context [attempt Some (spec_AddEventOutcome B ?i ?c ?o ?ttl)] =>
      rewrite (attempt_fine _ (spec_AddEventOutcome B i c o ttl) _ p _ _ Ex
        (spec_put_ok (B:=B) _ _ _ (Marshal_valid _ Ho))) end.
    done.
Qed.

Lemma Post_attempt request code details (p : Process Unreliable E) :
  valid_request request = true -> valid_utf8 details = true -> code <> EventOutcome_Ok ->
  PostNotificationAndReportOutcome (unreliable_manager B) notifications (makeResponse request code details) p =
  (Done tt, file_report request code details p).
Proof.
  intros Hv Hd Hc. unfold PostNotificationAndReportOutcome.
  change (rsp_Outcome (makeResponse request code details)) with
    (Some (mkEventOutcome code details (req_Config request) (req_Id request))).
  rewrite go_bind_deref. unfold file_report. cbv zeta. rewrite bool_decide_ne by done. rewrite andb_true_r.
  destruct notifications.
  - unfold mbind, go_bind, post_notification, go_modify. by rewrite reportOutcome_attempt.
  - rewrite go_bind_ret. by rewrite reportOutcome_attempt.
Qed.

Lemma valid_event_details err : valid_utf8 err = true ->
  valid_utf8 (Sprintf "could not store event: %v" [err]) = true.
Proof.
  intros He. change (valid_utf8 ("could not store event: " ++ err ++ "") = true).
  apply valid_utf8_app; [done|]. by apply valid_utf8_app.
Qed.

Lemma readable_at u n x : readable_faults u -> fault_at u n = Some x ->
  valid_utf8 (error_text (fault_error x)) = true.
Proof.
  intros H Hx. apply H. unfold fault_at in Hx. destruct (u_faults u !! n) as [o|] eqn:Eo; [|done].
  simpl in Hx. subst o. by eapply list_elem_of_lookup_2.
Qed.

(** The process when the outcome of a request is reported, after the operations
    on its event and its machine. *)
Definition to_report (request : EventRequest) (p : Process Unreliable E) : Process Unreliable E :=
  let u := p_store p in
  let used := if names_machine request
              then match fault_at u 0 with Some _ => 1%nat | None => 2%nat end else 0%nat in
  set_store p (mkUnreliable (processed_with_faults u request) (drop used (u_faults u))).

Lemma to_report_fault request p :
  fault_at (p_store (to_report request p)) 0 = outcome_fault (p_store p) request.
Proof.
  unfold to_report, outcome_fault, fault_at. simpl. rewrite lookup_drop, Nat.add_0_r.
  destruct (names_machine request); [|done]. fold (fault_at (p_store p) 0). by destruct (fault_at _ 0).
Qed.

Lemma names_machine_false request : names_machine request = false ->
  req_Id request = "" \/ (req_Id request <> "" /\ req_Config request = "").
Proof.
  unfold names_machine. destruct (bool_decide_reflect (req_Id request = "")); [by left|].
  destruct (bool_decide_reflect (req_Config request = "")); [by right|done].
Qed.

Lemma names_machine_true request : names_machine request = true ->
  req_Id request <> "" /\ req_Config request <> "".
Proof. unfold names_machine. intros [H1%negb_true_iff H2%negb_true_iff]%andb_true_iff.
  by apply bool_decide_eq_false in H1, H2. Qed.

Lemma unnamed_outcome s request : names_machine request = false ->
  outcome_code s request = EventOutcome_MissingDestination /\ processed s request = s.
Proof.
  unfold names_machine, outcome_code, processed. rewrite <- negb_orb.
  intros H%negb_false_iff. by rewrite H.
Qed.

Lemma handle_request_unnamed request (p : Process Unreliable E) :
  valid_request request = true -> names_machine request = false ->
  exists details,
    handle_request (unreliable_manager B) notifications request p =
    (Done tt, file_report request EventOutcome_MissingDestination details p).
Proof.
  intros Hv Hn. unfold handle_request. cbv zeta.
  destruct (names_machine_false _ Hn) as [->|[Hi ->]]; rewrite ?bool_decide_refl, ?bool_decide_ne by done;
    eexists; by apply Post_attempt.
Qed.

(** What the listener does with a request that it can serve. *)
Lemma handle_request_attempt request (p : Process Unreliable E) :
  valid_store (u_store (p_store p)) -> readable_faults (p_store p) -> valid_request request = true ->
  is_Some (carried (req_Event request)) ->
  exists details,
    handle_request (unreliable_manager B) notifications request p =
    (Done tt, file_report request (reported_code (p_store p) request) details (to_report request p)).
Proof.
  intros Hs Hr Hv Hcar. unfold reported_code, to_report, processed_with_faults, event_fault, machine_fault.
  destruct (names_machine request) eqn:Hn.
  2:{ destruct (handle_request_unnamed request p Hv Hn) as [d ->]. exists d. rewrite drop_0.
      destruct (unnamed_outcome (u_store (p_store p)) request Hn) as [-> ->].
      by destruct p as [[] ? ? ?]. }
  destruct (names_machine_true _ Hn) as [Hi Hc]. unfold handle_request. cbv zeta.
  rewrite !bool_decide_ne by done. cbn [PutEvent TxProcessEvent unreliable_manager].
  destruct (req_Event request) as [ev|] eqn:He; [|by destruct Hcar]. destruct Hcar as [tr Htr]. simpl in Htr.
  pose proof Hv as Hv'. unfold valid_request in Hv'. rewrite He in Hv'.
  apply andb_true_iff in Hv' as [[Hid Hcfg]%andb_true_iff Hev].
  destruct (fault_at (p_store p) 0) as [x|] eqn:E0.
  { rewrite (attempt_fault _ _ _ _ _ E0). eexists. rewrite Post_attempt;
      [|done|by apply valid_event_details, (readable_at (p_store p) 0)|done].
    by destruct (u_faults (p_store p)). }
  rewrite (attempt_fine _ (spec_PutEvent B (Some ev) (req_Config request) NeverExpire) _ p _ _ E0
    (spec_put_ok (B:=B) ev _ _ (Marshal_valid ev Hev))).
  rewrite go_bind_deref, Htr, go_bind_deref.
  set (s1 := upd_events _ _). set (p1 := set_store p _).
  assert (E1 : fault_at (p_store p1) 0 = fault_at (p_store p) 1) by apply fault_at_tl.
  assert (Hdrop : drop 2 (u_faults (p_store p)) = tl (u_faults (p_store p1)))
    by (simpl; by destruct (u_faults (p_store p)) as [|? [|? ?]]).
  destruct (fault_at (p_store p) 1) as [x|] eqn:Ex.
  { rewrite (attempt_fault _ _ _ _ _ E1). eexists.
    rewrite Post_attempt; [rewrite Hdrop; done|done| |by destruct (IsNotFoundErr _)].
    by apply valid_details, (readable_at (p_store p) 1). }
  pose proof (TxProcessEvent_run request ev s1 Hs Hv He (mk_is_Some _ _ Htr) Hi Hc) as HT.
  cbv zeta in HT. change (caused s1 request) with (caused (u_store (p_store p)) request) in HT.
  change (outcome_code s1 request) with (outcome_code (u_store (p_store p)) request) in HT.
  unfold processed. unfold names_machine in Hn. rewrite <- negb_orb in Hn. apply negb_true_iff in Hn.
  rewrite Hn, He, Hdrop.
  destruct (caused (u_store (p_store p)) request) as [[f f']|].
  - destruct HT as [-> HT]. exists "".
    rewrite (attempt_fine _ (spec_TxProcessEvent B (req_Id request) (req_Config request) (Some ev)) _ p1 _ _ E1 HT).
    rewrite reportOutcome_attempt by done. unfold file_report. by rewrite andb_false_r.
  - destruct HT as (err & HT & Herr & ->). eexists.
    rewrite (attempt_fine _ (spec_TxProcessEvent B (req_Id request) (req_Config request) (Some ev)) _ p1 _ _ E1 HT).
    rewrite Post_attempt; [done|done|by apply valid_details|by destruct (IsNotFoundErr err)].
Qed.

End on_spec.

(** *** What processing leaves alone *)

Lemma processed_configs s request : st_configs (processed s request) = st_configs s.
Proof.
  unfold processed. destruct (_ || _); [done|]. destruct (req_Event request); [|done].
  by destruct (caused s request) as [[f f']|].
Qed.

Lemma processed_fsm s request cfg id : cfg <> "" -> id <> "" -> is_Some (req_Event request) ->
  st_fsms (processed s request) !! (cfg, id) =
  if decide (req_Config request = cfg /\ req_Id request = id)
  then match caused s request with Some (f, f') => Some f' | None => st_fsms s !! (cfg, id) end
  else st_fsms s !! (cfg, id).
Proof.
  intros Hc Hi [ev He]. unfold processed. rewrite He.
  destruct (bool_decide_reflect (req_Id request = "")), (bool_decide_reflect (req_Config request = ""));
    simpl; try (case_decide; [naive_solver|done]).
  destruct (caused s request) as [[f f']|]; simpl; [|by case_decide].
  rewrite lookup_insert. by repeat case_decide; naive_solver.
Qed.

Lemma processed_valid s request :
  valid_store s -> valid_request request = true -> valid_store (processed s request).
Proof.
  intros [Hf Hc] Hv. split; [|by rewrite processed_configs].
  intros k f. unfold processed. destruct (_ || _); [by apply Hf|].
  destruct (req_Event request) as [ev|] eqn:He; [|by apply Hf].
  destruct (caused s request) as [[f0 f']|] eqn:E; [|by apply Hf]. simpl.
  intros [[_ <-]|[_ H]]%lookup_insert_Some; [|by eapply Hf].
  unfold caused in E. simplify_option_eq.
  unfold valid_request in Hv. rewrite He in Hv. apply andb_true_iff in Hv as [_ Hev].
  eapply valid_fire; eauto.
Qed.

(** The events of the requests for one machine. *)
Definition events_for (cfg id : string) (requests : list EventRequest) : list Event :=
  omap (fun r => if decide (req_Config r = cfg /\ req_Id r = id) then req_Event r else None) requests.

(** Requests that the listener can serve without a panic. *)
Definition good_request (r : EventRequest) : Prop :=
  valid_request r = true /\ is_Some (carried (req_Event r)).

Section listen.
Context {B : Type} `{!ProtoMessage B Configuration, !ProtoMessage B FiniteStateMachine,
  !ProtoMessage B Event, !ProtoMessage B EventOutcome}.
Context `{!ProtoTotal B FiniteStateMachine, !ProtoTotal B Event, !ProtoTotal B EventOutcome}.
Context {E : Type} (notifications : bool).

Lemma caused_enabled s r ev tr f c :
  req_Event r = Some ev -> evt_Transition ev = Some tr ->
  st_fsms s !! (req_Config r, req_Id r) = Some f -> st_configs s !! fsm_ConfigId f = Some c ->
  caused s r = (fun t => (f, csm_FSM (fire (mkCSM c f) t ev))) <$> enabled c (fsm_State f) (tr_Event tr).
Proof.
  intros He Htr Hf Hc. unfold caused, event_name. rewrite Hf. simpl. rewrite Hc. simpl.
  rewrite He. simpl. rewrite Htr. by destruct (enabled _ _ _).
Qed.

(** Serving the requests runs the automaton of every machine. *)
Lemma ListenForMessages_run requests cfg id f c (p : Process Store E) :
  valid_store (p_store p) -> Forall good_request requests -> cfg <> "" -> id <> "" ->
  st_fsms (p_store p) !! (cfg, id) = Some f -> st_configs (p_store p) !! fsm_ConfigId f = Some c ->
  let run := automaton_run c (fsm_State f) (events_for cfg id requests) in
  exists p', ListenForMessages (spec_manager B) notifications requests p = (Done tt, p') /\
    st_configs (p_store p') = st_configs (p_store p) /\
    st_fsms (p_store p') !! (cfg, id) =
      Some (mkFsm (fsm_ConfigId f) (fst run) (fsm_History f ++ snd run)).
Proof.
  intros Hs Hg Hc Hi Hf Hcfg. cbv zeta. revert p f Hs Hf Hcfg.
  induction Hg as [|r rs [Hv Hcar] _ IH]; intros p f Hs Hf Hcfg; cbn [ListenForMessages].
  { exists p. simpl. rewrite app_nil_r. destruct f; simpl in *. by split_and!. }
  destruct (handle_request_run (B:=B) notifications r p Hs Hv Hcar) as [details E1].
  rewrite (go_bind_done _ _ _ _ _ E1).
  destruct (req_Event r) as [ev|] eqn:He; [|by destruct Hcar]. destruct Hcar as [tr Htr]. simpl in Htr.
  set (p1 := report _ r _ _ _).
  assert (Hs1 : valid_store (p_store p1)) by exact (processed_valid _ _ Hs Hv).
  pose proof (processed_fsm (p_store p) r cfg id Hc Hi (mk_is_Some _ _ He)) as Hp.
  assert (Hc1 : st_configs (p_store p1) = st_configs (p_store p)) by apply processed_configs.
  pose proof (caused_enabled (p_store p) r ev tr f c He Htr) as Hce.
  unfold events_for. simpl. rewrite He. change (omap _ rs) with (events_for cfg id rs).
  case_decide as Ht.
  - destruct Ht as [<- <-]. specialize (Hce Hf Hcfg). rewrite Hce in Hp. simpl. rewrite Htr.
    destruct (enabled c (fsm_State f) (tr_Event tr)) as [t|] eqn:Et; simpl in Hp.
    + destruct (IH p1 _ Hs1 Hp) as (p' & -> & Hk & Hl); [by rewrite Hc1|].
      exists p'. rewrite Hk, Hc1, Hl. split_and!; [done..|]. simpl. by rewrite <- app_assoc.
    + destruct (IH p1 _ Hs1 (eq_trans Hp Hf)) as (p' & -> & Hk & Hl); [by rewrite Hc1|].
      exists p'. by rewrite Hk, Hc1, Hl.
  - destruct (IH p1 _ Hs1 (eq_trans Hp Hf)) as (p' & -> & Hk & Hl); [by rewrite Hc1|].
    exists p'. by rewrite Hk, Hc1, Hl.
Qed.

End listen.

(** ** Properties *)

Section theorems.
Context {B : Type} `{!ProtoMessage B Configuration, !ProtoMessage B FiniteStateMachine,
  !ProtoMessage B Event, !ProtoMessage B EventOutcome}.
Context `{!ProtoTotal B FiniteStateMachine, !ProtoTotal B Event, !ProtoTotal B EventOutcome}.
Context {E : Type} (notifications : bool).

(** C1. Events in, states out: over any store that keeps the contract of
    [StoreManager], serving requests one after the other runs the automaton of
    every machine on the events addressed to it, whatever else arrives in
    between: afterwards [GetStateMachine] answers the machine in the state of
    that run, its history grown by exactly the accepted events, in order. *)
Theorem listener_drives_automaton {W} (impl : StoreManager W) R `{!StoreRefines B impl R}
    requests cfg id f c s (p : Process W E) :
  R s (p_store p) -> valid_store s ->
  Forall (fun r => good_request r /\ plain (req_Config r) = true) requests ->
  cfg <> "" -> plain cfg = true -> id <> "" ->
  st_fsms s !! (cfg, id) = Some f -> st_configs s !! fsm_ConfigId f = Some c ->
  let run := automaton_run c (fsm_State f) (events_for cfg id requests) in
  exists p', ListenForMessages impl notifications requests p = (Done tt, p') /\
    fst (GetStateMachine id cfg (p_store p')) =
      Done (Ok (mkFsm (fsm_ConfigId f) (fst run) (fsm_History f ++ snd run))).
Proof.
  intros HR Hs [Hg Hp]%Forall_and Hc Hpc Hi Hf Hcfg. cbv zeta.
  set (sp := mkProcess s (p_env p) (p_events p) (p_notifications p)).
  destruct (ListenForMessages_run (B:=B) notifications requests cfg id f c sp Hs Hg Hc Hi Hf Hcfg)
    as (sp' & E1 & _ & Hf').
  destruct (ListenForMessages_sim impl R notifications requests Hp sp p) as [Hr HR']; [done|].
  rewrite E1 in Hr, HR'. simpl in Hr, HR'.
  destruct (ListenForMessages impl notifications requests p) as [[[]| |] p']; try done.
  exists p'. split; [done|]. destruct HR' as [HR' _]. simpl in HR'.
  destruct (sim_GetStateMachine (impl := impl) id cfg Hpc _ _ HR') as [Ha _].
  unfold spec_GetStateMachine, go_gets in Ha. simpl in Ha. rewrite Hf' in Ha. simpl in Ha.
  destruct (fst (GetStateMachine id cfg (p_store p'))); [by subst|done..].
Qed.

(** C10. Every request with valid texts whose event has a transition gets one
    outcome, over a store that keeps its contract or fails: serving it files the event, moves
    the machine if its automaton accepts the event, and files an outcome under
    the event's id, readable with [GetOutcomeForEvent], unless that very
    operation fails, which is only logged.  The code is that of the table when
    nothing failed, [InternalError] when the event could not be stored, and
    told from the text of the error when the transaction failed.  If a
    channel is configured there is a notification, the same outcome, exactly
    when the code is not [Ok], whether or not the outcome could be filed; if
    none is, there is none. *)
Theorem request_outcome request (p : Process Unreliable E) :
  let u := p_store p in
  valid_store (u_store u) -> readable_faults u -> good_request request ->
  let evId := GetEvent_GetEventId request in
  let s' := processed_with_faults u request in
  exists o p', handle_request (unreliable_manager B) notifications request p = (Done tt, p') /\
    out_Code o = reported_code u request /\
    out_Config o = req_Config request /\ out_Id o = req_Id request /\
    u_store (p_store p') =
      after_fault (outcome_fault u request) s' (file_outcome (req_Config request) evId o s') /\
    (outcome_fault u request = None ->
       fst (spec_GetOutcomeForEvent evId (req_Config request) (u_store (p_store p'))) = Done (Ok o)) /\
    p_events p' = p_events p /\
    p_notifications p' =
      (p_notifications p ++
       if notifications && negb (out_Code o =s EventOutcome_Ok)
       then [mkEventResponse evId (Some o)] else [])%list.
Proof.
  cbv zeta. intros Hs Hr [Hv Hcar].
  destruct (handle_request_attempt (B:=B) notifications request p Hs Hr Hv Hcar) as [details ->].
  exists (mkEventOutcome (reported_code (p_store p) request) details (req_Config request) (req_Id request)).
  eexists. split; [done|]. rewrite <- to_report_fault. split_and!; try done.
  - intros Hf. unfold file_report. cbv zeta. rewrite Hf. unfold spec_GetOutcomeForEvent, go_gets. simpl.
    by rewrite lookup_insert_eq.
  - simpl. destruct (_ && _); [done|]. by rewrite app_nil_r.
Qed.

(** C22. When the listener panics: over a store it can serve, exactly on a
    request that names a machine and a configuration and carries an event
    without a transition; the event has been stored by then, and no outcome
    is filed. *)
Theorem listener_panics_iff request (p : Process Store E) :
  valid_store (p_store p) -> valid_request request = true ->
  let r := handle_request (spec_manager B) notifications request p in
  (fst r = Panicked <->
     req_Id request <> "" /\ req_Config request <> "" /\
     exists ev, req_Event request = Some ev /\ evt_Transition ev = None) /\
  (fst r = Panicked -> exists ev, req_Event request = Some ev /\
     p_store (snd r) = file_event (req_Config request) ev (p_store p)).
Proof.
  intros Hs Hv. cbv zeta.
  destruct (req_Event request) as [ev|] eqn:He.
  2:{ destruct (handle_request_no_event (B:=B) notifications request p Hv He) as (code & d & _ & ->).
      split; [|done]. split; [done|]. by intros (_ & _ & ev & ? & _). }
  destruct (evt_Transition ev) as [tr|] eqn:Htr.
  { assert (Hcar : is_Some (carried (req_Event request))) by (rewrite He; simpl; by eexists).
    destruct (handle_request_run (B:=B) notifications request p Hs Hv Hcar) as [d ->].
    split; [|done]. split; [done|]. intros (_ & _ & ev' & ? & ?). naive_solver. }
  destruct (decide (req_Id request = "")) as [Hi|Hi].
  { unfold handle_request. cbv zeta. rewrite Hi, bool_decide_refl, Post_run by done. naive_solver. }
  destruct (decide (req_Config request = "")) as [Hc|Hc].
  { unfold handle_request. cbv zeta. rewrite Hc, bool_decide_refl, bool_decide_ne, Post_run by done.
    naive_solver. }
  rewrite (handle_request_no_transition (B:=B) notifications request ev p Hv He Htr Hi Hc).
  simpl. split; [|by exists ev]. split; [|done]. intros _. split_and!; [done..|]. by exists ev.
Qed.
End theorems.

(** *** Examples *)

Definition rover_fsm : FiniteStateMachine := mkFsm "mars_rover:v2.0" "earth" [].

Definition setup_ops : list op :=
  [OPutConfig (Some mars_rover); OPutStateMachine "7" (Some rover_fsm);
   OUpdateState "mars_rover" "7" "" "earth"].

Definition rover_store : Store :=
  file_new mars_rover "7" rover_fsm
    (file_config mars_rover (upd_timeout (fun _ => Timeout (mem_store [])) spec_empty)).

Definition rover_redis : RedisStore Mem := snd (redis_ops (B:=wire) 1 setup_ops (mem_store [])).

Lemma rover_refines : refines (B:=wire) rover_store rover_redis.
Proof.
  pose proof (redis_refines (B:=wire) (W:=Mem) 1 ltac:(lia)) as HS.
  assert (Hh : healthy (B:=wire) (client (mem_store []))) by constructor.
  destruct (run_ops_sim (redis_store_manager 1) refines (HR := HS) setup_ops ltac:(repeat constructor)
    _ _ (refines_empty (B:=wire) (mem_store []) Hh eq_refl)) as [_ H]. exact H.
Qed.

Lemma rover_valid : valid_store rover_store.
Proof.
  unfold rover_store, file_new, file_config, spec_empty. split; simpl.
  - intros k f [[_ <-]|[_ H]]%lookup_insert_Some; [reflexivity|by rewrite lookup_empty in H].
  - intros k c [[_ <-]|[_ H]]%lookup_insert_Some; [reflexivity|by rewrite lookup_empty in H].
Qed.

Definition rover_request (id event_name fsm : string) : EventRequest :=
  mkEventRequest (Some (event id event_name)) "mars_rover" fsm.

Definition rover_requests : list EventRequest :=
  [rover_request "1" "land" "7"; rover_request "2" "launch" "7"; rover_request "3" "launch" "8";
   rover_request "4" "land" "7"].

Lemma listener_drives_automaton_witness :
  exists p', ListenForMessages (redis_store_manager (B:=wire) 1) true rover_requests
      (quiet rover_redis) = (Done tt, p') /\
    fst (rs_GetStateMachine (B:=wire) 1 "7" "mars_rover" (p_store p')) =
      Done (Ok (mkFsm "mars_rover:v2.0" "mars"
        [set_evt_Transition (Some (mkTransition "earth" "orbit" "launch")) (event "2" "launch");
         set_evt_Transition (Some (mkTransition "orbit" "mars" "land")) (event "4" "land")])).
Proof.
  apply (listener_drives_automaton (B:=wire) true (redis_store_manager (B:=wire) 1) refines
    (StoreRefines0 := redis_refines (B:=wire) 1 ltac:(lia))
    rover_requests "mars_rover" "7" rover_fsm mars_rover rover_store (quiet rover_redis)).
  - exact rover_refines.
  - exact rover_valid.
  - repeat constructor; eexists; reflexivity.
  - discriminate.
  - reflexivity.
  - discriminate.
  - reflexivity.
  - reflexivity.
Defined.

(** The machine cannot be read, and then the outcome cannot be filed: the
    notification is all there is. *)
Definition two_faults : list (option store_fault) :=
  [None; Some (mkFault (Errorf "i/o timeout") id); Some (mkFault (Errorf "i/o timeout") id)].

Lemma request_outcome_witness :
  let p := mkProcess (mkUnreliable rover_store two_faults) (mkTestEnv 0 0 []) [] [] in
  exists o p', handle_request (unreliable_manager wire) true (rover_request "1" "launch" "7") p = (Done tt, p') /\
    out_Code o = EventOutcome_InternalError /\
    st_outcomes (u_store (p_store p')) !! ("mars_rover", "1") = None /\
    p_notifications p' = [mkEventResponse "1" (Some o)].
Proof.
  cbv zeta. destruct (request_outcome (B:=wire) true (rover_request "1" "launch" "7")
    (mkProcess (mkUnreliable rover_store two_faults) (mkTestEnv 0 0 []) [] []))
    as (o & p' & H & Ho & _ & _ & Hst & _ & _ & Hn).
  - exact rover_valid.
  - intros x Hx. unfold two_faults in Hx. simpl in Hx.
    repeat (apply elem_of_cons in Hx as [Hx|Hx]; [by simplify_eq|]). by apply elem_of_nil in Hx.
  - split; [reflexivity|]. eexists. reflexivity.
  - exists o, p'. assert (Hc : out_Code o = EventOutcome_InternalError) by (rewrite Ho; reflexivity).
    split; [exact H|]. split; [exact Hc|]. split; [rewrite Hst; reflexivity|]. rewrite Hn, Hc. reflexivity.
Defined.

Definition bare_request : EventRequest :=
  mkEventRequest (Some (mkEvent "9" None None "" "")) "mars_rover" "7".

Lemma listener_panics_iff_witness :
  fst (handle_request (spec_manager wire) true bare_request (quiet rover_store)) = Panicked.
Proof.
  apply (proj1 (listener_panics_iff (B:=wire) true bare_request (quiet rover_store) rover_valid eq_refl)).
  split; [discriminate|]. split; [discriminate|]. eexists. split; reflexivity.
Defined.
