(* ===== verification/Server.v ===== *)
(** * The whole server: RPC calls and the events listener over one store

    The handlers of [GrpcServer.v] and the listener of [Listener.v] as the steps
    of one process, served one at a time.  Over related stores the process
    behaves alike (the promise of [Service.v] builds on that), and the sets of
    machines by state stay in step with the machines, which fails when calls
    overlap or a machine is put twice. *)

From Stdlib Require Import ZArith Ascii Relations.
From stdpp Require Import base tactics strings list gmap sets relations.
From S2P Require Import Prelude GoLib Proto Fsm Keys StoreTypes Redis RedisStore StoreSpec.
From S2P Require Import RedisRefinement Process GrpcServer Listener.

(** ** Definitions *)

(** What the process is asked to do: an RPC, or the next event request that
    comes out of the channel. *)
Inductive call :=
| CallHealth
| CallSendEvent (ctx : rpc_context) (request : EventRequest)
| CallPutConfiguration (ctx : rpc_context) (cfg : Configuration)
| CallGetAllConfigurations (name : string)
| CallGetConfiguration (id : string)
| CallPutFiniteStateMachine (ctx : rpc_context) (req : PutFsmRequest)
| CallGetFiniteStateMachine (req : GetFsmRequest)
| CallGetAllInState (req : GetFsmRequest)
| CallGetEventOutcome (req : EventRequest)
| CallStreamAllInstate (req : GetFsmRequest)
| CallStreamAllConfigurations (name : string)
| CallListen (request : EventRequest).

Inductive reply_message :=
| ReplyHealth (r : option HealthResponse * option error)
| ReplyEvent (r : option EventResponse * option error)
| ReplyPut (r : option PutResponse * option error)
| ReplyList (r : list string)
| ReplyConfiguration (r : option Configuration * option error)
| ReplyFsm (r : option FiniteStateMachine * option error)
| ReplyIds (r : option (list string) * option error)
| ReplyMachines (r : list PutResponse * option error)
| ReplyConfigurations (r : list Configuration * option error)
| ReplyNothing.

Definition serve {S E} (store : StoreManager S) `{!ServerEnv E} (Release : string) (s : Config)
    (notifications : bool) (c : call) : Go (Process S E) reply_message :=
  match c with
  | CallHealth => r ← grpc_Health store Release s; mret (ReplyHealth r)
  | CallSendEvent ctx request => r ← grpc_SendEvent s ctx request; mret (ReplyEvent r)
  | CallPutConfiguration ctx cfg => r ← PutConfiguration store ctx cfg; mret (ReplyPut r)
  | CallGetAllConfigurations name => r ← GetAllConfigurations store name; mret (ReplyList r)
  | CallGetConfiguration id => r ← GetConfiguration store id; mret (ReplyConfiguration r)
  | CallPutFiniteStateMachine ctx req => r ← PutFiniteStateMachine store ctx req; mret (ReplyPut r)
  | CallGetFiniteStateMachine req => r ← GetFiniteStateMachine store req; mret (ReplyFsm r)
  | CallGetAllInState req => r ← grpc_GetAllInState store req; mret (ReplyIds r)
  | CallGetEventOutcome req => r ← GetEventOutcome store req; mret (ReplyEvent r)
  | CallStreamAllInstate req => r ← StreamAllInstate store req; mret (ReplyMachines r)
  | CallStreamAllConfigurations name =>
      r ← StreamAllConfigurations store name; mret (ReplyConfigurations r)
  | CallListen request => handle_request store notifications request;; mret ReplyNothing
  end.

(** Calls whose configuration names do not hold a key separator. *)
Definition good_call (c : call) : bool :=
  match c with
  | CallPutConfiguration _ cfg => good_config cfg
  | CallGetAllConfigurations name | CallStreamAllConfigurations name => plain name
  | CallGetConfiguration id => good_config_id id
  | CallPutFiniteStateMachine _ req =>
      match pf_Fsm req with Some f => good_fsm f | None => true end
  | CallGetFiniteStateMachine req | CallGetAllInState req | CallStreamAllInstate req =>
      plain (gf_Config req)
  | CallGetEventOutcome req => plain (req_Config req)
  | CallListen request => plain (req_Config request)
  | _ => true
  end.

(** Replies up to the order of lists. *)
Definition reply_rel (r1 r2 : reply_message) : Prop :=
  match r1, r2 with
  | ReplyList l1, ReplyList l2 => l1 ≡ₚ l2
  | ReplyIds (Some l1, e1), ReplyIds (Some l2, e2) => l1 ≡ₚ l2 /\ e1 = e2
  | _, _ => r1 = r2
  end.

(** The calls that are answered with a stream. *)
Definition streaming (c : call) : bool :=
  match c with CallStreamAllInstate _ | CallStreamAllConfigurations _ => true | _ => false end.

(** The ids that are listed for a configuration name have that of a plain name. *)
Definition well_listed (s : Store) : Prop :=
  forall name id, id ∈ set_of (st_versions s) name -> good_config_id id = true.

(** The sets of machines by state hold exactly the machines, by their state. *)
Definition consistent (s : Store) : Prop :=
  forall name id st, st <> "" ->
    (id ∈ set_of (st_states s) (name, st) <->
     exists f, st_fsms s !! (name, id) = Some f /\ fsm_State f = st).

(** A put of a machine that succeeded did so under an id not in use. *)
Definition fresh_put (s : Store) (c : call) (r : result reply_message) : Prop :=
  match c, r with
  | CallPutFiniteStateMachine _ _, Done (ReplyPut (Some resp, _)) =>
      forall name, st_fsms s !! (name, pr_Id resp) = None
  | _, _ => True
  end.

(** One step of the server over the specification; a call that panics leaves
    the store it had reached to the next process. *)
Inductive server_step (B : Type) `{!ProtoMessage B Configuration, !ProtoMessage B FiniteStateMachine,
    !ProtoMessage B Event, !ProtoMessage B EventOutcome} {E : Type} `{!ServerEnv E}
    (Release : string) (s : Config) (notifications : bool) (p p' : Process Store E) : Prop :=
| server_step_call c r :
    good_call c = true ->
    serve (spec_manager B) Release s notifications c p = (r, p') ->
    fresh_put (p_store p) c r ->
    server_step B Release s notifications p p'.

(** ** The server over related stores *)

Lemma reply_rel_refl r : reply_rel r r.
Proof. destruct r as [| | | | | |[[] ?]| | |]; simpl; done. Qed.

Section refinement.
Context {B : Type} `{!ProtoMessage B Configuration, !ProtoMessage B FiniteStateMachine,
  !ProtoMessage B Event, !ProtoMessage B EventOutcome}.
Context {W E : Type} (impl : StoreManager W) (R : Store -> W -> Prop) `{HR : !StoreRefines B impl R}.
Context `{!ServerEnv E}.

Abbreviation RP := (lift_rel (E:=E) R).

Lemma sim_deadline_passed ctx : sim RP eq (deadline_passed ctx) (deadline_passed ctx).
Proof. unfold deadline_passed. go_sim. Qed.

#[local] Hint Resolve sim_deadline_passed : sim.

Lemma grpc_SendEvent_sim s ctx request : sim RP eq (grpc_SendEvent s ctx request) (grpc_SendEvent s ctx request).
Proof. unfold grpc_SendEvent. cbv zeta. go_sim. Qed.

Lemma grpc_Health_sim Release s :
  sim RP eq (grpc_Health (spec_manager B) Release s) (grpc_Health impl Release s).
Proof using HR.
  unfold grpc_Health. go_sim. apply sim_on_store. apply (sim_Health (impl := impl)).
Qed.

Lemma PutConfiguration_sim ctx cfg : good_config cfg = true ->
  sim RP eq (PutConfiguration (spec_manager B) ctx cfg) (PutConfiguration impl ctx cfg).
Proof using HR.
  intros Hg. unfold PutConfiguration. go_sim. apply sim_on_store.
  by apply (sim_PutConfig (impl := impl) (Some cfg)).
Qed.

Lemma GetConfiguration_sim id : good_config_id id = true ->
  sim RP eq (GetConfiguration (spec_manager B) id) (GetConfiguration impl id).
Proof using HR.
  intros Hg. unfold GetConfiguration. go_sim. apply sim_on_store.
  by apply (sim_GetConfig (impl := impl)).
Qed.

Lemma GetAllConfigurations_sim name : plain name = true ->
  sim RP Permutation (GetAllConfigurations (spec_manager B) name) (GetAllConfigurations impl name).
Proof using HR.
  intros Hg. unfold GetAllConfigurations. destruct (name =s ""); apply sim_on_store.
  - apply (sim_GetAllConfigs (impl := impl)).
  - by apply (sim_GetAllVersions (impl := impl)).
Qed.

Lemma GetFiniteStateMachine_sim req : plain (gf_Config req) = true ->
  sim RP eq (GetFiniteStateMachine (spec_manager B) req) (GetFiniteStateMachine impl req).
Proof using HR.
  intros Hg. unfold GetFiniteStateMachine. cbv zeta. go_sim. apply sim_on_store.
  by apply (sim_GetStateMachine (impl := impl)).
Qed.

Lemma GetEventOutcome_sim req : plain (req_Config req) = true ->
  sim RP eq (GetEventOutcome (spec_manager B) req) (GetEventOutcome impl req).
Proof using HR.
  intros Hg. unfold GetEventOutcome. cbv zeta. go_sim. apply sim_on_store.
  by apply (sim_GetOutcomeForEvent (impl := impl)).
Qed.

Lemma grpc_GetAllInState_sim req : plain (gf_Config req) = true ->
  sim RP (fun r1 r2 => reply_rel (ReplyIds r1) (ReplyIds r2))
    (grpc_GetAllInState (spec_manager B) req) (grpc_GetAllInState impl req).
Proof using HR.
  intros Hg. unfold grpc_GetAllInState. cbv zeta.
  destruct (_ =s ""); [by apply sim_ret|]. destruct (_ =s ""); [by apply sim_ret|].
  apply (sim_bind _ Permutation).
  - apply sim_on_store. by apply (sim_GetAllInState (impl := impl)).
  - intros l1 l2 Hl. apply sim_ret. by simpl.
Qed.

(** The loops of the streaming handlers, on the same ids. *)
Lemma stream_fsms_sim name ids sent : plain name = true ->
  sim RP eq (stream_fsms (spec_manager B) name ids sent) (stream_fsms impl name ids sent).
Proof using HR.
  intros Hn. revert sent. induction ids as [|id ids IH]; intros sent; cbn [stream_fsms]; go_sim.
  apply sim_on_store. by apply (sim_GetStateMachine (impl := impl)).
Qed.

Lemma stream_configs_sim ids sent : Forall (fun id => good_config_id id = true) ids ->
  sim RP eq (stream_configs (spec_manager B) ids sent) (stream_configs impl ids sent).
Proof using HR.
  intros H. revert sent. induction H as [|id ids Hid _ IH]; intros sent; cbn [stream_configs]; go_sim.
  apply sim_on_store. by apply (sim_GetConfig (impl := impl)).
Qed.

(** The configuration that is read must have a plain name, as those of the
    server do. *)
Lemma PutFiniteStateMachine_sim ctx req sp p :
  match pf_Fsm req with Some f => good_fsm f = true | None => True end ->
  RP sp p -> well_filed (p_store sp) ->
  let r1 := PutFiniteStateMachine (spec_manager B) ctx req sp in
  let r2 := PutFiniteStateMachine impl ctx req p in
  rel_result eq (fst r1) (fst r2) /\ RP (snd r1) (snd r2).
Proof using HR.
  intros Hg HP Hw. cbv zeta. unfold PutFiniteStateMachine.
  destruct (pf_Fsm req) as [f|]; [|done]. rewrite !go_bind_deref.
  pose proof Hg as Hid. unfold good_fsm in Hid.
  destruct (sim_on_store (E:=E) R eq _ _ (sim_GetConfig (impl := impl) (fsm_ConfigId f) Hid) sp p HP)
    as [Hr HP1].
  assert (Hs : on_store (spec_GetConfig (fsm_ConfigId f)) sp =
    (Done (lookup_or (NewKeyForConfig (fsm_ConfigId f)) (st_configs (p_store sp) !! fsm_ConfigId f)), sp)).
  { destruct sp. reflexivity. }
  rewrite Hs in Hr, HP1. simpl in Hr, HP1. cbn [GetConfig spec_manager].
  rewrite (go_bind_done _ _ _ _ _ Hs).
  destruct (on_store (GetConfig (fsm_ConfigId f)) p) as [[r2| |] p2] eqn:E2; simpl in Hr, HP1; try done.
  subst r2. rewrite (go_bind_done _ _ _ _ _ E2).
  destruct (st_configs (p_store sp) !! fsm_ConfigId f) as [c|] eqn:Ec; cbn [lookup_or]; [|done].
  destruct (Hw _ _ Ec) as (_ & _ & Hplain). revert HP1. clear -Hg Hplain HR.
  revert sp p2. match goal with |- forall sp p2, _ -> rel_result eq (fst (?m sp)) (fst (?n p2)) /\ _ =>
    change (sim RP eq m n) end.
  go_sim.
  - apply sim_on_store, (sim_PutStateMachine (impl := impl) _ (Some _)).
    unfold good_fsm. by destruct (fsm_State f =s "").
  - apply sim_on_store. by apply (sim_UpdateState (impl := impl)).
Qed.

End refinement.

(** ** Invariants of the store *)

(** Steps that keep the configurations well filed and the state sets in step. *)
Definition keeps (s s' : Store) : Prop :=
  (well_filed s -> well_filed s') /\ (consistent s -> consistent s').

#[export] Instance keeps_preorder : PreOrder keeps.
Proof. split; unfold keeps; [by intros s|]. intros s1 s2 s3. naive_solver. Qed.

Definition on_process {E} (Q : Store -> Store -> Prop) (p p' : Process Store E) : Prop :=
  Q (p_store p) (p_store p').

#[export] Instance on_process_preorder {E} Q `{!PreOrder Q} : PreOrder (@on_process E Q).
Proof.
  unfold on_process. split; [by intros p|]. intros p1 p2 p3 H1 H2. by etransitivity.
Qed.

(** Who is in a state set after a move. *)
Lemma elem_of_move name id o st' m n i st : st <> "" ->
  (i ∈ set_of (move_state name id o st' m) (n, st) <->
   if decide ((name, id) = (n, i)) then st = st' \/ (st <> o /\ i ∈ set_of m (n, st))
   else i ∈ set_of m (n, st)).
Proof.
  intros Hst. rewrite set_of_move.
  destruct (decide ((name, id) = (n, i))) as [[= -> ->]|Hne].
  - rewrite decide_True by done. repeat case_decide; destruct_and?; subst;
      rewrite elem_of_union, ?elem_of_difference, ?elem_of_singleton, ?elem_of_empty; naive_solver.
  - destruct (decide (n = name)) as [->|]; [|done].
    assert (i <> id) by congruence. repeat case_decide; set_solver.
Qed.

Lemma consistent_move name id f f' s :
  st_fsms s !! (name, id) = Some f -> consistent s -> consistent (file_move name id f f' s).
Proof.
  intros Hf Hs n i st Hst. unfold file_move, file_fsm. simpl.
  rewrite elem_of_move, lookup_insert by done. specialize (Hs n i st Hst).
  destruct (decide ((name, id) = (n, i))) as [[= -> ->]|]; [|done]. rewrite Hs, Hf. naive_solver.
Qed.

Lemma consistent_new c id f s :
  (forall name, st_fsms s !! (name, id) = None) -> config_name (fsm_ConfigId f) = cfg_Name c ->
  consistent s -> consistent (file_new c id f s).
Proof.
  intros Hf Hn Hs n i st Hst. unfold file_new, file_fsm. simpl. rewrite Hn.
  rewrite elem_of_move, lookup_insert by done. specialize (Hs n i st Hst).
  destruct (decide ((cfg_Name c, id) = (n, i))) as [[= <- ->]|]; [|done]. rewrite Hs, Hf. naive_solver.
Qed.

(** *** What every call preserves

    A preorder on stores that the four writing operations respect is respected
    by every call but the put of a machine. *)
Section kept.
Context {B : Type} `{!ProtoMessage B Configuration, !ProtoMessage B FiniteStateMachine,
  !ProtoMessage B Event, !ProtoMessage B EventOutcome}.
Context {E : Type} `{!ServerEnv E, !GoEnvLaws E}.
Context (Q : Store -> Store -> Prop) `{!PreOrder Q} (may_put : Configuration -> Prop).
Hypothesis PutEvent_Q : forall e cfg ttl, preserves Q (spec_PutEvent B e cfg ttl).
Hypothesis AddEventOutcome_Q : forall id cfg o ttl, preserves Q (spec_AddEventOutcome B id cfg o ttl).
Hypothesis TxProcessEvent_Q : forall id cfg evt, preserves Q (spec_TxProcessEvent B id cfg evt).
Hypothesis PutConfig_Q : forall c, CheckValid c = None -> good_config c = true -> may_put c ->
  preserves Q (spec_PutConfig B (Some c)).

Abbreviation kept := (preserves (@on_process E Q)).

Lemma on_store_keeps {A} (m : Go Store A) : preserves Q m -> kept (on_store m).
Proof using Type. intros H p. unfold on_process, on_store. specialize (H (p_store p)). by destruct (m _). Qed.

Lemma on_env_keeps {A} (m : Go E A) : kept (on_env m).
Proof using PreOrder0. intros p. unfold on_process, on_env. by destruct (m _). Qed.

Lemma env_op_keeps {A} (f : E -> A * E) : kept (env_op f).
Proof using PreOrder0. apply on_env_keeps. Qed.

Lemma post_event_keeps r : kept (post_event r).
Proof using PreOrder0. intros p. unfold on_process. simpl. reflexivity. Qed.

Lemma post_notification_keeps r : kept (post_notification r).
Proof using PreOrder0. intros p. unfold on_process. simpl. reflexivity. Qed.

Lemma gets_keeps {A} (f : Store -> A) : kept (on_store (go_gets f)).
Proof using PreOrder0. apply on_store_keeps, preserves_gets, _. Qed.

Lemma deadline_passed_keeps ctx : kept (deadline_passed ctx).
Proof using PreOrder0.
  intros p. destruct (deadline_passed_spec ctx p) as (b & e & ->). unfold on_process. simpl. reflexivity.
Qed.

#[local] Hint Resolve on_env_keeps env_op_keeps post_event_keeps post_notification_keeps gets_keeps
  deadline_passed_keeps : go.
#[local] Hint Resolve on_store_keeps PutEvent_Q AddEventOutcome_Q TxProcessEvent_Q PutConfig_Q : go.

Lemma handle_request_keeps notifications request :
  kept (handle_request (spec_manager B) notifications request).
Proof using All.
  unfold handle_request, PostNotificationAndReportOutcome, reportOutcome. cbv zeta.
  cbn [PutEvent TxProcessEvent AddEventOutcome spec_manager]. go_preserves.
Qed.

Lemma stream_fsms_keeps name ids sent : kept (stream_fsms (spec_manager B) name ids sent).
Proof using PreOrder0.
  revert sent. induction ids as [|id ids IH]; intros sent; cbn [stream_fsms GetStateMachine spec_manager];
    go_preserves.
Qed.

Lemma stream_configs_keeps ids sent : kept (stream_configs (spec_manager B) ids sent).
Proof using PreOrder0.
  revert sent. induction ids as [|id ids IH]; intros sent; cbn [stream_configs GetConfig spec_manager];
    go_preserves.
Qed.

#[local] Hint Resolve stream_fsms_keeps stream_configs_keeps : go.

Lemma serve_preserves Release s notifications c :
  good_call c = true -> (forall ctx req, c <> CallPutFiniteStateMachine ctx req) ->
  (forall ctx cfg, c = CallPutConfiguration ctx cfg -> may_put cfg) ->
  kept (serve (spec_manager B) Release s notifications c).
Proof using All.
  intros Hg Hne Hput. destruct c; try (exfalso; by eapply Hne); simpl in Hg; cbn [serve].
  - unfold grpc_Health. cbn [Health spec_manager]. go_preserves.
  - unfold grpc_SendEvent. cbv zeta. go_preserves.
  - pose proof (Hput _ _ eq_refl). unfold PutConfiguration. cbn [PutConfig spec_manager]. go_preserves.
  - unfold GetAllConfigurations. cbn [GetAllConfigs GetAllVersions spec_manager]. go_preserves.
  - unfold GetConfiguration. cbn [GetConfig spec_manager]. go_preserves.
  - unfold GetFiniteStateMachine. cbv zeta. cbn [GetStateMachine spec_manager]. go_preserves.
  - unfold grpc_GetAllInState. cbv zeta. cbn [GetAllInState spec_manager]. go_preserves.
  - unfold GetEventOutcome. cbv zeta. cbn [GetOutcomeForEvent spec_manager]. go_preserves.
  - unfold StreamAllInstate, grpc_GetAllInState. cbv zeta. cbn [GetAllInState spec_manager]. go_preserves.
  - unfold StreamAllConfigurations, GetAllConfigurations. cbn [GetAllVersions GetAllConfigs spec_manager].
    go_preserves.
  - go_preserves. apply handle_request_keeps.
Qed.
End kept.

(** *** The files and the state sets *)
Section files.
Context {B : Type} `{!ProtoMessage B Configuration, !ProtoMessage B FiniteStateMachine,
  !ProtoMessage B Event, !ProtoMessage B EventOutcome}.
Context {E : Type} `{!ServerEnv E, !GoEnvLaws E}.

Lemma spec_put_preserves {T} `{!ProtoMessage B T} (Q : Store -> Store -> Prop) `{!PreOrder Q} (v : T) f s :
  Q s (f s) -> Q s (snd (spec_put B v f s)).
Proof. intros H. unfold spec_put. by destruct (Marshal v). Qed.

Lemma PutEvent_keeps e cfg ttl : preserves keeps (spec_PutEvent B e cfg ttl).
Proof. intros s. destruct e; [|reflexivity]. by apply (spec_put_preserves keeps). Qed.

Lemma AddEventOutcome_keeps id cfg o ttl : preserves keeps (spec_AddEventOutcome B id cfg o ttl).
Proof. intros s. destruct o; [|reflexivity]. by apply (spec_put_preserves keeps). Qed.

(** A transaction on a machine moves it or leaves the store alone. *)
Lemma TxProcessEvent_preserves (Q : Store -> Store -> Prop) `{!PreOrder Q} id cfg evt :
  (forall s f c x, st_fsms s !! (cfg, id) = Some f -> st_configs s !! fsm_ConfigId f = Some c ->
     SendEvent (mkCSM c f) evt = Done (None, x) -> Q s (file_move cfg id f (csm_FSM x) s)) ->
  preserves Q (spec_TxProcessEvent B id cfg evt).
Proof.
  intros HQ s.
  destruct (st_fsms s !! (cfg, id)) as [f|] eqn:Ef; [|by rewrite spec_TxProcessEvent_no_fsm].
  destruct (st_configs s !! fsm_ConfigId f) as [c|] eqn:Ec;
    [|by rewrite (spec_TxProcessEvent_no_config _ _ _ _ _ Ef Ec)].
  rewrite (spec_TxProcessEvent_cases _ _ _ _ _ _ Ef Ec).
  destruct (SendEvent _ _) as [[[err|] x]| |] eqn:Es; [done| |done..].
  by apply (spec_put_preserves Q), (HQ s f c).
Qed.

(** Putting a configuration files it under an id not in use, or leaves the
    configurations, machines and state sets alone. *)
Lemma PutConfig_preserves (Q : Store -> Store -> Prop) `{!PreOrder Q} c :
  (forall s, st_configs s !! GetVersionId c = None -> Q s (file_config c s)) ->
  (forall s s', st_configs s' = st_configs s -> st_fsms s' = st_fsms s -> st_states s' = st_states s -> Q s s') ->
  preserves Q (spec_PutConfig B (Some c)).
Proof.
  intros Hnew Hsame s.
  destruct (st_configs s !! GetVersionId c) eqn:Ec; [by rewrite spec_PutConfig_exists|].
  destruct (Marshal (B:=B) c) as [b|err] eqn:Em.
  - rewrite spec_PutConfig_new by (try done; by rewrite Em). by apply Hnew.
  - unfold spec_PutConfig. cbv zeta. rewrite go_bind_gets, Ec. unfold spec_put. rewrite Em. by apply Hsame.
Qed.

Lemma TxProcessEvent_keeps id cfg evt : preserves keeps (spec_TxProcessEvent B id cfg evt).
Proof.
  apply TxProcessEvent_preserves; [apply _|]. intros s f c x Hf Hc Hs. split; [done|]. by apply consistent_move.
Qed.

Lemma PutConfig_keeps c : CheckValid c = None -> good_config c = true -> True ->
  preserves keeps (spec_PutConfig B (Some c)).
Proof.
  intros Hv Hg _. apply PutConfig_preserves; [apply _| |].
  - intros s Hc. split; [|done]. intros Hw. by apply well_filed_file_config.
  - intros s s' H1 H2 H3. unfold keeps, well_filed, consistent. by rewrite H1, H2, H3.
Qed.

(** No call but the put of a machine needs a premise. *)
Lemma serve_keeps Release s notifications c (p : Process Store E) :
  good_call c = true ->
  let '(r, p') := serve (spec_manager B) Release s notifications c p in
  (well_filed (p_store p) -> well_filed (p_store p')) /\
  (well_filed (p_store p) -> fresh_put (p_store p) c r -> consistent (p_store p) ->
   consistent (p_store p')).
Proof.
  intros Hg.
  assert (Hk : (forall ctx req, c <> CallPutFiniteStateMachine ctx req) ->
    preserves (@on_process E keeps) (serve (spec_manager B) Release s notifications c)).
  { intros Hne. apply (serve_preserves keeps (fun _ => True)); try done;
      [apply PutEvent_keeps|apply AddEventOutcome_keeps|apply TxProcessEvent_keeps|apply PutConfig_keeps]. }
  destruct (serve _ _ _ _ _ p) as [r p'] eqn:Es.
  destruct c as [| | | | |ctx req| | | | | |];
    try (specialize (Hk ltac:(done) p); unfold on_process in Hk; rewrite Es in Hk;
         destruct Hk; by split).
  clear Hk. cbn [serve] in Es.
  pose proof (PutFiniteStateMachine_store (B:=B) ctx req p) as H. cbv zeta in H.
  unfold mbind, go_bind in Es.
  destruct (PutFiniteStateMachine (spec_manager B) ctx req p) as [[[[resp|] err]| |] p1];
    injection Es as <- <-; destruct H as (_ & _ & H).
  - destruct H as (f & c & id & Hf & Hc & -> & _ & _ & -> & ->). split.
    + intros Hw i c0 Hl. by apply Hw.
    + intros Hw Hfresh Hcon. apply consistent_new; [exact Hfresh| |done].
      destruct (Hw _ _ Hc) as (Hid & _ & Hp). rewrite started_ConfigId, Hid.
      by apply config_name_GetVersionId.
  - by destruct H as [_ ->].
  - by destruct H as [_ ->].
  - done.
Qed.

(** A call over related stores, unless it is answered with a stream: the
    reply up to the order of lists, and related processes again. *)
Lemma serve_sim {W} (impl : StoreManager W) R `{!StoreRefines B impl R} Release server notifications c
    (sp : Process Store E) (p : Process W E) :
  streaming c = false -> good_call c = true -> lift_rel R sp p -> well_filed (p_store sp) ->
  let r1 := serve (spec_manager B) Release server notifications c sp in
  let r2 := serve impl Release server notifications c p in
  rel_result reply_rel (fst r1) (fst r2) /\ lift_rel R (snd r1) (snd r2).
Proof.
  intros Hstr Hg HP Hw. cbv zeta.
  assert (Hsim : (forall ctx req, c <> CallPutFiniteStateMachine ctx req) ->
    sim (lift_rel R) reply_rel (serve (spec_manager B) Release server notifications c)
      (serve impl Release server notifications c)).
  { intros Hne. destruct c; try done; try (exfalso; by eapply Hne); cbn [serve]; simpl in Hg;
      lazymatch goal with
      | |- context [GetAllConfigurations] => idtac
      | |- context [grpc_GetAllInState] => idtac
      | |- _ => apply sim_bind_eq; [|intros a; apply sim_ret, reply_rel_refl]
      end.
    - by apply grpc_Health_sim.
    - by apply grpc_SendEvent_sim.
    - by apply PutConfiguration_sim.
    - eapply sim_bind; [by apply GetAllConfigurations_sim|]. intros l1 l2 Hl. by apply sim_ret.
    - by apply GetConfiguration_sim.
    - by apply GetFiniteStateMachine_sim.
    - eapply sim_bind; [by apply grpc_GetAllInState_sim|]. intros r1 r2 Hr. by apply sim_ret.
    - by apply GetEventOutcome_sim.
    - by apply handle_request_sim. }
  destruct c as [| | | | |ctx req| | | | | |]; try (apply Hsim; done); try done. clear Hsim. cbn [serve].
  simpl in Hg. destruct (PutFiniteStateMachine_sim impl R ctx req sp p) as [Hr HP']; try done.
  { by destruct (pf_Fsm req). }
  unfold mbind, go_bind.
  destruct (PutFiniteStateMachine (spec_manager B) ctx req sp) as [[a1| |] sp'],
    (PutFiniteStateMachine impl ctx req p) as [[a2| |] p']; simpl in *; try done. by subst.
Qed.

(** *** What is listed *)

Definition keeps_listed (s s' : Store) : Prop := well_listed s -> well_listed s'.

#[export] Instance keeps_listed_preorder : PreOrder keeps_listed.
Proof. split; unfold keeps_listed; [by intros s|]. intros s1 s2 s3. naive_solver. Qed.

Lemma good_GetVersionId c : good_config c = true -> good_config_id (GetVersionId c) = true.
Proof.
  intros Hg. unfold good_config_id. rewrite config_name_GetVersionId by done.
  unfold good_config in Hg. rewrite Hg, andb_true_r. unfold GetVersionId.
  rewrite !has_byte_app. simpl. by rewrite orb_true_r.
Qed.

Lemma well_listed_enter c s : good_config c = true -> well_listed s -> well_listed (enter_config c s).
Proof.
  intros Hg Hl name id. simpl. rewrite set_of_insert. case_decide; [|apply Hl].
  intros [->%elem_of_singleton|H']%elem_of_union; [by apply good_GetVersionId|by eapply Hl].
Qed.

Lemma PutConfig_listed c : CheckValid c = None -> good_config c = true -> True ->
  preserves keeps_listed (spec_PutConfig B (Some c)).
Proof.
  intros _ Hg _ s Hl. pose proof (well_listed_enter c s Hg Hl) as He.
  destruct (st_configs s !! GetVersionId c) eqn:Ec; [by rewrite spec_PutConfig_exists|].
  destruct (Marshal (B:=B) c) as [b|err] eqn:Em.
  - by rewrite spec_PutConfig_new by (try done; by rewrite Em).
  - by rewrite (spec_PutConfig_unserializable _ _ _ Ec Em).
Qed.

Lemma serve_listed Release server notifications c (p : Process Store E) :
  good_call c = true -> well_listed (p_store p) ->
  well_listed (p_store (snd (serve (spec_manager B) Release server notifications c p))).
Proof.
  intros Hg Hl.
  assert ((exists ctx req, c = CallPutFiniteStateMachine ctx req) \/
    forall ctx req, c <> CallPutFiniteStateMachine ctx req) as [(ctx & req & ->)|Hne]
    by (destruct c; eauto; by right).
  - cbn [serve]. pose proof (PutFiniteStateMachine_store (B:=B) ctx req p) as H. cbv zeta in H.
    unfold mbind, go_bind.
    destruct (PutFiniteStateMachine (spec_manager B) ctx req p) as [[[[resp|] err]| |] p1];
      simpl; destruct H as (_ & _ & H); [|by destruct H as [_ ->]..|done].
    destruct H as (f & c & id & _ & _ & _ & _ & _ & _ & ->). exact Hl.
  - apply (serve_preserves keeps_listed (fun _ => True)); try done; try apply _.
    + intros e cfg ttl s. destruct e; [|reflexivity].
      apply (spec_put_preserves keeps_listed). by intros H.
    + intros id cfg o ttl s. destruct o; [|reflexivity].
      apply (spec_put_preserves keeps_listed). by intros H.
    + intros id cfg evt. apply TxProcessEvent_preserves; [apply _|]. by intros s f cfg' x _ _ _ H.
    + apply PutConfig_listed.
Qed.
End files.

Lemma well_listed_empty : well_listed spec_empty.
Proof. intros name id. unfold spec_empty, set_of. simpl. rewrite lookup_empty. simpl. set_solver. Qed.

Lemma consistent_empty : consistent spec_empty.
Proof.
  intros name id st _. unfold spec_empty, set_of. simpl. rewrite !lookup_empty. simpl. set_solver.
Qed.

(** ** Properties *)

Section theorems.
Context {B : Type} `{!ProtoMessage B Configuration, !ProtoMessage B FiniteStateMachine,
  !ProtoMessage B Event, !ProtoMessage B EventOutcome}.
Context {E : Type} `{!ServerEnv E, !GoEnvLaws E}.
Context (Release : string) (server : Config) (notifications : bool).

(** C7. The state sets tell the truth when calls do not overlap: from an empty
    store that keeps its contract, whatever RPC calls and event requests the
    server handles one after the other, answered, refused or ended by a panic,
    as long as the names of configurations hold neither ':' nor '#' and machines
    are put under ids not in use, the id of a machine is in the set of a state
    exactly when the machine is stored and in that state; and all configurations
    are valid and filed under their id. *)
Theorem state_sets_consistent (p0 p : Process Store E) :
  p_store p0 = spec_empty ->
  rtc (server_step B Release server notifications) p0 p ->
  well_filed (p_store p) /\
  forall name id st, st <> "" ->
    (id ∈ set_of (st_states (p_store p)) (name, st) <->
     exists f, st_fsms (p_store p) !! (name, id) = Some f /\ fsm_State f = st).
Proof.
  intros H0 H. change (well_filed (p_store p) /\ consistent (p_store p)).
  assert (Hi : well_filed (p_store p0) /\ consistent (p_store p0)).
  { rewrite H0. split; [apply well_filed_empty|apply consistent_empty]. }
  clear H0. induction H as [p|p p1 p2 [c r Hg Es Hf] _ IH]; [done|]. apply IH.
  pose proof (serve_keeps (B:=B) Release server notifications c p Hg) as Hk. rewrite Es in Hk.
  destruct Hk, Hi. auto.
Qed.

End theorems.

(** The premise on ids matters: putting a machine again under its id
    adds the id to the set of the new state and leaves it in the old one, so
    that the server then reports the same machine in two states. *)
Theorem put_again_breaks_state_sets :
  let put st p := snd (PutFiniteStateMachine (spec_manager wire) (mkCtx None)
                         (mkPutFsm "7" (Some (mkFsm "mars_rover:v2.0" st []))) p) in
  let p := put "orbit" (put "earth" stored_rover) in
  let in_state st := grpc_GetAllInState (spec_manager wire)
                       (mkGetFsm "mars_rover" (Some (GetFsmRequest_State st))) p in
  fst (in_state "earth") = Done (ok ["7"]) /\ fst (in_state "orbit") = Done (ok ["7"]) /\
  fst (GetFiniteStateMachine (spec_manager wire)
         (mkGetFsm "mars_rover" (Some (GetFsmRequest_Id "7"))) p) =
    Done (ok (mkFsm "mars_rover:v2.0" "orbit" [])) /\
  consistent (p_store (put "earth" stored_rover)) /\ ~ consistent (p_store p).
Proof.
  cbv zeta. set (f1 := mkFsm "mars_rover:v2.0" "earth" []). set (f2 := mkFsm "mars_rover:v2.0" "orbit" []).
  split; [reflexivity|]. split; [reflexivity|]. split; [reflexivity|].
  assert (Hc : consistent (file_new mars_rover "7" f1 (file_config mars_rover spec_empty))).
  { apply consistent_new; [|done|exact consistent_empty].
    intros name. unfold spec_empty. simpl. by rewrite lookup_empty. }
  split; [exact Hc|].
  match goal with |- ~ consistent ?s =>
    assert (s = file_new mars_rover "7" f2
      (file_new mars_rover "7" f1 (file_config mars_rover spec_empty))) as -> by (vm_compute; reflexivity)
  end.
  intros H. destruct (H "mars_rover" "7" "earth") as [Hs _]; [done|].
  destruct Hs as (f & Hf & Hst).
  - unfold file_new. simpl. rewrite elem_of_move, decide_True by done.
    right. split; [done|]. rewrite elem_of_move, decide_True by done. by left.
  - unfold file_new, file_fsm in Hf. simpl in Hf.
    change (config_name "mars_rover:v2.0") with "mars_rover" in Hf.
    rewrite lookup_insert_eq in Hf. injection Hf as <-. done.
Qed.

(** So does the premise that calls do not overlap: when the listener processes
    an event of a machine between the second and the third call that
    [PutFiniteStateMachine] makes to the store, the machine has left the state
    whose set it is then entered in. *)
Theorem interleaved_put_breaks_state_sets {B} `{!ProtoMessage B Configuration,
    !ProtoMessage B FiniteStateMachine, !ProtoMessage B Event, !ProtoMessage B EventOutcome}
    name id f c ev tr t s :
  name = config_name (fsm_ConfigId f) -> st_configs s !! fsm_ConfigId f = Some c ->
  evt_Transition ev = Some tr -> enabled c (fsm_State f) (tr_Event tr) = Some t ->
  fsm_State f <> "" -> tr_To t <> fsm_State f ->
  is_ok (Marshal (B:=B) f) = true -> is_ok (Marshal (B:=B) (csm_FSM (fire (mkCSM c f) t ev))) = true ->
  let run := run_ops (StoreManager0 := spec_manager B)
    [OPutStateMachine id (Some f); OTxProcessEvent id name (Some ev); OUpdateState name id "" (fsm_State f)] s in
  fst run = Done [AErr None; AErr None; AErr None] /\ ~ consistent (snd run).
Proof.
  intros Hn Hc Htr Ht Hst Hto Hm Hm'. cbv zeta. set (f' := csm_FSM (fire (mkCSM c f) t ev)).
  set (s1 := file_fsm name id f s).
  assert (E1 : spec_PutStateMachine B id (Some f) s = (Done None, s1)).
  { unfold spec_PutStateMachine. rewrite spec_put_ok by done. by rewrite <- Hn. }
  assert (E2 : spec_TxProcessEvent B id name (Some ev) s1 = (Done None, file_move name id f f' s1)).
  { apply (spec_TxProcessEvent_fires id name ev tr t s1 f c); try done. simpl. by rewrite lookup_insert_eq. }
  cbn [run_ops run_op PutStateMachine TxProcessEvent UpdateState spec_manager].
  assert (Hrun : run_ops (StoreManager0 := spec_manager B)
    [OPutStateMachine id (Some f); OTxProcessEvent id name (Some ev); OUpdateState name id "" (fsm_State f)] s =
    (Done [AErr None; AErr None; AErr None],
     upd_states (move_state name id "" (fsm_State f)) (file_move name id f f' s1))).
  { cbn [run_ops run_op PutStateMachine TxProcessEvent UpdateState spec_manager].
    unfold mbind, go_bind. rewrite E1. simpl. rewrite E2. reflexivity. }
  cbn [run_ops run_op PutStateMachine TxProcessEvent UpdateState spec_manager] in Hrun. rewrite Hrun.
  split; [done|]. intros H. destruct (H name id (fsm_State f) Hst) as [Hs _]. destruct Hs as (g & Hg & Hgs).
  - simpl. rewrite elem_of_move, decide_True by done. by left.
  - simpl in Hg. rewrite lookup_insert_eq in Hg. injection Hg as <-. by apply Hto.
Qed.

(** *** Examples *)

Definition serve_calls (cs : list call) (p : Process Store TestEnv) : Process Store TestEnv :=
  fold_left (fun p c => snd (serve (spec_manager wire) "v0" test_server true c p)) cs p.

(** A rover is put and launched. *)
Definition launch_calls : list call := [
  CallPutConfiguration (mkCtx None) mars_rover;
  CallPutFiniteStateMachine (mkCtx None) (mkPutFsm "7" (Some (mkFsm "mars_rover:v2.0" "" [])));
  CallListen (mkEventRequest (Some (event "1" "launch")) "mars_rover" "7")].

Lemma launch_steps :
  rtc (server_step wire "v0" test_server true) (quiet spec_empty) (serve_calls launch_calls (quiet spec_empty)).
Proof.
  eapply rtc_l; [|eapply rtc_l; [|eapply rtc_l; [|apply rtc_refl]]];
    (eapply server_step_call; [|apply surjective_pairing|]); try reflexivity.
  vm_compute. intros name. reflexivity.
Qed.

Lemma state_sets_consistent_witness :
  let s := p_store (serve_calls launch_calls (quiet spec_empty)) in
  "7" ∈ set_of (st_states s) ("mars_rover", "orbit") /\ ("7" ∉ set_of (st_states s) ("mars_rover", "earth")).
Proof.
  destruct (state_sets_consistent (B:=wire) "v0" test_server true (quiet spec_empty) _ eq_refl launch_steps)
    as [_ H].
  split.
  - apply (H "mars_rover" "7" "orbit"); [discriminate|]. eexists. split; vm_compute; reflexivity.
  - intros Hin. apply (H "mars_rover" "7" "earth") in Hin; [|discriminate].
    destruct Hin as (f & Hf & Hst). vm_compute in Hf. injection Hf as <-. discriminate Hst.
Defined.
