(* ===== verification/Typing.v ===== *)
(** * Types of the stored machines

    A configuration is the type of its machines.  What the handlers of
    [pkg/grpc/grpc_server.go] and the transactions of
    [pkg/storage/redis_store.go] keep, over any sequence of calls: every stored
    machine has a stored configuration, is in one of its states, and its
    history is a run of its automaton. *)

From Stdlib Require Import ZArith Ascii Relations.
From stdpp Require Import base tactics strings list gmap sets relations.
From S2P Require Import Prelude GoLib Proto Fsm Keys StoreTypes Redis RedisStore StoreSpec.
From S2P Require Import Process GrpcServer Listener Server.

(** ** Definitions *)

(** [f], filed under [name], is a machine of the configuration [c]: valid for
    it, with a history that leads from a declared state to the current one. *)
Definition has_type (name : string) (f : FiniteStateMachine) (c : Configuration) : Prop :=
  name = cfg_Name c /\ CSM_CheckValid (mkCSM c f) = true /\
  exists s0, s0 ∈ cfg_States c /\ path c s0 (fsm_History f) (fsm_State f).

(** The store is well typed: configurations are filed under their id, valid and
    closed, and every machine has the type that its configuration id names. *)
Definition well_typed (s : Store) : Prop :=
  well_filed s /\
  (forall id c, st_configs s !! id = Some c -> closed c = true) /\
  forall name id f, st_fsms s !! (name, id) = Some f ->
    exists c, st_configs s !! fsm_ConfigId f = Some c /\ has_type name f c.

(** What a caller is asked for: transitions of a new configuration lead to
    declared states, and a new machine has no history and starts in a declared
    state, the starting state if it names none. *)
Definition typed_call (s : Store) (c : call) : bool :=
  match c with
  | CallPutConfiguration _ cfg => closed cfg
  | CallPutFiniteStateMachine _ req =>
      match pf_Fsm req with
      | Some f =>
          (fsm_History f =s []) &&
          ((fsm_State f =s "") ||
           match st_configs s !! fsm_ConfigId f with
           | Some cfg => CfgHasState cfg (fsm_State f)
           | None => true
           end)
      | None => true
      end
  | _ => true
  end.

Inductive typed_step (B : Type) `{!ProtoMessage B Configuration, !ProtoMessage B FiniteStateMachine,
    !ProtoMessage B Event, !ProtoMessage B EventOutcome} {E : Type} `{!ServerEnv E}
    (Release : string) (s : Config) (notifications : bool) (p p' : Process Store E) : Prop :=
| typed_step_call c r :
    good_call c = true -> typed_call (p_store p) c = true ->
    serve (spec_manager B) Release s notifications c p = (r, p') ->
    typed_step B Release s notifications p p'.

(** ** Lemmas *)

Definition keeps_types (s s' : Store) : Prop := well_typed s -> well_typed s'.

#[export] Instance keeps_types_preorder : PreOrder keeps_types.
Proof. split; unfold keeps_types; [by intros s|]. intros s1 s2 s3. naive_solver. Qed.

Lemma well_typed_empty : well_typed spec_empty.
Proof.
  split; [apply well_filed_empty|]. unfold spec_empty. simpl.
  split; [intros id c|intros name id f]; by rewrite lookup_empty.
Qed.

Lemma CSM_CheckValid_true x :
  CSM_CheckValid x = true <->
  CheckValid (csm_Config x) = None /\ fsm_State (csm_FSM x) ∈ cfg_States (csm_Config x) /\
  fsm_ConfigId (csm_FSM x) = GetVersionId (csm_Config x).
Proof.
  unfold CSM_CheckValid. rewrite !andb_true_iff, !bool_decide_eq_true, CfgHasState_true. tauto.
Qed.

Lemma CheckValid_starting c : CheckValid c = None -> cfg_StartingState c ∈ cfg_States c.
Proof.
  rewrite <- CfgHasState_true. unfold CheckValid. repeat case_match; try done.
  intros _. by apply negb_false_iff.
Qed.

(** An accepted event keeps the type of the machine. *)
Lemma fire_has_type name f c evt x :
  closed c = true -> has_type name f c -> SendEvent (mkCSM c f) evt = Done (None, x) ->
  fsm_ConfigId (csm_FSM x) = fsm_ConfigId f /\ has_type name (csm_FSM x) c.
Proof.
  intros Hcl (Hn & (Hv & Hs & Hid)%CSM_CheckValid_true & s0 & Hs0 & Hp) H.
  destruct (SendEvent_inv _ _ _ _ H) as [[? _]|(_ & ev & tr & t & _ & _ & He & ->)]; [done|].
  simpl in *. split; [done|]. split; [done|]. split.
  - apply CSM_CheckValid_true. simpl. split_and!; [done| |done].
    destruct (enabled_spec _ _ _ _ He) as (Hin%list_elem_of_In & _ & _).
    unfold closed in Hcl. rewrite forallb_forall in Hcl. by apply CfgHasState_true, Hcl.
  - exists s0. split; [done|]. by apply (path_fire c s0 (mkCSM c f) t ev tr).
Qed.

(** A machine that is started is of the type of its configuration. *)
Lemma started_has_type c f :
  CheckValid c = None -> fsm_ConfigId f = GetVersionId c -> fsm_History f = [] ->
  (fsm_State f = "" \/ fsm_State f ∈ cfg_States c) -> has_type (cfg_Name c) (started c f) c.
Proof.
  intros Hv Hid Hh Hs.
  assert (fsm_State (started c f) ∈ cfg_States c /\ fsm_History (started c f) = [] /\
    fsm_ConfigId (started c f) = GetVersionId c) as (H1 & H2 & H3).
  { unfold started. case_bool_decide; simpl; [by split_and!; [apply CheckValid_starting|..]|].
    by destruct Hs. }
  split; [done|]. split; [by apply CSM_CheckValid_true|]. exists (fsm_State (started c f)). by rewrite H2.
Qed.

Section kept_types.
Context {B : Type} `{!ProtoMessage B Configuration, !ProtoMessage B FiniteStateMachine,
  !ProtoMessage B Event, !ProtoMessage B EventOutcome}.
Context {E : Type} `{!ServerEnv E, !GoEnvLaws E}.

Lemma PutEvent_types e cfg ttl : preserves keeps_types (spec_PutEvent B e cfg ttl).
Proof. intros s. destruct e; [|reflexivity]. apply (spec_put_preserves keeps_types). by intros Hw. Qed.

Lemma AddEventOutcome_types id cfg o ttl : preserves keeps_types (spec_AddEventOutcome B id cfg o ttl).
Proof. intros s. destruct o; [|reflexivity]. apply (spec_put_preserves keeps_types). by intros Hw. Qed.

Lemma TxProcessEvent_types id cfg evt : preserves keeps_types (spec_TxProcessEvent B id cfg evt).
Proof.
  apply TxProcessEvent_preserves; [apply _|]. intros s f c x Hf Hc Hs (Hw & Hcl & Ht).
  destruct (Ht _ _ _ Hf) as (c0 & Hc0 & Hty). simplify_eq.
  destruct (fire_has_type _ _ _ _ _ (Hcl _ _ Hc) Hty Hs) as [Hid Hty'].
  split; [done|]. split; [done|]. intros n i g. simpl. rewrite lookup_insert.
  case_decide as Hk; [|apply Ht]. intros [= <-]. injection Hk as -> ->. rewrite Hid. eauto.
Qed.

Lemma PutConfig_types c : CheckValid c = None -> good_config c = true -> closed c = true ->
  preserves keeps_types (spec_PutConfig B (Some c)).
Proof.
  intros Hv Hg Hcl. apply PutConfig_preserves; [apply _| |].
  - intros s Hn (Hw & Hc & Ht). split; [by apply well_filed_file_config|]. split.
    + intros id c0. simpl. rewrite lookup_insert. case_decide; [by intros [= <-]|apply Hc].
    + intros n i f Hf. destruct (Ht n i f Hf) as (c0 & Hc0 & Hty). exists c0. split; [|done].
      simpl. rewrite lookup_insert_ne; [done|]. intros Heq. by rewrite <- Heq, Hn in Hc0.
  - intros s s' H1 H2 _. unfold keeps_types, well_typed, well_filed. by rewrite H1, H2.
Qed.

Lemma file_new_types c id f s :
  st_configs s !! fsm_ConfigId f = Some c -> fsm_History f = [] ->
  (fsm_State f = "" \/ fsm_State f ∈ cfg_States c) ->
  well_typed s -> well_typed (file_new c id (started c f) s).
Proof.
  intros Hc Hh Hst (Hw & Hcl & Ht). destruct (Hw _ _ Hc) as (Hid & Hv & Hp).
  pose proof (started_has_type c f Hv Hid Hh Hst) as Hty.
  split; [done|]. split; [done|]. intros n i g. unfold file_new, file_fsm. simpl.
  rewrite started_ConfigId, Hid, config_name_GetVersionId, lookup_insert by done.
  case_decide as Hk; [|apply Ht]. intros [= <-]. injection Hk as <- <-.
  rewrite started_ConfigId. eauto.
Qed.

Lemma serve_types Release s notifications c (p : Process Store E) :
  good_call c = true -> typed_call (p_store p) c = true -> well_typed (p_store p) ->
  well_typed (p_store (snd (serve (spec_manager B) Release s notifications c p))).
Proof.
  intros Hg Hc Hw.
  assert ((exists ctx req, c = CallPutFiniteStateMachine ctx req) \/
    forall ctx req, c <> CallPutFiniteStateMachine ctx req) as [(ctx & req & ->)|Hne]
    by (destruct c; eauto; by right).
  - cbn [serve]. pose proof (PutFiniteStateMachine_store (B:=B) ctx req p) as H. cbv zeta in H.
    unfold mbind, go_bind. cbn [typed_call] in Hc.
    destruct (PutFiniteStateMachine (spec_manager B) ctx req p) as [[[[resp|] err]| |] p1];
      simpl; destruct H as (_ & _ & H); [|by destruct H as [_ ->]..|done].
    destruct H as (f & c & id & Hf & Hcf & _ & _ & _ & _ & ->). rewrite Hf, Hcf in Hc.
    apply andb_true_iff in Hc as [Hh%bool_decide_eq_true Hs].
    apply orb_true_iff in Hs. rewrite bool_decide_eq_true, CfgHasState_true in Hs.
    by apply file_new_types.
  - apply (serve_preserves keeps_types (fun cfg => closed cfg = true)); try done; try apply _;
      [apply PutEvent_types|apply AddEventOutcome_types|apply TxProcessEvent_types|apply PutConfig_types|].
    intros ctx cfg ->. done.
Qed.
End kept_types.

(** ** Properties *)

(** C6. Machines stay well typed.  From an empty store, whatever RPC calls and
    event requests the server handles, answered, refused or ended by a panic,
    as long as the transitions of new configurations lead to declared states
    and new machines start without history in a declared state (or name none):
    every stored machine is filed under the name of its configuration, which is
    stored, is valid for it, and replaying its history from a declared state
    gives the machine back. *)
Theorem machines_stay_typed {B} `{!ProtoMessage B Configuration, !ProtoMessage B FiniteStateMachine,
    !ProtoMessage B Event, !ProtoMessage B EventOutcome} {E} `{!ServerEnv E, !GoEnvLaws E}
    Release server notifications (p0 p : Process Store E) name id f :
  p_store p0 = spec_empty ->
  rtc (typed_step B Release server notifications) p0 p ->
  st_fsms (p_store p) !! (name, id) = Some f ->
  exists c s0, st_configs (p_store p) !! fsm_ConfigId f = Some c /\ name = cfg_Name c /\
    CSM_CheckValid (mkCSM c f) = true /\ s0 ∈ cfg_States c /\
    replay (mkCSM c (mkFsm (fsm_ConfigId f) s0 [])) (fsm_History f) = Some (mkCSM c f).
Proof.
  intros H0 H Hf.
  assert (well_typed (p_store p)) as (_ & _ & Ht).
  { assert (Hi : well_typed (p_store p0)) by (rewrite H0; apply well_typed_empty). clear H0 Hf.
    induction H as [p|p p1 p2 [c r Hg Hc Es] _ IH]; [done|]. apply IH.
    pose proof (serve_types (B:=B) Release server notifications c p Hg Hc Hi) as Hk. by rewrite Es in Hk. }
  destruct (Ht _ _ _ Hf) as (c & Hc & Hn & Hv & s0 & Hs0 & Hp). exists c, s0. split_and!; try done.
  rewrite (replay_path c (mkFsm (fsm_ConfigId f) s0 []) _ _ Hp). simpl. by destruct f.
Qed.

(** *** Example *)

Fixpoint typed_calls (cs : list call) (p : Process Store TestEnv) : bool :=
  match cs with
  | [] => true
  | c :: cs' => good_call c && typed_call (p_store p) c && typed_calls cs' (serve_calls [c] p)
  end.

Lemma typed_calls_rtc cs p : typed_calls cs p = true ->
  rtc (typed_step wire "v0" test_server true) p (serve_calls cs p).
Proof.
  revert p. induction cs as [|c cs IH]; intros p; simpl; [done|].
  intros [[Hg Hc]%andb_true_iff H]%andb_true_iff. eapply rtc_l; [|by apply IH].
  eapply (typed_step_call wire "v0" test_server true _ _ c); [done..|]. apply surjective_pairing.
Qed.

Lemma machines_stay_typed_witness :
  exists c s0, st_configs (p_store (serve_calls launch_calls (quiet spec_empty))) !! "mars_rover:v2.0" = Some c /\
    "mars_rover" = cfg_Name c /\
    CSM_CheckValid (mkCSM c (csm_FSM rover_in_orbit)) = true /\ s0 ∈ cfg_States c /\
    replay (mkCSM c (mkFsm "mars_rover:v2.0" s0 [])) (fsm_History (csm_FSM rover_in_orbit)) =
      Some (mkCSM c (csm_FSM rover_in_orbit)).
Proof.
  apply (machines_stay_typed (B:=wire) "v0" test_server true (quiet spec_empty)
    (serve_calls launch_calls (quiet spec_empty)) "mars_rover" "7" (csm_FSM rover_in_orbit)).
  - reflexivity.
  - apply typed_calls_rtc. vm_compute. reflexivity.
  - vm_compute. reflexivity.
Defined.
