(* ===== verification/Service.v ===== *)
(** * The service, specified

    What the server promises to whoever calls it, as a relation that says
    nothing of handlers, keys or servers: for each call what may be answered,
    posted, notified and stored, one rule for each outcome.  The handlers of
    [pkg/grpc/grpc_server.go] and the listener of [pkg/pubsub/listener.go]
    implement it over any store that keeps the contract of [StoreSpec.v]. *)

From Stdlib Require Import ZArith Ascii.
From stdpp Require Import base tactics strings list gmap sets.
From S2P Require Import Prelude GoLib Proto Fsm Keys StoreTypes Redis RedisStore StoreSpec.
From S2P Require Import RedisRefinement Process GrpcServer Listener Server.

(** ** Definitions *)

Definition refusal {A} (code : Code) (r : option A * option error) : Prop :=
  exists msg, r = (None, Some (StatusError code msg)).

(** What is sent on a stream for a list of ids: something for each of them, up to
    one that is missing or that the stream does not take. *)
Inductive streams {A C} (look : string -> option A) (message : string -> A -> C) (missing : string -> error) :
    list string -> list C -> option error -> Prop :=
| streams_end : streams look message missing [] [] None
| streams_sent id ids a sent err :
    look id = Some a -> streams look message missing ids sent err ->
    streams look message missing (id :: ids) (message id a :: sent) err
| streams_missing id ids :
    look id = None -> streams look message missing (id :: ids) [] (Some (missing id))
| streams_broken id ids a err :
    look id = Some a -> streams look message missing (id :: ids) [] (Some err).

(** A call may be too late if it has a deadline. *)
Definition may_expire (ctx : rpc_context) : Prop := is_Some (ctx_Deadline ctx).

Section service.
Context (B : Type) `{!ProtoMessage B Configuration, !ProtoMessage B FiniteStateMachine,
  !ProtoMessage B Event, !ProtoMessage B EventOutcome}.
Context (Release : string) (server : Config) (notifications : bool).

Definition can_store {T} `{!ProtoMessage B T} (v : T) : bool := is_ok (Marshal (B:=B) v).

(** An outcome is reported: filed, if it can be, and notified unless it is [Ok]. *)
Definition reports (request : EventRequest) (code : StatusCode) (s s' : Store)
    (notified : list EventResponse) : Prop :=
  exists details,
    let o := mkEventOutcome code details (req_Config request) (req_Id request) in
    let evId := GetEvent_GetEventId request in
    s' = (if can_store o then file_outcome (req_Config request) evId o s else s) /\
    notified = if notifications && negb (code =s EventOutcome_Ok)
               then [mkEventResponse evId (Some o)] else [].

(** The code for an error of the transaction on a machine. *)
Definition machine_code (err : StoreErr) : StatusCode :=
  if IsNotFoundErr err then EventOutcome_FsmNotFound else EventOutcome_InternalError.

(** What an event request does to the machine it names, once filed: the code to
    report, and the store then. *)
Inductive moves (request : EventRequest) (ev : Event) (tr : Transition) (s : Store) :
    StatusCode -> Store -> Prop :=
| moves_no_machine :
    st_fsms s !! (req_Config request, req_Id request) = None ->
    moves request ev tr s
      (machine_code (NotFoundError (NewKeyForMachine (req_Id request) (req_Config request)))) s
| moves_no_config f :
    st_fsms s !! (req_Config request, req_Id request) = Some f ->
    st_configs s !! fsm_ConfigId f = None ->
    moves request ev tr s EventOutcome_InternalError s
| moves_refused f c :
    st_fsms s !! (req_Config request, req_Id request) = Some f ->
    st_configs s !! fsm_ConfigId f = Some c ->
    enabled c (fsm_State f) (tr_Event tr) = None ->
    moves request ev tr s EventOutcome_InternalError s
| moves_unserializable f c t err :
    st_fsms s !! (req_Config request, req_Id request) = Some f ->
    st_configs s !! fsm_ConfigId f = Some c ->
    enabled c (fsm_State f) (tr_Event tr) = Some t ->
    Marshal (B:=B) (csm_FSM (fire (mkCSM c f) t ev)) = Fail err ->
    moves request ev tr s (machine_code (InvalidDataError (error_text err))) s
| moves_done f c t :
    st_fsms s !! (req_Config request, req_Id request) = Some f ->
    st_configs s !! fsm_ConfigId f = Some c ->
    enabled c (fsm_State f) (tr_Event tr) = Some t ->
    let f' := csm_FSM (fire (mkCSM c f) t ev) in
    can_store f' = true ->
    moves request ev tr s EventOutcome_Ok
      (file_move (req_Config request) (req_Id request) f f' s).

(** [service s c r posted notified s']: in the store [s] the call [c] may have
    the result [r], post and notify those messages, and leave [s']. *)
Inductive service (s : Store) : call -> result reply_message ->
    list EventRequest -> list EventResponse -> Store -> Prop :=
(* Health *)
| Health_no_store r : Store_set server = false -> refusal codes_Internal r ->
    service s CallHealth (Done (ReplyHealth r)) [] [] s
| Health_answers : Store_set server = true ->
    service s CallHealth (Done (ReplyHealth (ok (mkHealth
      (if EventsChannel_set server then HealthResponse_READY else HealthResponse_NOT_READY)
      Release (TlsEnabled server))))) [] [] s
(* SendEvent *)
| Send_incomplete ctx request r :
    complete_request request = false -> refusal codes_FailedPrecondition r ->
    service s (CallSendEvent ctx request) (Done (ReplyEvent r)) [] [] s
| Send_not_taken ctx request r :
    complete_request request = true -> refusal codes_DeadlineExceeded r ->
    service s (CallSendEvent ctx request) (Done (ReplyEvent r)) [] [] s
| Send_posted ctx request ev ev' :
    complete_request request = true -> EventsChannel_set server = true ->
    req_Event request = Some ev -> completes ev ev' ->
    service s (CallSendEvent ctx request) (Done (ReplyEvent (ok (mkEventResponse (evt_EventId ev') None))))
      [mkEventRequest (Some ev') (req_Config request) (req_Id request)] [] s
(* PutConfiguration *)
| Cfg_invalid ctx cfg r :
    CheckValid cfg <> None -> refusal codes_InvalidArgument r ->
    service s (CallPutConfiguration ctx cfg) (Done (ReplyPut r)) [] [] s
| Cfg_late ctx cfg err :
    CheckValid cfg = None -> may_expire ctx ->
    service s (CallPutConfiguration ctx cfg) (Done (ReplyPut (None, err))) [] [] s
| Cfg_taken ctx cfg r :
    CheckValid cfg = None -> is_Some (st_configs s !! GetVersionId cfg) ->
    refusal codes_AlreadyExists r ->
    service s (CallPutConfiguration ctx cfg) (Done (ReplyPut r)) [] [] s
| Cfg_unserializable ctx cfg err r :
    CheckValid cfg = None -> st_configs s !! GetVersionId cfg = None ->
    Marshal (B:=B) cfg = Fail err -> refusal (put_code (InvalidDataError (error_text err))) r ->
    service s (CallPutConfiguration ctx cfg) (Done (ReplyPut r)) [] [] (enter_config cfg s)
| Cfg_stored ctx cfg :
    CheckValid cfg = None -> st_configs s !! GetVersionId cfg = None -> can_store cfg = true ->
    service s (CallPutConfiguration ctx cfg)
      (Done (ReplyPut (ok (mkPutResponse (GetVersionId cfg) (PutResponse_Config cfg))))) [] []
      (file_config cfg s)
| Cfg_stored_late ctx cfg err :
    CheckValid cfg = None -> st_configs s !! GetVersionId cfg = None -> can_store cfg = true ->
    may_expire ctx ->
    service s (CallPutConfiguration ctx cfg) (Done (ReplyPut (None, err))) [] [] (file_config cfg s)
(* GetAllConfigurations, GetConfiguration *)
| Cfg_names l : l ≡ₚ elements (st_names s) ->
    service s (CallGetAllConfigurations "") (Done (ReplyList l)) [] [] s
| Cfg_versions name l : name <> "" -> l ≡ₚ elements (set_of (st_versions s) name) ->
    service s (CallGetAllConfigurations name) (Done (ReplyList l)) [] [] s
| Cfg_found id c : st_configs s !! id = Some c ->
    service s (CallGetConfiguration id) (Done (ReplyConfiguration (ok c))) [] [] s
| Cfg_missing id r : st_configs s !! id = None -> refusal codes_NotFound r ->
    service s (CallGetConfiguration id) (Done (ReplyConfiguration r)) [] [] s
(* PutFiniteStateMachine *)
| Fsm_panics ctx req : pf_Fsm req = None ->
    service s (CallPutFiniteStateMachine ctx req) Panicked [] [] s
| Fsm_no_config ctx req f r :
    pf_Fsm req = Some f -> st_configs s !! fsm_ConfigId f = None ->
    refusal codes_FailedPrecondition r ->
    service s (CallPutFiniteStateMachine ctx req) (Done (ReplyPut r)) [] [] s
| Fsm_late ctx req f c err :
    pf_Fsm req = Some f -> st_configs s !! fsm_ConfigId f = Some c -> may_expire ctx ->
    service s (CallPutFiniteStateMachine ctx req) (Done (ReplyPut (None, err))) [] [] s
| Fsm_unserializable ctx req f c r :
    pf_Fsm req = Some f -> st_configs s !! fsm_ConfigId f = Some c ->
    can_store (started c f) = false -> refusal codes_Internal r ->
    service s (CallPutFiniteStateMachine ctx req) (Done (ReplyPut r)) [] [] s
| Fsm_stored ctx req f c id :
    pf_Fsm req = Some f -> st_configs s !! fsm_ConfigId f = Some c -> can_store (started c f) = true ->
    id <> "" -> (pf_Id req <> "" -> id = pf_Id req) ->
    service s (CallPutFiniteStateMachine ctx req)
      (Done (ReplyPut (ok (mkPutResponse id (PutResponse_Fsm (started c f)))))) [] []
      (file_new c id (started c f) s)
(* GetFiniteStateMachine *)
| Fsm_unnamed req r :
    gf_Config req = "" \/ GetFsmRequest_GetId req = "" -> refusal codes_InvalidArgument r ->
    service s (CallGetFiniteStateMachine req) (Done (ReplyFsm r)) [] [] s
| Fsm_found req f :
    gf_Config req <> "" -> GetFsmRequest_GetId req <> "" ->
    st_fsms s !! (gf_Config req, GetFsmRequest_GetId req) = Some f ->
    service s (CallGetFiniteStateMachine req) (Done (ReplyFsm (ok f))) [] [] s
| Fsm_missing req r :
    gf_Config req <> "" -> GetFsmRequest_GetId req <> "" ->
    st_fsms s !! (gf_Config req, GetFsmRequest_GetId req) = None -> refusal codes_NotFound r ->
    service s (CallGetFiniteStateMachine req) (Done (ReplyFsm r)) [] [] s
(* GetAllInState and StreamAllInstate *)
| State_no_config req r : gf_Config req = "" -> refusal codes_InvalidArgument r ->
    service s (CallGetAllInState req) (Done (ReplyIds r)) [] [] s
| State_no_state req r : gf_Config req <> "" -> GetFsmRequest_GetState req = "" ->
    refusal codes_Unimplemented r ->
    service s (CallGetAllInState req) (Done (ReplyIds r)) [] [] s
| State_listed req l : gf_Config req <> "" -> GetFsmRequest_GetState req <> "" ->
    l ≡ₚ elements (set_of (st_states s) (gf_Config req, GetFsmRequest_GetState req)) ->
    service s (CallGetAllInState req) (Done (ReplyIds (ok l))) [] [] s
| Stream_refused req err code :
    gf_Config req = "" /\ code = codes_InvalidArgument \/
    gf_Config req <> "" /\ GetFsmRequest_GetState req = "" /\ code = codes_Unimplemented ->
    status_code (Some err) = Some code ->
    service s (CallStreamAllInstate req) (Done (ReplyMachines ([], Some err))) [] [] s
| Stream_machines req ids sent err :
    gf_Config req <> "" -> GetFsmRequest_GetState req <> "" ->
    ids ≡ₚ elements (set_of (st_states s) (gf_Config req, GetFsmRequest_GetState req)) ->
    streams (fun id => st_fsms s !! (gf_Config req, id)) (fun id f => mkPutResponse id (PutResponse_Fsm f))
      (fun id => NotFoundError (NewKeyForMachine id (gf_Config req))) ids sent err ->
    service s (CallStreamAllInstate req) (Done (ReplyMachines (sent, err))) [] [] s
(* StreamAllConfigurations *)
| Stream_unnamed err : status_code (Some err) = Some codes_InvalidArgument ->
    service s (CallStreamAllConfigurations "") (Done (ReplyConfigurations ([], Some err))) [] [] s
| Stream_configurations name ids sent err : name <> "" ->
    ids ≡ₚ elements (set_of (st_versions s) name) ->
    streams (fun id => st_configs s !! id) (fun _ c => c) (fun id => NotFoundError (NewKeyForConfig id))
      ids sent err ->
    service s (CallStreamAllConfigurations name) (Done (ReplyConfigurations (sent, err))) [] [] s
(* GetEventOutcome *)
| Outcome_found req o : st_outcomes s !! (req_Config req, req_Id req) = Some o ->
    service s (CallGetEventOutcome req) (Done (ReplyEvent (ok (mkEventResponse (req_Id req) (Some o))))) [] [] s
| Outcome_missing req r : st_outcomes s !! (req_Config req, req_Id req) = None ->
    refusal codes_NotFound r ->
    service s (CallGetEventOutcome req) (Done (ReplyEvent r)) [] [] s
(* An event request out of the channel *)
| Listen_unnamed request s' notified :
    names_machine request = false ->
    reports request EventOutcome_MissingDestination s s' notified ->
    service s (CallListen request) (Done ReplyNothing) [] notified s'
| Listen_no_event request s' notified :
    names_machine request = true ->
    match req_Event request with Some ev => can_store ev = false | None => True end ->
    reports request EventOutcome_InternalError s s' notified ->
    service s (CallListen request) (Done ReplyNothing) [] notified s'
| Listen_panics request ev :
    names_machine request = true -> req_Event request = Some ev -> can_store ev = true ->
    evt_Transition ev = None ->
    service s (CallListen request) Panicked [] [] (file_event (req_Config request) ev s)
| Listen_processes request ev tr code s1 s' notified :
    names_machine request = true -> req_Event request = Some ev -> can_store ev = true ->
    evt_Transition ev = Some tr ->
    moves request ev tr (file_event (req_Config request) ev s) code s1 ->
    reports request code s1 s' notified ->
    service s (CallListen request) (Done ReplyNothing) [] notified s'.
End service.

(** ** Lemmas *)

(** *** The handlers over the specification of the store *)
Section on_spec.
Context {B : Type} `{!ProtoMessage B Configuration, !ProtoMessage B FiniteStateMachine,
  !ProtoMessage B Event, !ProtoMessage B EventOutcome}.
Context {E : Type} `{!ServerEnv E, !GoEnvLaws E}.
Context (Release : string) (server : Config) (notifications : bool).

Abbreviation serves := (serve (spec_manager B) Release server notifications).
Abbreviation promised := (service B Release server notifications).

(** A run that started in [p] is what the service promises. *)
Definition fulfils (p : Process Store E) (c : call) (x : result reply_message * Process Store E) : Prop :=
  exists posted notified,
    promised (p_store p) c (fst x) posted notified (p_store (snd x)) /\
    p_events (snd x) = (p_events p ++ posted)%list /\
    p_notifications (snd x) = (p_notifications p ++ notified)%list.

Lemma fulfils_silent p c r p' :
  p_events p' = p_events p -> p_notifications p' = p_notifications p ->
  promised (p_store p) c r [] [] (p_store p') -> fulfils p c (r, p').
Proof. intros He Hn H. exists [], []. by rewrite !app_nil_r. Qed.

Lemma reply_step {A} (m : Go (Process Store E) A) (f : A -> reply_message) p a p' :
  m p = (Done a, p') -> (r ← m; mret (f r)) p = (Done (f a), p').
Proof. intros H. by rewrite (go_bind_done _ _ _ _ _ H). Qed.

Definition map_result {A C} (f : A -> C) (r : result A) : result C :=
  match r with Done a => Done (f a) | Panicked => Panicked | Spin => Spin end.

Lemma reply_fulfils {A} c (m : Go (Process Store E) A) (f : A -> reply_message) p :
  fulfils p c (let (r, p') := m p in (map_result f r, p')) -> fulfils p c ((r ← m; mret (f r)) p).
Proof. unfold mbind, go_bind. by destruct (m p) as [[] p']. Qed.

Lemma refusal_status {A} code msg : @refusal A code (status_Error code msg).
Proof. by exists msg. Qed.

#[local] Hint Resolve refusal_status : core.

Lemma deadline_over_expires ctx (e : E) : deadline_over ctx e = true -> may_expire ctx.
Proof. unfold deadline_over, may_expire. destruct (ctx_Deadline ctx); [by eexists|done]. Qed.

Lemma Health_fulfils p : fulfils p CallHealth (serves CallHealth p).
Proof.
  cbn [serve]. unfold grpc_Health. destruct (Store_set server) eqn:Es; cbn [negb].
  2:{ apply fulfils_silent; [done..|]. apply Health_no_store; [done|]. apply refusal_status. }
  pose proof (Health_answers B Release server notifications (p_store p) Es) as H.
  destruct (EventsChannel_set server) eqn:Ec; cbn [negb]; by apply fulfils_silent.
Qed.

Lemma SendEvent_fulfils ctx request p :
  fulfils p (CallSendEvent ctx request) (serves (CallSendEvent ctx request) p).
Proof.
  cbn [serve]. destruct (complete_request request) eqn:Hc.
  - destruct (grpc_SendEvent_offer server ctx request p Hc) as (ev & ev' & timeout & e1 & He & Hev & Hrun).
    cbv zeta in Hrun. destruct (fst _) eqn:Hs in Hrun.
    + rewrite (reply_step _ _ _ _ _ Hrun). eexists [_], []. cbn [fst snd p_store p_events p_notifications].
      rewrite app_nil_r. split; [|done]. apply (Send_posted _ _ _ _ _ _ _ ev); try done.
      by destruct (EventsChannel_set server).
    + rewrite (reply_step _ _ _ _ _ Hrun). apply fulfils_silent; [done..|].
      apply Send_not_taken; [done|]. apply refusal_status.
  - destruct (grpc_SendEvent_incomplete server ctx request p Hc) as (msg & Hrun).
    rewrite (reply_step _ _ _ _ _ Hrun). apply fulfils_silent; [done..|].
    apply Send_incomplete; [done|]. apply refusal_status.
Qed.

Lemma PutConfiguration_fulfils ctx cfg p :
  fulfils p (CallPutConfiguration ctx cfg) (serves (CallPutConfiguration ctx cfg) p).
Proof.
  apply reply_fulfils. unfold PutConfiguration. destruct (CheckValid cfg) as [err|] eqn:Hv.
  { apply fulfils_silent; [done..|]. apply Cfg_invalid; [by rewrite Hv|]. apply refusal_status. }
  rewrite deadline_step. destruct (deadline_over ctx (p_env p)) eqn:Hd.
  { rewrite env_op_step. apply fulfils_silent; [done..|].
    apply Cfg_late; [done|]. by eapply deadline_over_expires. }
  cbn [PutConfig spec_manager]. set (p1 := set_env p _).
  destruct (st_configs (p_store p) !! GetVersionId cfg) as [c0|] eqn:Ec.
  { rewrite (on_store_step _ _ p1 _ _ (spec_PutConfig_exists cfg (p_store p) (mk_is_Some _ _ Ec))).
    rewrite AlreadyExists_text. apply fulfils_silent; [done..|].
    apply Cfg_taken; [done|by eexists|]. apply refusal_status. }
  destruct (Marshal (B:=B) cfg) as [b|err] eqn:Em.
  - assert (Hcan : can_store B cfg = true) by (unfold can_store; by rewrite Em).
    rewrite (on_store_step _ _ p1 _ _ (spec_PutConfig_new (B:=B) cfg (p_store p) Ec Hcan)).
    rewrite deadline_step. cbn [p_env p1 set_env set_store].
    destruct (deadline_over ctx (after_clock ctx (p_env p))) eqn:Hd';
      [rewrite env_op_step|]; (apply fulfils_silent; [done..|]);
      [|by apply Cfg_stored]. apply Cfg_stored_late; try done. by eapply deadline_over_expires.
  - rewrite (on_store_step _ _ p1 _ _ (spec_PutConfig_unserializable cfg (p_store p) err Ec Em)).
    assert (Hr : forall msg, @refusal PutResponse (put_code (InvalidDataError (error_text err)))
      (if Contains (error_text (InvalidDataError (error_text err))) "already exists"
       then status_Error codes_AlreadyExists msg else status_Error codes_Internal
              (error_text (InvalidDataError (error_text err))))).
    { intros msg. unfold put_code. destruct (Contains _ _); by eexists. }
    specialize (Hr (Sprintf "cannot store configuration: %v" [error_text (InvalidDataError (error_text err))])).
    destruct (Contains _ _); (apply fulfils_silent; [done..|]); by eapply Cfg_unserializable.
Qed.

Lemma GetAllConfigurations_fulfils name p :
  fulfils p (CallGetAllConfigurations name) (serves (CallGetAllConfigurations name) p).
Proof.
  cbn [serve]. rewrite (reply_step _ _ _ _ _ (GetAllConfigurations_run name p)).
  apply fulfils_silent; [done..|]. destruct (bool_decide_reflect (name = "")) as [->|Hn].
  - by apply Cfg_names.
  - by apply Cfg_versions.
Qed.

Lemma GetConfiguration_fulfils id p :
  fulfils p (CallGetConfiguration id) (serves (CallGetConfiguration id) p).
Proof.
  cbn [serve]. rewrite (reply_step _ _ _ _ _ (GetConfiguration_run id p)).
  apply fulfils_silent; [done..|]. destruct (st_configs (p_store p) !! id) eqn:Ec.
  - by apply Cfg_found.
  - apply Cfg_missing; [done|]. apply refusal_status.
Qed.

Lemma PutFiniteStateMachine_fulfils ctx req p :
  fulfils p (CallPutFiniteStateMachine ctx req) (serves (CallPutFiniteStateMachine ctx req) p).
Proof.
  apply reply_fulfils. unfold PutFiniteStateMachine. destruct (pf_Fsm req) as [f|] eqn:Ef.
  2:{ apply fulfils_silent; [done..|]. by apply Fsm_panics. }
  rewrite go_bind_deref. cbn [GetConfig PutStateMachine UpdateState spec_manager].
  rewrite (on_store_step (spec_GetConfig (fsm_ConfigId f)) _ p _ _ eq_refl), set_store_id.
  destruct (st_configs (p_store p) !! fsm_ConfigId f) as [c|] eqn:Ec; cbn [lookup_or].
  2:{ apply fulfils_silent; [done..|]. eapply Fsm_no_config; [done..|]. apply refusal_status. }
  rewrite deadline_step. destruct (deadline_over ctx (p_env p)) eqn:Hd.
  { rewrite env_op_step. apply fulfils_silent; [done..|].
    eapply Fsm_late; [done..|]. by eapply deadline_over_expires. }
  match goal with |- context [((if pf_Id req =s "" then _ else _) ≫= ?k) ?q] =>
    destruct (machine_id_spec req k q) as (id & e' & E2 & Hid & Hgiven) end.
  rewrite E2. clear E2. cbv zeta. fold (started c f).
  match goal with |- context [(on_store (spec_PutStateMachine _ _ _) ≫= _) ?q] => set (p1 := q) end.
  destruct (Marshal (B:=B) (started c f)) as [b|err] eqn:Em.
  - assert (Hcan : can_store B (started c f) = true) by (unfold can_store; by rewrite Em).
    rewrite (on_store_step (spec_PutStateMachine B id (Some (started c f))) _ p1 _ _ (spec_put_ok _ _ _ Hcan)).
    apply fulfils_silent; [done..|]. by apply (Fsm_stored _ _ _ _ _ ctx req f c id).
  - rewrite (on_store_step (spec_PutStateMachine B id (Some (started c f))) _ p1
      (Some (InvalidDataError (error_text err))) (p_store p));
      [|simpl; unfold spec_put; by rewrite Em].
    apply fulfils_silent; [done..|]. eapply Fsm_unserializable; [done..| |apply refusal_status].
    unfold can_store. by rewrite Em.
Qed.

Lemma GetFiniteStateMachine_fulfils req p :
  fulfils p (CallGetFiniteStateMachine req) (serves (CallGetFiniteStateMachine req) p).
Proof.
  apply reply_fulfils. unfold GetFiniteStateMachine. cbv zeta.
  destruct (bool_decide_reflect (gf_Config req = "")) as [Hn|Hn].
  { apply fulfils_silent; [done..|]. apply Fsm_unnamed; [by left|apply refusal_status]. }
  destruct (bool_decide_reflect (GetFsmRequest_GetId req = "")) as [Hi|Hi].
  { apply fulfils_silent; [done..|]. apply Fsm_unnamed; [by right|apply refusal_status]. }
  cbn [GetStateMachine spec_manager].
  rewrite (on_store_step (spec_GetStateMachine (GetFsmRequest_GetId req) (gf_Config req)) _ p _ _ eq_refl), set_store_id.
  destruct (st_fsms (p_store p) !! _) eqn:Ef; cbn [lookup_or]; (apply fulfils_silent; [done..|]).
  - by apply Fsm_found.
  - apply Fsm_missing; [done..|]. apply refusal_status.
Qed.

Lemma GetAllInState_fulfils req p : fulfils p (CallGetAllInState req) (serves (CallGetAllInState req) p).
Proof.
  apply reply_fulfils. unfold grpc_GetAllInState. cbv zeta.
  destruct (bool_decide_reflect (gf_Config req = "")) as [Hn|Hn].
  { apply fulfils_silent; [done..|]. apply State_no_config; [done|apply refusal_status]. }
  destruct (bool_decide_reflect (GetFsmRequest_GetState req = "")) as [Hi|Hi].
  { apply fulfils_silent; [done..|]. apply State_no_state; [done..|apply refusal_status]. }
  cbn [GetAllInState spec_manager].
  rewrite (on_store_step (spec_GetAllInState (gf_Config req) (GetFsmRequest_GetState req)) _ p _ _ eq_refl).
  apply fulfils_silent; [done..|]. by apply State_listed.
Qed.

Lemma GetEventOutcome_fulfils req p : fulfils p (CallGetEventOutcome req) (serves (CallGetEventOutcome req) p).
Proof.
  apply reply_fulfils. unfold GetEventOutcome. cbv zeta. cbn [GetOutcomeForEvent spec_manager].
  rewrite (on_store_step (spec_GetOutcomeForEvent (req_Id req) (req_Config req)) _ p _ _ eq_refl), set_store_id.
  destruct (st_outcomes (p_store p) !! _) eqn:Ef; cbn [lookup_or]; (apply fulfils_silent; [done..|]).
  - by apply Outcome_found.
  - apply Outcome_missing; [done|]. apply refusal_status.
Qed.

(** *** The listener *)

Lemma reportOutcome_stored request code details (p : Process Store E) :
  let o := mkEventOutcome code details (req_Config request) (req_Id request) in
  reportOutcome (spec_manager B) (makeResponse request code details) p =
  (Done tt, set_store p (if can_store B o
                         then file_outcome (req_Config request) (GetEvent_GetEventId request) o (p_store p)
                         else p_store p)).
Proof.
  cbv zeta. unfold reportOutcome, makeResponse. cbn [AddEventOutcome spec_manager rsp_Outcome rsp_EventId].
  unfold GetOutcome_GetConfig. cbn [rsp_Outcome out_Config].
  destruct (can_store B _) eqn:Hcan.
  - match goal with |- context [on_store ?m] =>
      by rewrite (on_store_step m _ p _ _ (spec_put_ok (B:=B) _ _ _ Hcan)) end.
  - unfold can_store in Hcan. destruct (Marshal _) as [b|err] eqn:Em; [done|].
    match goal with |- context [on_store ?m] =>
      rewrite (on_store_step m _ p (Some (InvalidDataError (error_text err))) (p_store p)); [done|] end.
    simpl. unfold spec_put. by rewrite Em.
Qed.

(** What is left to do for a request, after its event and machine were seen to. *)
Lemma Post_reports request code details (p : Process Store E) : code <> EventOutcome_Ok ->
  exists s' notified,
    PostNotificationAndReportOutcome (spec_manager B) notifications (makeResponse request code details) p =
    (Done tt, mkProcess s' (p_env p) (p_events p) (p_notifications p ++ notified)) /\
    reports B notifications request code (p_store p) s' notified.
Proof.
  intros Hc. eexists _, _. split.
  2:{ exists details. cbv zeta. split; reflexivity. }
  unfold PostNotificationAndReportOutcome.
  change (rsp_Outcome (makeResponse request code details)) with
    (Some (mkEventOutcome code details (req_Config request) (req_Id request))).
  rewrite go_bind_deref, bool_decide_ne by done. destruct notifications; simpl.
  - unfold mbind, go_bind, post_notification, go_modify. by rewrite reportOutcome_stored.
  - rewrite go_bind_ret, reportOutcome_stored, app_nil_r. done.
Qed.

Lemma Ok_reports request (p : Process Store E) :
  exists s', reportOutcome (spec_manager B) (makeResponse request EventOutcome_Ok "") p =
    (Done tt, mkProcess s' (p_env p) (p_events p) (p_notifications p ++ [])) /\
    reports B notifications request EventOutcome_Ok (p_store p) s' [].
Proof.
  eexists. rewrite reportOutcome_stored, app_nil_r. split; [done|].
  exists "". cbv zeta. split; [done|]. by rewrite bool_decide_refl, andb_false_r.
Qed.

Lemma machine_code_bad err : machine_code err <> EventOutcome_Ok.
Proof. unfold machine_code. by destruct (IsNotFoundErr err). Qed.

(** The transaction of the listener, in each of its outcomes. *)
Lemma TxProcessEvent_moves request ev tr (s : Store) : evt_Transition ev = Some tr ->
  exists r s', spec_TxProcessEvent B (req_Id request) (req_Config request) (Some ev) s = (Done r, s') /\
    moves B request ev tr s
      (match r with Some err => machine_code err | None => EventOutcome_Ok end) s'.
Proof.
  intros Htr. destruct (st_fsms s !! (req_Config request, req_Id request)) as [f|] eqn:Ef.
  2:{ eexists _, s. split; [by apply spec_TxProcessEvent_no_fsm|]. by apply moves_no_machine. }
  destruct (st_configs s !! fsm_ConfigId f) as [c|] eqn:Ec.
  2:{ eexists _, s. split; [by eapply spec_TxProcessEvent_no_config|].
      unfold machine_code. rewrite IsNotFoundErr_nested. by eapply moves_no_config. }
  destruct (enabled c (fsm_State f) (tr_Event tr)) as [t|] eqn:Et.
  2:{ eexists _, s. split; [by eapply spec_TxProcessEvent_refuses|]. by eapply moves_refused. }
  destruct (Marshal (B:=B) (csm_FSM (fire (mkCSM c f) t ev))) as [b|err] eqn:Em.
  - eexists None, _. assert (Hcan : can_store B (csm_FSM (fire (mkCSM c f) t ev)) = true)
      by (unfold can_store; by rewrite Em).
    split; [by eapply spec_TxProcessEvent_fires|]. by eapply moves_done.
  - exists (Some (InvalidDataError (error_text err))), s. split; [|by eapply moves_unserializable].
    rewrite (spec_TxProcessEvent_cases _ _ _ _ _ _ Ef Ec), (SendEvent_enabled _ _ _ Htr). simpl.
    rewrite Et. unfold spec_put. by rewrite Em.
Qed.

(** Finish a request with the report of its outcome. *)
#[local] Ltac reported := edestruct Post_reports as (s' & ns & Hrun & Hrep); [|rewrite Hrun].

Lemma Listen_fulfils request p : fulfils p (CallListen request) (serves (CallListen request) p).
Proof.
  apply (reply_fulfils (CallListen request) _ (fun _ => ReplyNothing)).
  unfold handle_request. cbv zeta.
  destruct (names_machine request) eqn:Hn.
  2:{ destruct (names_machine_false _ Hn) as [Hi|[Hi Hc]];
        [rewrite Hi, bool_decide_refl|rewrite (bool_decide_ne _ _ Hi), Hc, bool_decide_refl];
        (reported; [done|]); exists [], ns; rewrite app_nil_r; (split; [by apply Listen_unnamed|done]). }
  destruct (names_machine_true _ Hn) as [Hi Hc]. rewrite !bool_decide_ne by done.
  cbn [PutEvent TxProcessEvent spec_manager].
  destruct (req_Event request) as [ev|] eqn:He.
  2:{ rewrite (on_store_step (spec_PutEvent B None (req_Config request) NeverExpire) _ p _ _ eq_refl), set_store_id.
      reported; [done|]. exists [], ns. rewrite app_nil_r.
      split; [apply Listen_no_event; [done|by rewrite He|done]|done]. }
  destruct (Marshal (B:=B) ev) as [b|err] eqn:Em.
  2:{ rewrite (on_store_step (spec_PutEvent B (Some ev) (req_Config request) NeverExpire) _ p
        (Some (InvalidDataError (error_text err))) (p_store p)), set_store_id
        by (simpl; unfold spec_put; by rewrite Em).
      reported; [done|]. exists [], ns. rewrite app_nil_r.
      split; [|done]. apply Listen_no_event; [done| |done]. rewrite He. unfold can_store. by rewrite Em. }
  assert (Hcan : can_store B ev = true) by (unfold can_store; by rewrite Em).
  rewrite (on_store_step (spec_PutEvent B (Some ev) (req_Config request) NeverExpire) _ p _ _
    (spec_put_ok (B:=B) ev _ _ Hcan)).
  rewrite go_bind_deref. destruct (evt_Transition ev) as [tr|] eqn:Htr.
  2:{ apply fulfils_silent; [done..|]. by apply Listen_panics. }
  rewrite go_bind_deref. set (s1 := upd_events _ _).
  destruct (TxProcessEvent_moves request ev tr s1 Htr) as (r & s2 & Hr & Hm).
  rewrite (on_store_step (spec_TxProcessEvent B (req_Id request) (req_Config request) (Some ev)) _
    (set_store p s1) _ _ Hr).
  destruct r as [err|].
  - reported; [apply machine_code_bad|]. exists [], ns. rewrite app_nil_r.
    split; [|done]. by eapply Listen_processes.
  - destruct (Ok_reports request (set_store (set_store p s1) s2)) as (s' & Hrun & Hrep). rewrite Hrun.
    exists [], []. rewrite !app_nil_r. split; [|done]. by eapply Listen_processes.
Qed.
End on_spec.

(** *** The streams *)
Section streaming.
Context {B : Type} `{!ProtoMessage B Configuration, !ProtoMessage B FiniteStateMachine,
  !ProtoMessage B Event, !ProtoMessage B EventOutcome}.
Context {E : Type} `{!ServerEnv E, !GoEnvLaws E}.

(** Processes that differ in their environments. *)
Definition same_but_env {S} (p p' : Process S E) : Prop :=
  p_store p' = p_store p /\ p_events p' = p_events p /\ p_notifications p' = p_notifications p.

Lemma stream_fsms_streams name ids sent (p : Process Store E) :
  exists more err p', stream_fsms (spec_manager B) name ids sent p = (Done ((sent ++ more)%list, err), p') /\
    same_but_env p p' /\
    streams (fun id => st_fsms (p_store p) !! (name, id)) (fun id f => mkPutResponse id (PutResponse_Fsm f))
      (fun id => NotFoundError (NewKeyForMachine id name)) ids more err.
Proof.
  revert sent p. induction ids as [|id ids IH]; intros sent p; cbn [stream_fsms GetStateMachine spec_manager].
  { exists [], None, p. rewrite app_nil_r. split; [done|]. split; [done|constructor]. }
  rewrite (on_store_step (spec_GetStateMachine id name) _ p _ _ eq_refl), set_store_id.
  destruct (st_fsms (p_store p) !! (name, id)) as [f|] eqn:Ef; cbn [lookup_or].
  2:{ exists [], (Some (NotFoundError (NewKeyForMachine id name))), p. rewrite app_nil_r. split; [done|]. split; [done|]. by apply (streams_missing _ _ (fun id => NotFoundError (NewKeyForMachine id name))). }
  rewrite env_op_step. destruct (fst (stream_SendMsg (p_env p))) as [err|].
  { eexists [], (Some err), _. rewrite app_nil_r. split; [done|]. split; [done|]. by eapply streams_broken. }
  destruct (IH (sent ++ [mkPutResponse id (PutResponse_Fsm f)])%list
    (set_env p (snd (stream_SendMsg (p_env p))))) as (more & err & p' & -> & Hp & Hs).
  eexists (_ :: more), err, p'. rewrite <- app_assoc. split; [done|]. split; [done|].
  exact (streams_sent (fun id => st_fsms (p_store p) !! (name, id)) (fun id f => mkPutResponse id (PutResponse_Fsm f))
    (fun id => NotFoundError (NewKeyForMachine id name)) id ids f more err Ef Hs).
Qed.

Lemma stream_configs_streams ids sent (p : Process Store E) :
  exists more err p', stream_configs (spec_manager B) ids sent p = (Done ((sent ++ more)%list, err), p') /\
    same_but_env p p' /\
    streams (fun id => st_configs (p_store p) !! id) (fun _ c => c)
      (fun id => NotFoundError (NewKeyForConfig id)) ids more err.
Proof.
  revert sent p. induction ids as [|id ids IH]; intros sent p; cbn [stream_configs GetConfig spec_manager].
  { exists [], None, p. rewrite app_nil_r. split; [done|]. split; [done|constructor]. }
  rewrite (on_store_step (spec_GetConfig id) _ p _ _ eq_refl), set_store_id.
  destruct (st_configs (p_store p) !! id) as [c|] eqn:Ec; cbn [lookup_or].
  2:{ exists [], (Some (NotFoundError (NewKeyForConfig id))), p. rewrite app_nil_r. split; [done|]. split; [done|]. by apply (streams_missing _ _ (fun id => NotFoundError (NewKeyForConfig id))). }
  rewrite env_op_step. destruct (fst (stream_SendMsg (p_env p))) as [err|].
  { eexists [], (Some err), _. rewrite app_nil_r. split; [done|]. split; [done|]. by eapply streams_broken. }
  destruct (IH (sent ++ [c])%list (set_env p (snd (stream_SendMsg (p_env p)))))
    as (more & err & p' & -> & Hp & Hs).
  eexists (_ :: more), err, p'. rewrite <- app_assoc. split; [done|]. split; [done|].
  exact (streams_sent (fun id => st_configs (p_store p) !! id) (fun _ c => c)
    (fun id => NotFoundError (NewKeyForConfig id)) id ids c more err Ec Hs).
Qed.

Context {W : Type} (impl : StoreManager W) (R : Store -> W -> Prop) `{HR : !StoreRefines B impl R}.
Context (Release : string) (server : Config) (notifications : bool).

(** A run over an implementation is what the service promises in a related store. *)
Definition keeps_promise (s : Store) (p : Process W E) (c : call)
    (x : result reply_message * Process W E) : Prop :=
  exists posted notified s',
    service B Release server notifications s c (fst x) posted notified s' /\ R s' (p_store (snd x)) /\
    p_events (snd x) = (p_events p ++ posted)%list /\
    p_notifications (snd x) = (p_notifications p ++ notified)%list.

Lemma keeps_promise_silent s p c r p' :
  R s (p_store p') -> p_events p' = p_events p -> p_notifications p' = p_notifications p ->
  service B Release server notifications s c r [] [] s -> keeps_promise s p c (r, p').
Proof. intros HR' He Hn H. exists [], [], s. by rewrite !app_nil_r. Qed.

(** A stream over the implementation is that of the specification. *)
Lemma stream_promise {A} c (wrap : A -> reply_message) m1 m2 (sp : Process Store E) (p p2 : Process W E) a sp' :
  sim (lift_rel (E:=E) R) eq m1 m2 -> lift_rel R sp p2 -> m1 sp = (Done a, sp') -> same_but_env sp sp' ->
  p_events sp = p_events p -> p_notifications sp = p_notifications p ->
  service B Release server notifications (p_store sp) c (Done (wrap a)) [] [] (p_store sp) ->
  keeps_promise (p_store sp) p c ((r ← m2; mret (wrap r)) p2).
Proof using Type.
  intros Hm HR' E1 (Hst & Hev & Hno) He Hn Hserv. destruct (Hm _ _ HR') as [Hr (HRs & _ & He' & Hn')].
  rewrite E1 in Hr, HRs, He', Hn'. destruct (m2 p2) as [[a2| |] p'] eqn:E2; simpl in *; try done. subst a2.
  rewrite (go_bind_done _ _ _ _ _ E2). rewrite Hst in HRs.
  apply keeps_promise_silent; [done|congruence..|done].
Qed.

(** The list that the implementation gives for a set. *)
Lemma listed (m1 : Go Store (list string)) (m2 : Go W (list string)) l (sp : Process Store E) (p : Process W E) :
  sim R Permutation m1 m2 -> m1 (p_store sp) = (Done l, p_store sp) -> lift_rel R sp p ->
  exists l' p2, on_store m2 p = (Done l', p2) /\ l' ≡ₚ l /\ lift_rel R sp p2.
Proof using Type.
  intros Hm E1 (Hs & He & Hev & Hn). destruct (Hm _ _ Hs) as [Hr HR']. rewrite E1 in Hr, HR'.
  unfold on_store. destruct (m2 (p_store p)) as [[l2| |] w2]; simpl in *; try done.
  by eexists l2, _.
Qed.

Lemma StreamAllInstate_promise req s (p : Process W E) :
  plain (gf_Config req) = true -> R s (p_store p) ->
  keeps_promise s p (CallStreamAllInstate req)
    (serve impl Release server notifications (CallStreamAllInstate req) p).
Proof using HR.
  intros Hp Hs. cbn [serve]. unfold StreamAllInstate, grpc_GetAllInState. cbv zeta.
  destruct (bool_decide_reflect (gf_Config req = "")) as [Hn|Hn].
  { apply keeps_promise_silent; [done..|]. eapply Stream_refused; [by left|done]. }
  destruct (bool_decide_reflect (GetFsmRequest_GetState req = "")) as [Hi|Hi].
  { apply keeps_promise_silent; [done..|]. eapply Stream_refused; [by right|done]. }
  set (sp := mkProcess s (p_env p) (p_events p) (p_notifications p)).
  assert (HP : lift_rel R sp p) by done.
  destruct (listed _ _ _ sp p (sim_GetAllInState (impl := impl) _ (GetFsmRequest_GetState req) Hp) eq_refl HP)
    as (ids & p2 & E1 & Hids & HP2).
  destruct (stream_fsms_streams (gf_Config req) ids [] sp) as (sent & err & sp' & E2 & Hsp & Hstr).
  assert (Hgoal : keeps_promise s p (CallStreamAllInstate req)
    ((r ← stream_fsms impl (gf_Config req) ids []; mret (ReplyMachines r)) p2)).
  { eapply (stream_promise _ ReplyMachines _ _ sp p p2 _ _ (stream_fsms_sim impl R _ ids [] Hp));
      [done..|]. by eapply Stream_machines. }
  unfold mbind, go_bind in Hgoal |- *. rewrite E1. exact Hgoal.
Qed.

Lemma StreamAllConfigurations_promise name s (p : Process W E) :
  plain name = true -> well_listed s -> R s (p_store p) ->
  keeps_promise s p (CallStreamAllConfigurations name)
    (serve impl Release server notifications (CallStreamAllConfigurations name) p).
Proof using HR.
  intros Hp Hl Hs. cbn [serve]. unfold StreamAllConfigurations, GetAllConfigurations.
  destruct (bool_decide_reflect (name = "")) as [->|Hn].
  { apply keeps_promise_silent; [done..|]. by apply Stream_unnamed. }
  set (sp := mkProcess s (p_env p) (p_events p) (p_notifications p)).
  assert (HP : lift_rel R sp p) by done.
  destruct (listed _ _ _ sp p (sim_GetAllVersions (impl := impl) _ Hp) eq_refl HP)
    as (ids & p2 & E1 & Hids & HP2).
  destruct (stream_configs_streams ids [] sp) as (sent & err & sp' & E2 & Hsp & Hstr).
  assert (Hgood : Forall (fun id => good_config_id id = true) ids).
  { apply Forall_forall. intros id. rewrite Hids, elem_of_elements. apply Hl. }
  assert (Hgoal : keeps_promise s p (CallStreamAllConfigurations name)
    ((r ← stream_configs impl ids []; mret (ReplyConfigurations r)) p2)).
  { eapply (stream_promise _ ReplyConfigurations _ _ sp p p2 _ _ (stream_configs_sim impl R ids [] Hgood));
      [done..|]. by eapply Stream_configurations. }
  unfold mbind, go_bind in Hgoal |- *. rewrite E1. exact Hgoal.
Qed.

(** *** Every other call *)

Lemma serve_fulfils c sp : streaming c = false ->
  fulfils (B:=B) Release server notifications sp c
    (serve (spec_manager B) Release server notifications c sp).
Proof using GoEnvLaws0.
  destruct c; intros Hc; try done.
  - apply Health_fulfils.
  - apply SendEvent_fulfils.
  - apply PutConfiguration_fulfils.
  - apply GetAllConfigurations_fulfils.
  - apply GetConfiguration_fulfils.
  - apply PutFiniteStateMachine_fulfils.
  - apply GetFiniteStateMachine_fulfils.
  - apply GetAllInState_fulfils.
  - apply GetEventOutcome_fulfils.
  - apply Listen_fulfils.
Qed.

(** The promise does not tell the order of lists. *)
Lemma service_reorder s c r r' posted notified s' :
  service B Release server notifications s c r posted notified s' -> rel_result reply_rel r r' ->
  service B Release server notifications s c r' posted notified s'.
Proof using Type.
  intros H Hr. assert (Hcases : r' = r \/ (exists l l', r = Done (ReplyList l) /\ r' = Done (ReplyList l') /\ l ≡ₚ l') \/
    exists l l' e, r = Done (ReplyIds (Some l, e)) /\ r' = Done (ReplyIds (Some l', e)) /\ l ≡ₚ l').
  { destruct r as [m| |], r' as [m'| |]; try done; simpl in Hr; [|by left..].
    destruct m; simpl in Hr; try (left; by subst).
    - destruct m'; try done. right; left. by eexists _, _.
    - destruct r as [[l|] e]; [|left; by subst].
      destruct m' as [| | | | | |[[l'|] e']| | |]; try done. destruct Hr as [Hl ->].
      right; right. by eexists _, _, _. }
  destruct Hcases as [->|[(l & l' & -> & -> & Hl)|(l & l' & e & -> & -> & Hl)]]; [done|..];
    inversion H; subst.
  - apply Cfg_names. by rewrite <- Hl.
  - apply Cfg_versions; [done|]. by rewrite <- Hl.
  - match goal with Hr' : refusal _ _ |- _ => by destruct Hr' end.
  - match goal with Hr' : refusal _ _ |- _ => by destruct Hr' end.
  - apply State_listed; [done..|]. by rewrite <- Hl.
Qed.
End streaming.

(** ** Properties *)

(** C4. The server does what the service promises.  Over any store that keeps
    the contract of [StoreManager], from a state in which configurations are
    filed and listed under names without ':' and '#', for every call with such
    names, the unary and the streaming RPCs and the event requests out of
    the channel alike: what is answered or streamed, the panics, the messages posted on
    the channels and the store that is left are those of a rule of [service],
    in a store that the implementation then stands for, and which is again such
    a state.  The rules say nothing of handlers: refusals with their status
    codes, deadlines, what cannot be serialized, streams that break off. *)
Theorem server_refines {B} `{!ProtoMessage B Configuration, !ProtoMessage B FiniteStateMachine,
    !ProtoMessage B Event, !ProtoMessage B EventOutcome} {E} `{!ServerEnv E, !GoEnvLaws E}
    Release server notifications {W} (impl : StoreManager W) R `{!StoreRefines B impl R} c s (p : Process W E) :
  good_call c = true -> R s (p_store p) -> well_filed s -> well_listed s ->
  let '(r, p') := serve impl Release server notifications c p in
  exists posted notified s',
    service B Release server notifications s c r posted notified s' /\ R s' (p_store p') /\
    p_events p' = (p_events p ++ posted)%list /\ p_notifications p' = (p_notifications p ++ notified)%list /\
    well_filed s' /\ well_listed s'.
Proof.
  intros Hg Hs Hw Hl.
  destruct (streaming c) eqn:Hstr.
  - assert (Hk : keeps_promise (B:=B) R Release server notifications s p c
      (serve impl Release server notifications c p)).
    { destruct c; try done; [by apply StreamAllInstate_promise|by apply StreamAllConfigurations_promise]. }
    destruct (serve _ _ _ _ _ _) as [r p']. destruct Hk as (posted & notified & s' & Hk & HR & He & Hn).
    exists posted, notified, s'. assert (s' = s) as -> by (destruct c; try done; by inversion Hk).
    by split_and!.
  - set (sp := mkProcess s (p_env p) (p_events p) (p_notifications p)).
    destruct (serve_sim impl R Release server notifications c sp p Hstr Hg) as [Hr HP]; [done..|].
    destruct (serve_fulfils (B:=B) Release server notifications c sp Hstr) as (posted & notified & Hk & He & Hn).
    pose proof (serve_keeps (B:=B) Release server notifications c sp Hg) as Hf.
    pose proof (serve_listed (B:=B) Release server notifications c sp Hg Hl) as Hl'.
    destruct (serve (spec_manager B) Release server notifications c sp) as [r1 sp'].
    destruct (serve impl Release server notifications c p) as [r p']. simpl in *.
    destruct HP as (HR & _ & He' & Hn'). exists posted, notified, (p_store sp').
    split; [by eapply service_reorder|]. split; [done|]. split; [congruence|]. split; [congruence|].
    split; [by apply Hf|done].
Qed.

(** *** Example: a request on the store on Redis *)

Definition on_redis : Process (RedisStore Mem) TestEnv := quiet rover_redis.

Lemma rover_listed : well_listed rover_store.
Proof. exact (well_listed_enter mars_rover spec_empty eq_refl well_listed_empty). Qed.

Lemma rover_filed : well_filed rover_store.
Proof. exact (well_filed_file_config mars_rover spec_empty well_filed_empty eq_refl eq_refl). Qed.

Definition stream_call : call := CallStreamAllInstate (mkGetFsm "mars_rover" (Some (GetFsmRequest_State "earth"))).

Lemma server_refines_witness :
  let '(r, p') := serve (redis_store_manager (B:=wire) 1) "v0" test_server true stream_call on_redis in
  r = Done (ReplyMachines ([mkPutResponse "7" (PutResponse_Fsm rover_fsm)], None)) /\
  exists posted notified s',
    service wire "v0" test_server true rover_store stream_call r posted notified s' /\ refines s' (p_store p').
Proof.
  pose proof (server_refines (B:=wire) "v0" test_server true (redis_store_manager (B:=wire) 1) refines
    (StoreRefines0 := redis_refines (B:=wire) 1 ltac:(lia)) stream_call rover_store on_redis
    eq_refl rover_refines rover_filed rover_listed) as H.
  assert (Hr : fst (serve (redis_store_manager (B:=wire) 1) "v0" test_server true stream_call on_redis) =
    Done (ReplyMachines ([mkPutResponse "7" (PutResponse_Fsm rover_fsm)], None))) by (vm_compute; reflexivity).
  destruct (serve _ _ _ _ _ _) as [r p']. destruct H as (posted & notified & s' & Hk & HR & _).
  split; [exact Hr|]. exists posted, notified, s'. split; [exact Hk|exact HR].
Defined.
