(* ===== verification/Base64.v ===== *)
(** * [encoding/base64.StdEncoding]

    The standard encoding with padding, as [EncodeToString] and [DecodeString]
    of the Go library: the decoder skips line breaks, and refuses bytes outside
    the alphabet, misplaced padding and incomplete groups. *)

From Stdlib Require Import ZArith Ascii.
From stdpp Require Import base tactics strings list.
From S2P Require Import Prelude GoLib.

(** ** Definitions *)

Definition alphabet : string :=
  "ABCDEFGHIJKLMNOPQRSTUVWXYZabcdefghijklmnopqrstuvwxyz0123456789+/".

(** Six bits, the most significant first. *)
Record sextet := Sextet { s5 : bool; s4 : bool; s3 : bool; s2 : bool; s1 : bool; s0 : bool }.

Definition sextet_index (x : sextet) : nat :=
  let d (b : bool) n := if b then n else O in
  (d (s5 x) 32 + d (s4 x) 16 + d (s3 x) 8 + d (s2 x) 4 + d (s1 x) 2 + d (s0 x) 1)%nat.

Definition sextet_char (x : sextet) : ascii :=
  default "="%char (String.get (sextet_index x) alphabet).

Definition all_sextets : list sextet :=
  let b := [false; true] in
  a ← b; c ← b; d ← b; e ← b; f ← b; g ← b; [Sextet a c d e f g].

Definition char_sextet (c : ascii) : option sextet :=
  List.find (fun x => sextet_char x =s c) all_sextets.

(** Three bytes are four sextets; [ascii] has its bits least significant first. *)
Definition sextet1 (a : ascii) : sextet :=
  let '(Ascii _ _ a2 a3 a4 a5 a6 a7) := a in Sextet a7 a6 a5 a4 a3 a2.
Definition sextet2 (a b : ascii) : sextet :=
  let '(Ascii a0 a1 _ _ _ _ _ _) := a in
  let '(Ascii _ _ _ _ b4 b5 b6 b7) := b in Sextet a1 a0 b7 b6 b5 b4.
Definition sextet3 (b c : ascii) : sextet :=
  let '(Ascii b0 b1 b2 b3 _ _ _ _) := b in
  let '(Ascii _ _ _ _ _ _ c6 c7) := c in Sextet b3 b2 b1 b0 c7 c6.
Definition sextet4 (c : ascii) : sextet :=
  let '(Ascii c0 c1 c2 c3 c4 c5 _ _) := c in Sextet c5 c4 c3 c2 c1 c0.

Definition byte1 (x y : sextet) : ascii :=
  Ascii (s4 y) (s5 y) (s0 x) (s1 x) (s2 x) (s3 x) (s4 x) (s5 x).
Definition byte2 (y z : sextet) : ascii :=
  Ascii (s2 z) (s3 z) (s4 z) (s5 z) (s0 y) (s1 y) (s2 y) (s3 y).
Definition byte3 (z w : sextet) : ascii :=
  Ascii (s0 w) (s1 w) (s2 w) (s3 w) (s4 w) (s5 w) (s0 z) (s1 z).

Definition zero : ascii := "000"%char.

Fixpoint EncodeToString (data : string) : string :=
  match data with
  | EmptyString => ""
  | String a EmptyString =>
      String (sextet_char (sextet1 a)) (String (sextet_char (sextet2 a zero)) "==")
  | String a (String b EmptyString) =>
      String (sextet_char (sextet1 a)) (String (sextet_char (sextet2 a b))
        (String (sextet_char (sextet3 b zero)) "="))
  | String a (String b (String c rest)) =>
      String (sextet_char (sextet1 a)) (String (sextet_char (sextet2 a b))
        (String (sextet_char (sextet3 b c)) (String (sextet_char (sextet4 c))
          (EncodeToString rest))))
  end.

Definition line_break (c : ascii) : bool := (c =s "010"%char) || (c =s "013"%char).

Fixpoint drop_breaks (s : string) : string :=
  match s with
  | EmptyString => ""
  | String c s' => if line_break c then drop_breaks s' else String c (drop_breaks s')
  end.

Fixpoint decode_groups (s : string) : option string :=
  match s with
  | EmptyString => Some ""
  | String a (String b (String c (String d rest))) =>
      x ← char_sextet a;
      y ← char_sextet b;
      if c =s "="%char then
        if (d =s "="%char) && (rest =s "") then Some (String (byte1 x y) "") else None
      else
        z ← char_sextet c;
        if d =s "="%char then
          if rest =s "" then Some (String (byte1 x y) (String (byte2 y z) "")) else None
        else
          w ← char_sextet d;
          more ← decode_groups rest;
          Some (String (byte1 x y) (String (byte2 y z) (String (byte3 z w) more)))
  | _ => None
  end.

Definition DecodeString (s : string) : option string := decode_groups (drop_breaks s).

(** ** Lemmas *)

Lemma char_sextet_char x : char_sextet (sextet_char x) = Some x.
Proof. destruct x as [[] [] [] [] [] []]; reflexivity. Qed.

Lemma sextet_char_safe x : line_break (sextet_char x) = false /\ (sextet_char x =s "="%char) = false.
Proof. destruct x as [[] [] [] [] [] []]; split; reflexivity. Qed.

(** Strings by groups of three. *)
Lemma string_ind3 (P : string -> Prop) :
  P "" -> (forall a, P (String a "")) -> (forall a b, P (String a (String b ""))) ->
  (forall a b c s, P s -> P (String a (String b (String c s)))) -> forall s, P s.
Proof.
  intros H0 H1 H2 H3. fix IH 1. intros [|a [|b [|c s]]]; [exact H0|apply H1|apply H2|].
  apply H3, IH.
Qed.

Lemma drop_breaks_Encode s : drop_breaks (EncodeToString s) = EncodeToString s.
Proof.
  induction s as [|a|a b|a b c s IH] using string_ind3; cbn [EncodeToString drop_breaks];
    rewrite ?(proj1 (sextet_char_safe _)); [done..|]. by rewrite IH.
Qed.

(** Decoding an encoding gives the data back. *)
Lemma Decode_Encode s : DecodeString (EncodeToString s) = Some s.
Proof.
  unfold DecodeString. rewrite drop_breaks_Encode.
  induction s as [|a|a b|a b c s IH] using string_ind3; cbn [EncodeToString decode_groups]; [done|..];
    rewrite !char_sextet_char; simpl; rewrite ?(proj2 (sextet_char_safe _)), ?char_sextet_char; simpl.
  - by destruct a.
  - by destruct a, b.
  - rewrite IH. simpl. by destruct a, b, c.
Qed.

(** A byte outside the alphabet spoils a text. *)
Definition in_alphabet (c : ascii) : bool :=
  line_break c || (c =s "="%char) || match char_sextet c with Some _ => true | None => false end.

Lemma decode_groups_alphabet s : is_Some (decode_groups s) ->
  forallb in_alphabet (String.list_ascii_of_string s) = true.
Proof.
  remember (String.length s) as n eqn:Hn. assert (Hle : (String.length s <= n)%nat) by lia. clear Hn.
  revert s Hle. induction n as [|n IH]; intros [|a s] Hle; simpl in *; try done; try lia.
  assert (Hin : forall x, is_Some (char_sextet x) -> in_alphabet x = true).
  { intros x [y Hy]. unfold in_alphabet. rewrite Hy. apply orb_true_r. }
  destruct s as [|b [|c [|d rest]]]; try by intros [].
  destruct (char_sextet a) as [x|] eqn:Ea; [|by intros []]. simpl.
  destruct (char_sextet b) as [y|] eqn:Eb; [|by intros []]. simpl.
  rewrite (Hin a), (Hin b) by done. simpl.
  destruct (bool_decide_reflect (c = "="%char)) as [->|Hc].
  - destruct (bool_decide_reflect (d = "="%char)) as [->|]; simpl; [|by intros []].
    destruct (bool_decide_reflect (rest = "")) as [->|]; [done|by intros []].
  - destruct (char_sextet c) as [z|] eqn:Ez; [|by intros []]. simpl. rewrite (Hin c) by done. simpl.
    destruct (bool_decide_reflect (d = "="%char)) as [->|].
    + destruct (bool_decide_reflect (rest = "")) as [->|]; [done|by intros []].
    + destruct (char_sextet d) as [v|] eqn:Ev; [|by intros []]. simpl. rewrite (Hin d) by done. simpl.
      destruct (decode_groups rest) eqn:Er; [|by intros []]. intros _. apply IH; [simpl in Hle; lia|by rewrite Er].
Qed.

Lemma Decode_outside c s : in_alphabet c = false -> has_byte c s = true -> DecodeString s = None.
Proof.
  intros Hc Hs. unfold DecodeString. destruct (decode_groups (drop_breaks s)) eqn:E; [|done]. exfalso.
  assert (Ha : forallb in_alphabet (String.list_ascii_of_string (drop_breaks s)) = true)
    by (apply decode_groups_alphabet; by rewrite E).
  clear E. induction s as [|x s IH]; simpl in *; [done|].
  destruct (bool_decide_reflect (x = c)) as [->|Hx].
  - unfold in_alphabet in Hc. destruct (line_break c) eqn:El; [done|]. simpl in Ha.
    unfold in_alphabet in Ha at 1. rewrite El in Ha. by rewrite Hc in Ha.
  - destruct (line_break x); simpl in Ha; [by apply IH|]. apply IH; [done|].
    by apply andb_true_iff in Ha as [_ Ha].
Qed.

Example Encode_hello : EncodeToString "Hello" = "SGVsbG8=" /\ DecodeString "SGVs bG8=" = None.
Proof. split; reflexivity. Qed.
