(* ===== verification/SqsPub.v ===== *)
(** * The SQS publisher: [pkg/pubsub/sqs_pub.go]

    Messages as text, and the loop that sends the listener's notifications to
    a queue. *)

From Stdlib Require Import ZArith Ascii.
From stdpp Require Import base tactics strings list countable.
From S2P Require Import Prelude GoLib Proto Base64 Fsm StoreTypes StoreSpec Process.

(** ** Definitions *)

(** A message as the queue delivers it; the fields are pointers. *)
Record Message := mkMessage {
  MessageId : option string;
  Body : option string;
  ReceiptHandle : option string }.

(** The calls of the AWS client: the queue URL of a topic (nil when the call
    fails or gives none), sending a body to a queue (with the id of the message, a
    pointer, on success), receiving a batch, and deleting by receipt handle. *)
Class SqsClient (E : Type) := {
  sqs_GetQueueUrl : string -> E -> option string * E;
  sqs_SendMessage : string -> string -> E -> Res (option string) * E;
  sqs_ReceiveMessage : string -> E -> Res (list Message) * E;
  sqs_DeleteMessage : string -> option string -> E -> option error * E }.

Definition base64_error : error := Errorf "illegal base64 data".

(** [Base64ProtoMarshaler]; messages are serialized to byte strings. *)
Definition MarshalToText {T} `{!ProtoMessage string T} (msg : T) : Res string :=
  match Marshal msg with
  | Fail err => Fail err
  | Ok data => Ok (EncodeToString data)
  end.

Definition UnmarshalFromText (T : Type) `{!ProtoMessage string T} (text : string) : Res T :=
  match DecodeString text with
  | None => Fail base64_error
  | Some data => Unmarshal data
  end.

Section publisher.
Context {E : Type} `{!SqsClient E, !ProtoMessage string EventResponse}.

(** [log.Fatal] ends the process. *)
Definition GetQueueUrl (topic : string) : Go E string := fun e =>
  match sqs_GetQueueUrl topic e with
  | (Some url, e') => (Done url, e')
  | (None, e') => (Panicked, e')
  end.

Definition SendMessage (url body : string) : Go E (Res (option string)) := fun e =>
  let (r, e') := sqs_SendMessage url body e in (Done r, e').

(** The body of the loop; the text of the debug message dereferences the id of
    the message. *)
Definition publish_one (errorsQueueUrl : string) (eventResponse : EventResponse) : Go E () :=
  let isOKOutcome := match rsp_Outcome eventResponse with
                     | Some o => out_Code o =s EventOutcome_Ok
                     | None => false
                     end in
  if isOKOutcome then mret tt
  else
    match MarshalToText eventResponse with
    | Fail err => mret tt
    | Ok response =>
        r ← SendMessage errorsQueueUrl response;
        match r with
        | Fail err => mret tt
        | Ok messageId => deref messageId;; mret tt
        end
    end.

Fixpoint Publish_loop (errorsQueueUrl : string) (notifications : list EventResponse) : Go E () :=
  match notifications with
  | [] => mret tt
  | eventResponse :: rest => publish_one errorsQueueUrl eventResponse;; Publish_loop errorsQueueUrl rest
  end.

(** The notifications received until the channel is closed, in order. *)
Definition Publish (errorsTopic : string) (notifications : list EventResponse) : Go E () :=
  errorsQueueUrl ← GetQueueUrl errorsTopic;
  Publish_loop errorsQueueUrl notifications.

End publisher.

(** What the code relies on: a successful send reports the id of the message. *)
Class SqsLaws (E : Type) `{!SqsClient E} : Prop := {
  SendMessage_id : forall url body e m e', sqs_SendMessage url body e = (Ok m, e') -> is_Some m }.

(** The text of a notification that is to be sent. *)
Definition outgoing `{!ProtoMessage string EventResponse} (r : EventResponse) : option string :=
  if (out_Code <$> rsp_Outcome r) =s Some EventOutcome_Ok then None
  else match MarshalToText r with Ok text => Some text | Fail _ => None end.

(** A notification that is to be sent. *)
Definition reportable `{!ProtoMessage string EventResponse} (r : EventResponse) : bool :=
  negb ((out_Code <$> rsp_Outcome r) =s Some EventOutcome_Ok) && is_ok (Marshal (B:=string) r).

(** Sending bodies one after the other. *)
Definition send_all {E} `{!SqsClient E} (url : string) (bodies : list string) (e : E) : E :=
  fold_left (fun e body => snd (sqs_SendMessage url body e)) bodies e.

(** ** Lemmas *)

Lemma Unmarshal_MarshalToText {T} `{!ProtoMessage string T, !ProtoLaws string T} (msg : T) text :
  MarshalToText msg = Ok text -> UnmarshalFromText T text = Ok msg.
Proof.
  unfold MarshalToText, UnmarshalFromText. destruct (Marshal msg) as [data|] eqn:E; [|done].
  intros [= <-]. rewrite Decode_Encode. by apply Unmarshal_Marshal.
Qed.

Section lemmas.
Context {E : Type} `{!SqsClient E, !SqsLaws E, !ProtoMessage string EventResponse}.

Lemma publish_one_run url r (e : E) :
  publish_one url r e =
  (Done tt, match outgoing r with Some body => snd (sqs_SendMessage url body e) | None => e end).
Proof.
  unfold publish_one, outgoing. cbv zeta.
  assert ((match rsp_Outcome r with Some o => out_Code o =s EventOutcome_Ok | None => false end)
    = ((out_Code <$> rsp_Outcome r) =s Some EventOutcome_Ok)) as ->.
  { destruct (rsp_Outcome r) as [o|]; simpl; [|done]. apply bool_decide_ext. split; [by intros ->|by intros [= ->]]. }
  destruct (_ =s _); [done|]. destruct (MarshalToText r) as [body|]; [|done].
  unfold mbind, go_bind, SendMessage.
  destruct (sqs_SendMessage url body e) as [[m|err] e'] eqn:E1; simpl; [|done].
  destruct (SendMessage_id _ _ _ _ _ E1) as [i ->]. done.
Qed.

Lemma Publish_loop_run url rs (e : E) :
  Publish_loop url rs e = (Done tt, send_all url (omap outgoing rs) e).
Proof.
  revert e. induction rs as [|r rs IH]; intros e; cbn [Publish_loop]; [done|].
  rewrite (go_bind_done _ _ _ _ _ (publish_one_run url r e)), IH. unfold send_all. simpl.
  by destruct (outgoing r).
Qed.

Lemma outgoing_reportable `{!ProtoLaws string EventResponse} rs :
  Forall2 (fun r text => UnmarshalFromText EventResponse text = Ok r)
    (List.filter reportable rs) (omap outgoing rs).
Proof using.
  induction rs as [|r rs IH]; [constructor|]. simpl. unfold reportable at 1, outgoing at 1.
  destruct (_ =s _); [done|]. simpl.
  destruct (Marshal r) as [data|] eqn:Em; simpl; unfold MarshalToText; rewrite Em; [|done].
  constructor; [|done]. apply Unmarshal_MarshalToText. unfold MarshalToText. by rewrite Em.
Qed.
End lemmas.

(** ** Properties *)

(** Text is a faithful carrier: what [MarshalToText] made of a message
    [UnmarshalFromText] reads back, also with line breaks put in between. *)
Theorem text_roundtrip {T} `{!ProtoMessage string T, !ProtoLaws string T} (msg : T) text text' :
  MarshalToText msg = Ok text -> drop_breaks text' = text -> UnmarshalFromText T text' = Ok msg.
Proof.
  intros Hm Hd. pose proof (Unmarshal_MarshalToText msg text Hm) as H. revert H.
  unfold UnmarshalFromText, DecodeString. rewrite Hd.
  assert (Ht : drop_breaks text = text).
  { unfold MarshalToText in Hm. destruct (Marshal msg); [|done]. injection Hm as <-.
    apply drop_breaks_Encode. }
  by rewrite Ht.
Qed.

(** C32. The publisher sends, in the order they came, the texts of exactly those
    notifications that do not report an [Ok] outcome and can be serialized,
    each once, whatever errors the queue returns in between; and each text
    reads back as its notification. *)
Theorem Publish_sends {E} `{!SqsClient E, !SqsLaws E, !ProtoMessage string EventResponse,
    !ProtoLaws string EventResponse} topic url rs (e e1 : E) :
  sqs_GetQueueUrl topic e = (Some url, e1) ->
  exists sent, Publish topic rs e = (Done tt, send_all url sent e1) /\
    Forall2 (fun r text => UnmarshalFromText EventResponse text = Ok r) (List.filter reportable rs) sent.
Proof.
  intros Hq. exists (omap outgoing rs). split; [|apply outgoing_reportable].
  unfold Publish, mbind, go_bind, GetQueueUrl. rewrite Hq. apply Publish_loop_run.
Qed.

(** *** Examples: a serialization to strings, and a queue *)

Fixpoint positive_text (p : positive) : string :=
  match p with
  | xH => ""
  | xO p' => String "0" (positive_text p')
  | xI p' => String "1" (positive_text p')
  end.

Fixpoint text_positive (s : string) : positive :=
  match s with
  | EmptyString => xH
  | String c s' => if c =s "0"%char then xO (text_positive s') else xI (text_positive s')
  end.

Lemma text_positive_text p : text_positive (positive_text p) = p.
Proof. induction p; simpl; by rewrite ?IHp. Qed.

#[export] Instance transition_countable : Countable Transition.
Proof.
  refine (inj_countable' (fun t => (tr_From t, tr_To t, tr_Event t))
            (fun '(a, b, c) => mkTransition a b c) _). by intros [].
Defined.
#[export] Instance event_countable : Countable Event.
Proof.
  refine (inj_countable' (fun e => (evt_EventId e, evt_Timestamp e, evt_Transition e, evt_Originator e,
      evt_Details e)) (fun '(a, b, c, d, e) => mkEvent a b c d e) _). by intros [].
Defined.
#[export] Instance request_eq_dec : EqDecision EventRequest.
Proof. solve_decision. Defined.
#[export] Instance request_countable : Countable EventRequest.
Proof.
  refine (inj_countable' (fun r => (req_Event r, req_Config r, req_Id r))
            (fun '(a, b, c) => mkEventRequest a b c) _). by intros [].
Defined.

Definition all_codes : list StatusCode :=
  [EventOutcome_Ok; EventOutcome_GenericError; EventOutcome_EventNotAllowed; EventOutcome_FsmNotFound;
   EventOutcome_TransitionNotAllowed; EventOutcome_InternalError; EventOutcome_MissingDestination;
   EventOutcome_ConfigurationNotFound].

Definition code_number (c : StatusCode) : nat :=
  match c with
  | EventOutcome_Ok => 0 | EventOutcome_GenericError => 1 | EventOutcome_EventNotAllowed => 2
  | EventOutcome_FsmNotFound => 3 | EventOutcome_TransitionNotAllowed => 4
  | EventOutcome_InternalError => 5 | EventOutcome_MissingDestination => 6
  | EventOutcome_ConfigurationNotFound => 7
  end%nat.

#[export] Instance code_countable : Countable StatusCode.
Proof.
  refine (inj_countable code_number (fun n => all_codes !! n) _). by intros [].
Defined.
#[export] Instance outcome_countable : Countable EventOutcome.
Proof.
  refine (inj_countable' (fun o => (out_Code o, out_Details o, out_Config o, out_Id o))
            (fun '(a, b, c, d) => mkEventOutcome a b c d) _). by intros [].
Defined.
#[export] Instance response_countable : Countable EventResponse.
Proof.
  refine (inj_countable' (fun r => (rsp_EventId r, rsp_Outcome r)) (fun '(a, b) => mkEventResponse a b) _).
  by intros [].
Defined.

#[export] Instance text_wire T `{Countable T} : ProtoMessage string T := {
  Marshal v := Ok (positive_text (encode v));
  Unmarshal s := match decode (text_positive s) with
                 | Some v => Ok v
                 | None => Fail (Errorf "proto: cannot parse invalid wire-format data")
                 end }.

#[export] Instance text_wire_laws T `{Countable T} : ProtoLaws string T.
Proof. split. intros v b [= <-]. simpl. by rewrite text_positive_text, decode_encode. Qed.

(** A queue that keeps what was sent, newest first, and fails on a script; and
    the environment of the process around it. *)
Record TestQueue := mkTestQueue {
  tq_env : TestEnv;
  tq_sent : list string;
  tq_inbox : list Message;
  tq_deleted : list (option string);
  tq_failures : list bool }.

Definition next_fails (e : TestQueue) : bool := hd false (tq_failures e).

#[export] Instance test_sqs : SqsClient TestQueue := {
  sqs_GetQueueUrl topic e := (Some ("https://sqs/" ++ topic), e);
  sqs_SendMessage url body e :=
    (if next_fails e then Fail (Errorf "sqs: unavailable") else Ok (Some "id"),
     mkTestQueue (tq_env e) (if next_fails e then tq_sent e else body :: tq_sent e) (tq_inbox e)
       (tq_deleted e) (tl (tq_failures e)));
  sqs_ReceiveMessage url e := (Ok (tq_inbox e), e);
  sqs_DeleteMessage url handle e :=
    (if next_fails e then Some (Errorf "sqs: unavailable") else None,
     mkTestQueue (tq_env e) (tq_sent e) (tq_inbox e)
       (if next_fails e then tq_deleted e else handle :: tq_deleted e) (tl (tq_failures e))) }.

#[export] Instance test_sqs_laws : SqsLaws TestQueue.
Proof. split. intros url body e m e'. simpl. destruct (next_fails e); intros [=]; subst; by eexists. Qed.

Definition bad_news (id : string) : EventResponse :=
  mkEventResponse id (Some (mkEventOutcome EventOutcome_FsmNotFound "" "" "")).

Lemma text_roundtrip_witness :
  UnmarshalFromText EventResponse
    (String "010" (EncodeToString (positive_text (encode (bad_news "1"))))) = Ok (bad_news "1").
Proof.
  refine (text_roundtrip (bad_news "1") _ _ eq_refl _). vm_compute. reflexivity.
Defined.

Definition test_queue (inbox : list Message) (failures : list bool) : TestQueue :=
  mkTestQueue (mkTestEnv 0 0 []) [] inbox [] failures.

Lemma Publish_sends_witness :
  exists sent, Publish "dlq" [bad_news "1"; bad_news "2"] (test_queue [] [true]) =
    (Done tt, send_all "https://sqs/dlq" sent (test_queue [] [true])) /\ length sent = 2%nat.
Proof.
  destruct (Publish_sends "dlq" "https://sqs/dlq" [bad_news "1"; bad_news "2"]
    (test_queue [] [true]) (test_queue [] [true])) as (sent & H & Hs); [reflexivity|].
  exists sent. split; [exact H|]. apply Forall2_length in Hs. rewrite <- Hs. reflexivity.
Defined.
