(* ===== verification/SqsSub.v ===== *)
(** * The SQS subscriber: [pkg/pubsub/sqs_sub.go]

    Polling of a queue, and the processing of its messages into event requests
    for the listener. *)

From Stdlib Require Import ZArith Ascii.
From stdpp Require Import base tactics strings list countable gmap.
From S2P Require Import Prelude GoLib Proto Base64 Fsm Keys StoreTypes Redis RedisStore StoreSpec.
From S2P Require Import RedisRefinement Process Listener SqsPub.

(** ** Definitions *)

Definition DefaultPollingInterval : Z := 5 * Second.
Definition DefaultVisibilityTimeout : Z := 5 * Second.
Definition DefaultRetries : Z := 3.

(** The settings of an [SqsSubscriber]; the visibility timeout is only handed
    to the queue. *)
Record SqsSubscriber := mkSqsSubscriber {
  ss_Timeout : Z;
  ss_PollingInterval : Z;
  MessageRemoveRetries : Z }.

(** The settings that [NewSqsSubscriber] gives. *)
Definition subscriber_settings : SqsSubscriber :=
  mkSqsSubscriber DefaultVisibilityTimeout DefaultPollingInterval DefaultRetries.

(** The rest of what a subscriber meets: whether its [done] channel has a
    value, the order in which the goroutines of a batch get to run, and what has
    become of the world when the listener takes a request that is being sent. *)
Class Scheduler (E : Type) := {
  done_ready : E -> bool * E;
  schedule : list Message -> E -> list Message * E;
  event_sent : EventRequest -> E -> E }.

Class SchedulerLaws (E : Type) `{!Scheduler E} : Prop := {
  schedule_perm : forall msgs e, fst (schedule msgs e) ≡ₚ msgs }.

Section subscriber.
Context {S E : Type} `{!ServerEnv E, !SqsClient E, !Scheduler E, !ProtoMessage string EventRequest}.
Variable s : SqsSubscriber.

Abbreviation M := (Go (Process S E)).

(** The loop that removes a message: it stops at the first success. *)
Fixpoint remove_loop (n : nat) (queueUrl : string) (msg : Message) : M () :=
  match n with
  | O => mret tt
  | Datatypes.S n' =>
      deref (MessageId msg);;
      err ← env_op (sqs_DeleteMessage queueUrl (ReceiptHandle msg));
      match err with
      | Some _ => remove_loop n' queueUrl msg
      | None => mret tt
      end
  end.

(** The send on the events channel completes when the listener takes the
    request. *)
Definition ProcessMessage (msg : Message) (queueUrl : string) : M () :=
  deref (MessageId msg);;
  match Body msg with
  | None => mret tt
  | Some body =>
      match UnmarshalFromText EventRequest body with
      | Fail err => mret tt
      | Ok request =>
          let destId := req_Id request in
          if destId =s "" then mret tt
          else
            ev ← on_env (UpdateEvent (req_Event request));
            let request := mkEventRequest (Some ev) (req_Config request) (req_Id request) in
            post_event request;;
            env_op (fun e => (tt, event_sent request e));;
            remove_loop (Z.to_nat (MessageRemoveRetries s)) queueUrl msg
      end
  end.

(** The goroutines of a batch, in the order they get to run. *)
Fixpoint process_all (msgs : list Message) (queueUrl : string) : M () :=
  match msgs with
  | [] => mret tt
  | msg :: msgs' => ProcessMessage msg queueUrl;; process_all msgs' queueUrl
  end.

(** One round of polling. *)
Definition poll (queueUrl : string) : M () :=
  start ← env_op time_Now;
  msgResult ← env_op (sqs_ReceiveMessage queueUrl);
  (match msgResult with
   | Ok msgs => order ← env_op (schedule msgs); process_all order queueUrl
   | Fail err => mret tt
   end);;
  now ← env_op time_Now;
  let timeLeft := ss_PollingInterval s - (now - start) in
  if (0 <? timeLeft)%Z then env_op (fun e => (tt, time_Sleep timeLeft e)) else mret tt.

(** Rounds until the [done] channel speaks; [fuel] bounds their number. *)
Fixpoint Subscribe_loop (fuel : nat) (queueUrl : string) : M () :=
  match fuel with
  | O => go_spin
  | Datatypes.S fuel' =>
      stop ← env_op done_ready;
      if (stop : bool) then mret tt else poll queueUrl;; Subscribe_loop fuel' queueUrl
  end.

Definition Subscribe (fuel : nat) (topic : string) : M () :=
  queueUrl ← on_env (GetQueueUrl topic);
  Subscribe_loop fuel queueUrl.

End subscriber.

(** The request a message carries, if it is one that is passed on. *)
Definition accepted `{!ProtoMessage string EventRequest} (msg : Message) : option EventRequest :=
  body ← Body msg;
  match UnmarshalFromText EventRequest body with
  | Fail _ => None
  | Ok request => if req_Id request =s "" then None else Some request
  end.

(** [posted] is [request] with its event completed. *)
Definition completes_request (request posted : EventRequest) : Prop :=
  exists ev ev', req_Event request = Some ev /\ completes ev ev' /\
    posted = mkEventRequest (Some ev') (req_Config request) (req_Id request).

(** The environment after [k] attempts to delete, and the answer of attempt [k]. *)
Definition after_deletes {E} `{!SqsClient E} (url : string) (handle : option string) (k : nat) (e : E) : E :=
  Nat.iter k (fun e => snd (sqs_DeleteMessage url handle e)) e.
Definition delete_fails {E} `{!SqsClient E} (url : string) (handle : option string) (k : nat) (e : E) : bool :=
  match fst (sqs_DeleteMessage url handle (after_deletes url handle k e)) with
  | Some _ => true
  | None => false
  end.

(** [k] attempts were made: all but the last failed, and either the last one
    succeeded or they were [n]. *)
Definition delete_attempts {E} `{!SqsClient E} (url : string) (handle : option string) (n k : nat) (e : E) : Prop :=
  (k <= n)%nat /\ (forall i, (S i < k)%nat -> delete_fails url handle i e = true) /\
  (k = n \/ exists i, k = S i /\ delete_fails url handle i e = false).

(** ** Lemmas *)

Section lemmas.
Context {S E : Type} `{!ServerEnv E, !GoEnvLaws E, !SqsClient E, !Scheduler E,
  !ProtoMessage string EventRequest}.

Lemma after_deletes_S url h k (e : E) :
  after_deletes url h k (snd (sqs_DeleteMessage url h e)) = after_deletes url h (Datatypes.S k) e.
Proof. unfold after_deletes. by rewrite Nat.iter_succ_r. Qed.

Lemma delete_fails_S url h k (e : E) :
  delete_fails url h k (snd (sqs_DeleteMessage url h e)) = delete_fails url h (Datatypes.S k) e.
Proof. unfold delete_fails. by rewrite after_deletes_S. Qed.

Lemma remove_loop_run n url msg (p : Process S E) : is_Some (MessageId msg) ->
  exists k, delete_attempts url (ReceiptHandle msg) n k (p_env p) /\
    remove_loop n url msg p =
      (Done tt, set_env p (after_deletes url (ReceiptHandle msg) k (p_env p))).
Proof.
  intros [i Hi]. revert p. induction n as [|n IH]; intros p; cbn [remove_loop].
  - exists O. split; [|by destruct p]. split_and!; [lia|intros; lia|by left].
  - rewrite Hi, go_bind_deref, env_op_step.
    destruct (fst (sqs_DeleteMessage url (ReceiptHandle msg) (p_env p))) as [err|] eqn:Ed.
    + destruct (IH (set_env p (snd (sqs_DeleteMessage url (ReceiptHandle msg) (p_env p)))))
        as (k & (Hk & Hf & Hl) & ->).
      exists (Datatypes.S k). simpl p_env in *. rewrite after_deletes_S. split; [|done].
      split_and!; [lia| |].
      * intros [|j] Hj; [unfold delete_fails, after_deletes; simpl; by rewrite Ed|].
        rewrite <- delete_fails_S. apply Hf. lia.
      * destruct Hl as [->|(j & -> & Hj)]; [by left|right]. exists (Datatypes.S j). split; [done|].
        by rewrite <- delete_fails_S.
    + exists 1%nat. split; [|done]. split_and!; [lia|intros; lia|right]. exists O. split; [done|].
      unfold delete_fails, after_deletes. simpl. by rewrite Ed.
Qed.

(** What becomes of a message. *)
Lemma ProcessMessage_run s msg url (p : Process S E) : is_Some (MessageId msg) ->
  match accepted msg with
  | None => ProcessMessage s msg url p = (Done tt, p)
  | Some request =>
      match req_Event request with
      | None => ProcessMessage s msg url p = (Panicked, p)
      | Some ev => exists ev' e1 k,
          let posted := mkEventRequest (Some ev') (req_Config request) (req_Id request) in
          let taken := event_sent posted e1 in
          UpdateEvent (Some ev) (p_env p) = (Done ev', e1) /\ completes ev ev' /\
          delete_attempts url (ReceiptHandle msg) (Z.to_nat (MessageRemoveRetries s)) k taken /\
          ProcessMessage s msg url p =
            (Done tt, mkProcess (p_store p) (after_deletes url (ReceiptHandle msg) k taken)
               (p_events p ++ [posted]) (p_notifications p))
      end
  end.
Proof.
  intros Hi. pose proof Hi as [i Hi']. unfold ProcessMessage, accepted. rewrite Hi', go_bind_deref.
  destruct (Body msg) as [body|]; simpl; [|done].
  destruct (UnmarshalFromText EventRequest body) as [request|]; [|done].
  destruct (req_Id request =s ""); [done|].
  destruct (req_Event request) as [ev|].
  - destruct (UpdateEvent_spec ev (p_env p)) as (ev' & e1 & E1 & Hc).
    rewrite (on_env_step _ _ _ _ _ E1). set (posted := mkEventRequest _ _ _).
    unfold mbind, go_bind, post_event, go_modify, env_op, on_env. cbn [p_env p_store p_events p_notifications set_env].
    destruct (remove_loop_run (Z.to_nat (MessageRemoveRetries s)) url msg
      (mkProcess (p_store p) (event_sent posted e1) (p_events p ++ [posted]) (p_notifications p)) Hi)
      as (k & Hk & E2).
    exists ev', e1, k. split_and!; [done..|]. exact E2.
  - unfold mbind, go_bind, on_env. simpl. by destruct p.
Qed.

(** A batch of messages that all carry an event. *)
Lemma process_all_run s msgs url (p : Process S E) :
  Forall (fun msg => is_Some (MessageId msg) /\
            forall request, accepted msg = Some request -> is_Some (req_Event request)) msgs ->
  exists posted e',
    process_all s msgs url p =
      (Done tt, mkProcess (p_store p) e' (p_events p ++ posted) (p_notifications p)) /\
    Forall2 completes_request (omap accepted msgs) posted.
Proof.
  intros H. revert p. induction H as [|msg msgs [Hi Hev] _ IH]; intros p; cbn [process_all].
  { exists [], (p_env p). rewrite app_nil_r. split; [by destruct p|constructor]. }
  pose proof (ProcessMessage_run s msg url p Hi) as Hm. simpl.
  destruct (accepted msg) as [request|].
  - destruct (Hev request eq_refl) as [ev He]. rewrite He in Hm.
    destruct Hm as (ev' & e1 & k & _ & Hc & _ & E1). rewrite (go_bind_done _ _ _ _ _ E1).
    edestruct IH as (posted & e' & -> & Hp). eexists (_ :: posted), e'. simpl. split.
    + by rewrite <- app_assoc.
    + constructor; [|done]. by exists ev, ev'.
  - rewrite (go_bind_done _ _ _ _ _ Hm). apply IH.
Qed.
End lemmas.

(** Completing the events changes nothing for the automaton. *)
Lemma completes_run c s cfg id requests posted :
  Forall2 completes_request requests posted ->
  fst (automaton_run c s (events_for cfg id posted)) = fst (automaton_run c s (events_for cfg id requests)).
Proof.
  intros H. revert s. induction H as [|r r' rs rs' (ev & ev' & He & Hc & ->) _ IH]; intros s; [done|].
  unfold events_for. simpl. change (omap _ rs) with (events_for cfg id rs).
  change (omap _ rs') with (events_for cfg id rs'). case_decide; [|apply IH]. rewrite He. simpl.
  destruct Hc as (_ & _ & _ & _ & _ & Ht & _). rewrite Ht.
  destruct (evt_Transition ev) as [tr|]; [|done].
  destruct (enabled c s (tr_Event tr)); simpl; apply IH.
Qed.

Lemma completes_good request posted :
  completes_request request posted -> good_request request -> good_request posted.
Proof.
  intros (ev & ev' & He & (Hne & _ & Hid & Hutf & _ & Ht & Ho & Hd) & ->) [Hv Hcar].
  unfold good_request, valid_request in *. rewrite He in *. simpl in *. rewrite Ht. split; [|done].
  apply andb_true_iff in Hv as [-> Hv]. simpl.
  unfold valid_message, message_strings, event_strings in *. simpl in *. rewrite Ht, Ho, Hd.
  destruct (decide (evt_EventId ev = "")) as [E0|E0].
  - rewrite Hutf by done. rewrite E0 in Hv. exact Hv.
  - by rewrite Hid.
Qed.

(** ** Properties *)

(** C31. A message becomes one event request or none: a message without a
    body, with a body that does not decode, or without a destination is
    neither passed on nor removed from the queue; one without an event panics
    the process; every other is posted exactly once to the listener with its
    event completed, and removed from the queue as it is after the listener took
    the request, in at most [MessageRemoveRetries] attempts that stop at the
    first success. *)
Theorem ProcessMessage_outcomes {S E} `{!ServerEnv E, !GoEnvLaws E, !SqsClient E, !Scheduler E,
    !ProtoMessage string EventRequest} s msg url (p : Process S E) :
  is_Some (MessageId msg) ->
  match accepted msg with
  | None => ProcessMessage s msg url p = (Done tt, p)
  | Some request =>
      (req_Event request = None -> ProcessMessage s msg url p = (Panicked, p)) /\
      (is_Some (req_Event request) -> exists ev' e1 k,
         let posted := mkEventRequest (Some ev') (req_Config request) (req_Id request) in
         let taken := event_sent posted e1 in
         UpdateEvent (req_Event request) (p_env p) = (Done ev', e1) /\
         completes_request request posted /\
         delete_attempts url (ReceiptHandle msg) (Z.to_nat (MessageRemoveRetries s)) k taken /\
         ProcessMessage s msg url p =
           (Done tt, mkProcess (p_store p) (after_deletes url (ReceiptHandle msg) k taken)
              (p_events p ++ [posted]) (p_notifications p)))
  end.
Proof.
  intros Hi. pose proof (ProcessMessage_run s msg url p Hi) as H.
  destruct (accepted msg) as [request|]; [|done].
  destruct (req_Event request) as [ev|] eqn:He; (split; [intros Hn|intros Hn]); try done.
  destruct H as (ev' & e1 & k & Hu & Hc & Hk & E1). exists ev', e1, k. split_and!; [done| |done|exact E1].
  by exists ev, ev'.
Qed.

(** C12. From the queue to the machines: whatever order the goroutines of a
    batch run in, the requests of its messages reach the listener, and serving
    them leaves every machine in the state its automaton reaches on the
    events addressed to it, in that order. *)
Theorem batch_drives_machines {B} `{!ProtoMessage B Configuration, !ProtoMessage B FiniteStateMachine,
    !ProtoMessage B Event, !ProtoMessage B EventOutcome, !ProtoTotal B FiniteStateMachine,
    !ProtoTotal B Event, !ProtoTotal B EventOutcome}
    {E} `{!ServerEnv E, !GoEnvLaws E, !SqsClient E, !Scheduler E, !ProtoMessage string EventRequest}
    notifications s msgs order url cfg id f c (p : Process Store E) :
  order ≡ₚ msgs ->
  Forall (fun msg => is_Some (MessageId msg)) msgs ->
  Forall good_request (omap accepted msgs) ->
  valid_store (p_store p) -> cfg <> "" -> id <> "" -> p_events p = [] ->
  st_fsms (p_store p) !! (cfg, id) = Some f -> st_configs (p_store p) !! fsm_ConfigId f = Some c ->
  exists p1 p2, process_all s order url p = (Done tt, p1) /\
    ListenForMessages (spec_manager B) notifications (p_events p1) p1 = (Done tt, p2) /\
    fsm_State <$> (st_fsms (p_store p2) !! (cfg, id)) =
      Some (fst (automaton_run c (fsm_State f) (events_for cfg id (omap accepted order)))).
Proof.
  intros Hperm Hids Hgood Hs Hc Hi Hev0 Hf Hcfg.
  assert (Hg : Forall good_request (omap accepted order)) by by rewrite Hperm.
  assert (Hmsgs : Forall (fun msg => is_Some (MessageId msg) /\
            forall request, accepted msg = Some request -> is_Some (req_Event request)) order).
  { rewrite Hperm. apply Forall_and. split; [done|]. apply Forall_forall. intros msg Hin request Hr.
    rewrite Forall_forall in Hgood. destruct (Hgood request) as [_ [t Ht]].
    - apply list_elem_of_omap. eauto.
    - destruct (req_Event request); [by eexists|done]. }
  destruct (process_all_run s order url p Hmsgs) as (posted & e' & E1 & H2).
  rewrite Hev0 in E1. simpl in E1. eexists. 
  assert (Hposted : Forall good_request posted).
  { clear -H2 Hg. induction H2; inversion Hg; subst; constructor; eauto using completes_good. }
  edestruct (ListenForMessages_run (B:=B) notifications posted cfg id f c
    (mkProcess (p_store p) e' posted (p_notifications p))) as (p2 & E2 & _ & Hl); try done.
  exists p2. split_and!; [exact E1|exact E2|]. rewrite Hl. simpl. by rewrite (completes_run _ _ _ _ _ _ H2).
Qed.

(** *** Examples *)

#[export] Instance queue_env : GoEnv TestQueue := {
  rand_Intn n e := (0, e);
  time_Sleep d e := mkTestQueue (time_Sleep d (tq_env e)) (tq_sent e) (tq_inbox e) (tq_deleted e) (tq_failures e);
  uuid_NewString e :=
    (test_uuid (te_ids (tq_env e)),
     mkTestQueue (snd (uuid_NewString (tq_env e))) (tq_sent e) (tq_inbox e) (tq_deleted e) (tq_failures e));
  timestamppb_Now e := (te_clock (tq_env e), e) }.

#[export] Instance queue_env_laws : GoEnvLaws TestQueue.
Proof. split; [simpl; intros; lia|done|intros w; apply test_uuid_utf8]. Qed.

#[export] Instance queue_server_env : ServerEnv TestQueue := {
  server_env := queue_env;
  time_Now e := (te_clock (tq_env e), e);
  ctx_Err c e := (None, e);
  select_send d e := (true, e);
  stream_SendMsg e := (None, e) }.

Definition sqs_message (request : EventRequest) : Message :=
  mkMessage (Some "m") (Some (EncodeToString (positive_text (encode request)))) (Some "h").

Definition poison : EventRequest := mkEventRequest None "mars_rover" "7".

(** The clock moves on while the listener takes a request. *)
#[export] Instance queue_scheduler : Scheduler TestQueue := {
  done_ready e := (true, e);
  schedule msgs e := (msgs, e);
  event_sent r e :=
    mkTestQueue (time_Sleep 1 (tq_env e)) (tq_sent e) (tq_inbox e) (tq_deleted e) (tq_failures e) }.

(** The poison ends the process; an event is posted, and removed at the second
    attempt, the first one having failed. *)
Lemma ProcessMessage_outcomes_witness :
  fst (ProcessMessage subscriber_settings (sqs_message poison) "url"
         (mkProcess tt (test_queue [] []) [] [])) = Panicked /\
  exists posted, completes_request (rover_request "1" "launch" "7") posted /\
    ProcessMessage subscriber_settings (sqs_message (rover_request "1" "launch" "7")) "url"
      (mkProcess tt (test_queue [] [true]) [] []) =
    (Done tt, mkProcess tt (mkTestQueue (mkTestEnv 1 0 []) [] [] [Some "h"] []) [posted] []).
Proof.
  split.
  - pose proof (ProcessMessage_outcomes subscriber_settings (sqs_message poison) "url"
      (mkProcess tt (test_queue [] []) [] []) (mk_is_Some _ _ eq_refl)) as H.
    assert (Ha : accepted (sqs_message poison) = Some poison) by (vm_compute; reflexivity).
    rewrite Ha in H. rewrite (proj1 H eq_refl). reflexivity.
  - pose proof (ProcessMessage_outcomes subscriber_settings (sqs_message (rover_request "1" "launch" "7")) "url"
      (mkProcess tt (test_queue [] [true]) [] []) (mk_is_Some _ _ eq_refl)) as H.
    assert (Ha : accepted (sqs_message (rover_request "1" "launch" "7")) = Some (rover_request "1" "launch" "7"))
      by (vm_compute; reflexivity).
    rewrite Ha in H. destruct (proj2 H (mk_is_Some _ _ eq_refl)) as (ev' & e1 & k & Hu & Hc & _ & _).
    exists (mkEventRequest (Some ev') "mars_rover" "7"). split; [exact Hc|].
    vm_compute in Hu. injection Hu as <- _. vm_compute. reflexivity.
Defined.

Definition launch_then_land : list Message :=
  [sqs_message (rover_request "1" "launch" "7"); sqs_message (rover_request "2" "land" "7")].

Definition at_base : Process Store TestQueue := mkProcess rover_store (test_queue [] []) [] [].

Lemma batch_drives_machines_witness :
  exists p1 p2,
    process_all subscriber_settings (rev launch_then_land) "url" at_base = (Done tt, p1) /\
    ListenForMessages (spec_manager wire) true (p_events p1) p1 = (Done tt, p2) /\
    fsm_State <$> (st_fsms (p_store p2) !! ("mars_rover", "7")) = Some "orbit".
Proof.
  assert (Ha : omap accepted launch_then_land =
    [rover_request "1" "launch" "7"; rover_request "2" "land" "7"]) by (vm_compute; reflexivity).
  destruct (batch_drives_machines (B:=wire) true subscriber_settings launch_then_land
    (rev launch_then_land) "url" "mars_rover" "7" rover_fsm mars_rover at_base)
    as (p1 & p2 & E1 & E2 & E3).
  - symmetry. apply Permutation_rev.
  - repeat constructor; eexists; reflexivity.
  - rewrite Ha. repeat constructor; eexists; reflexivity.
  - exact rover_valid.
  - discriminate.
  - discriminate.
  - reflexivity.
  - reflexivity.
  - reflexivity.
  - exists p1, p2. split; [exact E1|]. split; [exact E2|]. rewrite E3. vm_compute. reflexivity.
Defined.
