(* ===== verification/Cli.v ===== *)
(** * The command-line client: [fsm-cli/client]

    [client.go], [handlers.go] and [types.go]: sending an entity of a YAML file
    to the server, and retrieving one. *)

From Stdlib Require Import ZArith Ascii.
From stdpp Require Import base tactics strings list.
From S2P Require Import Prelude GoLib Proto Fsm StoreTypes StoreSpec Process GrpcServer.

(** ** Definitions *)

Definition Version : string := "v1alpha".
Definition KindConfiguration : string := "Configuration".
Definition KindFiniteStateMachine : string := "FiniteStateMachine".
Definition KindEvent : string := "EventRequest".
Definition StdinFlag : string := "--".

Definition cli_MaxRetries : nat := 5.
Definition IntervalBetweenRetries : Z := 200 * Millisecond.

Record GenericEntity := mkEntity {
  ge_Version : string;
  ge_Kind : string;
  ge_Id : string }.

Record ConfigEntity := mkConfigEntity { ce_Entity : GenericEntity; ce_Spec : option Configuration }.
Record FsmEntity := mkFsmEntity { fe_Entity : GenericEntity; fe_Spec : option FiniteStateMachine }.
Record EventRequestEntity := mkEventEntity { ee_Entity : GenericEntity; ee_Spec : option EventRequest }.

(** What a handler returns as [interface{}]: nothing, or a pointer to a
    response. *)
Inductive response :=
| RespNil
| RespPut (r : option PutResponse)
| RespEvent (r : option EventResponse).

(** The values that are printed as YAML. *)
Inductive printable :=
| PrintResponse (r : response)
| PrintConfiguration (c : option Configuration)
| PrintFsm (f : option FiniteStateMachine).

(** The stub of the service on a connection; a call gives a pointer and an
    error.  Its deadline of five seconds is part of what the stub answers. *)
Class ServiceClient (W : Type) := {
  rpc_SendEvent : EventRequest -> W -> (option EventResponse * option error) * W;
  rpc_GetEventOutcome : EventRequest -> W -> (option EventResponse * option error) * W;
  rpc_PutConfiguration : option Configuration -> W -> (option PutResponse * option error) * W;
  rpc_PutFiniteStateMachine : PutFsmRequest -> W -> (option PutResponse * option error) * W;
  rpc_GetConfiguration : string -> W -> (option Configuration * option error) * W;
  rpc_GetFiniteStateMachine : GetFsmRequest -> W -> (option FiniteStateMachine * option error) * W }.

(** Files, YAML, the standard output, and title case. *)
Class CliEnv (W : Type) := {
  File : Type;
  os_Stdin : File;
  os_Open : string -> W -> Res File * W;
  io_ReadAll : File -> W -> Res string * W;
  yaml_GenericEntity : string -> Res GenericEntity;
  yaml_ConfigEntity : string -> Res ConfigEntity;
  yaml_FsmEntity : string -> Res FsmEntity;
  yaml_EventRequestEntity : string -> Res EventRequestEntity;
  yaml_Marshal : printable -> Res string;
  fmt_Print : string -> W -> W;
  titleCase : string -> string;
  StatusCode_String : StatusCode -> string }.

Definition newline : string := String "010" "".

(** [status.FromError]: an error that is not a status has the code [Unknown]. *)
Definition getStatusCode (err : error) : Code :=
  match err with StatusError c _ => c | _ => codes_Unknown end.

Section client.
Context {W : Type} `{!GoEnv W, !ServiceClient W, !CliEnv W}.

Abbreviation M := (Go W).

(** An operation of the world that always returns. *)
Definition call {A} (f : W -> A * W) : M A := fun w => let (a, w') := f w in (Done a, w').
Definition print (s : string) : M () := fun w => (Done tt, fmt_Print s w).

(** The loop over [remain]; the last answer is kept when it runs out. *)
Fixpoint outcome_loop (remain : nat) (request : EventRequest) (outcome : option EventResponse)
    : M (option EventResponse) :=
  match remain with
  | O => mret outcome
  | Datatypes.S remain' =>
      r ← call (rpc_GetEventOutcome request);
      match r with
      | (outcome, Some err) =>
          if getStatusCode err =s codes_NotFound then
            call (fun w => (tt, time_Sleep IntervalBetweenRetries w));;
            outcome_loop remain' request outcome
          else mret outcome
      | (outcome, None) => mret outcome
      end
  end.

Definition sendEvent (request : option EventRequest) : M (option EventResponse * option error) :=
  request ← deref request;
  ev ← UpdateEvent (req_Event request);
  r ← call (rpc_SendEvent (mkEventRequest (Some ev) (req_Config request) (req_Id request)));
  match r with
  | (_, Some err) => mret (None, Some err)
  | (response, None) =>
      let evtId := match response with Some r => rsp_EventId r | None => "" end in
      print ("Event ID: " ++ evtId ++ newline);;
      outcome ← outcome_loop cli_MaxRetries (mkEventRequest None (req_Config request) evtId) None;
      mret (outcome, None)
  end.

Definition HandlerFunc : Type := string -> M (response * option error).

Definition send_configuration : HandlerFunc := fun data =>
  match yaml_ConfigEntity data with
  | Fail err => mret (RespNil, Some err)
  | Ok c => r ← call (rpc_PutConfiguration (ce_Spec c)); mret (RespPut (fst r), snd r)
  end.

Definition send_fsm : HandlerFunc := fun data =>
  match yaml_FsmEntity data with
  | Fail err => mret (RespNil, Some err)
  | Ok fsm =>
      let request := mkPutFsm (ge_Id (fe_Entity fsm)) (fe_Spec fsm) in
      r ← call (rpc_PutFiniteStateMachine request); mret (RespPut (fst r), snd r)
  end.

Definition send_event : HandlerFunc := fun data =>
  match yaml_EventRequestEntity data with
  | Fail err => mret (RespNil, Some err)
  | Ok evt => r ← sendEvent (ee_Spec evt); mret (RespEvent (fst r), snd r)
  end.

(** The map of handlers, by kind. *)
Definition SendHandlers (kind : string) : option HandlerFunc :=
  if kind =s KindConfiguration then Some send_configuration
  else if kind =s KindFiniteStateMachine then Some send_fsm
  else if kind =s KindEvent then Some send_event
  else None.

(** The response of an event is dereferenced without a check. *)
Definition Send (path : string) : M (option error) :=
  f ← (if path =s StdinFlag then mret (Ok os_Stdin) else call (os_Open path));
  match f with
  | Fail err => mret (Some (Errorf (Sprintf "cannot open %s: %v" [path; error_text err])))
  | Ok f =>
      data ← call (io_ReadAll f);
      match data with
      | Fail err => mret (Some err)
      | Ok data =>
          match yaml_GenericEntity data with
          | Fail err => mret (Some err)
          | Ok entity =>
              if negb (ge_Version entity =s Version) then
                mret (Some (Errorf (Sprintf "unsupported version %s" [ge_Version entity])))
              else
                match SendHandlers (ge_Kind entity) with
                | None => mret (Some (Errorf (Sprintf "unknown Kind: %s" [ge_Kind entity])))
                | Some handler =>
                    r ← handler data;
                    match r with
                    | (_, Some grpcErr) =>
                        (if getStatusCode grpcErr =s codes_AlreadyExists
                         then print ("entity `" ++ ge_Kind entity ++ "` exists" ++ newline)
                         else mret tt);;
                        mret (Some grpcErr)
                    | (resp, None) =>
                        match yaml_Marshal (PrintResponse resp) with
                        | Fail err => mret (Some err)
                        | Ok out =>
                            print ("Result:" ++ newline ++ out);;
                            (match resp with
                             | RespEvent resp =>
                                 resp ← deref resp;
                                 outcome ← deref (rsp_Outcome resp);
                                 print ("Outcome.Code: " ++ StatusCode_String (out_Code outcome) ++ newline)
                             | _ => mret tt
                             end);;
                            mret None
                        end
                    end
                end
          end
      end
  end.

Definition PathSeparator : ascii := "/"%char.

Definition show (v : printable) : M (option error) :=
  match yaml_Marshal v with
  | Fail err => mret (Some err)
  | Ok data => print (data ++ newline);; mret None
  end.

Definition Get (kind id : string) : M (option error) :=
  if kind =s KindConfiguration then
    r ← call (rpc_GetConfiguration id);
    match r with
    | (_, Some err) => mret (Some err)
    | (cfg, None) => show (PrintConfiguration cfg)
    end
  else if kind =s KindFiniteStateMachine then
    match Split id PathSeparator with
    | [cfg; fsm] =>
        r ← call (rpc_GetFiniteStateMachine (mkGetFsm cfg (Some (GetFsmRequest_Id fsm))));
        match r with
        | (_, Some err) => mret (Some err)
        | (fsm, None) => show (PrintFsm fsm)
        end
    | _ =>
        mret (Some (Errorf (Sprintf
          "expected an FSM ID of the form `config-name/fsm-id`, got instead %s" [id])))
    end
  else
    mret (Some (Errorf (Sprintf
      "kind `%s` unknown, please note they are case-sensitive (did you mean %s?)" [kind; titleCase kind]))).

End client.

(** The generated stub returns no response with an error. *)
Class ClientLaws (W : Type) `{!ServiceClient W} : Prop := {
  GetEventOutcome_error : forall req w o err w',
    rpc_GetEventOutcome req w = ((o, Some err), w') -> o = None }.

(** The world before poll [k], when all polls before it found nothing; and the
    answer of that poll. *)
Definition before_poll {W} `{!GoEnv W, !ServiceClient W} (request : EventRequest) (k : nat) (w : W) : W :=
  Nat.iter k (fun w => time_Sleep IntervalBetweenRetries (snd (rpc_GetEventOutcome request w))) w.
Definition poll_answer {W} `{!GoEnv W, !ServiceClient W} (request : EventRequest) (k : nat) (w : W)
    : option EventResponse * option error :=
  fst (rpc_GetEventOutcome request (before_poll request k w)).

Definition is_not_found (a : option EventResponse * option error) : bool :=
  match snd a with Some err => getStatusCode err =s codes_NotFound | None => false end.

(** ** Lemmas *)

Section lemmas.
Context {W : Type} `{!GoEnv W, !ServiceClient W, !CliEnv W}.

Lemma call_step {A C} (f : W -> A * W) (k : A -> Go W C) w :
  (call f ≫= k) w = k (fst (f w)) (snd (f w)).
Proof. unfold mbind, go_bind, call. by destruct (f w). Qed.

Lemma before_poll_S request k (w : W) :
  before_poll request k (time_Sleep IntervalBetweenRetries (snd (rpc_GetEventOutcome request w))) =
  before_poll request (S k) w.
Proof. unfold before_poll. by rewrite Nat.iter_succ_r. Qed.

Lemma poll_answer_S request k (w : W) :
  poll_answer request k (time_Sleep IntervalBetweenRetries (snd (rpc_GetEventOutcome request w))) =
  poll_answer request (S k) w.
Proof. unfold poll_answer. by rewrite before_poll_S. Qed.

(** The loop stops at the first answer that is not [NotFound]. *)
Lemma outcome_loop_run n request o (w : W) :
  (exists k, (k < n)%nat /\ (forall i, (i < k)%nat -> is_not_found (poll_answer request i w) = true) /\
     is_not_found (poll_answer request k w) = false /\
     outcome_loop n request o w =
       (Done (fst (poll_answer request k w)), snd (rpc_GetEventOutcome request (before_poll request k w)))) \/
  ((forall i, (i < n)%nat -> is_not_found (poll_answer request i w) = true) /\
   outcome_loop n request o w =
     (Done (match n with O => o | S k => fst (poll_answer request k w) end), before_poll request n w)).
Proof.
  revert o w. induction n as [|n IH]; intros o w; cbn [outcome_loop]; [right; split; [lia|done]|].
  rewrite call_step.
  assert (H0 : fst (rpc_GetEventOutcome request w) = poll_answer request 0 w) by done. rewrite H0.
  destruct (poll_answer request 0 w) as [o0 [err|]] eqn:E0.
  - destruct (getStatusCode err =s codes_NotFound) eqn:Ec.
    + rewrite call_step. simpl.
      destruct (IH o0 (time_Sleep IntervalBetweenRetries (snd (rpc_GetEventOutcome request w))))
        as [(k & Hk & Hb & Hn & ->)|[Hb ->]].
      * left. exists (S k). rewrite poll_answer_S in Hn. rewrite poll_answer_S, before_poll_S.
        split_and!; [lia| |done|done]. intros [|i] Hi; [by rewrite E0|].
        rewrite <- poll_answer_S. apply Hb. lia.
      * right. rewrite before_poll_S. split.
        { intros [|i] Hi; [by rewrite E0|]. rewrite <- poll_answer_S. apply Hb. lia. }
        destruct n as [|n]; [by rewrite E0|]. by rewrite poll_answer_S.
    + left. exists O. rewrite E0. split_and!; [lia|intros; lia|done|done].
  - left. exists O. rewrite E0. split_and!; [lia|intros; lia|done|done].
Qed.

(** Sending an event that the server takes. *)
Lemma sendEvent_run request (w : W) ev w0 response w1 :
  UpdateEvent (req_Event request) w = (Done ev, w0) ->
  rpc_SendEvent (mkEventRequest (Some ev) (req_Config request) (req_Id request)) w0 =
    ((Some response, None), w1) ->
  sendEvent (Some request) w =
    (outcome ← outcome_loop cli_MaxRetries
                 (mkEventRequest None (req_Config request) (rsp_EventId response)) None;
     mret (outcome, None)) (fmt_Print ("Event ID: " ++ rsp_EventId response ++ newline) w1).
Proof.
  intros H1 H2. unfold sendEvent. rewrite go_bind_deref, (go_bind_done _ _ _ _ _ H1).
  rewrite call_step, H2. simpl. unfold mbind at 1, go_bind at 1, print. reflexivity.
Qed.

Lemma Send_event_run path data entity evt (w wr : W) :
  path <> StdinFlag ->
  (exists f w0, os_Open path w = (Ok f, w0) /\ io_ReadAll f w0 = (Ok data, wr)) ->
  yaml_GenericEntity data = Ok entity -> ge_Version entity = Version -> ge_Kind entity = KindEvent ->
  yaml_EventRequestEntity data = Ok evt ->
  Send path w =
  (r ← send_event data;
   match r with
   | (_, Some grpcErr) =>
       (if getStatusCode grpcErr =s codes_AlreadyExists
        then print ("entity `" ++ ge_Kind entity ++ "` exists" ++ newline)
        else mret tt);;
       mret (Some grpcErr)
   | (resp, None) =>
       match yaml_Marshal (PrintResponse resp) with
       | Fail err => mret (Some err)
       | Ok out =>
           print ("Result:" ++ newline ++ out);;
           (match resp with
            | RespEvent resp =>
                resp ← deref resp;
                outcome ← deref (rsp_Outcome resp);
                print ("Outcome.Code: " ++ StatusCode_String (out_Code outcome) ++ newline)
            | _ => mret tt
            end);;
           mret None
       end
   end) wr.
Proof.
  intros Hp (f & w0 & Ho & Hr) Hg Hv Hk He. unfold Send. rewrite bool_decide_ne by done.
  rewrite call_step, Ho. simpl. rewrite call_step, Hr. simpl. rewrite Hg, Hv, Hk.
  rewrite bool_decide_refl. unfold SendHandlers. rewrite (bool_decide_refl KindEvent). done.
Qed.
End lemmas.

(** ** Properties *)

(** C33. After the server took an event, the client asks for its outcome at
    most five times, 200 milliseconds apart, until an answer is not
    [NotFound]; what it reports is that answer, or nothing after five. *)
Theorem sendEvent_polls {W} `{!GoEnv W, !ServiceClient W, !CliEnv W, !ClientLaws W}
    request (w : W) ev w0 response w1 :
  UpdateEvent (req_Event request) w = (Done ev, w0) ->
  rpc_SendEvent (mkEventRequest (Some ev) (req_Config request) (req_Id request)) w0 =
    ((Some response, None), w1) ->
  let ask := mkEventRequest None (req_Config request) (rsp_EventId response) in
  let w2 := fmt_Print ("Event ID: " ++ rsp_EventId response ++ newline) w1 in
  exists o, fst (sendEvent (Some request) w) = Done (o, None) /\
  ((exists k, (k < 5)%nat /\ (forall i, (i < k)%nat -> is_not_found (poll_answer ask i w2) = true) /\
      is_not_found (poll_answer ask k w2) = false /\ o = fst (poll_answer ask k w2)) \/
   ((forall i, (i < 5)%nat -> is_not_found (poll_answer ask i w2) = true) /\ o = None)).
Proof.
  intros H1 H2. cbv zeta. rewrite (sendEvent_run request w ev w0 response w1 H1 H2).
  set (ask := mkEventRequest None _ _). set (w2 := fmt_Print _ w1).
  destruct (outcome_loop_run cli_MaxRetries ask None w2) as [(k & Hk & Hb & Hn & E)|[Hb E]];
    rewrite (go_bind_done _ _ _ _ _ E); (eexists; split; [reflexivity|]).
  - left. by exists k.
  - right. split; [exact Hb|]. specialize (Hb 4%nat ltac:(unfold cli_MaxRetries; lia)).
    unfold cli_MaxRetries. unfold is_not_found, poll_answer in *.
    destruct (rpc_GetEventOutcome ask (before_poll ask 4 w2)) as [[o [err|]] w3] eqn:E4; simpl in *; [|done].
    by eapply GetEventOutcome_error.
Qed.

(** A client that gets no outcome crashes: when the server takes the event
    and every question for its outcome is answered with an error, [Send] of a
    well-formed event file ends in a panic instead of an error. *)
Theorem Send_event_panics_without_outcome {W} `{!GoEnv W, !ServiceClient W, !CliEnv W, !ClientLaws W}
    path data entity evt request (w wr w0 w1 : W) ev response :
  path <> StdinFlag ->
  (exists f w0, os_Open path w = (Ok f, w0) /\ io_ReadAll f w0 = (Ok data, wr)) ->
  yaml_GenericEntity data = Ok entity -> ge_Version entity = Version -> ge_Kind entity = KindEvent ->
  yaml_EventRequestEntity data = Ok evt -> ee_Spec evt = Some request ->
  is_ok (yaml_Marshal (PrintResponse (RespEvent None))) = true ->
  UpdateEvent (req_Event request) wr = (Done ev, w0) ->
  rpc_SendEvent (mkEventRequest (Some ev) (req_Config request) (req_Id request)) w0 =
    ((Some response, None), w1) ->
  (forall req w, is_Some (snd (fst (rpc_GetEventOutcome req w)))) ->
  fst (Send path w) = Panicked.
Proof.
  intros Hp Hr Hg Hv Hk He Hs Hy Hu Hsend Hno.
  rewrite (Send_event_run path data entity evt w wr Hp Hr Hg Hv Hk He).
  assert (exists w3, sendEvent (Some request) wr = (Done (None, None), w3)) as [w3 E3].
  { rewrite (sendEvent_run request wr ev w0 response w1 Hu Hsend).
    set (ask := mkEventRequest None _ _). set (w2 := fmt_Print _ w1).
    assert (Hn : forall k, fst (poll_answer ask k w2) = None).
    { intros k. unfold poll_answer. destruct (Hno ask (before_poll ask k w2)) as [err Herr].
      destruct (rpc_GetEventOutcome ask (before_poll ask k w2)) as [[o [e|]] w3] eqn:E; [|done].
      by eapply GetEventOutcome_error. }
    destruct (outcome_loop_run cli_MaxRetries ask None w2) as [(k & _ & _ & _ & E)|[_ E]];
      rewrite (go_bind_done _ _ _ _ _ E); eexists; unfold cli_MaxRetries; by rewrite Hn. }
  unfold send_event. rewrite He, Hs. unfold mbind at 1, go_bind at 1. unfold mbind at 1, go_bind at 1.
  rewrite E3. simpl. destruct (yaml_Marshal _); [|done]. reflexivity.
Qed.

(** [Get] of a machine asks the server for exactly the configuration and id
    on the two sides of the only slash, and reports its answer; an argument
    without a slash, or with several, or an unknown kind, is an error and the
    server is not asked. *)
Theorem Get_fsm_argument {W} `{!GoEnv W, !ServiceClient W, !CliEnv W} (w : W) :
  (forall cfg fsm, has_byte "/"%char cfg = false -> has_byte "/"%char fsm = false ->
     let '(r, w') := rpc_GetFiniteStateMachine (mkGetFsm cfg (Some (GetFsmRequest_Id fsm))) w in
     Get KindFiniteStateMachine (cfg ++ "/" ++ fsm) w =
       match r with
       | (_, Some err) => (Done (Some err), w')
       | (f, None) => show (PrintFsm f) w'
       end) /\
  (forall id, length (Split id "/"%char) <> 2%nat ->
     exists err, Get KindFiniteStateMachine id w = (Done (Some err), w)) /\
  (forall kind id, kind <> KindConfiguration -> kind <> KindFiniteStateMachine ->
     exists err, Get kind id w = (Done (Some err), w)).
Proof.
  split_and!.
  - intros cfg fsm Hc Hf.
    destruct (rpc_GetFiniteStateMachine _ w) as [r w'] eqn:E. unfold Get.
    rewrite bool_decide_ne, bool_decide_refl by done.
    change ("/" ++ fsm) with (String "/" fsm). unfold PathSeparator.
    rewrite (Split_app cfg fsm "/"%char Hc), (Split_no_sep fsm _ Hf).
    rewrite call_step, E. simpl. by destruct r as [f [err|]].
  - intros id Hl. unfold Get. rewrite bool_decide_ne, bool_decide_refl by done.
    unfold PathSeparator. destruct (Split id "/"%char) as [|a [|b [|c l]]]; first [done|by eexists].
  - intros kind id H1 H2. unfold Get. rewrite !bool_decide_ne by done. by eexists.
Qed.

(** *** Examples: a server that never has the outcome, and one that has it late *)

Record TestCli := mkTestCli { tc_env : TestEnv; tc_out : string; tc_polls : nat; tc_ready : nat }.

#[export] Instance cli_go_env : GoEnv TestCli := {
  rand_Intn n w := (0, w);
  time_Sleep d w := mkTestCli (time_Sleep d (tc_env w)) (tc_out w) (tc_polls w) (tc_ready w);
  uuid_NewString w := (test_uuid (te_ids (tc_env w)),
    mkTestCli (snd (uuid_NewString (tc_env w))) (tc_out w) (tc_polls w) (tc_ready w));
  timestamppb_Now w := (te_clock (tc_env w), w) }.

Definition cli_outcome : EventResponse :=
  mkEventResponse "1" (Some (mkEventOutcome EventOutcome_Ok "" "mars_rover" "7")).

#[export] Instance cli_service : ServiceClient TestCli := {
  rpc_SendEvent r w := ((Some (mkEventResponse "1" None), None), w);
  rpc_GetEventOutcome r w :=
    (if (tc_ready w <=? tc_polls w)%nat then (Some cli_outcome, None)
     else (None, Some (StatusError codes_NotFound "no outcome")),
     mkTestCli (tc_env w) (tc_out w) (Datatypes.S (tc_polls w)) (tc_ready w));
  rpc_PutConfiguration c w := ((None, None), w);
  rpc_PutFiniteStateMachine r w := ((None, None), w);
  rpc_GetConfiguration id w := ((None, None), w);
  rpc_GetFiniteStateMachine r w := ((None, None), w) }.

#[export] Instance cli_laws : ClientLaws TestCli.
Proof. split. intros req w o err w'. simpl. destruct (_ <=? _)%nat; by intros [=]. Qed.

Definition launch_request : EventRequest :=
  mkEventRequest (Some (event "1" "launch")) "mars_rover" "7".

#[export] Instance cli_env : CliEnv TestCli := {
  File := unit;
  os_Stdin := tt;
  os_Open path w := (Ok tt, w);
  io_ReadAll f w := (Ok "launch.yaml", w);
  yaml_GenericEntity d := Ok (mkEntity Version KindEvent "");
  yaml_ConfigEntity d := Fail (Errorf "yaml: no such entity");
  yaml_FsmEntity d := Fail (Errorf "yaml: no such entity");
  yaml_EventRequestEntity d := Ok (mkEventEntity (mkEntity Version KindEvent "") (Some launch_request));
  yaml_Marshal v := Ok "null";
  fmt_Print s w := mkTestCli (tc_env w) (tc_out w ++ s) (tc_polls w) (tc_ready w);
  titleCase s := s;
  StatusCode_String c := "code" }.

Definition cli_world (ready : nat) : TestCli := mkTestCli (mkTestEnv 0 0 []) "" 0 ready.

Lemma sendEvent_polls_witness :
  exists o, fst (sendEvent (Some launch_request) (cli_world 2)) = Done (o, None) /\ o = Some cli_outcome.
Proof.
  destruct (sendEvent_polls launch_request (cli_world 2) (event "1" "launch") (cli_world 2)
    (mkEventResponse "1" None) (cli_world 2)) as (o & H & Ho); [reflexivity|reflexivity|].
  exists o. split; [exact H|]. vm_compute in H. injection H as <-. reflexivity.
Defined.

(** A stub whose server never has an outcome. *)
Definition mute_service : ServiceClient TestCli := {|
  rpc_SendEvent r w := ((Some (mkEventResponse "1" None), None), w);
  rpc_GetEventOutcome r w := ((None, Some (StatusError codes_NotFound "no outcome")), w);
  rpc_PutConfiguration c w := ((None, None), w);
  rpc_PutFiniteStateMachine r w := ((None, None), w);
  rpc_GetConfiguration id w := ((None, None), w);
  rpc_GetFiniteStateMachine r w := ((None, None), w) |}.

Lemma mute_laws : ClientLaws (ServiceClient0 := mute_service) TestCli.
Proof. split. by intros req w o err w' [= <- _ _]. Qed.

Lemma Send_event_panics_without_outcome_witness :
  fst (Send (ServiceClient0 := mute_service) "launch.yaml" (cli_world 0)) = Panicked.
Proof.
  apply (Send_event_panics_without_outcome (ServiceClient0 := mute_service) (ClientLaws0 := mute_laws)
    "launch.yaml" "launch.yaml" (mkEntity Version KindEvent "")
    (mkEventEntity (mkEntity Version KindEvent "") (Some launch_request)) launch_request
    (cli_world 0) (cli_world 0) (cli_world 0) (cli_world 0) (event "1" "launch") (mkEventResponse "1" None)).
  - discriminate.
  - exists tt, (cli_world 0). split; reflexivity.
  - reflexivity.
  - reflexivity.
  - reflexivity.
  - reflexivity.
  - reflexivity.
  - reflexivity.
  - reflexivity.
  - reflexivity.
  - intros req w. eexists. reflexivity.
Defined.

Lemma Get_fsm_argument_witness :
  exists err, Get KindFiniteStateMachine "mars_rover" (cli_world 0) = (Done (Some err), cli_world 0).
Proof.
  apply (proj1 (proj2 (Get_fsm_argument (cli_world 0)))). discriminate.
Defined.
