(* ===== verification/Commands.v ===== *)
(** * Two commands: [fsm-cli/cmd/main.go] and [docker/grpc_health.go]

    The entry points of the command-line client and of the probe that the
    container runs to find out whether the server is ready, with their exit
    statuses. *)

From Stdlib Require Import ZArith Ascii.
From stdpp Require Import base tactics strings list.
From S2P Require Import Prelude GoLib Proto Fsm StoreTypes StoreSpec Process Files GrpcServer Tls Cli.

(** ** Definitions *)

Definition CmdGet : string := "get".
Definition CmdSend : string := "send".
Definition CmdVersion : string := "version".

(** The [Health] call of the stub: a pointer and an error. *)
Class HealthClient (W : Type) := {
  rpc_Health : W -> (option HealthResponse * option error) * W }.

(** Printing of a state, and the case mapping outside ASCII. *)
Class CommandEnv := {
  HealthState_String : HealthState -> string;
  unicode_lower : string -> string;
  protojson_Marshal : option HealthResponse -> Res string }.

Section commands.
Context {W KeyPair X509 : Type}.
Context `{!GoEnv W, !ServiceClient W, !CliEnv W, !HealthClient W, !OsEnv W, !Crypto KeyPair X509, !CommandEnv}.
Variable g_Dial : string -> TransportCredentials KeyPair X509 -> Res unit.

Abbreviation M := (Go W).

(** [flag.Arg(i)]: the positional arguments. *)
Definition Arg (args : list string) (i : nat) : string := nth i args "".

(** The exit status of a command that may have failed. *)
Definition exit_with (err : option error) : M Z :=
  match err with
  | Some err => print ("error: " ++ error_text err ++ newline);; mret 1
  | None => mret 0
  end.

(** The [switch] on the command. *)
Definition cli_switch (Release serverAddr : string) (args : list string) (cmd : string)
    (r : option HealthResponse) : M Z :=
  if cmd =s CmdSend then err ← Send (Arg args 1); exit_with err
  else if cmd =s CmdGet then err ← Get (Arg args 1) (Arg args 2); exit_with err
  else if cmd =s CmdVersion then
    print ("FSM CLI Client Rel. " ++ Release ++ newline);;
    r ← deref r;
    print (Sprintf "Connected to Server: %s at %s (%s)"
             [hr_Release r; serverAddr; HealthState_String (hr_State r)] ++ newline);;
    mret 0
  else print (Sprintf "unknown or missing command `%s`" [cmd] ++ newline);; mret 1.

(** [main] of the client, over the values of its two flags, its arguments and
    the release it was built as; the result is the exit status. *)
Definition cli_main (Release : string) (insecure : bool) (serverAddr : string) (args : list string) : M Z :=
  let cmd := ToLower unicode_lower (Arg args 0) in
  (if insecure then print ("WARN: TLS Disabled" ++ newline) else mret tt);;
  w ← go_gets id;
  c ← go_lift (NewClient w g_Dial serverAddr (negb insecure));
  match c with
  | None => print (Sprintf "cannot connect to server at %s" [serverAddr]);; mret 1
  | Some _ =>
      r ← call rpc_Health;
      match r with
      | (_, Some err) => print ("cannot connect to server " ++ error_text err ++ newline);; mret 1
      | (r, None) => cli_switch Release serverAddr args cmd r
      end
  end.

(** [main] of the probe; [log.Fatal] exits with status 1.  The connection is
    made, within the deadline, by the call. *)
Definition probe_credentials (noTLS : bool) : TransportCredentials KeyPair X509 :=
  if noTLS then insecure_NewCredentials
  else credentials_NewTLS (mkTls [] None "" NoClientCert None true).

Definition probe_main (address : string) (noTLS : bool) : M Z :=
  match g_Dial address (probe_credentials noTLS) with
  | Fail err => mret 1
  | Ok _ =>
      r ← call rpc_Health;
      match r with
      | (_, Some err) => mret 1
      | (resp, None) =>
          match protojson_Marshal resp with
          | Fail err => mret 1
          | Ok jsonBytes => print (jsonBytes ++ newline);; mret 0
          end
      end
  end.

End commands.

(** ** Properties *)

Section properties.
Context {W KeyPair X509 : Type}.
Context `{!GoEnv W, !ServiceClient W, !CliEnv W, !HealthClient W, !OsEnv W, !Crypto KeyPair X509, !CommandEnv}.
Variable g_Dial : string -> TransportCredentials KeyPair X509 -> Res unit.

Lemma exit_with_zero err (w : W) : fst (exit_with err w) = Done 0 <-> err = None.
Proof. destruct err; simpl; [|done]. split; [|done]. by intros [=]. Qed.

Lemma exit_after (m : Go W (option error)) (w : W) :
  fst ((err ← m; exit_with err) w) = Done 0 <-> fst (m w) = Done None.
Proof.
  unfold mbind, go_bind. destruct (m w) as [[err| |] w']; [|done..].
  rewrite exit_with_zero. simpl. split; [by intros ->|by intros [=]].
Qed.

(** The world in which the client connects. *)
Definition warned (insecure : bool) (w : W) : W :=
  if insecure then fmt_Print ("WARN: TLS Disabled" ++ newline) w else w.

Lemma cli_main_connected Release (insecure : bool) serverAddr args (w : W) conn h err w2 :
  NewClient (warned insecure w) g_Dial serverAddr (negb insecure) = Done (Some conn) ->
  rpc_Health (warned insecure w) = ((h, err), w2) ->
  cli_main g_Dial Release insecure serverAddr args w =
  match err with
  | Some err => (print ("cannot connect to server " ++ error_text err ++ newline);; mret 1) w2
  | None => cli_switch Release serverAddr args (ToLower unicode_lower (Arg args 0)) h w2
  end.
Proof.
  intros Hc Hh. unfold cli_main. set (k := fun _ : unit => _).
  assert (E : ((if insecure then print ("WARN: TLS Disabled" ++ newline) else mret tt) ≫= k) w =
    k tt (warned insecure w)) by by destruct insecure.
  rewrite E. unfold k. rewrite go_bind_gets. unfold id.
  unfold mbind at 1, go_bind at 1, go_lift at 1. rewrite Hc. rewrite call_step, Hh. by destruct err.
Qed.

Lemma cli_main_disconnected Release (insecure : bool) serverAddr args (w : W) :
  (forall conn, NewClient (warned insecure w) g_Dial serverAddr (negb insecure) <> Done (Some conn)) ->
  fst (cli_main g_Dial Release insecure serverAddr args w) <> Done 0.
Proof.
  intros Hc. unfold cli_main. set (k := fun _ : unit => _).
  assert (E : ((if insecure then print ("WARN: TLS Disabled" ++ newline) else mret tt) ≫= k) w =
    k tt (warned insecure w)) by by destruct insecure.
  rewrite E. unfold k. rewrite go_bind_gets. unfold id.
  unfold mbind at 1, go_bind at 1, go_lift at 1.
  destruct (NewClient _ _ _ _) as [[conn|]| |]; [by specialize (Hc conn)|done..].
Qed.

Lemma cli_switch_zero Release serverAddr args cmd h (w : W) :
  fst (cli_switch Release serverAddr args cmd h w) = Done 0 <->
  (cmd = CmdSend /\ fst (Send (Arg args 1) w) = Done None) \/
  (cmd = CmdGet /\ fst (Get (Arg args 1) (Arg args 2) w) = Done None) \/
  (cmd = CmdVersion /\ is_Some h).
Proof.
  unfold cli_switch.
  destruct (bool_decide_reflect (cmd = CmdSend)) as [->|Es]; [rewrite exit_after; naive_solver|].
  destruct (bool_decide_reflect (cmd = CmdGet)) as [->|Eg]; [rewrite exit_after; naive_solver|].
  destruct (bool_decide_reflect (cmd = CmdVersion)) as [->|Ev].
  - destruct h as [h|]; simpl; [|split; [done|by intros [[]|[[]|[_ []]]]]].
    split; [|done]. intros _. right. right. by split.
  - split; [done|]. naive_solver.
Qed.

(** C30. When the client's exit status is zero: exactly when it could connect,
    the server answered the health check, and the command, spelled in any
    case, is a [send] or [get] that reported no error, or [version].  A command
    that is not one of them ends with status 1 and asks the server for nothing
    but its health. *)
Theorem cli_exit_status Release (insecure : bool) serverAddr args (w : W) :
  let cmd := ToLower unicode_lower (Arg args 0) in
  (fst (cli_main g_Dial Release insecure serverAddr args w) = Done 0 <->
   exists conn h w2,
     NewClient (warned insecure w) g_Dial serverAddr (negb insecure) = Done (Some conn) /\
     rpc_Health (warned insecure w) = ((h, None), w2) /\
     ((cmd = CmdSend /\ fst (Send (Arg args 1) w2) = Done None) \/
      (cmd = CmdGet /\ fst (Get (Arg args 1) (Arg args 2) w2) = Done None) \/
      (cmd = CmdVersion /\ is_Some h))) /\
  (forall conn h w2, NewClient (warned insecure w) g_Dial serverAddr (negb insecure) = Done (Some conn) ->
     rpc_Health (warned insecure w) = ((h, None), w2) ->
     cmd <> CmdSend -> cmd <> CmdGet -> cmd <> CmdVersion ->
     exists out, cli_main g_Dial Release insecure serverAddr args w = (Done 1, fmt_Print out w2)).
Proof.
  intros cmd. split.
  - destruct (rpc_Health (warned insecure w)) as [[h err] w2] eqn:Eh.
    destruct (NewClient (warned insecure w) g_Dial serverAddr (negb insecure)) as [[conn|]| |] eqn:Ec;
      [|split; [intros Hz; by eapply cli_main_disconnected in Hz; [|by rewrite Ec]|naive_solver]..].
    rewrite (cli_main_connected _ _ _ _ _ _ _ _ _ Ec Eh). destruct err as [err|].
    + split; [done|]. by intros (? & ? & ? & _ & [=] & _).
    + rewrite cli_switch_zero. split; [intros Hz; by exists conn, h, w2|].
      by intros (? & ? & ? & _ & [= <- <-] & Hz).
  - intros conn h w2 Ec Eh H1 H2 H3. rewrite (cli_main_connected _ _ _ _ _ _ _ _ _ Ec Eh).
    unfold cli_switch. fold cmd. rewrite !bool_decide_ne by done. by eexists.
Qed.
End properties.

(** *** Examples *)

#[export] Instance test_commands : CommandEnv := {
  HealthState_String h := match h with
    | HealthResponse_UNKNOWN => "UNKNOWN" | HealthResponse_READY => "READY" | HealthResponse_NOT_READY => "NOT_READY"
    end;
  unicode_lower s := s;
  protojson_Marshal h := Ok "{}" }.

#[export] Instance cli_os : OsEnv TestCli := {
  os_LookupEnv w k := assoc k [("HOME", "/home/me")];
  os_Stat w f := None;
  os_ReadFile w f := Ok "ca" }.

#[export] Instance cli_health : HealthClient TestCli := {
  rpc_Health w := ((Some (mkHealth HealthResponse_READY "v0" true), None), w) }.

Example upper_case_send :
  fst (cli_main (KeyPair:=string) (X509:=string) (fun _ _ => Ok tt) "v1" false "localhost:7398"
         ["SEND"; "launch.yaml"] (cli_world 2)) = Done 0.
Proof. vm_compute. reflexivity. Qed.

Lemma cli_exit_status_witness :
  exists out, cli_main (KeyPair:=string) (X509:=string) (fun _ _ => Ok tt) "v1" true "localhost:7398" ["fly"]
    (cli_world 0) = (Done 1, fmt_Print out (warned true (cli_world 0))).
Proof.
  refine (proj2 (cli_exit_status (KeyPair:=string) (X509:=string) (fun _ _ => Ok tt) "v1" true
    "localhost:7398" ["fly"] (cli_world 0)) _ _ _ _ _ _ _ _).
  - reflexivity.
  - reflexivity.
  - discriminate.
  - discriminate.
  - discriminate.
Defined.
