(* ===== verification/Concurrency.v ===== *)
(** * Concurrent transactions: [TxProcessEvent] of [pkg/storage/redis_store.go]

    Several servers may process events for one machine at a time on one Redis.
    Here a transaction is a machine of its own that sends one command per step,
    and transactions interleave at every step.  The key of the machine is
    watched; the state sets are updated on a connection of their own, before
    [EXEC].  The database is the specification's, the server answers every
    command, and the deadline that the rounds share does not pass; [txf] of
    [RedisStore.v] has the same steps with every error path. *)

From Stdlib Require Import ZArith Ascii.
From stdpp Require Import base tactics strings list gmap sets.
From S2P Require Import Prelude GoLib Proto Fsm Keys StoreTypes Redis StoreSpec GrpcServer Server.

(** ** Definitions *)

(** Where a transaction stands: the next command it sends. *)
Inductive tx_phase :=
| TxWatch
| TxGetFsm
| TxGetConfig (fsm : FiniteStateMachine)
| TxSRem (oldFsm fsm : FiniteStateMachine)
| TxSAdd (oldFsm fsm : FiniteStateMachine)
| TxExec (oldFsm fsm : FiniteStateMachine)
| TxDone (r : result (option StoreErr)).

(** [tc_left]: the rounds that remain of [DefaultMaxRetries]; [tc_dirty]: another
    connection wrote the watched key since it was watched. *)
Record tx_client := mkTx {
  tc_id : string;
  tc_cfg : string;
  tc_evt : option Event;
  tc_left : nat;
  tc_dirty : bool;
  tc_phase : tx_phase }.

Definition set_phase (ph : tx_phase) (cl : tx_client) : tx_client :=
  mkTx (tc_id cl) (tc_cfg cl) (tc_evt cl) (tc_left cl) (tc_dirty cl) ph.
Definition set_dirty (b : bool) (cl : tx_client) : tx_client :=
  mkTx (tc_id cl) (tc_cfg cl) (tc_evt cl) (tc_left cl) b (tc_phase cl).
Definition set_left (n : nat) (cl : tx_client) : tx_client :=
  mkTx (tc_id cl) (tc_cfg cl) (tc_evt cl) n (tc_dirty cl) (tc_phase cl).

Definition tc_key (cl : tx_client) : string * string := (tc_cfg cl, tc_id cl).

Definition start_tx (id cfgName : string) (evt : option Event) : tx_client :=
  mkTx id cfgName evt 3 false TxWatch.

Definition remove_state (cfgName id st : string) (m : gmap (string * string) (gset string))
    : gmap (string * string) (gset string) :=
  if st =s "" then m else <[(cfgName, st) := set_of m (cfgName, st) ∖ {[id]}]> m.
Definition add_state (cfgName id st : string) (m : gmap (string * string) (gset string))
    : gmap (string * string) (gset string) :=
  if st =s "" then m else <[(cfgName, st) := {[id]} ∪ set_of m (cfgName, st)]> m.

Section steps.
Context (B : Type) `{!ProtoMessage B FiniteStateMachine}.

(** The next command of a transaction, the database after it, and whether it
    wrote the key of the machine. *)
Definition tx_next (cl : tx_client) (s : Store) : tx_client * Store * bool :=
  let id := tc_id cl in
  let cfgName := tc_cfg cl in
  let goto ph := (set_phase ph cl, s, false) in
  match tc_phase cl with
  | TxWatch => (set_dirty false (set_phase TxGetFsm cl), s, false)
  | TxGetFsm =>
      match st_fsms s !! (cfgName, id) with
      | None => goto (TxDone (Done (Some (NotFoundError (NewKeyForMachine id cfgName)))))
      | Some fsm => goto (TxGetConfig fsm)
      end
  | TxGetConfig fsm =>
      match st_configs s !! fsm_ConfigId fsm with
      | None => goto (TxDone (Done (Some (NotFoundError (error_text
                        (NotFoundError (NewKeyForConfig (fsm_ConfigId fsm))))))))
      | Some cfg =>
          match SendEvent (mkCSM cfg fsm) (tc_evt cl) with
          | Done (Some err, _) => goto (TxDone (Done (Some err)))
          | Done (None, x) =>
              match Marshal (B:=B) (csm_FSM x) with
              | Fail err => goto (TxDone (Done (Some (InvalidDataError (error_text err)))))
              | Ok _ => goto (TxSRem fsm (csm_FSM x))
              end
          | Panicked => goto (TxDone Panicked)
          | Spin => goto (TxDone Spin)
          end
      end
  | TxSRem oldFsm fsm =>
      (set_phase (TxSAdd oldFsm fsm) cl, upd_states (remove_state cfgName id (fsm_State oldFsm)) s, false)
  | TxSAdd oldFsm fsm =>
      (set_phase (TxExec oldFsm fsm) cl, upd_states (add_state cfgName id (fsm_State fsm)) s, false)
  | TxExec oldFsm fsm =>
      if tc_dirty cl then
        match tc_left cl with
        | S (S n) => (set_left (S n) (set_phase TxWatch cl), s, false)
        | _ => goto (TxDone (Done (Some (TooManyAttempts ""))))
        end
      else (set_phase (TxDone (Done None)) cl, file_fsm cfgName id fsm s, true)
  | TxDone r => (cl, s, false)
  end.

Record tx_world := mkWorld { tw_store : Store; tw_clients : list tx_client }.

(** One step of transaction [i]; a write spoils the watches of the others. *)
Definition tx_step (i : nat) (w : tx_world) : tx_world :=
  match tw_clients w !! i with
  | None => w
  | Some cl =>
      let '(cl', s', wrote) := tx_next cl (tw_store w) in
      let spoil c := if (wrote : bool) && (tc_key c =s tc_key cl) then set_dirty true c else c in
      mkWorld s' (<[i := cl']> (spoil <$> tw_clients w))
  end.

(** The steps of a schedule, which names the transaction of each. *)
Definition tx_run (schedule : list nat) (w : tx_world) : tx_world :=
  fold_left (fun w i => tx_step i w) schedule w.

End steps.

(** The events of the transactions on a machine that reported success. *)
Definition committed (key : string * string) (cls : list tx_client) : list Event :=
  omap (fun cl => match tc_phase cl with
                  | TxDone (Done None) => if tc_key cl =s key then tc_evt cl else None
                  | _ => None
                  end) cls.

(** ** Lemmas *)

Lemma move_state_steps cfgName id o n m :
  add_state cfgName id n (remove_state cfgName id o m) = move_state cfgName id o n m.
Proof. done. Qed.

Lemma replay_snoc x es e x' x'' :
  replay x es = Some x' -> SendEvent x' (Some e) = Done (None, x'') -> replay x (es ++ [e]) = Some x''.
Proof.
  revert x. induction es as [|e0 es IH]; intros x; simpl.
  - intros [= ->] ->. done.
  - intros H1 H2. destruct (SendEvent x (Some e0)) as [[[?|] ?]| |]; try done. by apply IH.
Qed.

Lemma committed_app key l1 l2 : committed key (l1 ++ l2) = (committed key l1 ++ committed key l2)%list.
Proof. apply omap_app. Qed.

(** One transaction changed, the others with the same answer. *)
Lemma committed_insert key cls i cl cl' (g : tx_client -> tx_client) :
  cls !! i = Some cl -> (forall c, committed key [g c] = committed key [c]) ->
  committed key [cl] = [] ->
  committed key (<[i := cl']> (g <$> cls)) ≡ₚ (committed key [cl'] ++ committed key cls)%list.
Proof.
  intros Hi Hg Hn.
  assert (Hmap : forall l, committed key (g <$> l) = committed key l).
  { induction l as [|c l IH]; [done|]. change (g <$> c :: l) with ([g c] ++ (g <$> l))%list.
    rewrite committed_app, Hg, IH. by rewrite <- committed_app. }
  pose proof (lookup_lt_Some _ _ _ Hi) as Hlt.
  rewrite insert_take_drop by by rewrite length_fmap.
  rewrite <- (take_drop_middle cls i cl Hi) at 3.
  change (cl' :: drop (S i) (g <$> cls)) with ([cl'] ++ drop (S i) (g <$> cls))%list.
  change (cl :: drop (S i) cls) with ([cl] ++ drop (S i) cls)%list.
  rewrite <- fmap_take, <- fmap_drop, !committed_app, !Hmap, Hn.
  simpl. rewrite Permutation_app_swap_app. done.
Qed.

Lemma committed_insert_same key cls i cl cl' :
  cls !! i = Some cl -> committed key [cl'] = committed key [cl] ->
  committed key (<[i := cl']> cls) = committed key cls.
Proof.
  intros Hi He. pose proof (lookup_lt_Some _ _ _ Hi) as Hlt.
  rewrite insert_take_drop by done. rewrite <- (take_drop_middle cls i cl Hi) at 3.
  change (cl' :: drop (S i) cls) with ([cl'] ++ drop (S i) cls)%list.
  change (cl :: drop (S i) cls) with ([cl] ++ drop (S i) cls)%list.
  by rewrite !committed_app, He.
Qed.

Section invariant.
Context {B : Type} `{!ProtoMessage B FiniteStateMachine}.
Context (key : string * string) (c : Configuration) (f0 : FiniteStateMachine).

(** What a transaction on the machine read is current unless its watch tells. *)
Definition reads_ok (f : FiniteStateMachine) (cl : tx_client) : Prop :=
  tc_key cl = key -> tc_dirty cl = false ->
  match tc_phase cl with
  | TxGetConfig g => g = f
  | TxSRem g g' | TxSAdd g g' | TxExec g g' =>
      SendEvent (mkCSM c f) (tc_evt cl) = Done (None, mkCSM c g')
  | _ => True
  end.

Definition tx_inv (w : tx_world) : Prop :=
  st_configs (tw_store w) !! fsm_ConfigId f0 = Some c /\
  exists log f,
    st_fsms (tw_store w) !! key = Some f /\ fsm_ConfigId f = fsm_ConfigId f0 /\
    log ≡ₚ committed key (tw_clients w) /\
    replay (mkCSM c f0) log = Some (mkCSM c f) /\
    forall i cl, tw_clients w !! i = Some cl -> reads_ok f cl.

(** A step that does not write the machine. *)
Lemma tx_next_quiet cl s cl' s' f :
  tx_next B cl s = (cl', s', false) ->
  st_fsms s !! key = Some f -> st_configs s !! fsm_ConfigId f = Some c -> reads_ok f cl ->
  st_fsms s' = st_fsms s /\ st_configs s' = st_configs s /\
  committed key [cl'] = committed key [cl] /\ reads_ok f cl'.
Proof.
  intros H Hf Hc Hr. unfold tx_next in H. cbv zeta in H. unfold committed, reads_ok in *. simpl in *.
  destruct (tc_phase cl) as [| |g|g g'|g g'|g g'|r] eqn:Eph; simplify_eq; simpl; rewrite ?Eph.
  - done.
  - destruct (st_fsms s !! (tc_cfg cl, tc_id cl)) as [g|] eqn:Eg; simplify_eq; simpl; [|done].
    split_and!; try done. intros Hk _. rewrite <- Hk in Hf. unfold tc_key in Hf. simpl in Hf. congruence.
  - destruct (st_configs s !! fsm_ConfigId g) as [cg|] eqn:Ecg; [|by simplify_eq].
    destruct (SendEvent _ _) as [[[err|] x]| |] eqn:Es; [by simplify_eq| |by simplify_eq..].
    destruct (Marshal _); simplify_eq; simpl; [|done].
    split_and!; try done. intros Hk Hd. specialize (Hr Hk Hd). subst g.
    rewrite Hc in Ecg. injection Ecg as <-. rewrite Es.
    destruct (SendEvent_Config _ _ _ _ Es) as [Hx _]. destruct x; simpl in *. by subst.
  - split_and!; try done.
  - split_and!; try done.
  - destruct (tc_dirty cl) eqn:Ed; [|done].
    destruct (tc_left cl) as [|[|n]]; simplify_eq; simpl; done.
  - done.
Qed.

Lemma tx_next_wrote cl s cl' s' :
  tx_next B cl s = (cl', s', true) ->
  exists g g', tc_phase cl = TxExec g g' /\ tc_dirty cl = false /\
    cl' = set_phase (TxDone (Done None)) cl /\ s' = file_fsm (tc_cfg cl) (tc_id cl) g' s.
Proof.
  unfold tx_next. cbv zeta.
  destruct (tc_phase cl) as [| |g|g g'|g g'|g g'|r] eqn:Eph; intros H; try done.
  - by destruct (st_fsms s !! _).
  - destruct (st_configs s !! _); [|done].
    destruct (SendEvent _ _) as [[[err|] x]| |]; [done| |done..]. by destruct (Marshal _).
  - exists g, g'. destruct (tc_dirty cl); [by destruct (tc_left cl) as [|[]]|]. by simplify_eq.
Qed.

(** After a write: the watches on the machine that was written are spoiled. *)
Lemma reads_after_write (i : nat) cl (cls : list tx_client) f f' :
  (forall (j : nat) cl0, cls !! j = Some cl0 -> reads_ok f cl0) -> f' = f \/ tc_key cl = key ->
  let spoil c0 := if tc_key c0 =s tc_key cl then set_dirty true c0 else c0 in
  forall (j : nat) cl0, <[i := set_phase (TxDone (Done None)) cl]> (spoil <$> cls) !! j = Some cl0 ->
    reads_ok f' cl0.
Proof.
  intros Hreads Hor spoil j cl0 Hj.
  apply list_lookup_insert_Some in Hj as [(<- & <- & _)|(Hne & Hj)]; [by intros ? _|].
  apply list_lookup_fmap_Some in Hj as (c0 & -> & Hj). unfold spoil.
  destruct (bool_decide_reflect (tc_key c0 = tc_key cl)) as [E|E]; [by intros ? ?|].
  destruct Hor as [->|Hk]; [by eapply Hreads|]. intros Hk0. by rewrite Hk in E.
Qed.

Lemma tx_inv_step i w : tx_inv w -> tx_inv (tx_step B i w).
Proof.
  intros (Hc & log & f & Hf & Hid & Hlog & Hrep & Hreads). unfold tx_step.
  destruct (tw_clients w !! i) as [cl|] eqn:Hi; [|by split; [done|exists log, f]].
  destruct (tx_next B cl (tw_store w)) as [[cl' s'] wrote] eqn:En.
  pose proof (Hreads i cl Hi) as Hr. pose proof Hc as Hcf. rewrite <- Hid in Hcf.
  destruct wrote; simpl.
  - destruct (tx_next_wrote _ _ _ _ En) as (g & g' & Eph & Ed & -> & ->).
    set (spoil := fun c0 => if tc_key c0 =s tc_key cl then set_dirty true c0 else c0).
    assert (Hspoil : forall c0, committed key [spoil c0] = committed key [c0]).
    { intros c0. unfold spoil. by destruct (_ =s _). }
    assert (Hcl : committed key [cl] = []) by (unfold committed; simpl; by rewrite Eph).
    pose proof (committed_insert key _ i cl (set_phase (TxDone (Done None)) cl) spoil Hi Hspoil Hcl) as Hcom.
    split; [done|]. simpl.
    destruct (bool_decide_reflect (tc_key cl = key)) as [Hk|Hk].
    + specialize (Hr Hk Ed). rewrite Eph in Hr.
      destruct (SendEvent_inv _ _ _ _ Hr) as [[? _]|(_ & ev & tr & t & Hev & _ & _ & Hx)]; [done|].
      destruct (SendEvent_Config _ _ _ _ Hr) as [_ Hcid]. simpl in Hcid.
      exists (log ++ [ev])%list, g'. split_and!.
      * unfold tc_key in Hk. rewrite Hk. apply lookup_insert_eq.
      * by rewrite Hcid.
      * rewrite Hcom, Hlog. unfold committed at 2. simpl. rewrite bool_decide_true by done. rewrite Hev.
        by rewrite Permutation_app_comm.
      * rewrite Hev in Hr. by eapply replay_snoc.
      * apply (reads_after_write i cl _ f); [done|by right].
    + exists log, f. split_and!; try done.
      * by rewrite lookup_insert_ne.
      * rewrite Hcom, Hlog. unfold committed at 2. simpl. by rewrite bool_decide_ne.
      * apply (reads_after_write i cl _ f); [done|by left].
  - destruct (tx_next_quiet _ _ _ _ _ En Hf Hcf Hr) as (Hf' & Hc' & Hcom & Hr').
    assert (Hmap : (fun c0 => c0) <$> tw_clients w = tw_clients w) by apply list_fmap_id.
    rewrite Hmap. split; [by simpl; rewrite Hc'|]. exists log, f. simpl. split_and!; try done.
    + by rewrite Hf'.
    + by rewrite (committed_insert_same _ _ _ _ _ Hi Hcom).
    + intros j cl0 Hj. apply list_lookup_insert_Some in Hj as [(<- & <- & _)|(Hne & Hj)]; [done|].
      by eapply Hreads.
Qed.

Lemma tx_inv_run sched w : tx_inv w -> tx_inv (tx_run B sched w).
Proof. revert w. induction sched as [|i sched IH]; intros w Hw; [done|]. apply IH, tx_inv_step, Hw. Qed.
End invariant.

(** One transaction alone. *)
Lemma tx_lone_cons {B} `{!ProtoMessage B FiniteStateMachine} sched s cl :
  tx_run B (O :: sched) (mkWorld s [cl]) =
  tx_run B sched (mkWorld (snd (fst (tx_next B cl s))) [fst (fst (tx_next B cl s))]).
Proof. cbn [tx_run fold_left]. unfold tx_step. cbn. by destruct (tx_next B cl s) as [[cl' s'] wrote]. Qed.

(** The steps that ask the database. *)
Section asks.
Context {B : Type} `{!ProtoMessage B FiniteStateMachine}.
Implicit Types (s : Store) (e : option Event) (n : nat) (d : bool).

Lemma tx_ask_fsm i name e n d s :
  tx_next B (mkTx i name e n d TxGetFsm) s =
  (mkTx i name e n d
     match st_fsms s !! (name, i) with
     | None => TxDone (Done (Some (NotFoundError (NewKeyForMachine i name))))
     | Some fsm => TxGetConfig fsm
     end, s, false).
Proof. unfold tx_next. simpl. by destruct (st_fsms s !! (name, i)). Qed.

Lemma tx_ask_config i name e n d s f :
  tx_next B (mkTx i name e n d (TxGetConfig f)) s =
  (mkTx i name e n d
     match st_configs s !! fsm_ConfigId f with
     | None => TxDone (Done (Some (NotFoundError (error_text
                 (NotFoundError (NewKeyForConfig (fsm_ConfigId f)))))))
     | Some cfg =>
         match SendEvent (mkCSM cfg f) e with
         | Done (Some err, _) => TxDone (Done (Some err))
         | Done (None, x) =>
             match Marshal (B:=B) (csm_FSM x) with
             | Fail err => TxDone (Done (Some (InvalidDataError (error_text err))))
             | Ok _ => TxSRem f (csm_FSM x)
             end
         | Panicked => TxDone Panicked
         | Spin => TxDone Spin
         end
     end, s, false).
Proof.
  unfold tx_next. simpl. destruct (st_configs s !! _) as [c|]; [|done].
  destruct (SendEvent _ _) as [[[err|] x]| |]; [done| |done..]. by destruct (Marshal _).
Qed.

Lemma tx_finished m i name e n d r s :
  tx_run B (repeat O m) (mkWorld s [mkTx i name e n d (TxDone r)]) =
  mkWorld s [mkTx i name e n d (TxDone r)].
Proof. induction m as [|m IH]; [done|]. cbn [repeat]. by rewrite tx_lone_cons. Qed.

(** The first three steps find out what there is to do. *)
Lemma tx_prepare m i name e n d s :
  tx_run B (repeat O (3 + m)) (mkWorld s [mkTx i name e n d TxWatch]) =
  tx_run B (repeat O m) (mkWorld s [mkTx i name e n false
    match st_fsms s !! (name, i) with
    | None => TxDone (Done (Some (NotFoundError (NewKeyForMachine i name))))
    | Some f =>
        tc_phase (fst (fst (tx_next B (mkTx i name e n false (TxGetConfig f)) s)))
    end]).
Proof.
  cbn [repeat Nat.add]. rewrite tx_lone_cons.
  change (tx_next B (mkTx i name e n d TxWatch) s) with (mkTx i name e n false TxGetFsm, s, false).
  cbn [fst snd]. rewrite tx_lone_cons, tx_ask_fsm. cbn [fst snd].
  destruct (st_fsms s !! (name, i)) as [f|]; rewrite tx_lone_cons; [|done].
  by rewrite tx_ask_config.
Qed.

(** The last three do it. *)
Lemma tx_commit i name e n s f f' :
  tx_run B (repeat O 3) (mkWorld s [mkTx i name e n false (TxSRem f f')]) =
  mkWorld (file_move name i f f' s) [mkTx i name e n false (TxDone (Done None))].
Proof. cbn [repeat]. rewrite !tx_lone_cons. done. Qed.
End asks.

(** *** Two transactions on one machine *)

Section race.
Context {B : Type} `{!ProtoMessage B FiniteStateMachine}.




(** Both read the machine; the first commits; the second updates the state
    sets, fails to commit, and starts over. *)
Definition race : list nat := [0; 0; 0; 1; 1; 1; 0; 0; 0; 1; 1; 1; 1; 1; 1]%nat.




End race.

(** *** Progress

    How many steps of its own a transaction has left at most, and what its
    failed rounds say about the others. *)

Definition tx_steps_left (cl : tx_client) : nat :=
  let round := (6 * (tc_left cl - 1))%nat in
  match tc_phase cl with
  | TxWatch => round + 6
  | TxGetFsm => round + 5
  | TxGetConfig _ => round + 4
  | TxSRem _ _ => round + 3
  | TxSAdd _ _ => round + 2
  | TxExec _ _ => round + 1
  | TxDone _ => 0
  end.

Definition in_flight (ph : tx_phase) : bool :=
  match ph with TxWatch | TxDone _ => false | _ => true end.

Definition gave_up (cl : tx_client) : Prop := tc_phase cl = TxDone (Done (Some (TooManyAttempts ""))).

(** Every round that failed, or is going to, is owed to a commit of another. *)
Definition owes (n : nat) (cl : tx_client) : Prop :=
  (1 <= tc_left cl)%nat /\
  (3 + (if in_flight (tc_phase cl) && tc_dirty cl then 1 else 0) <= n + tc_left cl)%nat /\
  (gave_up cl -> (3 <= n)%nat) /\
  match tc_phase cl with TxSRem _ _ | TxSAdd _ _ | TxExec _ _ => is_Some (tc_evt cl) | _ => True end.

Definition progress_inv (w : tx_world) : Prop :=
  forall i cl, tw_clients w !! i = Some cl -> owes (length (committed (tc_key cl) (tw_clients w))) cl.

Section progress.
Context {B : Type} `{!ProtoMessage B FiniteStateMachine}.

Lemma tx_next_steps cl s cl' s' wrote : tx_next B cl s = (cl', s', wrote) ->
  (tx_steps_left cl' <= tx_steps_left cl - 1)%nat.
Proof.
  unfold tx_next, tx_steps_left. cbv zeta.
  destruct (tc_phase cl) as [| |g|g g'|g g'|g g'|r] eqn:Eph; intros H; simplify_eq; simpl.
  - lia.
  - destruct (st_fsms s !! _); simplify_eq; simpl; lia.
  - destruct (st_configs s !! _); [|by simplify_eq; simpl; lia].
    destruct (SendEvent _ _) as [[[err|] x]| |]; [|destruct (Marshal _)|..]; simplify_eq; simpl; lia.
  - lia.
  - lia.
  - destruct (tc_dirty cl); [|by simplify_eq; simpl; lia].
    destruct (tc_left cl) as [|[|k]]; simplify_eq; simpl; lia.
  - by rewrite Eph.
Qed.

Lemma tx_step_other i j w cl : i <> j -> tw_clients w !! j = Some cl ->
  exists cl', tw_clients (tx_step B i w) !! j = Some cl' /\ tx_steps_left cl' = tx_steps_left cl /\
    tc_key cl' = tc_key cl.
Proof.
  intros Hij Hj. unfold tx_step. destruct (tw_clients w !! i) as [ci|]; [|by exists cl].
  destruct (tx_next B ci (tw_store w)) as [[ci' s'] wrote]. simpl.
  rewrite list_lookup_insert_ne by done. rewrite list_lookup_fmap, Hj. simpl.
  eexists. split; [reflexivity|]. by destruct (_ && _).
Qed.

Lemma tx_step_self i w cl : tw_clients w !! i = Some cl ->
  exists cl', tw_clients (tx_step B i w) !! i = Some cl' /\ (tx_steps_left cl' <= tx_steps_left cl - 1)%nat /\
    tc_key cl' = tc_key cl.
Proof.
  intros Hi. unfold tx_step. rewrite Hi.
  destruct (tx_next B cl (tw_store w)) as [[cl' s'] wrote] eqn:En. simpl.
  exists cl'. rewrite list_lookup_insert_eq by (rewrite length_fmap; by eapply lookup_lt_Some).
  split; [done|]. split; [by eapply tx_next_steps|].
  unfold tx_next in En. cbv zeta in En. repeat (case_match; simplify_eq; try done).
Qed.

(** A transaction that was given all its steps is done. *)
Lemma tx_run_steps sched j w cl : tw_clients w !! j = Some cl ->
  exists cl', tw_clients (tx_run B sched w) !! j = Some cl' /\ tc_key cl' = tc_key cl /\
    (tx_steps_left cl' <= tx_steps_left cl - count_occ Nat.eq_dec sched j)%nat.
Proof.
  revert w cl. induction sched as [|i sched IH]; intros w cl Hj; [exists cl; simpl; split_and!; [done..|lia]|].
  cbn [tx_run fold_left]. change (fold_left _ sched ?w0) with (tx_run B sched w0). simpl count_occ.
  destruct (Nat.eq_dec i j) as [->|Hij].
  - destruct (tx_step_self j w cl Hj) as (c1 & H1 & H2 & H3).
    destruct (IH _ _ H1) as (c2 & H4 & H5 & H6). exists c2. split_and!; [done|congruence|lia].
  - destruct (tx_step_other i j w cl Hij Hj) as (c1 & H1 & H2 & H3).
    destruct (IH _ _ H1) as (c2 & H4 & H5 & H6). exists c2. split_and!; [done|congruence|lia].
Qed.

(** An error of a transaction is the one of giving up only when it gave up. *)
Lemma not_gave_up (e : StoreErr) : e <> TooManyAttempts "" -> TxDone (Done (Some e)) <> TxDone (Done (Some (TooManyAttempts ""))).
Proof. by intros H [= ?]. Qed.

(** A step that commits nothing. *)
Lemma owes_quiet n cl s cl' s' : tx_next B cl s = (cl', s', false) -> owes n cl ->
  owes n cl' /\ tc_key cl' = tc_key cl /\ forall key, committed key [cl'] = committed key [cl].
Proof.
  intros H (Hl & Ho & Hg & He). unfold tx_next in H. cbv zeta in H. unfold owes, gave_up, committed in *.
  destruct (tc_phase cl) as [| |g|g g'|g g'|g g'|r] eqn:Eph; simplify_eq; simpl in *; rewrite ?Eph.
  - split_and!; try done; lia.
  - destruct (st_fsms s !! _); simplify_eq; simpl; split_and!; try done; destruct (tc_dirty cl); simpl in *; lia.
  - destruct (st_configs s !! _); [|by simplify_eq; simpl; split_and!; try done; destruct (tc_dirty cl); simpl in *; lia].
    destruct (SendEvent _ _) as [[[err|] x]| |] eqn:Es.
    + destruct (SendEvent_inv _ _ _ _ Es) as [[[= ->] _]|[? _]]; [|done].
      simplify_eq; simpl; split_and!; try done; destruct (tc_dirty cl); simpl in *; lia.
    + destruct (SendEvent_inv _ _ _ _ Es) as [[? _]|(_ & ev & tr & t & Hev & _)]; [done|].
      destruct (Marshal _); simplify_eq; simpl; rewrite ?Hev; split_and!; try done; eauto;
        destruct (tc_dirty cl); simpl in *; lia.
    + simplify_eq; simpl; split_and!; try done; destruct (tc_dirty cl); simpl in *; lia.
    + simplify_eq; simpl; split_and!; try done; destruct (tc_dirty cl); simpl in *; lia.
  - split_and!; try done.
  - split_and!; try done.
  - destruct (tc_dirty cl) eqn:Ed; [|done]. rewrite ?Ed in *.
    destruct (tc_left cl) as [|[|k]] eqn:El; simplify_eq; simpl in *; rewrite ?Ed, ?El;
      split_and!; try done; try lia.
  - split_and!; try done.
Qed.

Lemma progress_step i w : progress_inv w -> progress_inv (tx_step B i w).
Proof.
  intros Hw. unfold tx_step. destruct (tw_clients w !! i) as [cl|] eqn:Hi; [|done].
  destruct (tx_next B cl (tw_store w)) as [[cl' s'] wrote] eqn:En. destruct wrote; simpl.
  - destruct (tx_next_wrote _ _ _ _ En) as (g & g' & Eph & Ed & -> & ->).
    set (spoil := fun c0 => if tc_key c0 =s tc_key cl then set_dirty true c0 else c0).
    assert (Hspoil : forall key c0, committed key [spoil c0] = committed key [c0]).
    { intros key c0. unfold spoil. by destruct (_ =s _). }
    pose proof (Hw i cl Hi) as (Hl & Ho & _ & He). rewrite Eph in He. destruct He as [ev Hev].
    assert (Hcl : forall key, committed key [cl] = []) by (intros key; unfold committed; simpl; by rewrite Eph).
    assert (Hcom : forall key, length (committed key (<[i:=set_phase (TxDone (Done None)) cl]> (spoil <$> tw_clients w))) =
      (length (committed key (tw_clients w)) + (if tc_key cl =s key then 1 else 0))%nat).
    { intros key. rewrite (committed_insert key _ i cl _ spoil Hi (Hspoil key) (Hcl key)), length_app.
      unfold committed at 1. simpl. destruct (_ =s _); [rewrite Hev|]; simpl; lia. }
    intros j c1 Hj. rewrite Hcom.
    apply list_lookup_insert_Some in Hj as [(<- & <- & _)|(Hne & Hj)].
    { change (tc_key (set_phase _ cl)) with (tc_key cl). rewrite bool_decide_refl. unfold owes, gave_up.
      rewrite Eph in Ho. simpl in *. split_and!; try done. lia. }
    apply list_lookup_fmap_Some in Hj as (c0 & -> & Hj). destruct (Hw j c0 Hj) as (Hl0 & Ho0 & Hg0 & He0).
    unfold spoil. destruct (bool_decide_reflect (tc_key c0 = tc_key cl)) as [E|E]; unfold owes, gave_up in *; simpl.
    + change (tc_key (set_dirty true c0)) with (tc_key c0). rewrite E in *. rewrite bool_decide_refl, andb_true_r.
      split_and!; try done; [|intros H; specialize (Hg0 H); lia].
      destruct (in_flight (tc_phase c0)), (tc_dirty c0); simpl in *; lia.
    + split_and!; try done; [lia|intros H; specialize (Hg0 H); lia].
  - assert (Hmap : (fun c0 => c0) <$> tw_clients w = tw_clients w) by apply list_fmap_id.
    rewrite Hmap. destruct (owes_quiet _ _ _ _ _ En (Hw i cl Hi)) as (Ho & Hk & Hc).
    intros j c1 Hj. rewrite (committed_insert_same _ _ _ _ _ Hi (Hc _)).
    apply list_lookup_insert_Some in Hj as [(<- & <- & _)|(Hne & Hj)]; [by rewrite Hk|by apply (Hw j)].
Qed.

Lemma progress_run sched w : progress_inv w -> progress_inv (tx_run B sched w).
Proof. revert w. induction sched as [|i sched IH]; intros w Hw; [done|]. apply IH, progress_step, Hw. Qed.

Lemma tx_next_key cl s : tc_key (fst (fst (tx_next B cl s))) = tc_key cl.
Proof. unfold tx_next. cbv zeta. by repeat (case_match; simplify_eq; try done). Qed.

Lemma tx_run_keys sched w : tc_key <$> tw_clients (tx_run B sched w) = tc_key <$> tw_clients w.
Proof.
  revert w. induction sched as [|i sched IH]; intros w; [done|].
  change (tx_run B (i :: sched) w) with (tx_run B sched (tx_step B i w)). rewrite IH. unfold tx_step.
  destruct (tw_clients w !! i) as [cl|] eqn:Hi; [|done].
  pose proof (tx_next_key cl (tw_store w)) as Hk.
  destruct (tx_next B cl (tw_store w)) as [[cl' s'] wrote]. simpl in Hk |- *.
  rewrite list_fmap_insert, <- list_fmap_compose, Hk.
  assert (Hg : (tc_key ∘ (fun c => if wrote && (tc_key c =s tc_key cl) then set_dirty true c else c)) <$> tw_clients w
    = tc_key <$> tw_clients w).
  { apply list_fmap_ext. intros j c0 _. simpl. by destruct (_ && _). }
  rewrite Hg. apply list_insert_id. by rewrite list_lookup_fmap, Hi.
Qed.

(** A machine has at most as many commits as transactions, the ones that gave
    up not counted. *)
Lemma committed_bound key cls :
  (length (committed key cls) <= length (List.filter (fun k => k =s key) (tc_key <$> cls)))%nat.
Proof.
  induction cls as [|c cls IH]; [done|]. change (c :: cls) with ([c] ++ cls)%list.
  rewrite committed_app, length_app, fmap_app, List.filter_app, length_app.
  enough (length (committed key [c]) <= length (List.filter (fun k => k =s key) (tc_key <$> [c])))%nat by lia.
  clear. unfold committed. simpl. repeat case_match; simplify_eq; simpl; lia.
Qed.

Lemma committed_bound_gave_up i cls cl : cls !! i = Some cl -> gave_up cl ->
  (length (committed (tc_key cl) cls) < length (List.filter (fun k => k =s tc_key cl) (tc_key <$> cls)))%nat.
Proof.
  intros Hi Hg. rewrite <- (take_drop_middle cls i cl Hi).
  change (cl :: drop (S i) cls) with ([cl] ++ drop (S i) cls)%list.
  rewrite !committed_app, !fmap_app, !List.filter_app, !length_app.
  pose proof (committed_bound (tc_key cl) (take i cls)). pose proof (committed_bound (tc_key cl) (drop (S i) cls)).
  assert (Hc : committed (tc_key cl) [cl] = []) by (unfold committed; simpl; by rewrite Hg).
  rewrite Hc. simpl. rewrite bool_decide_refl. simpl. lia.
Qed.

Lemma steps_left_done cl : tx_steps_left cl = 0%nat -> exists r, tc_phase cl = TxDone r.
Proof. unfold tx_steps_left. destruct (tc_phase cl); try lia; eauto. Qed.
End progress.

(** ** Properties *)

(** C3. No update of a machine is lost and none is counted twice: whatever
    transactions run on whatever machines, each reading, watching and
    committing in any interleaving, at every moment the stored machine is the
    one that delivering to it, in some order, exactly the events of the
    transactions that reported success gives, all of them accepted. *)
Theorem no_lost_updates {B} `{!ProtoMessage B FiniteStateMachine} cfgName id c f0 s txs sched :
  st_fsms s !! (cfgName, id) = Some f0 -> st_configs s !! fsm_ConfigId f0 = Some c ->
  let cls := map (fun '(i, n, e) => start_tx i n e) txs in
  let w := tx_run B sched (mkWorld s cls) in
  exists log f, log ≡ₚ committed (cfgName, id) (tw_clients w) /\
    st_fsms (tw_store w) !! (cfgName, id) = Some f /\
    replay (mkCSM c f0) log = Some (mkCSM c f).
Proof.
  intros Hf Hc. cbv zeta. set (cls := map _ txs).
  assert (Hstart : forall cl, cl ∈ cls -> tc_phase cl = TxWatch).
  { intros cl Hcl. apply list_elem_of_fmap in Hcl as ([[i n] e] & -> & _). done. }
  assert (Hi : tx_inv (cfgName, id) c f0 (mkWorld s cls)).
  { split; [done|]. exists [], f0. split_and!; try done.
    - simpl. clear -Hstart. induction cls as [|cl cls IH]; [done|].
      unfold committed. simpl. rewrite (Hstart cl) by by left. apply IH.
      intros cl' H. apply Hstart. by right.
    - intros i cl Hcl _ _. simpl in Hcl. apply list_elem_of_lookup_2 in Hcl. by rewrite Hstart. }
  destruct (tx_inv_run (B:=B) (cfgName, id) c f0 sched _ Hi) as (_ & log & f & H1 & _ & H3 & H4 & _).
  exists log, f. done.
Qed.

(** C13. A transaction that is not disturbed is the atomic operation of the
    contract: its six steps end with the answer and the store that
    [TxProcessEvent] has there. *)
Theorem lone_transaction_is_atomic {B} `{!ProtoMessage B Configuration, !ProtoMessage B FiniteStateMachine,
    !ProtoMessage B Event, !ProtoMessage B EventOutcome} id cfgName evt s :
  let w := tx_run B (repeat O 6) (mkWorld s [start_tx id cfgName evt]) in
  map tc_phase (tw_clients w) = [TxDone (fst (spec_TxProcessEvent B id cfgName evt s))] /\
  tw_store w = snd (spec_TxProcessEvent B id cfgName evt s).
Proof.
  cbv zeta. unfold start_tx. rewrite (tx_prepare 3).
  destruct (st_fsms s !! (cfgName, id)) as [f|] eqn:Hf.
  2:{ rewrite tx_finished. by rewrite spec_TxProcessEvent_no_fsm. }
  rewrite tx_ask_config. cbn [fst tc_phase].
  destruct (st_configs s !! fsm_ConfigId f) as [c|] eqn:Hc.
  2:{ rewrite tx_finished. by rewrite (spec_TxProcessEvent_no_config _ _ _ _ _ Hf Hc). }
  rewrite (spec_TxProcessEvent_cases _ _ _ _ _ _ Hf Hc).
  destruct (SendEvent (mkCSM c f) evt) as [[[err|] x]| |]; [by rewrite tx_finished| |by rewrite tx_finished..].
  unfold spec_put. destruct (Marshal (csm_FSM x)) as [b|err]; [|by rewrite tx_finished].
  by rewrite tx_commit.
Qed.

(** C14. Transactions make progress.  Each is over after eighteen of its own
    steps, however the others are scheduled between them; it gives up only if
    three other transactions on the same machine committed meanwhile, so among
    at most three of them none gives up. *)
Theorem transactions_finish {B} `{!ProtoMessage B FiniteStateMachine} s txs sched i id cfgName evt :
  txs !! i = Some (id, cfgName, evt) -> (18 <= count_occ Nat.eq_dec sched i)%nat ->
  let w := tx_run B sched (mkWorld s (map (fun '(i, n, e) => start_tx i n e) txs)) in
  let others := List.filter (fun '(i, n, _) => (n, i) =s (cfgName, id)) txs in
  exists cl r, tw_clients w !! i = Some cl /\ tc_phase cl = TxDone r /\
    (r = Done (Some (TooManyAttempts "")) ->
       (3 <= length (committed (cfgName, id) (tw_clients w)))%nat /\ (3 < length others)%nat).
Proof.
  intros Hi Hn. cbv zeta. set (cls := map _ txs).
  assert (Hcl : cls !! i = Some (start_tx id cfgName evt)).
  { unfold cls. change (map ?f txs) with (f <$> txs). by rewrite list_lookup_fmap, Hi. }
  destruct (tx_run_steps (B:=B) sched i (mkWorld s cls) _ Hcl) as (cl & H1 & H2 & H3).
  destruct (steps_left_done cl) as [r Hr]; [change (tx_steps_left (start_tx id cfgName evt)) with 18%nat in H3; lia|].
  exists cl, r. split_and!; [done..|]. intros ->.
  assert (Hstart : progress_inv (mkWorld s cls)).
  { intros j c0 Hj. apply list_elem_of_lookup_2 in Hj. apply list_elem_of_fmap in Hj as ([[i0 n0] e0] & -> & _).
    unfold owes, gave_up. simpl. split_and!; try done; lia. }
  destruct (progress_run (B:=B) sched _ Hstart i cl H1) as (_ & _ & Hg & _). change (tc_key cl = (cfgName, id)) in H2.
  rewrite H2 in Hg. split; [by apply Hg|].
  pose proof (committed_bound_gave_up i _ cl H1 Hr) as Hlt. rewrite tx_run_keys in Hlt. rewrite H2 in Hlt.
  specialize (Hg Hr). eapply Nat.lt_le_trans; [apply (Nat.le_lt_trans 3 _ _ Hg Hlt)|].
  apply Nat.eq_le_incl. cbn [tw_clients]. unfold cls. clear.
  induction txs as [|[[i0 n0] e0] txs IH]; [done|].
  change (tc_key <$> map ?f (?x :: txs)) with ((n0, i0) :: (tc_key <$> map f txs)). cbn [List.filter].
  destruct (_ =s _); cbn [length]; by rewrite IH.
Qed.


(** A machine with two ways out of its first state. *)
Definition forked : Configuration := {|
  cfg_Name := "rover"; cfg_Version := "v1"; cfg_StartingState := "earth";
  cfg_States := ["earth"; "orbit"; "scrapped"];
  cfg_Transitions := [mkTransition "earth" "orbit" "launch"; mkTransition "earth" "scrapped" "scrap"] |}.

Definition forked_store : Store :=
  file_new forked "7" (mkFsm "rover:v1" "earth" []) (file_config forked spec_empty).

(** *** Examples *)

Lemma no_lost_updates_witness :
  exists log f, log ≡ₚ [event "1" "launch"] /\
    replay (mkCSM forked (mkFsm "rover:v1" "earth" [])) log = Some (mkCSM forked f).
Proof.
  destruct (no_lost_updates (B:=wire) "rover" "7" forked (mkFsm "rover:v1" "earth" []) forked_store
    [("7", "rover", Some (event "1" "launch")); ("7", "rover", Some (event "2" "scrap"))] race
    eq_refl eq_refl) as (log & f & Hl & _ & Hr).
  exists log, f. split; [|exact Hr]. etransitivity; [exact Hl|]. vm_compute. reflexivity.
Defined.

Lemma transactions_finish_witness : exists cl r,
  tw_clients (tx_run wire (repeat 0%nat 18) (mkWorld forked_store
    (map (fun '(i, n, e) => start_tx i n e) [("7", "rover", Some (event "1" "launch"))]))) !! 0%nat = Some cl /\
  tc_phase cl = TxDone r /\ r <> Done (Some (TooManyAttempts "")).
Proof.
  destruct (transactions_finish (B:=wire) forked_store [("7", "rover", Some (event "1" "launch"))]
    (repeat 0%nat 18) 0 "7" "rover" (Some (event "1" "launch")) eq_refl) as (cl & r & H1 & H2 & H3).
  - vm_compute. apply le_n.
  - exists cl, r. split; [exact H1|]. split; [exact H2|].
    intros E. destruct (H3 E) as [_ H]. vm_compute in H. lia.
Defined.

