(* ===== verification/Main.v ===== *)
(** * The server command: [cmd/main.go]

    The shutdown of the process against what its goroutines are doing: the RPC
    handlers and the SQS subscriber that send on the events channel, and the
    listener that takes requests from it.  The handlers and the listener are
    those of [GrpcServer.v], [Listener.v] and [SqsSub.v]; a panic in any of them
    ends the process.  Also the choice of the log level. *)

From Stdlib Require Import ZArith.
From stdpp Require Import base tactics strings list.
From S2P Require Import Prelude GoLib Proto Fsm Keys StoreTypes Redis RedisStore StoreSpec Process GrpcServer.
From S2P Require Import Listener Server Service SqsPub SqsSub.

(** ** Definitions *)

Inductive Level := InfoLevel | DebugLevel | TraceLevel.

Definition setLogLevel (debug trace : bool) : Level :=
  if debug && negb trace then DebugLevel
  else if trace then TraceLevel
  else InfoLevel.

(** Who sends on [eventsCh]: an RPC handler, whose [select] gives up after a
    while, or a goroutine of the SQS subscriber, which does not. *)
Inductive sender := FromRpc | FromSqs.

#[export] Instance sender_eq_dec : EqDecision sender.
Proof. solve_decision. Defined.

#[export] Instance EventRequest_eq_dec : EqDecision EventRequest.
Proof. solve_decision. Defined.

(** How far [RunUntilStopped] got. *)
Inductive stop_phase := Running | DoneClosed | EventsClosed | GrpcStopped | Returned.

#[export] Instance stop_phase_eq_dec : EqDecision stop_phase.
Proof. solve_decision. Defined.

Record MainState (S E : Type) := mkMain {
  ms_phase : stop_phase;
  ms_proc : Process S E;
  ms_offers : list (sender * EventRequest);   (** blocked in a send, oldest first *)
  ms_busy : option EventRequest;              (** what the listener is working on *)
  ms_withdrawn : list EventRequest;           (** given up by an RPC handler *)
  ms_listening : bool;                        (** [ListenForMessages] runs *)
  ms_polling : bool;                          (** [Subscribe] runs *)
  ms_serving : bool;                          (** [Serve] runs *)
  ms_crashed : bool }.
Arguments mkMain {S E}.
Arguments ms_phase {S E} m.
Arguments ms_proc {S E} m.
Arguments ms_offers {S E} m.
Arguments ms_busy {S E} m.
Arguments ms_withdrawn {S E} m.
Arguments ms_listening {S E} m.
Arguments ms_polling {S E} m.
Arguments ms_serving {S E} m.
Arguments ms_crashed {S E} m.

(** What can happen next.  A request comes with its name, so that a run tells
    which ones were received and which were done. *)
Inductive action :=
| Send (k : sender) (request : EventRequest)    (** [SendEvent] is called, or a message arrives *)
| Rpc (c : call)                                (** another RPC *)
| Take (request : EventRequest)                 (** the listener receives *)
| Finish (request : EventRequest)               (** the listener is done with a request *)
| Withdraw (n : nat)                            (** the timer of the [n]-th sender fires *)
| CloseDone                                     (** after the signal: [close(done)] *)
| CloseEvents                                   (** [close(eventsCh)] *)
| GracefulStop                                  (** [svr.GracefulStop()] returns *)
| ServeExit                                     (** [grpcServer.Serve] returns *)
| ListenerExit                                  (** the listener sees the closed channel *)
| SubscriberExit                                (** the subscriber sees that [done] is closed *)
| WaitReturns.                                  (** [wg.Wait()] returns *)

#[export] Instance action_eq_CloseEvents a : Decision (a = CloseEvents).
Proof. destruct a; first [by left | by right]. Defined.

Section main.
Context {S E : Type} (store : StoreManager S) `{!ServerEnv E}.
Context (Release : string) (server : Config) (notifications sqs : bool).

Abbreviation State := (MainState S E).

(** The process when it was started, with or without a subscriber. *)
Definition main_start (p : Process S E) : State :=
  mkMain Running p [] None [] true sqs true false.

Definition events_closed (s : State) : bool :=
  match ms_phase s with Running | DoneClosed => false | _ => true end.
Definition grpc_stopped (s : State) : bool :=
  match ms_phase s with GrpcStopped | Returned => true | _ => false end.

Definition set_phase (ph : stop_phase) (s : State) : State :=
  mkMain ph (ms_proc s) (ms_offers s) (ms_busy s) (ms_withdrawn s) (ms_listening s) (ms_polling s)
    (ms_serving s) (ms_crashed s).
Definition set_proc (p : Process S E) (s : State) : State :=
  mkMain (ms_phase s) p (ms_offers s) (ms_busy s) (ms_withdrawn s) (ms_listening s) (ms_polling s)
    (ms_serving s) (ms_crashed s).
Definition set_offers (offers : list (sender * EventRequest)) (s : State) : State :=
  mkMain (ms_phase s) (ms_proc s) offers (ms_busy s) (ms_withdrawn s) (ms_listening s) (ms_polling s)
    (ms_serving s) (ms_crashed s).
Definition set_busy (r : option EventRequest) (s : State) : State :=
  mkMain (ms_phase s) (ms_proc s) (ms_offers s) r (ms_withdrawn s) (ms_listening s) (ms_polling s)
    (ms_serving s) (ms_crashed s).
Definition set_withdrawn (l : list EventRequest) (s : State) : State :=
  mkMain (ms_phase s) (ms_proc s) (ms_offers s) (ms_busy s) l (ms_listening s) (ms_polling s)
    (ms_serving s) (ms_crashed s).
Definition set_running (listening polling serving : bool) (s : State) : State :=
  mkMain (ms_phase s) (ms_proc s) (ms_offers s) (ms_busy s) (ms_withdrawn s) listening polling serving
    (ms_crashed s).
Definition crash (s : State) : State :=
  mkMain (ms_phase s) (ms_proc s) (ms_offers s) (ms_busy s) (ms_withdrawn s) (ms_listening s) (ms_polling s)
    (ms_serving s) true.

(** A goroutine runs some code: a panic ends the process. *)
Definition carry_on {A} (s : State) (x : result A * Process S E) (k : A -> State -> State) : option State :=
  match x with
  | (Done a, p) => Some (k a (set_proc p s))
  | (Panicked, p) => Some (crash (set_proc p s))
  | (Spin, _) => None
  end.

(** What [SendEvent] and [ProcessMessage] do before they send: they drop a
    request that lacks something, and complete the event of any other. *)
Definition passes (k : sender) (request : EventRequest) : bool :=
  match k with FromRpc => complete_request request | FromSqs => negb (req_Id request =s "") end.

Definition prepare (k : sender) (request : EventRequest) : Go (Process S E) (option EventRequest) :=
  if passes k request then
    ev ← on_env (UpdateEvent (req_Event request));
    mret (Some (mkEventRequest (Some ev) (req_Config request) (req_Id request)))
  else mret None.

(** A send on a closed channel panics, and so does a send that is blocked when
    the channel is closed.  No RPC comes in once the server was stopped. *)
Definition main_step (a : action) (s : State) : option State :=
  if ms_crashed s || (ms_phase s =s Returned) then None
  else
    match a with
    | Send k request =>
        if (match k with FromRpc => grpc_stopped s | FromSqs => negb sqs end) then None
        else
          carry_on s (prepare k request (ms_proc s)) (fun r s =>
            match r with
            | None => s
            | Some posted =>
                if events_closed s then crash s else set_offers (ms_offers s ++ [(k, posted)]) s
            end)
    | Rpc c =>
        match c with
        | CallSendEvent _ _ | CallListen _ => None
        | _ =>
            if grpc_stopped s then None
            else carry_on s (serve store Release server notifications c (ms_proc s)) (fun _ s => s)
        end
    | Take request =>
        match ms_offers s with
        | (_, r) :: rest =>
            if ms_listening s && (ms_busy s =s None) && (r =s request)
            then carry_on s (post_event r (ms_proc s)) (fun _ s => set_offers rest (set_busy (Some r) s))
            else None
        | [] => None
        end
    | Finish request =>
        if ms_busy s =s Some request
        then carry_on s (handle_request store notifications request (ms_proc s)) (fun _ s => set_busy None s)
        else None
    | Withdraw n =>
        match ms_offers s !! n with
        | Some (FromRpc, r) =>
            Some (set_offers (delete n (ms_offers s)) (set_withdrawn (ms_withdrawn s ++ [r]) s))
        | _ => None
        end
    | CloseDone => if ms_phase s =s Running then Some (set_phase DoneClosed s) else None
    | CloseEvents =>
        if ms_phase s =s DoneClosed then
          match ms_offers s with
          | [] => Some (set_phase EventsClosed s)
          | _ => Some (crash (set_phase EventsClosed s))
          end
        else None
    | GracefulStop => if ms_phase s =s EventsClosed then Some (set_phase GrpcStopped s) else None
    | ServeExit =>
        if grpc_stopped s && ms_serving s
        then Some (set_running (ms_listening s) (ms_polling s) false s) else None
    | ListenerExit =>
        if events_closed s && ms_listening s && (ms_busy s =s None)
        then Some (set_running false (ms_polling s) (ms_serving s) s) else None
    | SubscriberExit =>
        if negb (ms_phase s =s Running) && ms_polling s
        then Some (set_running (ms_listening s) false (ms_serving s) s) else None
    | WaitReturns =>
        if (ms_phase s =s GrpcStopped) && negb (ms_listening s) && negb (ms_polling s) && negb (ms_serving s)
        then Some (set_phase Returned s) else None
    end.

Fixpoint main_run (actions : list action) (s : State) : option State :=
  match actions with
  | [] => Some s
  | a :: rest => s' ← main_step a s; main_run rest s'
  end.

End main.

(** *** What a run tells *)

(** The requests that were to be sent on the channel, those received from it,
    and those the listener was done with. *)
Definition sent (actions : list action) : list EventRequest :=
  omap (fun a => match a with Send k r => if passes k r then Some r else None | _ => None end) actions.
Definition received (actions : list action) : list EventRequest :=
  omap (fun a => match a with Take r => Some r | _ => None end) actions.
Definition finished (actions : list action) : list EventRequest :=
  omap (fun a => match a with Finish r => Some r | _ => None end) actions.
Definition withdrawals (actions : list action) : list nat :=
  omap (fun a => match a with Withdraw n => Some n | _ => None end) actions.

(** A request whose event can be stored and has no transition. *)
Definition bare (B : Type) `{!ProtoMessage B Event} (request : EventRequest) : Prop :=
  names_machine request = true /\
  exists ev, req_Event request = Some ev /\ can_store B ev = true /\ evt_Transition ev = None.

(** An action that ends the process, after those before it. *)
Definition fatal (B : Type) `{!ProtoMessage B Event} (before : list action) (a : action) : Prop :=
  match a with
  | CloseEvents => (length (received before) + length (withdrawals before) < length (sent before))%nat
  | Send k request => passes k request = true /\ (req_Event request = None \/ CloseEvents ∈ before)
  | Rpc c => exists ctx req, c = CallPutFiniteStateMachine ctx req /\ pf_Fsm req = None
  | Finish request => bare B request
  | _ => False
  end.

(** Something that arrives from outside. *)
Definition arrival (a : action) : bool := match a with Send _ _ | Rpc _ => true | _ => false end.

(** ** Lemmas *)

Section lemmas.
Context {S E : Type} (store : StoreManager S) `{!ServerEnv E, !GoEnvLaws E}.
Context (Release : string) (server : Config) (notifications sqs : bool).

Abbreviation step := (main_step store Release server notifications sqs).
Abbreviation run := (main_run store Release server notifications sqs).

Lemma main_run_app l1 l2 s : run (l1 ++ l2)%list s = run l1 s ≫= run l2.
Proof.
  revert s. induction l1 as [|a l1 IH]; intros s; simpl; [done|].
  destruct (step a s) as [s'|]; simpl; [apply IH|done].
Qed.

(** *** The code of the senders *)

(** [ProcessMessage] is [prepare], the send, and the removal of the message. *)
Lemma ProcessMessage_prepare `{!SqsClient E, !Scheduler E, !ProtoMessage string EventRequest} settings msg url
    (p : Process S E) request :
  is_Some (MessageId msg) -> Body msg ≫= (fun b => match UnmarshalFromText EventRequest b with
    Ok r => Some r | Fail _ => None end) = Some request ->
  ProcessMessage settings msg url p =
  (r ← prepare FromSqs request;
   match r with
   | None => mret tt
   | Some posted => post_event posted;; env_op (fun e => (tt, event_sent posted e));;
                    remove_loop (Z.to_nat (MessageRemoveRetries settings)) url msg
   end) p.
Proof.
  intros [i Hi] Hb. unfold ProcessMessage, prepare, passes. rewrite Hi, go_bind_deref.
  destruct (Body msg) as [body|]; [|done]. simpl in Hb.
  destruct (UnmarshalFromText EventRequest body) as [r|]; [|done]. injection Hb as ->.
  destruct (req_Id request =s ""); [done|]. cbn [negb].
  unfold mbind, go_bind. by destruct (on_env (UpdateEvent (req_Event request)) p) as [[] q].
Qed.

(** [SendEvent] is [prepare] and the select, for a complete request. *)
Lemma grpc_SendEvent_prepare ctx request (p : Process S E) :
  complete_request request = true ->
  grpc_SendEvent server ctx request p =
  (r ← prepare FromRpc request;
   posted ← deref r;
   timeout ← match ctx_Deadline ctx with
             | Some deadline => now ← env_op time_Now; mret (deadline - now)
             | None => mret (gc_Timeout server)
             end;
   sent ← (if EventsChannel_set server then env_op (select_send timeout) else mret false);
   if (sent : bool) then
     post_event posted;; mret (ok (mkEventResponse (GetEvent_GetEventId posted) None))
   else mret (status_Error codes_DeadlineExceeded "cannot post event")) p.
Proof.
  intros Hc. unfold prepare, passes. rewrite Hc. revert Hc.
  unfold complete_request, event_name, carried, grpc_SendEvent.
  destruct (req_Id request =s ""); [done|].
  destruct (req_Event request) as [ev|]; [|done].
  destruct (evt_Transition ev) as [tr|]; [|done].
  destruct (tr_Event tr =s ""); [done|]. intros _.
  unfold mbind, go_bind. by destruct (on_env (UpdateEvent (Some ev)) p) as [[] q].
Qed.

Lemma prepare_run k request (p : Process S E) :
  if passes k request then
    match req_Event request with
    | None => prepare k request p = (Panicked, p)
    | Some _ => exists posted e, completes_request request posted /\
        prepare k request p = (Done (Some posted), set_env p e)
    end
  else prepare k request p = (Done None, p).
Proof.
  unfold prepare. destruct (req_Event request) as [ev|] eqn:He; destruct (passes k request) eqn:Hp; try done.
  - destruct (UpdateEvent_spec ev (p_env p)) as (ev' & e & E1 & Hc).
    rewrite (on_env_step _ _ _ _ _ E1). eexists _, e. split; [|done]. by exists ev, ev'.
  - unfold mbind, go_bind, on_env. simpl. by destruct p.
Qed.

(** *** Bookkeeping *)

(** Every request that was to be sent is somewhere, and the state tells what
    happened so far. *)
Record accounted (actions : list action) (s : MainState S E) : Prop := {
  acc_requests : exists posted, Forall2 completes_request (sent actions) posted /\
    posted ≡ₚ (received actions ++ ms_withdrawn s ++ map snd (ms_offers s))%list;
  acc_withdrawn : length (ms_withdrawn s) = length (withdrawals actions);
  acc_busy : received actions = (finished actions ++ option_list (ms_busy s))%list;
  acc_closed : events_closed s = true <-> CloseEvents ∈ actions;
  acc_quiet : events_closed s = true -> ms_offers s = [];
  acc_returned : ms_phase s = Returned ->
    ms_listening s = false /\ ms_polling s = false /\ ms_serving s = false;
  acc_idle : ms_listening s = false -> ms_busy s = None /\ events_closed s = true }.

Lemma accounted_start p : accounted [] (main_start sqs p).
Proof.
  split; try done. exists []. by split; [constructor|].
  simpl. split; [done|]. by intros H%elem_of_nil.
Qed.

Lemma step_live a s s' : step a s = Some s' -> ms_crashed s = false /\ ms_phase s <> Returned.
Proof.
  unfold main_step. destruct (ms_crashed s); [done|]. by destruct (bool_decide_reflect (ms_phase s = Returned)).
Qed.

Lemma sent_app l1 l2 : sent (l1 ++ l2) = (sent l1 ++ sent l2)%list.
Proof. apply omap_app. Qed.
Lemma received_app l1 l2 : received (l1 ++ l2) = (received l1 ++ received l2)%list.
Proof. apply omap_app. Qed.
Lemma finished_app l1 l2 : finished (l1 ++ l2) = (finished l1 ++ finished l2)%list.
Proof. apply omap_app. Qed.
Lemma withdrawals_app l1 l2 : withdrawals (l1 ++ l2) = (withdrawals l1 ++ withdrawals l2)%list.
Proof. apply omap_app. Qed.

Lemma closed_app actions a (P : Prop) : a <> CloseEvents ->
  (P <-> CloseEvents ∈ actions) -> (P <-> CloseEvents ∈ (actions ++ [a])%list).
Proof. intros Ha ->. rewrite elem_of_app, list_elem_of_singleton. naive_solver. Qed.

(** An action that neither sends nor receives. *)
Lemma accounted_internal actions a s s' :
  sent [a] = [] -> received [a] = [] -> withdrawals [a] = [] -> a <> CloseEvents ->
  ms_offers s' = ms_offers s -> ms_withdrawn s' = ms_withdrawn s ->
  (option_list (ms_busy s) = finished [a] ++ option_list (ms_busy s'))%list ->
  events_closed s' = events_closed s ->
  (ms_phase s' = Returned -> ms_listening s' = false /\ ms_polling s' = false /\ ms_serving s' = false) ->
  (ms_listening s' = false -> ms_busy s' = None /\ events_closed s' = true) ->
  accounted actions s -> accounted (actions ++ [a])%list s'.
Proof.
  intros H1 H2 H3 Ha Ho Hw Hb Hc Hret Hidle [Hr Hwd Hbu Hcl Hq _ _].
  split; rewrite ?sent_app, ?received_app, ?withdrawals_app, ?finished_app.
  - by rewrite H1, H2, Ho, Hw, !app_nil_r.
  - by rewrite H3, Hw, app_nil_r.
  - by rewrite H2, app_nil_r, Hbu, Hb, app_assoc.
  - rewrite Hc. by apply closed_app.
  - by rewrite Hc, Ho.
  - done.
  - done.
Qed.

Lemma carry_on_inv {A} (s : MainState S E) (x : result A * Process S E) k s' :
  carry_on s x k = Some s' -> ms_crashed s' = false ->
  exists a p, x = (Done a, p) /\ s' = k a (set_proc p s).
Proof. destruct x as [[a| |] p]; simpl; intros [= <-]; [|done]. by exists a, p. Qed.

Lemma accounted_send actions k r s s' : step (Send k r) s = Some s' -> ms_crashed s' = false ->
  accounted actions s -> accounted (actions ++ [Send k r])%list s'.
Proof.
  intros H Hc' Hs. destruct (step_live _ _ _ H) as [Hc Hret]. unfold main_step in H.
  rewrite Hc, bool_decide_ne in H by done. cbn [orb] in H.
  destruct (match k with FromRpc => _ | FromSqs => _ end); [done|].
  apply carry_on_inv in H as (o & p & Hrun & ->); [|done].
  pose proof (prepare_run k r (ms_proc s)) as Hp. pose proof Hs as [Hr Hwd Hbu Hcl Hq Hre Hi].
  destruct (passes k r) eqn:Hpass.
  2:{ rewrite Hp in Hrun. injection Hrun as <- <-.
      apply (accounted_internal _ _ s); simpl; rewrite ?Hpass; done. }
  destruct (req_Event r) as [ev|]; [|by rewrite Hp in Hrun].
  destruct Hp as (posted & e & Hpo & Hp). rewrite Hp in Hrun. injection Hrun as <- <-.
  cbn [set_proc] in Hc' |- *. change (events_closed (set_proc _ s)) with (events_closed s) in *.
  destruct (events_closed s) eqn:He; [done|]. destruct Hr as (all & Hall & Hperm).
  assert (Hsent : sent [Send k r] = [r]) by (simpl; by rewrite Hpass).
  split; rewrite ?sent_app, ?Hsent, ?received_app, ?withdrawals_app, ?finished_app, ?app_nil_r; simpl; try done.
  - exists (all ++ [posted])%list. split; [by apply Forall2_app; [|repeat constructor]|].
    rewrite map_app, Hperm. simpl. by rewrite <- !app_assoc.
  - apply closed_app; [done|]. unfold events_closed in *. simpl. by rewrite He.
  - unfold events_closed in *. simpl. by rewrite He.
  - intros Hl. by destruct (Hi Hl).
Qed.

Lemma accounted_take actions r s s' : step (Take r) s = Some s' ->
  accounted actions s -> accounted (actions ++ [Take r])%list s'.
Proof.
  intros H Hs. destruct (step_live _ _ _ H) as [Hc Hret]. unfold main_step in H.
  rewrite Hc, bool_decide_ne in H by done. cbn [orb] in H.
  destruct (ms_offers s) as [|[k r'] rest] eqn:Ho; [done|].
  destruct (_ && _) eqn:Hcond; [|done].
  apply andb_true_iff in Hcond as [[Hl Hb%bool_decide_eq_true]%andb_true_iff Hr'%bool_decide_eq_true].
  subst r'. simpl in H. injection H as <-. destruct Hs as [(all & Hall & Hperm) Hwd Hbu Hcl Hq Hre Hi].
  rewrite Hb in Hbu. simpl in Hbu. rewrite app_nil_r in Hbu.
  split; rewrite ?sent_app, ?received_app, ?withdrawals_app, ?finished_app, ?app_nil_r; simpl; try done.
  - exists all. split; [done|]. rewrite Hperm, Ho. simpl. rewrite <- !app_assoc.
    apply Permutation_app_head. simpl. by rewrite <- Permutation_middle.
  - by rewrite Hbu.
  - apply closed_app; done.
  - intros He. rewrite (Hq He) in Ho. done.
  - intros Hl'. by rewrite Hl in Hl'.
Qed.

Lemma accounted_withdraw actions n s s' : step (Withdraw n) s = Some s' ->
  accounted actions s -> accounted (actions ++ [Withdraw n])%list s'.
Proof.
  intros H Hs. destruct (step_live _ _ _ H) as [Hc Hret]. unfold main_step in H.
  rewrite Hc, bool_decide_ne in H by done. cbn [orb] in H.
  destruct (ms_offers s !! n) as [[[] r]|] eqn:Hn; try done. injection H as <-.
  destruct Hs as [(all & Hall & Hperm) Hwd Hbu Hcl Hq Hre Hi].
  split; rewrite ?sent_app, ?received_app, ?withdrawals_app, ?finished_app, ?app_nil_r; simpl; try done.
  - exists all. split; [done|]. rewrite Hperm. apply Permutation_app_head.
    rewrite <- app_assoc. apply Permutation_app_head. simpl.
    by rewrite (delete_Permutation _ _ _ Hn) at 1.
  - by rewrite !length_app, Hwd.
  - apply closed_app; done.
  - intros He. by rewrite (Hq He) in Hn.
Qed.

Lemma main_step_accounted actions a s s' : step a s = Some s' -> ms_crashed s' = false ->
  accounted actions s -> accounted (actions ++ [a])%list s'.
Proof.
  intros H Hc' Hs. destruct a as [k r|c|r|r|n| | | | | | |];
    [by apply (accounted_send _ _ _ s)| |by apply (accounted_take _ _ s)| |by apply (accounted_withdraw _ _ s)|..];
    destruct (step_live _ _ _ H) as [Hc Hret]; unfold main_step in H;
    rewrite Hc, bool_decide_ne in H by done; cbn [orb] in H;
    pose proof Hs as [Hr Hwd Hbu Hcl Hq Hre Hi].
  - assert (Hp : exists p, s' = set_proc p s).
    { destruct c; try done; (destruct (grpc_stopped s); [done|]);
        apply carry_on_inv in H as (m & p & _ & ->); try done; by exists p. }
    destruct Hp as [p ->]. by apply (accounted_internal _ _ s).
  - destruct (bool_decide_reflect (ms_busy s = Some r)) as [Hb|]; [|done].
    apply carry_on_inv in H as ([] & p & _ & ->); [|done].
    apply (accounted_internal _ _ s); simpl; try done; [by rewrite Hb|]. naive_solver.
  - destruct (bool_decide_reflect (ms_phase s = Running)) as [Hp|]; [|done]. injection H as <-.
    apply (accounted_internal _ _ s); simpl; try done; unfold events_closed in *; simpl; by rewrite ?Hp in *.
  - destruct (bool_decide_reflect (ms_phase s = DoneClosed)) as [Hp|]; [|done].
    destruct (ms_offers s) eqn:Ho; injection H as <-; [|done].
    split; rewrite ?sent_app, ?received_app, ?withdrawals_app, ?finished_app, ?app_nil_r; simpl; try done.
    + by rewrite Ho.
    + split; [|done]. intros _. apply elem_of_app. right. by left.
    + unfold events_closed in Hi. rewrite Hp in Hi. intros Hl. by destruct (Hi Hl).
  - destruct (bool_decide_reflect (ms_phase s = EventsClosed)) as [Hp|]; [|done]. injection H as <-.
    apply (accounted_internal _ _ s); simpl; try done; unfold events_closed in *; simpl; by rewrite ?Hp in *.
  - destruct (_ && _) eqn:Hcond; [|done]. injection H as <-.
    apply (accounted_internal _ _ s); simpl; try done; intros Hp; by destruct Hret.
  - destruct (_ && _) eqn:Hcond; [|done]. injection H as <-.
    apply andb_true_iff in Hcond as [[He Hl]%andb_true_iff Hb%bool_decide_eq_true].
    apply (accounted_internal _ _ s); simpl; try done.
  - destruct (_ && _) eqn:Hcond; [|done]. injection H as <-.
    apply (accounted_internal _ _ s); simpl; try done.
  - destruct (_ && _) eqn:Hcond; [|done]. injection H as <-.
    apply andb_true_iff in Hcond as [[[Hp%bool_decide_eq_true Hl%negb_true_iff]%andb_true_iff
      Hpo%negb_true_iff]%andb_true_iff Hse%negb_true_iff].
    apply (accounted_internal _ _ s); simpl; try done; [unfold events_closed; by rewrite Hp|].
    intros _. by destruct (Hi Hl).
Qed.

Lemma main_run_accounted actions p s :
  run actions (main_start sqs p) = Some s -> ms_crashed s = false -> accounted actions s.
Proof.
  revert s. induction actions as [|a actions IH] using rev_ind; intros s; simpl.
  { intros [= <-] _. apply accounted_start. }
  rewrite main_run_app. destruct (run actions _) as [s1|] eqn:E1; [|done]. simpl.
  destruct (step a s1) as [s2|] eqn:E2; [|done]. simpl. intros [= <-] Hc.
  destruct (step_live _ _ _ E2) as [Hc1 _]. apply (main_step_accounted _ _ s1); auto.
Qed.
End lemmas.

(** *** What panics, over the contract of the store *)

Section panics.
Context {B : Type} `{!ProtoMessage B Configuration, !ProtoMessage B FiniteStateMachine,
  !ProtoMessage B Event, !ProtoMessage B EventOutcome}.
Context {E : Type} `{!ServerEnv E, !GoEnvLaws E}.
Context (Release : string) (server : Config) (notifications sqs : bool).

Abbreviation serves := (serve (spec_manager B) Release server notifications).

#[export] Instance bare_dec request : Decision (bare B request).
Proof.
  unfold bare. destruct (names_machine request); [|right; by intros [? _]].
  destruct (req_Event request) as [ev|]; [|right; by intros (_ & ev & ? & _)].
  destruct (can_store B ev) eqn:Hc; [|right; intros (_ & ev' & [= <-] & ? & _); congruence].
  destruct (evt_Transition ev) eqn:Ht; [right; intros (_ & ev' & [= <-] & _ & ?); congruence|].
  left. split; [done|]. by exists ev.
Defined.

(** The listener, by the request. *)
Lemma handle_request_result request (p : Process Store E) :
  let r := fst (handle_request (spec_manager B) notifications request p) in
  (bare B request -> r = Panicked) /\ (~ bare B request -> r = Done tt).
Proof.
  cbv zeta. destruct (Listen_fulfils (B:=B) Release server notifications request p) as (po & no & H & _).
  cbn [serve] in H. unfold mbind, go_bind in H.
  destruct (handle_request (spec_manager B) notifications request p) as [[[]| |] p']; simpl in *;
    inversion H; subst; (split; [|try done]); intros Hb; try done.
  - destruct Hb as [Hn _]. congruence.
  - destruct Hb as (_ & ev & He & Hcan & _). rewrite He in *. congruence.
  - destruct Hb as (_ & ev' & He & _ & Htr). congruence.
  - destruct Hb. split; [done|]. by eexists.
Qed.

(** The other calls: only the put of a machine panics. *)
Lemma serve_result c (p : Process Store E) :
  match c with CallSendEvent _ _ | CallListen _ => False | _ => True end ->
  (exists m, fst (serves c p) = Done m /\ forall ctx req, c = CallPutFiniteStateMachine ctx req -> pf_Fsm req <> None) \/
  (fst (serves c p) = Panicked /\ exists ctx req, c = CallPutFiniteStateMachine ctx req /\ pf_Fsm req = None).
Proof.
  intros Hc. destruct (streaming c) eqn:Hs.
  - left. destruct c; try done; cbn [serve].
    + unfold StreamAllInstate, grpc_GetAllInState. cbv zeta.
      destruct (_ =s ""); [by eexists|]. destruct (_ =s ""); [by eexists|].
      unfold mbind, go_bind. cbn [GetAllInState spec_manager].
      destruct (stream_fsms_streams (B:=B) (gf_Config req)
        (elements (set_of (st_states (p_store p)) (gf_Config req, GetFsmRequest_GetState req))) [] p)
        as (more & err & p' & Hrun & _). destruct p as [s e evs no]. simpl in *. rewrite Hrun. by eexists.
    + unfold StreamAllConfigurations, GetAllConfigurations.
      destruct (bool_decide_reflect (name = "")); [by eexists|].
      unfold mbind, go_bind. cbn [GetAllVersions spec_manager].
      destruct (stream_configs_streams (B:=B) (elements (set_of (st_versions (p_store p)) name)) [] p)
        as (more & err & p' & Hrun & _). destruct p as [s e evs no]. simpl in *. rewrite Hrun. by eexists.
  - destruct (serve_fulfils (B:=B) Release server notifications c p Hs) as (po & no & H & _).
    destruct (serves c p) as [r p']. simpl in *.
    inversion H; subst; try done;
      first [right; split; [done|]; by eexists _, _ | left; eexists; split; [done|]; intros ? ? [= <- <-]; congruence
            | left; eexists; split; [done|]; intros ? ? [=]].
Qed.

Abbreviation step := (main_step (spec_manager B) Release server notifications sqs).
Abbreviation run := (main_run (spec_manager B) Release server notifications sqs).

Lemma accounted_count actions (s : MainState Store E) : accounted actions s ->
  ms_offers s <> [] <-> (length (received actions) + length (withdrawals actions) < length (sent actions))%nat.
Proof.
  intros [(all & Hall & Hperm) Hwd _ _ _ _ _]. apply Forall2_length in Hall.
  apply Permutation_length in Hperm. rewrite !length_app, length_map in Hperm. rewrite <- Hwd.
  destruct (ms_offers s); simpl in Hperm; (split; [intros Hne|]); [done|lia|lia|done].
Qed.

(** A step ends the process exactly if it is fatal after the actions before it. *)
Lemma main_step_fatal actions a (s s' : MainState Store E) :
  accounted actions s -> step a s = Some s' -> ms_crashed s' = true <-> fatal B actions a.
Proof.
  intros Hs H. pose proof (accounted_count _ _ Hs) as Hcount. destruct Hs as [_ _ _ Hcl _ _ _].
  destruct (step_live _ _ _ _ _ _ _ _ H) as [Hc Hret]. unfold main_step in H.
  rewrite Hc, bool_decide_ne in H by done. cbn [orb] in H.
  destruct a as [k r|c|r|r|n| | | | | | |]; cbn [fatal].
  - destruct (match k with FromRpc => _ | FromSqs => _ end); [done|].
    pose proof (prepare_run k r (ms_proc s)) as Hp. destruct (passes k r).
    2:{ rewrite Hp in H. injection H as <-. simpl. rewrite Hc. naive_solver. }
    destruct (req_Event r) as [ev|]; [|rewrite Hp in H; injection H as <-; simpl; naive_solver].
    destruct Hp as (posted & e & _ & Hp). rewrite Hp in H. injection H as <-.
    change (events_closed (set_proc _ s)) with (events_closed s).
    destruct (events_closed s); simpl; rewrite ?Hc, <- Hcl; naive_solver.
  - assert (Hok : match c with CallSendEvent _ _ | CallListen _ => False | _ => True end) by (by destruct c).
    assert (H' : carry_on s (serves c (ms_proc s)) (fun _ s => s) = Some s')
      by (destruct c; try done; by destruct (grpc_stopped s)). clear H.
    destruct (serve_result c (ms_proc s) Hok) as [(m & Hm & Hno)|(Hm & Hyes)];
      destruct (serves c (ms_proc s)) as [x p]; simpl in Hm; subst x; injection H' as <-; simpl.
    + rewrite Hc. split; [done|]. intros (ctx & req & Heq & Hf). by destruct (Hno _ _ Heq).
    + by split.
  - destruct (ms_offers s) as [|[k r'] rest]; [done|]. destruct (_ && _); [|done].
    injection H as <-. simpl. by rewrite Hc.
  - destruct (ms_busy s =s Some r); [|done].
    destruct (handle_request_result r (ms_proc s)) as [Hb Hnb]. split.
    + intros Hcr. destruct (handle_request _ _ _ _) as [[[]| |] q] eqn:Eq; simpl in *; try done;
        injection H as <-; simpl in Hcr; [congruence|].
      destruct (decide (bare B r)) as [?|Hno]; [done|]. by specialize (Hnb Hno).
    + intros Hbare. specialize (Hb Hbare). destruct (handle_request _ _ _ _) as [x q]. simpl in Hb. subst x.
      by injection H as <-.
  - destruct (ms_offers s !! n) as [[[] r]|]; try done. injection H as <-. simpl. by rewrite Hc.
  - destruct (_ =s _); [|done]. injection H as <-. simpl. by rewrite Hc.
  - destruct (_ =s _); [|done]. rewrite <- Hcount.
    destruct (ms_offers s); injection H as <-; simpl; by rewrite ?Hc.
  - destruct (_ =s _); [|done]. injection H as <-. simpl. by rewrite Hc.
  - destruct (_ && _); [|done]. injection H as <-. simpl. by rewrite Hc.
  - destruct (_ && _); [|done]. injection H as <-. simpl. by rewrite Hc.
  - destruct (_ && _); [|done]. injection H as <-. simpl. by rewrite Hc.
  - destruct (_ && _); [|done]. injection H as <-. simpl. by rewrite Hc.
Qed.

(** *** After the events channel was closed *)

Definition b2n (b : bool) : nat := if b then 1 else 0.

(** What is still to happen. *)
Definition to_do (s : MainState Store E) : nat :=
  match ms_phase s with
  | EventsClosed => 2
  | GrpcStopped => 1
  | _ => 0
  end + b2n (ms_listening s) + b2n (ms_polling s) + b2n (ms_serving s)
  + match ms_busy s with Some _ => 1 | None => 0 end.

(** Closed, and nothing that is being done panics. *)
Definition closing (s : MainState Store E) : Prop :=
  events_closed s = true /\ ms_crashed s = false /\ forall r, ms_busy s = Some r -> ~ bare B r.

(** A step that is not an arrival is one thing less to do. *)
Lemma main_step_to_do a s s' : step a s = Some s' -> arrival a = false -> ms_offers s = [] -> closing s ->
  to_do s = S (to_do s') /\ ms_offers s' = [] /\ closing s'.
Proof.
  intros H Ha Ho (He & Hc & Hb). destruct (step_live _ _ _ _ _ _ _ _ H) as [_ Hret].
  unfold main_step in H. rewrite Hc, bool_decide_ne in H by done. cbn [orb] in H. rewrite Ho in H.
  assert (Hph : ms_phase s = EventsClosed \/ ms_phase s = GrpcStopped)
    by (unfold events_closed in He; destruct (ms_phase s); auto; done).
  unfold to_do, closing, events_closed, grpc_stopped in *.
  destruct a as [k r|c|r|r|n| | | | | | |]; simpl in Ha; try done.
  - destruct (bool_decide_reflect (ms_busy s = Some r)) as [Hr|]; [|done].
    destruct (handle_request_result r (ms_proc s)) as [_ Hd]. specialize (Hd (Hb r Hr)).
    destruct (handle_request _ _ _ _) as [x q]. simpl in Hd. subst x. injection H as <-. simpl. rewrite Hr.
    split_and!; first [done|simpl; lia].
  - destruct Hph as [->| ->] in H; done.
  - destruct Hph as [->| ->] in H; done.
  - destruct (bool_decide_reflect (ms_phase s = EventsClosed)) as [Hp|]; [|done]. injection H as <-. simpl.
    rewrite Hp. split_and!; first [done|simpl; lia].
  - destruct (_ && _) eqn:Hcond; [|done]. injection H as <-. apply andb_true_iff in Hcond as [_ Hs].
    simpl. rewrite Hs. split_and!; first [done|simpl; lia].
  - destruct (_ && _) eqn:Hcond; [|done]. injection H as <-.
    apply andb_true_iff in Hcond as [[_ Hs]%andb_true_iff _]. simpl. rewrite Hs. split_and!; first [done|simpl; lia].
  - destruct (_ && _) eqn:Hcond; [|done]. injection H as <-. apply andb_true_iff in Hcond as [_ Hs].
    simpl. rewrite Hs. split_and!; first [done|simpl; lia].
  - destruct (_ && _) eqn:Hcond; [|done]. injection H as <-.
    apply andb_true_iff in Hcond as [[[Hp%bool_decide_eq_true _]%andb_true_iff _]%andb_true_iff _].
    simpl. rewrite Hp. split_and!; first [done|simpl; lia].
Qed.

Lemma main_run_to_do more s s' : Forall (fun a => arrival a = false) more -> run more s = Some s' ->
  ms_offers s = [] -> closing s ->
  (length more + to_do s' = to_do s)%nat /\ closing s'.
Proof.
  intros Hmore. revert s. induction Hmore as [|a more Ha _ IH]; intros s; simpl; [by intros [= <-]|].
  destruct (step a s) as [s1|] eqn:E1; [|done]. simpl. intros H Ho Hs.
  destruct (main_step_to_do _ _ _ E1 Ha Ho Hs) as (Ht & Ho1 & Hs1).
  destruct (IH s1 H Ho1 Hs1) as [Ht1 Hs']. split; [lia|done].
Qed.

(** The process is not stuck before [main] returns. *)
Lemma main_step_enabled s : closing s -> (ms_listening s = false -> ms_busy s = None) ->
  ms_phase s = Returned \/ exists a s', arrival a = false /\ step a s = Some s'.
Proof.
  intros (He & Hc & Hb) Hi. destruct (decide (ms_phase s = Returned)) as [|Hret]; [by left|right].
  assert (Hrun : ms_phase s <> Running) by (intros Hr; unfold events_closed in He; by rewrite Hr in He).
  assert (Hex : exists a, arrival a = false /\ is_Some (step a s)).
  2:{ destruct Hex as (a & Ha & s' & Hs'). by exists a, s'. }
  assert (Hlive : ms_crashed s || (ms_phase s =s Returned) = false) by (by rewrite Hc, bool_decide_ne).
  destruct (ms_busy s) as [r|] eqn:Hr.
  { exists (Finish r). split; [done|]. unfold main_step. rewrite Hlive, Hr, bool_decide_refl.
    destruct (handle_request_result r (ms_proc s)) as [_ Hd]. specialize (Hd (Hb r eq_refl)).
    destruct (handle_request _ _ _ _) as [x q]. simpl in Hd. subst x. by eexists. }
  destruct (ms_listening s) eqn:Hl.
  { exists ListenerExit. split; [done|]. unfold main_step. unfold events_closed in *. rewrite Hlive, He, Hl, Hr. by eexists. }
  destruct (ms_polling s) eqn:Hp.
  { exists SubscriberExit. split; [done|]. unfold main_step. rewrite Hlive, Hp, bool_decide_ne by done. by eexists. }
  unfold events_closed in He. destruct (ms_phase s) eqn:Hph; try done.
  { exists GracefulStop. split; [done|]. unfold main_step. rewrite Hph, Hlive. by eexists. }
  destruct (ms_serving s) eqn:Hs.
  - exists ServeExit. split; [done|]. unfold main_step, grpc_stopped. rewrite Hph, Hlive, Hs. by eexists.
  - exists WaitReturns. split; [done|]. unfold main_step. rewrite Hph, Hlive, Hl, Hp, Hs. by eexists.
Qed.
End panics.

(** ** Properties *)

Section theorems.
Context {B : Type} `{!ProtoMessage B Configuration, !ProtoMessage B FiniteStateMachine,
  !ProtoMessage B Event, !ProtoMessage B EventOutcome}.
Context {E : Type} `{!ServerEnv E, !GoEnvLaws E}.
Context (Release : string) (server : Config) (notifications sqs : bool).

Abbreviation run := (main_run (spec_manager B) Release server notifications sqs).
Abbreviation step := (main_step (spec_manager B) Release server notifications sqs).

(** C26. What brings the process down, and that nothing is lost otherwise.  In a
    run from the start of the process, over a store that keeps its contract, a
    panic ends it exactly if the last thing that happened was one of these: the
    events channel was closed while more requests had been sent than were
    received or given up; a request was sent after that; a message came without an event;
    a machine was to be put that was not in the request; or the listener came to a
    request whose event has no transition.  Short of that, every request that
    was to be sent, with its event completed, was received by the listener once, was
    given up by its handler, or is still being offered; and the listener was
    done with all those it received but the one it works on. *)
Theorem shutdown_panics_iff p0 actions s :
  run actions (main_start sqs p0) = Some s ->
  (ms_crashed s = true <-> exists before a, actions = (before ++ [a])%list /\ fatal B before a) /\
  (ms_crashed s = false ->
     received actions = (finished actions ++ option_list (ms_busy s))%list /\
     exists posted, Forall2 completes_request (sent actions) posted /\
       posted ≡ₚ (received actions ++ ms_withdrawn s ++ map snd (ms_offers s))%list).
Proof.
  intros H. split.
  - destruct actions as [|a before _] using rev_ind.
    + simpl in H. injection H as <-. split; [done|]. by intros ([|] & ? & ? & _).
    + rewrite main_run_app in H. destruct (run before _) as [s1|] eqn:E1; [|done]. simpl in H.
      destruct (step a s1) as [s2|] eqn:E2; [|done]. injection H as <-.
      destruct (step_live _ _ _ _ _ _ _ _ E2) as [Hc1 _].
      pose proof (main_run_accounted _ _ _ _ _ _ _ _ E1 Hc1) as Hacc.
      rewrite (main_step_fatal Release server notifications sqs before a s1 s2 Hacc E2). split.
      * intros Hf. by exists before, a.
      * by intros (before' & a' & [<- <-]%app_inj_tail & Hf).
  - intros Hc. by destruct (main_run_accounted _ _ _ _ _ _ _ _ H Hc).
Qed.

(** C27. The shutdown comes to its end: once the events channel was closed
    without a panic, unless the listener is then working on a request whose
    event has no transition, and as long as nothing more arrives, at most six more
    things happen, in any order they can, nothing panics, and [main] returns; it
    is never stuck before.  When it returns, the listener, the subscriber and the
    server have returned, and the listener is done with every request that was
    to be sent and that its handler did not give up. *)
Theorem shutdown_returns p0 actions s more s' :
  run actions (main_start sqs p0) = Some s -> ms_crashed s = false -> CloseEvents ∈ actions ->
  (forall r, ms_busy s = Some r -> ~ bare B r) ->
  run more s = Some s' -> Forall (fun a => arrival a = false) more ->
  ms_crashed s' = false /\ (length more <= 6)%nat /\
  (ms_phase s' = Returned \/ exists a s'', arrival a = false /\ step a s' = Some s'') /\
  (ms_phase s' = Returned ->
     ms_listening s' = false /\ ms_polling s' = false /\ ms_serving s' = false /\
     exists posted, Forall2 completes_request (sent actions) posted /\
       posted ≡ₚ (finished (actions ++ more) ++ ms_withdrawn s')%list).
Proof.
  intros Hs Hc Hclose Hbusy Hm Hno.
  pose proof (main_run_accounted _ _ _ _ _ _ _ _ Hs Hc) as Hacc.
  assert (He : events_closed s = true) by by apply (acc_closed _ _ Hacc).
  destruct (main_run_to_do Release server notifications sqs more s s' Hno Hm (acc_quiet _ _ Hacc He))
    as (Ht & Hcl); [by split_and!|]. pose proof Hcl as (He' & Hc' & _).
  assert (Hall : run (actions ++ more)%list (main_start sqs p0) = Some s') by (by rewrite main_run_app, Hs).
  pose proof (main_run_accounted _ _ _ _ _ _ _ _ Hall Hc') as [(posted & Hpo & Hperm) _ Hbu _ Hq Hret Hi].
  split_and!; [done| | |].
  - assert (to_do s <= 6)%nat; [|lia]. unfold to_do.
    destruct (ms_phase s), (ms_listening s), (ms_polling s), (ms_serving s), (ms_busy s); simpl; lia.
  - apply main_step_enabled; [done|]. intros Hl. by destruct (Hi Hl).
  - intros Hr. destruct (Hret Hr) as (Hl & Hp & Hse). split_and!; [done..|]. exists posted.
    assert (Hsent : sent more = []).
    { clear -Hno. induction Hno as [|a more Ha _ IH]; [done|]. by destruct a. }
    rewrite sent_app, Hsent, app_nil_r in Hpo. split; [done|].
    destruct (Hi Hl) as [Hb _]. rewrite Hperm, Hbu, Hb, (Hq He'). simpl. by rewrite !app_nil_r.
Qed.
End theorems.

(** *** Examples *)

(** A request that arrives while the process is told to stop, and one without a
    transition. *)
Definition unlucky : EventRequest := rover_request "1" "launch" "7".
Definition bare_posted : EventRequest := mkEventRequest (Some (mkEvent "9" (Some 0%Z) None "" "")) "mars_rover" "7".

Abbreviation rover_run := (main_run (spec_manager wire) "v0" test_server true true).
Abbreviation rover_start := (main_start true (quiet rover_store)).

Definition caught : list action := [CloseDone; Send FromRpc unlucky].
Definition poisoned : list action := [Send FromSqs bare_posted; Take bare_posted; CloseDone; CloseEvents].

Lemma shutdown_panics_iff_witness :
  (exists s, rover_run (caught ++ [CloseEvents])%list rover_start = Some s /\ ms_crashed s = true) /\
  (exists s, rover_run (poisoned ++ [Finish bare_posted])%list rover_start = Some s /\ ms_crashed s = true).
Proof.
  split.
  - destruct (rover_run (caught ++ [CloseEvents])%list rover_start) as [s|] eqn:Es;
      [|vm_compute in Es; discriminate Es].
    exists s. split; [reflexivity|].
    apply (proj1 (shutdown_panics_iff (B:=wire) "v0" test_server true true (quiet rover_store) _ s Es)).
    exists caught, CloseEvents. split; [reflexivity|]. vm_compute. repeat constructor.
  - destruct (rover_run (poisoned ++ [Finish bare_posted])%list rover_start) as [s|] eqn:Es;
      [|vm_compute in Es; discriminate Es].
    exists s. split; [reflexivity|].
    apply (proj1 (shutdown_panics_iff (B:=wire) "v0" test_server true true (quiet rover_store) _ s Es)).
    exists poisoned, (Finish bare_posted). split; [reflexivity|]. split; [reflexivity|].
    eexists. split; [reflexivity|]. split; vm_compute; reflexivity.
Defined.

(** The listener works on a request when the channel is closed. *)
Definition stopping : list action :=
  [Send FromRpc unlucky; Take unlucky; CloseDone; SubscriberExit; CloseEvents].
Definition last_steps : list action := [Finish unlucky; ListenerExit; GracefulStop; ServeExit; WaitReturns].

Lemma shutdown_returns_witness :
  exists s', rover_run (stopping ++ last_steps)%list rover_start = Some s' /\ ms_crashed s' = false /\
    ms_phase s' = Returned /\
    exists posted, Forall2 completes_request [unlucky] posted /\ posted ≡ₚ [unlucky].
Proof.
  assert (H1 : (fun s => (ms_crashed s, ms_busy s)) <$> rover_run stopping rover_start = Some (false, Some unlucky))
    by (vm_compute; reflexivity).
  assert (H2 : (fun s => (ms_withdrawn s, ms_phase s)) <$> rover_run (stopping ++ last_steps)%list rover_start =
    Some ([], Returned)) by (vm_compute; reflexivity).
  rewrite main_run_app in H2 |- *.
  destruct (rover_run stopping rover_start) as [s|] eqn:Es; [|discriminate H1]. injection H1 as Hc Hb.
  cbn [mbind option_bind] in H2 |- *.
  destruct (rover_run last_steps s) as [s'|] eqn:Es'; [|discriminate H2]. injection H2 as Hw Hp.
  destruct (shutdown_returns (B:=wire) "v0" test_server true true (quiet rover_store) stopping s last_steps s'
    Es Hc) as (H1 & _ & _ & H2).
  - repeat first [left; reflexivity | right].
  - intros r Hr. rewrite Hb in Hr. injection Hr as <-. intros (_ & ev & He & _ & Ht).
    injection He as <-. discriminate Ht.
  - exact Es'.
  - repeat constructor.
  - exists s'. split; [reflexivity|]. split; [exact H1|]. split; [exact Hp|].
    destruct (H2 Hp) as (_ & _ & _ & posted & Hf & Hperm).
    exists posted. split; [exact Hf|]. rewrite Hperm, Hw. reflexivity.
Defined.
