(* ===== verification/Startup.v ===== *)
(** * Starting the server: [cmd/main.go]

    The flags, the constructors of the components ([NewRedisStore],
    [getSqsClient], [NewSqsSubscriber], [NewSqsPublisher], [NewEventsListener],
    [NewGrpcServer]), and [main] up to the point where it waits for a signal:
    which goroutines run, over which channels.  [Main.v] has the shutdown. *)

From Stdlib Require Import ZArith Lia Ascii.
From stdpp Require Import base tactics strings list pretty.
From S2P Require Import Prelude GoLib Proto Fsm StoreTypes Redis RedisStore StoreSpec Files.
From S2P Require Import GrpcServer Tls SqsSub Main.

(** ** Definitions *)

(** The values of the flags. *)
Record Flags := mkFlags {
  endpoint_url : string;
  cluster : bool;
  debug : bool;
  events : string;
  grpc_port : Z;
  insecure : bool;
  max_retries : Z;
  notifications : string;
  redis_addr : string;
  timeout : Z;
  trace : bool }.

Definition default_flags : Flags :=
  mkFlags "" false false "" 7398 false DefaultMaxRetries "" "" DefaultTimeout false.

(** What starting needs of its surroundings, besides files and environment:
    an AWS session for an endpoint and a region, and a port to listen on. *)
Record session_Options := mkSession { Endpoint : option string; Region : option string }.

Class ServerHost (W : Type) := {
  host_os :: OsEnv W;
  NewSessionWithOptions : W -> session_Options -> Res unit;
  net_Listen : W -> string -> option error }.

(** The two channels of the program. *)
Inductive channel := eventsCh | notificationsCh.

#[export] Instance channel_eq_dec : EqDecision channel.
Proof. solve_decision. Defined.

Record Subscriber := mkSubscriber {
  sub_client : session_Options;
  sub_events : channel;
  sub_settings : SqsSubscriber }.

Record Publisher := mkPublisher {
  pub_client : session_Options;
  pub_notifications : option channel }.

(** The store, as its settings and the options of its connection. *)
Abbreviation Store := (RedisStore redis_options).

Record EventsListener := mkListener {
  el_events : channel;
  el_notifications : option channel;
  el_store : option Store }.

Record ListenerOptions := mkOptions {
  EventsChannel : channel;
  NotificationsChannel : option channel;
  StatemachinesStore : option Store;
  ListenersPoolSize : Z }.

Definition NewEventsListener (options : ListenerOptions) : EventsListener :=
  mkListener (EventsChannel options) (NotificationsChannel options) (StatemachinesStore options).

Section start.
Context {W KeyPair X509 : Type} `{!ServerHost W, !Crypto KeyPair X509}.
Variable w : W.

(** [session.Must] panics on an error.  The region is that of the environment
    as soon as an endpoint is given, even an empty one. *)
Definition getSqsClient (awsEndpointUrl : option string) : result (option session_Options) :=
  let must o := match NewSessionWithOptions w o with Ok _ => mret (Some o) | Fail err => Panicked end in
  match awsEndpointUrl with
  | None => must (mkSession None None)
  | Some url =>
      match os_LookupEnv w "AWS_REGION" with
      | None => mret None
      | Some region => must (mkSession (Some url) (Some region))
      end
  end.

Definition NewSqsSubscriber (eventsChannel : channel) (sqsUrl : option string) : result (option Subscriber) :=
  client ← getSqsClient sqsUrl;
  match client with
  | None => mret None
  | Some client => mret (Some (mkSubscriber client eventsChannel subscriber_settings))
  end.

Definition NewSqsPublisher (ch : option channel) (awsUrl : option string) : result (option Publisher) :=
  client ← getSqsClient awsUrl;
  match client with
  | None => mret None
  | Some client => mret (Some (mkPublisher client ch))
  end.

(** What runs beside [main]. *)
Inductive goroutine :=
| GoSubscribe (sub : Subscriber) (topic : string)
| GoPublish (pub : Publisher) (topic : string)
| GoListen (l : EventsListener)
| GoServe (addr : string) (creds : TransportCredentials KeyPair X509) (settings : Config) (ch : channel).

(** The package's variables, and the goroutines started so far. *)
Record Vars := mkVars {
  v_store : option Store;
  v_notificationsCh : option channel;
  v_wg : Z;
  v_go : list goroutine }.

Definition vars0 : Vars := mkVars None None 0 [].

Definition set_store (st : Store) (v : Vars) : Vars :=
  mkVars (Some st) (v_notificationsCh v) (v_wg v) (v_go v).
Definition make_notificationsCh (v : Vars) : Vars :=
  mkVars (v_store v) (Some notificationsCh) (v_wg v) (v_go v).
Definition wg_Add (n : Z) (v : Vars) : Vars :=
  mkVars (v_store v) (v_notificationsCh v) (v_wg v + n) (v_go v).
Definition spawn (g : goroutine) (v : Vars) : Vars :=
  mkVars (v_store v) (v_notificationsCh v) (v_wg v) (v_go v ++ [g]).

Abbreviation M := (Go Vars).

(** [Fail err] is [logger.Fatal]: the process exits with status 1. *)
Definition Fatal {A} (err : error) : M (Res A) := mret (Fail err).

Definition startGrpcServer (port : Z) (disableTls : bool) : M (Res unit) :=
  let addr := ":" ++ pretty port in
  match net_Listen w addr with
  | Some err => go_lift Panicked
  | None =>
      store ← go_gets v_store;
      let cfg := mkConfig true (bool_decide (is_Some store)) 0 "" (negb disableTls) "" false in
      let '(r, cfg') := NewGrpcServer w cfg in
      grpcServer ← go_lift r;
      match grpcServer with
      | Fail err => Fatal err
      | Ok creds =>
          go_modify (wg_Add 1);;
          go_modify (spawn (GoServe addr creds cfg' eventsCh));;
          mret (Ok tt)
      end
  end.

(** The two blocks on the topics. *)
Definition start_subscriber (f : Flags) : M (Res unit) :=
  if events f =s "" then mret (Ok tt)
  else
    sub ← go_lift (NewSqsSubscriber eventsCh (Some (endpoint_url f)));
    match sub with
    | None => Fatal (Errorf "cannot create a valid SQS Subscriber")
    | Some sub => go_modify (wg_Add 1);; go_modify (spawn (GoSubscribe sub (events f)));; mret (Ok tt)
    end.

Definition start_publisher (f : Flags) : M (Res unit) :=
  if notifications f =s "" then mret (Ok tt)
  else
    go_modify make_notificationsCh;;
    ch ← go_gets v_notificationsCh;
    pub ← go_lift (NewSqsPublisher ch (Some (endpoint_url f)));
    match pub with
    | None => Fatal (Errorf "cannot create a valid SQS Publisher")
    | Some pub => go_modify (spawn (GoPublish pub (notifications f)));; mret (Ok tt)
    end.

(** [main] until [RunUntilStopped]; the answer is the log level. *)
Definition main (f : Flags) : M (Res Level) :=
  if redis_addr f =s "" then
    Fatal (Errorf "in-memory store deprecated, a Redis server must be configured")
  else
    go_modify (set_store (NewRedisStore (os_Getenv w) id (redis_addr f) (cluster f) 1 (timeout f) (max_retries f)));;
    r ← start_subscriber f;
    match r with
    | Fail err => Fatal err
    | Ok _ =>
        r ← start_publisher f;
        match r with
        | Fail err => Fatal err
        | Ok _ =>
            store ← go_gets v_store;
            ch ← go_gets v_notificationsCh;
            let listener := NewEventsListener (mkOptions eventsCh ch store 0) in
            go_modify (wg_Add 1);;
            go_modify (spawn (GoListen listener));;
            r ← startGrpcServer (grpc_port f) (insecure f);
            match r with
            | Fail err => Fatal err
            | Ok _ => mret (Ok (setLogLevel (debug f) (trace f)))
            end
        end
    end.

End start.
Arguments GoSubscribe {KeyPair X509} sub topic.
Arguments GoPublish {KeyPair X509} pub topic.
Arguments GoListen {KeyPair X509} l.
Arguments GoServe {KeyPair X509} addr creds settings ch.
Arguments mkVars {KeyPair X509}.
Arguments v_store {KeyPair X509} v.
Arguments v_notificationsCh {KeyPair X509} v.
Arguments v_wg {KeyPair X509} v.
Arguments v_go {KeyPair X509} v.
Arguments vars0 {KeyPair X509}.

(** The channels a goroutine sends on, and receives from. *)
Definition sends {KeyPair X509} (g : goroutine (KeyPair:=KeyPair) (X509:=X509)) : list channel :=
  match g with
  | GoSubscribe sub _ => [sub_events sub]
  | GoPublish _ _ => []
  | GoListen l => option_list (el_notifications l)
  | GoServe _ _ _ ch => [ch]
  end.
Definition receives {KeyPair X509} (g : goroutine (KeyPair:=KeyPair) (X509:=X509)) : list channel :=
  match g with
  | GoSubscribe _ _ => []
  | GoPublish pub _ => option_list (pub_notifications pub)
  | GoListen l => [el_events l]
  | GoServe _ _ _ _ => []
  end.

(** [wg.Wait()] waits for it: it calls [wg.Done()] when it returns. *)
Definition waited {KeyPair X509} (g : goroutine (KeyPair:=KeyPair) (X509:=X509)) : bool :=
  match g with GoPublish _ _ => false | _ => true end.

Section started.
Context {W KeyPair X509 : Type} `{!ServerHost W, !Crypto KeyPair X509}.

(** The settings of the gRPC server that [main] creates. *)
Definition main_config (f : Flags) : Config := mkConfig true true 0 "" (negb (insecure f)) "" false.

Definition main_store (w : W) (f : Flags) : Store :=
  NewRedisStore (os_Getenv w) id (redis_addr f) (cluster f) 1 (timeout f) (max_retries f).

(** The queues can be reached: there is a region, and a session for it. *)
Definition aws_ready (w : W) (f : Flags) (region : string) : Prop :=
  os_LookupEnv w "AWS_REGION" = Some region /\
  is_ok (NewSessionWithOptions w (mkSession (Some (endpoint_url f)) (Some region))) = true.

(** What [main] needs. *)
Definition startable (w : W) (f : Flags) : Prop :=
  redis_addr f <> "" /\
  (events f <> "" \/ notifications f <> "" -> exists region, aws_ready w f region) /\
  net_Listen w (":" ++ pretty (grpc_port f)) = None /\
  (insecure f = false -> is_ok (server_material w (certs_dir w (main_config f))) = true).

(** The goroutines that then run. *)
Definition started_goroutines (w : W) (f : Flags) (creds : TransportCredentials KeyPair X509) : list goroutine :=
  let client := mkSession (Some (endpoint_url f)) (os_LookupEnv w "AWS_REGION") in
  let ch := if notifications f =s "" then None else Some notificationsCh in
  ((if events f =s "" then [] else [GoSubscribe (mkSubscriber client eventsCh subscriber_settings) (events f)]) ++
   (if notifications f =s "" then [] else [GoPublish (mkPublisher client ch) (notifications f)]) ++
   [GoListen (mkListener eventsCh ch (Some (main_store w f)));
    GoServe (":" ++ pretty (grpc_port f)) creds (server_settings (KeyPair:=KeyPair) (X509:=X509) w (main_config f)) eventsCh])%list.

(** ** Lemmas *)

(** Going on after a step that may end the process. *)
Lemma unless_fatal {V A B} (m : Go V (Res A)) (k : A -> Go V (Res B)) v b v' :
  (r ← m; match r with Fail err => mret (Fail err) | Ok a => k a end) v = (Done (Ok b), v') <->
  exists a v1, m v = (Done (Ok a), v1) /\ k a v1 = (Done (Ok b), v').
Proof.
  unfold mbind, go_bind. destruct (m v) as [[[a|err]| |] v1].
  - split; [by exists a, v1|]. by intros (? & ? & [= <- <-] & ?).
  - split; [done|]. by intros (? & ? & ? & _).
  - split; [done|]. by intros (? & ? & ? & _).
  - split; [done|]. by intros (? & ? & ? & _).
Qed.

Lemma getSqsClient_cases (w : W) f :
  (exists region, aws_ready w f region /\
     getSqsClient w (Some (endpoint_url f)) = Done (Some (mkSession (Some (endpoint_url f)) (Some region)))) \/
  ((forall region, ~ aws_ready w f region) /\
     (getSqsClient w (Some (endpoint_url f)) = Done None \/ getSqsClient w (Some (endpoint_url f)) = Panicked)).
Proof.
  unfold getSqsClient, aws_ready. destruct (os_LookupEnv w "AWS_REGION") as [region|]; simpl.
  - destruct (NewSessionWithOptions w _) eqn:E; simpl; [left|right].
    + exists region. by rewrite E.
    + split; [|by right]. intros r [[= <-] H]. by rewrite E in H.
  - right. split; [by intros r [? _]|by left].
Qed.

Lemma start_subscriber_ok (w : W) f v (u : unit) v' :
  start_subscriber (KeyPair:=KeyPair) (X509:=X509) w f v = (Done (Ok u), v') <->
  (events f = "" /\ v' = v) \/
  (events f <> "" /\ exists region, aws_ready w f region /\
     v' = spawn (GoSubscribe (mkSubscriber (mkSession (Some (endpoint_url f)) (Some region)) eventsCh
            subscriber_settings) (events f)) (wg_Add 1 v)).
Proof.
  destruct u. unfold start_subscriber, NewSqsSubscriber.
  destruct (bool_decide_reflect (events f = "")) as [E|E]; [split; [intros [= <-]; by left|naive_solver]|].
  destruct (getSqsClient_cases w f) as [(region & Hr & ->)|[Hno [-> | ->]]];
    unfold mbind, go_bind, go_lift, go_modify; simpl; split; try done; try (by intros [[]|(_ & ? & ? & _)]; [|naive_solver]).
  - intros [= <-]. right. split; [done|]. by exists region.
  - intros [[? _]|(_ & region' & Hr' & ->)]; [done|]. destruct Hr as [Hr _], Hr' as [Hr' _]. by simplify_eq.
Qed.

Lemma start_publisher_ok (w : W) f v (u : unit) v' :
  start_publisher (KeyPair:=KeyPair) (X509:=X509) w f v = (Done (Ok u), v') <->
  (notifications f = "" /\ v' = v) \/
  (notifications f <> "" /\ exists region, aws_ready w f region /\
     v' = spawn (GoPublish (mkPublisher (mkSession (Some (endpoint_url f)) (Some region)) (Some notificationsCh))
            (notifications f)) (make_notificationsCh v)).
Proof.
  destruct u. unfold start_publisher, NewSqsPublisher.
  destruct (bool_decide_reflect (notifications f = "")) as [E|E]; [split; [intros [= <-]; by left|naive_solver]|].
  destruct (getSqsClient_cases w f) as [(region & Hr & ->)|[Hno [-> | ->]]];
    unfold mbind, go_bind, go_lift, go_modify, go_gets; simpl; split; try done; try (by intros [[]|(_ & ? & ? & _)]; [|naive_solver]).
  - intros [= <-]. right. split; [done|]. by exists region.
  - intros [[? _]|(_ & region' & Hr' & ->)]; [done|]. destruct Hr as [Hr _], Hr' as [Hr' _]. by simplify_eq.
Qed.

Lemma startGrpcServer_ok (w : W) port tls v st (u : unit) v' :
  v_store v = Some st ->
  startGrpcServer (KeyPair:=KeyPair) (X509:=X509) w port tls v = (Done (Ok u), v') <->
  exists creds, net_Listen w (":" ++ pretty port) = None /\
    server_credentials w (mkConfig true true 0 "" (negb tls) "" false) = Ok creds /\
    v' = spawn (GoServe (":" ++ pretty port) creds
           (server_settings (KeyPair:=KeyPair) (X509:=X509) w (mkConfig true true 0 "" (negb tls) "" false)) eventsCh)
           (wg_Add 1 v).
Proof.
  intros Hst. destruct u. unfold startGrpcServer. destruct (net_Listen w _) as [err|].
  { split; [done|]. by intros (? & ? & _). }
  rewrite go_bind_gets, Hst. change (bool_decide (is_Some (Some st))) with true.
  rewrite NewGrpcServer_run. unfold mbind, go_bind, go_lift, go_modify.
  destruct (server_credentials w _) as [creds|err] eqn:Ec; simpl; split; try done.
  - intros [= <-]. by exists creds.
  - intros (creds' & _ & [= <-] & ->). done.
  - by intros (creds' & _ & ? & _).
Qed.
Lemma main_ok (w : W) f lvl (v : Vars) :
  main w f vars0 = (Done (Ok lvl), v) <->
  exists creds, startable w f /\ server_credentials (KeyPair:=KeyPair) (X509:=X509) w (main_config f) = Ok creds /\
    lvl = setLogLevel (debug f) (trace f) /\
    v = mkVars (Some (main_store w f)) (if notifications f =s "" then None else Some notificationsCh)
          (if events f =s "" then 2 else 3) (started_goroutines w f creds).
Proof.
  unfold main. destruct (bool_decide_reflect (redis_addr f = "")) as [Er|Er].
  { split; [done|]. by intros (creds & (? & _) & _). }
  unfold mbind at 1, go_bind at 1, go_modify at 1. rewrite unless_fatal.
  setoid_rewrite start_subscriber_ok. setoid_rewrite unless_fatal. setoid_rewrite start_publisher_ok.
  unfold startable, started_goroutines, main_config.
  assert (Hs : forall creds, server_credentials (KeyPair:=KeyPair) (X509:=X509) w
      (mkConfig true true 0 "" (negb (insecure f)) "" false) = Ok creds ->
    insecure f = false -> is_ok (server_material w (certs_dir w (main_config f))) = true).
  { intros creds Hc Hi. unfold server_credentials, main_config in *. simpl in Hc. rewrite Hi in Hc. simpl in Hc.
    rewrite Hi. simpl. by destruct (server_material w _). }
  split.
  - intros ([] & v1 & H1 & [] & v2 & H2 & H3). unfold mbind at 1 2 3 4, go_bind at 1 2 3 4, go_gets, go_modify in H3.
    cbv beta iota zeta in H3.
    apply unless_fatal in H3 as ([] & v3 & H3 & Hl). injection Hl as <- <-.
    assert (Hst : v_store v2 = Some (main_store w f))
      by by destruct H1 as [[_ ->]|(_ & ? & _ & ->)], H2 as [[_ ->]|(_ & ? & _ & ->)].
    apply (startGrpcServer_ok w _ _ _ (main_store w f)) in H3 as (creds & Hl & Hc & ->); [|done].
    rewrite Hst. exists creds. split; [split_and!; [done| |done|by eapply Hs]|].
    + destruct H1 as [[Ee _]|(_ & r & Hr & _)], H2 as [[En _]|(_ & r' & Hr' & _)]; eauto. by intros [?|?].
    + split; [done|]. split; [done|].
      destruct H1 as [[Ee ->]|(Ee & r & Hr & ->)], H2 as [[En ->]|(En & r' & Hr' & ->)];
        try (destruct Hr as [Hr _]; rewrite Hr); try (destruct Hr' as [Hr' _]; try rewrite Hr in Hr';
        simplify_eq; rewrite ?Hr'); repeat case_bool_decide; done.
  - intros (creds & (_ & Haws & Hl & _) & Hc & -> & ->).
    assert (Hg : forall st v, v_store v = Some st ->
      startGrpcServer w (grpc_port f) (insecure f) v = (Done (Ok tt),
        spawn (GoServe (":" ++ pretty (grpc_port f)) creds
           (server_settings (KeyPair:=KeyPair) (X509:=X509) w (main_config f)) eventsCh) (wg_Add 1 v))).
    { intros st v Hst. apply (startGrpcServer_ok w _ _ _ st); [done|]. by exists creds. }
    destruct (bool_decide_reflect (events f = "")) as [Ee|Ee], (bool_decide_reflect (notifications f = "")) as [En|En];
      try (destruct Haws as (region & Hr); [by (left + right)|]; pose proof Hr as [Hreg _]; rewrite Hreg).
    + exists tt. eexists. split; [by left|]. exists tt. eexists. split; [by left|].
      unfold mbind, go_bind, go_gets, go_modify. by erewrite Hg.
    + exists tt. eexists. split; [by left|]. exists tt. eexists. split; [right; split; [done|by exists region]|].
      unfold mbind, go_bind, go_gets, go_modify. by erewrite Hg.
    + exists tt. eexists. split; [right; split; [done|by exists region]|]. exists tt. eexists. split; [by left|].
      unfold mbind, go_bind, go_gets, go_modify. by erewrite Hg.
    + exists tt. eexists. split; [right; split; [done|by exists region]|]. exists tt. eexists.
      split; [right; split; [done|by exists region]|].
      unfold mbind, go_bind, go_gets, go_modify. by erewrite Hg.
Qed.
Lemma server_credentials_material (w : W) cfg :
  is_ok (server_credentials (KeyPair:=KeyPair) (X509:=X509) w cfg) = true <->
  (TlsEnabled cfg = true -> is_ok (server_material (KeyPair:=KeyPair) (X509:=X509) w (certs_dir w cfg)) = true).
Proof.
  unfold server_credentials. destruct (TlsEnabled cfg); [|done].
  destruct (server_material w _) as [[kp ca]|err]; simpl; naive_solver.
Qed.

(** ** Properties *)

(** C18. The server starts exactly when it can: [main] gets to wait for its
    signal if and only if a Redis address is given, a region and an AWS session
    are there when a topic is named, the port can be listened on, and the
    certificates can be loaded unless TLS is disabled.  In every other case it
    stops before, by a fatal error or a panic. *)
Theorem main_starts (w : W) f :
  (exists lvl v, main (KeyPair:=KeyPair) (X509:=X509) w f vars0 = (Done (Ok lvl), v)) <-> startable w f.
Proof.
  setoid_rewrite main_ok. split; [by intros (lvl & v & creds & H & _)|]. intros H.
  destruct (server_credentials w (main_config f)) as [creds|err] eqn:E; [by eauto 7|].
  exfalso. assert (is_ok (server_credentials (KeyPair:=KeyPair) (X509:=X509) w (main_config f)) = false) as Hn by by rewrite E.
  apply not_true_iff_false in Hn. apply Hn, server_credentials_material.
  destruct H as (_ & _ & _ & H). simpl. intros Hi%negb_true_iff. by apply H.
Qed.

(** C17. A server that started is wired as documented: every channel that some
    goroutine sends on is received from by exactly one; the wait group counts
    the goroutines that will tell it that they are done; one listener works on
    the store of the given address, and has a channel for notifications exactly
    when a topic for them was given; the RPC server is without TLS only if that
    was asked for. *)
Theorem main_wiring (w : W) f lvl (v : Vars) :
  main (KeyPair:=KeyPair) (X509:=X509) w f vars0 = (Done (Ok lvl), v) ->
  (forall ch g, g ∈ v_go v -> ch ∈ sends g ->
     length (List.filter (fun g' => bool_decide (ch ∈ receives g')) (v_go v)) = 1%nat) /\
  v_wg v = Z.of_nat (length (List.filter waited (v_go v))) /\
  (exists l, List.filter (fun g => match g with GoListen _ => true | _ => false end) (v_go v) = [GoListen l] /\
     el_store l = Some (main_store w f) /\ (is_Some (el_notifications l) <-> notifications f <> "")) /\
  (forall addr creds cfg ch, GoServe addr creds cfg ch ∈ v_go v ->
     (creds = insecure_NewCredentials <-> insecure f = true) /\ gc_Timeout cfg = grpc_DefaultTimeout).
Proof.
  intros (creds & _ & Hc & _ & ->)%main_ok. cbn [v_go v_wg]. unfold started_goroutines. split_and!.
  - intros ch g. rewrite !list_elem_of_In.
    destruct (bool_decide_reflect (events f = "")), (bool_decide_reflect (notifications f = ""));
      simpl; intros Hg Hs; repeat (destruct_or?; subst; simpl in * ); done.
  - destruct (events f =s ""), (notifications f =s ""); done.
  - exists (mkListener eventsCh (if notifications f =s "" then None else Some notificationsCh) (Some (main_store w f))).
    split; [by destruct (events f =s ""), (notifications f =s "")|]. split; [done|].
    simpl. destruct (bool_decide_reflect (notifications f = "")); split; try done; by intros [? ?].
  - intros addr creds' cfg ch Hin. assert (creds' = creds /\ cfg = server_settings w (main_config f)) as [-> ->].
    { rewrite list_elem_of_In in Hin. destruct (events f =s ""), (notifications f =s ""); simpl in Hin;
        repeat (destruct_or?; simplify_eq); done. }
    split.
    + unfold server_credentials, main_config in Hc. simpl in Hc. destruct (insecure f); simpl in Hc; [by simplify_eq|].
      destruct (server_material w _) as [[kp ca]|err]; by simplify_eq.
    + unfold server_settings. rewrite Hc. by destruct (TlsEnabled _).
Qed.
End started.

(** *** Examples *)

#[export] Instance test_host : ServerHost TestOs := {
  NewSessionWithOptions w o := Ok tt;
  net_Listen w addr := None }.

Definition test_flags : Flags :=
  mkFlags "" false true "events" 7398 false 3 "notifications" "localhost:6379" DefaultTimeout false.

Definition test_machine : TestOs :=
  mkTestOs [("AWS_REGION", "us-west-2"); (TlsConfigDirEnv, "/certs")] (to_files server_os).

Definition test_creds : TransportCredentials string string :=
  credentials_NewTLS (mkTls ["fsm.example"] None "" NoClientCert None false).

Lemma main_wiring_witness :
  let started := main (KeyPair:=string) (X509:=string) test_machine test_flags vars0 in
  fst started = Done (Ok DebugLevel) /\ v_wg (snd started) = 3 /\ length (v_go (snd started)) = 4%nat.
Proof.
  cbv zeta.
  assert (E : main test_machine test_flags vars0 =
    (Done (Ok DebugLevel), mkVars (Some (main_store test_machine test_flags)) (Some notificationsCh) 3
       (started_goroutines test_machine test_flags test_creds))) by reflexivity.
  pose proof (main_wiring test_machine test_flags DebugLevel _ E) as (_ & Hw & _).
  rewrite E. split; [reflexivity|]. split; [exact Hw|reflexivity].
Defined.

(** The documentation of [getSqsClient] connects to AWS by default without an
    endpoint; [main] hands it the empty string instead of nothing, and a
    machine without a region in its environment cannot start. *)
Example no_region_no_start :
  main (KeyPair:=string) (X509:=string) server_os test_flags vars0 =
  (Done (Fail (Errorf "cannot create a valid SQS Subscriber")),
   mkVars (Some (main_store server_os test_flags)) None 0 []).
Proof. reflexivity. Qed.
