(* ===== verification/EndToEnd.v ===== *)
(** * A client and its server

    The command-line client of [Cli.v] and the probe of [Commands.v] talking to
    the handlers of [GrpcServer.v], with the listener of [Listener.v] behind
    them: what a user who sends an event is told, and what the probe of the
    container finds out. *)

From Stdlib Require Import ZArith Lia Ascii.
From stdpp Require Import base tactics strings list gmap sets.
From S2P Require Import Prelude GoLib Proto Fsm Keys StoreTypes Redis RedisStore StoreSpec.
From S2P Require Import Process GrpcServer Listener SqsSub Cli Tls Commands.

(** ** Definitions *)

(** The world of the client [C], the server process, the requests the listener
    has taken and not processed yet, and the number of questions for an outcome
    that come before it gets to them. *)
Record Net (C S E : Type) := mkNet {
  n_client : C;
  n_server : Process S E;
  n_queue : list EventRequest;
  n_lag : nat }.
Arguments mkNet {C S E}.
Arguments n_client {C S E} n.
Arguments n_server {C S E} n.
Arguments n_queue {C S E} n.
Arguments n_lag {C S E} n.

Section net.
Context {C S E : Type} `{!GoEnv C, !CliEnv C, !ServerEnv E} (store : StoreManager S).
(** The server's settings, the context in which its handlers run, and whether
    it has a channel for notifications. *)
Variables (Release : string) (s : Config) (ctx : rpc_context) (notifications : bool).

Abbreviation N := (Net C S E).

Definition on_client {A} (f : C -> A * C) (n : N) : A * N :=
  let (a, c) := f (n_client n) in (a, mkNet c (n_server n) (n_queue n) (n_lag n)).
Definition set_server (p : Process S E) (n : N) : N := mkNet (n_client n) p (n_queue n) (n_lag n).

#[export] Instance net_go_env : GoEnv N := {
  rand_Intn k := on_client (rand_Intn k);
  time_Sleep d n := snd (on_client (fun c => (tt, time_Sleep d c)) n);
  uuid_NewString := on_client uuid_NewString;
  timestamppb_Now := on_client timestamppb_Now }.

#[export] Instance net_cli_env : CliEnv N := {
  File := File (W := C);
  os_Stdin := os_Stdin;
  os_Open path := on_client (os_Open path);
  io_ReadAll f := on_client (io_ReadAll f);
  yaml_GenericEntity := yaml_GenericEntity (W := C);
  yaml_ConfigEntity := yaml_ConfigEntity (W := C);
  yaml_FsmEntity := yaml_FsmEntity (W := C);
  yaml_EventRequestEntity := yaml_EventRequestEntity (W := C);
  yaml_Marshal := yaml_Marshal (W := C);
  fmt_Print t n := snd (on_client (fun c => (tt, fmt_Print t c)) n);
  titleCase := titleCase (W := C);
  StatusCode_String := StatusCode_String (W := C) }.

(** A call runs its handler; a handler that panics takes its process with it. *)
Definition call_server {A} (m : Go (Process S E) (option A * option error)) (n : N)
    : (option A * option error) * N :=
  match m (n_server n) with
  | (Done r, p) => (r, set_server p n)
  | (_, p) => ((None, Some (StatusError codes_Unavailable "connection closed")), set_server p n)
  end.

(** What a handler posts is taken by the listener. *)
Definition net_SendEvent (request : EventRequest) (n : N) : (option EventResponse * option error) * N :=
  let (r, n') := call_server (grpc_SendEvent s ctx request) n in
  (r, mkNet (n_client n') (n_server n')
        (n_queue n' ++ drop (length (p_events (n_server n))) (p_events (n_server n'))) (n_lag n')).

(** The listener works through what it has taken, in its turn. *)
Definition listener_turn (n : N) : N :=
  match n_lag n with
  | O => mkNet (n_client n)
           (snd (ListenForMessages store notifications (n_queue n) (n_server n))) [] O
  | Datatypes.S k => mkNet (n_client n) (n_server n) (n_queue n) k
  end.

(** A nil message is sent as an empty one. *)
Definition message_of (c : option Configuration) : Configuration :=
  default (mkConfiguration "" "" [] [] "") c.

Definition net_service : ServiceClient N := {|
  rpc_SendEvent := net_SendEvent;
  rpc_GetEventOutcome req n := call_server (GetEventOutcome store req) (listener_turn n);
  rpc_PutConfiguration c := call_server (PutConfiguration store ctx (message_of c));
  rpc_PutFiniteStateMachine req := call_server (PutFiniteStateMachine store ctx req);
  rpc_GetConfiguration id := call_server (GetConfiguration store id);
  rpc_GetFiniteStateMachine req := call_server (GetFiniteStateMachine store req) |}.

Definition net_health : HealthClient N := {|
  rpc_Health := call_server (grpc_Health store Release s) |}.

End net.

(** ** Lemmas *)

Section lemmas.
Context {B C E : Type} `{!GoEnv C, !GoEnvLaws C, !CliEnv C, !ServerEnv E, !GoEnvLaws E}.
Context `{!ProtoMessage B Configuration, !ProtoMessage B FiniteStateMachine,
  !ProtoMessage B Event, !ProtoMessage B EventOutcome}.
Context `{!ProtoTotal B FiniteStateMachine, !ProtoTotal B Event, !ProtoTotal B EventOutcome}.
Context (s : Config) (ctx : rpc_context) (notifications : bool).
#[local] Existing Instances net_go_env net_cli_env.
#[local] Instance service : ServiceClient (Net C Store E) :=
  net_service (spec_manager B) s ctx notifications.

#[local] Instance net_env_laws : GoEnvLaws (Net C Store E).
Proof using GoEnvLaws0.
  split.
  - intros k [c p q l] Hk. pose proof (rand_Intn_range k c Hk) as H. simpl. unfold on_client. simpl.
    by destruct (rand_Intn k c).
  - intros [c p q l]. pose proof (uuid_NewString_nonempty c) as H. simpl. unfold on_client. simpl.
    by destruct (uuid_NewString c).
  - intros [c p q l]. pose proof (uuid_NewString_utf8 c) as H. simpl. unfold on_client. simpl.
    by destruct (uuid_NewString c).
Qed.

(** Completing an event touches the client only. *)
Lemma net_UpdateEvent ev (c : C) (p : Process Store E) q l ev' c' :
  UpdateEvent (Some ev) c = (Done ev', c') ->
  UpdateEvent (Some ev) (mkNet c p q l) = (Done ev', mkNet c' p q l).
Proof.
  unfold UpdateEvent, deref, NewString, Now, mbind, go_bind. simpl. unfold on_client. simpl.
  destruct (evt_EventId ev =s ""); simpl; [destruct (uuid_NewString c) as [i c1]; simpl|];
    (destruct (evt_Timestamp ev); simpl; [by intros [= <- <-]|]);
    destruct (timestamppb_Now _) as [t c2]; simpl; by intros [= <- <-].
Qed.

Lemma net_outcome_none ask (p : Process Store E) : st_outcomes (p_store p) !! (req_Config ask, req_Id ask) = None ->
  exists msg, GetEventOutcome (spec_manager B) ask p = (Done (None, Some (StatusError codes_NotFound msg)), p).
Proof.
  intros H. unfold GetEventOutcome. cbn [GetOutcomeForEvent spec_manager].
  unfold mbind, go_bind, on_store, spec_GetOutcomeForEvent, go_gets. rewrite H. simpl.
  eexists. by destruct p.
Qed.

Lemma net_outcome_some ask o (p : Process Store E) :
  st_outcomes (p_store p) !! (req_Config ask, req_Id ask) = Some o ->
  GetEventOutcome (spec_manager B) ask p = (Done (Some (mkEventResponse (req_Id ask) (Some o)), None), p).
Proof.
  intros H. unfold GetEventOutcome. cbn [GetOutcomeForEvent spec_manager].
  unfold mbind, go_bind, on_store, spec_GetOutcomeForEvent, go_gets. rewrite H. simpl. by destruct p.
Qed.

(** The client asks until the listener had its turn, if it is soon enough. *)
Lemma net_poll n ask out (c : C) (p : Process Store E) q lag :
  st_outcomes (p_store p) !! (req_Config ask, req_Id ask) = None ->
  let p' := snd (ListenForMessages (spec_manager B) notifications q p) in
  exists c',
  match st_outcomes (p_store p') !! (req_Config ask, req_Id ask) with
  | Some o =>
      (lag < n)%nat ->
      outcome_loop n ask out (mkNet c p q lag) =
        (Done (Some (mkEventResponse (req_Id ask) (Some o))), mkNet c' p' [] 0)
  | None => True
  end /\
  ((0 < n <= lag)%nat -> outcome_loop n ask out (mkNet c p q lag) = (Done None, mkNet c' p q (lag - n))).
Proof.
  intros Hn p'. revert out c lag. induction n as [|n IH]; intros out c lag.
  { exists c. split; [|intros ?; lia]. destruct (st_outcomes (p_store p') !! _); [intros ?; lia|done]. }
  cbn [outcome_loop]. destruct lag as [|lag].
  - exists c. split; [|intros ?; lia]. destruct (st_outcomes (p_store p') !! _) as [o|] eqn:Ho; [|done]. intros _.
    rewrite call_step. simpl. unfold call_server, listener_turn. simpl. fold p'.
    by rewrite (net_outcome_some _ _ _ Ho).
  - destruct (net_outcome_none ask p Hn) as [msg Hmsg].
    assert (Hc : rpc_GetEventOutcome ask (mkNet c p q (Datatypes.S lag)) =
      ((None, Some (StatusError codes_NotFound msg)), mkNet c p q lag)).
    { simpl. unfold call_server, listener_turn. simpl. by rewrite Hmsg. }
    destruct (IH None (time_Sleep IntervalBetweenRetries c) lag) as (c' & H1 & H2).
    rewrite call_step, Hc. cbn [fst snd getStatusCode]. rewrite bool_decide_refl, call_step. cbn [fst snd].
    exists (if (n =? 0)%nat then time_Sleep IntervalBetweenRetries c else c'). split.
    + destruct (st_outcomes (p_store p') !! _) as [o|]; [|done]. intros Hl.
      destruct n as [|n]; [lia|]. simpl. apply H1. lia.
    + intros Hl. destruct n as [|n]; [simpl; by rewrite Nat.sub_0_r|].
      rewrite Nat.sub_succ. apply H2. lia.
Qed.
(** An event that is complete is not changed again. *)
Lemma completes_twice ev ev' ev'' : completes ev ev' -> completes ev' ev'' -> ev'' = ev'.
Proof.
  intros (Hi & Ht & _) (_ & _ & Hi' & _ & Ht' & Htr & Ho & Hd).
  destruct ev', ev''; simpl in *. rewrite Hi', Ht', Htr, Ho, Hd by done. done.
Qed.

(** Sending a complete request to a server whose listener takes it. *)
Lemma net_SendEvent_taken request (c : C) (p : Process Store E) ev e0 lag :
  complete_request request = true -> req_Event request = Some e0 -> completes e0 ev ->
  EventsChannel_set s = true -> (forall d e, fst (select_send d e) = true) ->
  let request' := mkEventRequest (Some ev) (req_Config request) (req_Id request) in
  exists p', rpc_SendEvent request' (mkNet c p [] lag) =
    ((Some (mkEventResponse (evt_EventId ev) None), None), mkNet c p' [request'] lag) /\
    p_store p' = p_store p.
Proof.
  intros Hr He Hc Hs Hready request'.
  assert (Hr' : complete_request request' = true).
  { unfold complete_request, event_name, carried in *. rewrite He in Hr. simpl.
    destruct Hc as (_ & _ & _ & _ & _ & -> & _). done. }
  destruct (grpc_SendEvent_offer s ctx request' p Hr') as (ev1 & ev2 & t & e1 & [= <-] & Hc2 & E1).
  rewrite (completes_twice _ _ _ Hc Hc2) in E1. cbv zeta in E1. rewrite Hs, Hready in E1.
  simpl. unfold net_SendEvent, call_server. cbn [n_server]. rewrite E1. simpl.
  rewrite drop_app_length. by eexists.
Qed.
End lemmas.

(** ** Properties *)

Section properties.
Context {B C E : Type} `{!GoEnv C, !GoEnvLaws C, !CliEnv C, !ServerEnv E, !GoEnvLaws E}.
Context `{!ProtoMessage B Configuration, !ProtoMessage B FiniteStateMachine,
  !ProtoMessage B Event, !ProtoMessage B EventOutcome}.
Context `{!ProtoTotal B FiniteStateMachine, !ProtoTotal B Event, !ProtoTotal B EventOutcome}.
#[local] Existing Instances net_go_env net_cli_env.

(** C5. From the command line to the machine and back: a complete event that a
    user sends with the client is completed, taken by the server and delivered
    to its machine by the listener, and what the user is told is the outcome of
    that delivery, provided the listener gets to it within five questions;
    otherwise the user is told nothing. *)
Theorem send_end_to_end s ctx notifications request e0 ev (c c0 : C) (p : Process Store E) lag :
  valid_store (p_store p) -> valid_request request = true -> complete_request request = true ->
  EventsChannel_set s = true -> (forall d e, fst (select_send d e) = true) ->
  req_Event request = Some e0 -> UpdateEvent (Some e0) c = (Done ev, c0) ->
  st_outcomes (p_store p) !! (req_Config request, evt_EventId ev) = None ->
  let sent := sendEvent (ServiceClient0 := net_service (spec_manager B) s ctx notifications)
                (Some request) (mkNet c p [] lag) in
  let request' := mkEventRequest (Some ev) (req_Config request) (req_Id request) in
  ((lag < 5)%nat -> exists o,
     fst sent = Done (Some (mkEventResponse (evt_EventId ev) (Some o)), None) /\
     out_Code o = outcome_code (p_store p) request' /\
     p_store (n_server (snd sent)) =
       file_outcome (req_Config request) (evt_EventId ev) o (processed (p_store p) request')) /\
  ((5 <= lag)%nat -> fst sent = Done (None, None)).
Proof.
  intros Hst Hv Hr Hs Hready He Hu Hno. cbv zeta.
  set (request' := mkEventRequest (Some ev) _ _).
  assert (Hc : completes e0 ev).
  { destruct (UpdateEvent_spec e0 c) as (ev' & c' & E1 & Hc). rewrite Hu in E1. by injection E1 as <- _. }
  assert (Hg : good_request request').
  { apply (completes_good request); [by exists e0, ev|]. split; [done|].
    unfold complete_request, event_name in Hr. destruct (carried (req_Event request)); [done|].
    by rewrite andb_comm in Hr. }
  destruct (net_SendEvent_taken (B:=B) s ctx notifications request c0 p ev e0 lag Hr He Hc Hs Hready)
    as (p1 & Hsend & Hp1).
  assert (Hu' : UpdateEvent (req_Event request) (mkNet c p [] lag) = (Done ev, mkNet c0 p [] lag)).
  { rewrite He. by apply net_UpdateEvent. }
  rewrite (sendEvent_run request _ _ _ _ _ Hu' Hsend). cbn [rsp_EventId].
  set (ask := mkEventRequest None _ _).
  destruct Hg as [Hv' Hcar]. rewrite <- Hp1 in Hst, Hno |- *.
  destruct (handle_request_run (B:=B) notifications request' p1 Hst Hv' Hcar) as [details Eh].
  destruct (net_poll (B:=B) s ctx notifications cli_MaxRetries ask None
    (fmt_Print ("Event ID: " ++ evt_EventId ev ++ newline) c0) p1 [request'] lag Hno) as (c2 & H1 & H2).
  cbn [ListenForMessages] in H1. rewrite (go_bind_done _ _ _ _ _ Eh) in H1.
  set (o := mkEventOutcome (outcome_code (p_store p1) request') details (req_Config request) (req_Id request)).
  set (w1 := fmt_Print _ (mkNet c0 p1 _ lag)).
  assert (Hlook : st_outcomes (p_store (report notifications request' (outcome_code (p_store p1) request') details
      (set_store p1 (processed (p_store p1) request')))) !! (req_Config ask, req_Id ask) = Some o)
    by apply lookup_insert_eq.
  unfold mret, go_ret in H1. cbn [snd] in H1.
  rewrite Hlook in H1. split.
  - intros Hl. exists o. specialize (H1 Hl).
    rewrite (go_bind_done _ _ w1 _ _ H1). done.
  - intros Hl. assert (Hn : (0 < cli_MaxRetries <= lag)%nat) by (unfold cli_MaxRetries; lia).
    by rewrite (go_bind_done _ _ w1 _ _ (H2 Hn)).
Qed.
(** C39. What the probe of the container reports is that the server answers, not
    that it is ready: against a server that answers at all its exit status is 0
    whether the store is reachable or not, although the answer says
    [NOT_READY]; it is 1 when no store is configured. *)
Theorem probe_ignores_readiness {S KeyPair X509} (store : StoreManager S) (Release : string) s `{!CommandEnv}
    (g_Dial : string -> TransportCredentials KeyPair X509 -> Res unit) address noTLS (n : Net C S E) :
  is_ok (g_Dial address (probe_credentials noTLS)) = true ->
  (forall h, is_ok (protojson_Marshal h) = true) ->
  (exists err st, Health (StoreManager := store) (p_store (n_server n)) = (Done err, st)) ->
  let status := fst (probe_main (HealthClient0 := net_health store Release s) g_Dial address noTLS n) in
  (Store_set s = true -> status = Done 0) /\
  (Store_set s = false -> status = Done 1) /\
  (Store_set s = true ->
   (EventsChannel_set s = false \/ exists err st, Health (StoreManager := store) (p_store (n_server n)) = (Done (Some err), st)) ->
   option_map hr_State (fst (fst (rpc_Health (HealthClient := net_health store Release s) n))) =
     Some HealthResponse_NOT_READY).
Proof.
  intros Hd Hj (err & st & Hh). cbv zeta. unfold probe_main, rpc_Health, net_health.
  destruct (g_Dial address _); [|done]. rewrite call_step. unfold call_server, grpc_Health.
  destruct (Store_set s); cbn [negb]; [|by split_and!].
  split_and!; [intros _|done|intros _ Hnr].
  - destruct (EventsChannel_set s); cbn [negb].
    + rewrite (on_store_step _ _ _ _ _ Hh). destruct err; simpl;
        match goal with |- context [protojson_Marshal ?h] => specialize (Hj h); by destruct (protojson_Marshal h) end.
    + simpl. match goal with |- context [protojson_Marshal ?h] => specialize (Hj h); by destruct (protojson_Marshal h) end.
  - destruct (EventsChannel_set s); cbn [negb]; [|done].
    destruct Hnr as [?|(err' & st' & Hh')]; [done|]. by rewrite (on_store_step _ _ _ _ _ Hh').
Qed.
End properties.

(** *** Examples *)

(** A server whose listener always takes what it is offered. *)
Record Eager := mkEager { eager_clock : Z }.

#[export] Instance eager_env : GoEnv Eager := {
  rand_Intn n e := (0, e);
  time_Sleep d e := mkEager (eager_clock e + d);
  uuid_NewString e := ("uuid", e);
  timestamppb_Now e := (eager_clock e, e) }.

#[export] Instance eager_laws : GoEnvLaws Eager.
Proof. split; [simpl; intros; lia|done|reflexivity]. Qed.

#[export] Instance eager_server : ServerEnv Eager := {
  server_env := eager_env;
  time_Now e := (eager_clock e, e);
  ctx_Err c e := (None, e);
  select_send d e := (true, e);
  stream_SendMsg e := (None, e) }.

#[export] Instance cli_env_laws : GoEnvLaws TestCli.
Proof. split; [simpl; intros; lia|done|intros w; apply test_uuid_utf8]. Qed.

Definition rover_server : Process Store Eager := mkProcess rover_store (mkEager 0) [] [].

(** The launch, of which the user learns the outcome at the third question. *)
Lemma send_end_to_end_witness : exists o,
  fst (sendEvent (ServiceClient0 := net_service (spec_manager wire) test_server (mkCtx None) true)
         (W := Net TestCli Store Eager) (Some launch_request) (mkNet (cli_world 0) rover_server [] 2)) =
    Done (Some (mkEventResponse "1" (Some o)), None) /\
  out_Code o = EventOutcome_Ok.
Proof.
  destruct (send_end_to_end (B:=wire) test_server (mkCtx None) true launch_request (event "1" "launch")
    (event "1" "launch") (cli_world 0) (cli_world 0) rover_server 2) as [H _].
  - exact rover_valid.
  - reflexivity.
  - reflexivity.
  - reflexivity.
  - reflexivity.
  - reflexivity.
  - reflexivity.
  - vm_compute. reflexivity.
  - destruct (H ltac:(lia)) as (o & H1 & H2 & _). exists o. split; [exact H1|].
    rewrite H2. vm_compute. reflexivity.
Defined.

(** A server without an events channel is not ready, and the probe is content. *)
Definition deaf_server : Config := mkConfig false true grpc_DefaultTimeout "" false "" false.

Lemma probe_ignores_readiness_witness :
  fst (probe_main (HealthClient0 := net_health (spec_manager wire) "v0" deaf_server)
         (W := Net TestCli Store Eager) (KeyPair := string) (X509 := string)
         (fun _ _ => Ok tt) "localhost:7398" false (mkNet (cli_world 0) rover_server [] 0)) = Done 0.
Proof.
  apply (probe_ignores_readiness (KeyPair := string) (X509 := string) (spec_manager wire) "v0" deaf_server
    (fun _ _ => Ok tt) "localhost:7398" false (mkNet (cli_world 0) rover_server [] 0)).
  - reflexivity.
  - reflexivity.
  - exists None. eexists. reflexivity.
  - reflexivity.
Defined.
