(* ===== verification/SqsExample.v ===== *)
(** * The queue client of the documentation: [docs/examples/sqs_client.go]

    A program that sends an event for an order to the queue that the subscriber
    of [SqsSub.v] polls, and what becomes of the message there. *)

From Stdlib Require Import ZArith Ascii SpecFloat.
From stdpp Require Import base tactics strings list.
From S2P Require Import Prelude GoLib Proto Base64 Fsm StoreTypes StoreSpec Process.
From S2P Require Import Files Tls SqsPub SqsSub Startup.

(** ** Definitions *)

(** A [time.Time] is its number of nanoseconds, a [float64] its specification. *)
Record OrderDetails := mkOrder {
  OrderId : string;
  CustomerId : string;
  OrderDate : Z;
  OrderTotal : spec_float }.

(** JSON, and the text format of a request. *)
Class ExampleEnv := {
  json_Marshal : OrderDetails -> Res string;
  json_Decode : string -> Configuration -> option error * Configuration;
  MarshalTextString : EventRequest -> string }.

(** The text format writes a field as its name, a colon and its value; a
    request with an id has a field. *)
Class TextLaws `{!ExampleEnv} : Prop := {
  text_has_colon : forall r, req_Id r <> "" -> has_byte ":"%char (MarshalTextString r) = true }.

Section example.
Context {E : Type} `{!ServerEnv E, !ServerHost E, !SqsClient E, !ExampleEnv}.

Abbreviation M := (Go E).

Definition op {A} (f : E -> A * E) : M A := fun e => let (a, e') := f e in (Done a, e').

Definition NewOrderDetails (orderId customerId : string) (orderTotal : spec_float) : M OrderDetails :=
  now ← op time_Now; mret (mkOrder orderId customerId now orderTotal).

(** [String] panics when the order cannot be serialized. *)
Definition OrderDetails_String (o : OrderDetails) : result string :=
  match json_Marshal o with Ok res => mret res | Fail err => Panicked end.

(** The configuration behind the pointer, after the call. *)
Definition ReadConfig (filePath : string) (config : Configuration) : M (option error * Configuration) := fun e =>
  match os_ReadFile e filePath with
  | Fail err => (Done (Some err, config), e)
  | Ok data => (Done (json_Decode data config), e)
  end.

Definition NewSqs (endpoint : string) : M session_Options := fun e =>
  let region := os_Getenv e "AWS_REGION" in
  let region := if region =s "" then "us-west-2" else region in
  let options := mkSession (Some endpoint) (Some region) in
  match NewSessionWithOptions e options with
  | Ok _ => (Done options, e)
  | Fail err => (Panicked, e)
  end.

(** 99.99 *)
Definition example_total : spec_float := S754_finite false 7036170730324623 (-46).

(** [main], over the values of its flags.  A queue whose URL is unknown, like
    every other error, is a panic. *)
Definition example_main (endpoint q cfg fsmId event : string) : M () :=
  NewSqs endpoint;;
  queueUrl ← op (sqs_GetQueueUrl q);
  queueUrl ← deref queueUrl;
  (if (fsmId =s "") || (event =s "") then go_lift Panicked else mret tt);;
  id ← NewString;
  order ← NewOrderDetails id "sqs-cust-1234" example_total;
  eventId ← NewString;
  timestamp ← Now;
  details ← go_lift (OrderDetails_String order);
  let msg := mkEventRequest
    (Some (mkEvent eventId (Some timestamp) (Some (mkTransition "" "" event))
             "New SQS Client with Details" details)) cfg fsmId in
  r ← op (sqs_SendMessage queueUrl (MarshalTextString msg));
  match r with
  | Fail err => go_lift Panicked
  | Ok _ => mret tt
  end.

End example.

(** ** Lemmas *)

Lemma text_refused `{!ExampleEnv, !TextLaws, !ProtoMessage string EventRequest} msg r :
  req_Id r <> "" -> Body msg = Some (MarshalTextString r) -> accepted msg = None.
Proof.
  intros Hi Hb. unfold accepted. rewrite Hb. simpl. unfold UnmarshalFromText.
  by rewrite (Decode_outside ":"%char) by (done || by apply text_has_colon).
Qed.

(** ** Properties *)

(** C40. The example of the documentation does not reach a machine: when it ends
    well it has sent one message to the queue of the topic, for the machine and
    with the event of its flags; the subscriber that receives the message can
    not decode it, since it expects the base64 of the encoded request where the
    example sends its text, and neither passes it on nor removes it. *)
Theorem example_message_is_refused {S E} `{!ServerEnv E, !GoEnvLaws E, !ServerHost E, !SqsClient E, !Scheduler E,
    !ExampleEnv, !TextLaws, !ProtoMessage string EventRequest} endpoint q cfg fsmId event (e e' : E) :
  example_main endpoint q cfg fsmId event e = (Done tt, e') ->
  exists url body e1 ev,
    fst (sqs_GetQueueUrl q e) = Some url /\
    evt_Transition ev = Some (mkTransition "" "" event) /\
    body = MarshalTextString (mkEventRequest (Some ev) cfg fsmId) /\
    e' = snd (sqs_SendMessage url body e1) /\ is_ok (fst (sqs_SendMessage url body e1)) = true /\
    forall msg s (p : Process S E), is_Some (MessageId msg) -> Body msg = Some body ->
      ProcessMessage s msg url p = (Done tt, p).
Proof.
  unfold example_main. intros (o & e0 & Hn & Hk)%go_bind_inv. unfold NewSqs in Hn.
  destruct (NewSessionWithOptions e _); [|done]. injection Hn as _ <-.
  apply go_bind_inv in Hk as (url & e1 & Hu & Hk). unfold op in Hu.
  destruct (sqs_GetQueueUrl q e) as [url' e1'] eqn:Eu. injection Hu as -> ->.
  apply go_bind_inv in Hk as (url' & e2 & Hu & Hk). destruct url as [u|]; [|done]. injection Hu as <- <-.
  apply go_bind_inv in Hk as ([] & e3 & Hg & Hk).
  destruct (bool_decide_reflect (fsmId = "")) as [?|Hi]; [done|].
  destruct (event =s ""); [done|]. injection Hg as <-.
  apply go_bind_inv in Hk as (id & e4 & _ & Hk). apply go_bind_inv in Hk as (order & e5 & _ & Hk).
  apply go_bind_inv in Hk as (eventId & e6 & _ & Hk). apply go_bind_inv in Hk as (timestamp & e7 & _ & Hk).
  apply go_bind_inv in Hk as (details & e8 & _ & Hk). apply go_bind_inv in Hk as (r & e9 & Hs & Hk).
  unfold op in Hs. set (msg := mkEventRequest _ cfg fsmId) in Hs.
  destruct (sqs_SendMessage u (MarshalTextString msg) e8) as [r' e9'] eqn:Es. injection Hs as -> ->.
  destruct r as [id'|err]; [|done]. injection Hk as <-.
  exists u, (MarshalTextString msg), e8,
    (mkEvent eventId (Some timestamp) (Some (mkTransition "" "" event)) "New SQS Client with Details" details).
  rewrite Es. split_and!; try done.
  intros m s p Hid Hb. pose proof (ProcessMessage_run s m u p Hid) as Hr.
  by rewrite (text_refused m msg Hi Hb) in Hr.
Qed.

(** *** Example *)

#[export] Instance eager_host : ServerHost TestEnv := {
  host_os := {| os_LookupEnv w k := None; os_Stat w f := None; os_ReadFile w f := Ok "" |};
  NewSessionWithOptions w o := Ok tt;
  net_Listen w addr := None }.

#[export] Instance example_env : ExampleEnv := {
  json_Marshal o := Ok "{}";
  json_Decode s c := (None, c);
  MarshalTextString r := "config: " ++ req_Config r ++ " id: " ++ req_Id r }.

#[export] Instance example_laws : TextLaws.
Proof. split. intros r _. simpl. reflexivity. Qed.

#[export] Instance example_sqs : SqsClient TestEnv := {
  sqs_GetQueueUrl topic e := (Some "url", e);
  sqs_SendMessage url body e := (Ok (Some "1"), e);
  sqs_ReceiveMessage url e := (Ok [], e);
  sqs_DeleteMessage url h e := (None, e) }.

#[export] Instance example_scheduler : Scheduler TestEnv := {
  done_ready e := (true, e);
  schedule msgs e := (msgs, e);
  event_sent r e := e }.

Lemma example_message_is_refused_witness : exists body,
  forall msg s, is_Some (MessageId msg) -> Body msg = Some body ->
    ProcessMessage s msg "url" (quiet tt) = (Done tt, quiet tt).
Proof.
  assert (E : example_main "" "events" "mars_rover" "7" "launch" (mkTestEnv 0 0 []) =
    (Done tt, mkTestEnv 0 2 [])) by (vm_compute; reflexivity).
  destruct (example_message_is_refused (S:=unit) _ _ _ _ _ _ _ E) as (url & body & e1 & ev & Hu & _ & _ & _ & _ & H).
  exists body. intros msg s Hi Hb. injection Hu as <-. exact (H msg s (quiet tt) Hi Hb).
Defined.
